(** * zalna-api: the hall, pricing, media, query and host-application services

    A shallow embedding of the service layer of the venue-booking backend
    (TypeScript over TypeORM/PostgreSQL) and the properties of its
    specification.

    - JavaScript strings are lists of UTF-16 code units.
    - The database is a record of tables; a table is the list of its rows in
      insertion order. A query that takes one row takes the first that
      matches, and ORDER BY is a stable sort.
    - A service method is a computation over the database that either returns
      a value or throws; statements are not wrapped in transactions, so the
      writes made before a throw persist.
    - A method that reads the clock or writes a timestamp takes the time of
      the call, [now], as an argument. [save] returns the entity it was
      given, and sets updatedAt when it changes a column of a stored row.
    - Of the constraints of the schema, these are modelled, and the
      statement that breaks one throws and writes nothing: the unique index
      on the slug of a hall; the unique constraint on (mediaId, tagTypeId)
      of a media tag; the foreign key of the user of a HallUserRole row on
      the users table, of which the keys are modelled; for the INSERT
      of a hall, whose slug the service derives, the widths of the
      varchar columns and the range of the integer column of halls; and
      the precision and scale of the numeric(12,2) columns of rates and
      addons, which round an amount to two decimals and refuse one of more
      than ten digits before the point.
    - The values that a payload gives directly are taken within the limits
      of their columns: a key is a well-formed UUID, a string that an update
      or another insert stores is not longer than its column, and a bound
      on prices of the public list has two decimals. The public list is
      given a page and a limit of at least 1, as its controller does. *)

From Stdlib Require Import ZArith NArith List Bool Lia String Ascii.
From Stdlib Require Import Sorting.Sorted Sorting.Permutation.
From Stdlib Require DecimalN.
Import ListNotations.

Local Open Scope N_scope.

(** ** JavaScript strings *)

Module Js.

(** A UTF-16 code unit. *)
Definition char := N.

Definition jsstring := list char.

(** A literal, from an ASCII string of Rocq. *)
Definition lit (s : string) : jsstring :=
  map N_of_ascii (list_ascii_of_string s).

Definition eqb (s t : jsstring) : bool :=
  if list_eq_dec N.eq_dec s t then true else false.

(** Truthiness of a string value: every string but the empty one. *)
Definition truthy (s : jsstring) : bool :=
  match s with [] => false | _ :: _ => true end.

(** Truthiness of an optional string ([None] is [undefined] or [null]). *)
Definition truthyOpt (o : option jsstring) : bool :=
  match o with Some s => truthy s | None => false end.

Definition hyphen : char := 45.
Definition space : char := 32.

(** [a-z0-9] *)
Definition isAlnum (c : char) : bool :=
  ((97 <=? c) && (c <=? 122)) || ((48 <=? c) && (c <=? 57)).

(** The alphabet of a slug: [a-z0-9-]. *)
Definition isSlugChar (c : char) : bool := isAlnum c || (c =? hyphen).

(** The combining diacritical marks, U+0300 to U+036F. *)
Definition isCombiningMark (c : char) : bool := (768 <=? c) && (c <=? 879).

(** WhiteSpace and LineTerminator of ECMAScript, what [trim] strips. *)
Definition isWhiteSpace (c : char) : bool :=
  ((9 <=? c) && (c <=? 13)) || (c =? 32) || (c =? 160) || (c =? 5760)
  || ((8192 <=? c) && (c <=? 8202)) || (c =? 8232) || (c =? 8233)
  || (c =? 8239) || (c =? 8287) || (c =? 12288) || (c =? 65279).

Fixpoint dropWhile (p : char -> bool) (s : jsstring) : jsstring :=
  match s with
  | [] => []
  | c :: s' => if p c then dropWhile p s' else s
  end.

(** What is left of a string without its leading and trailing units that
    satisfy [p]. *)
Definition strip (p : char -> bool) (s : jsstring) : jsstring :=
  rev (dropWhile p (rev (dropWhile p s))).

(** [String.prototype.trim]. *)
Definition trim (s : jsstring) : jsstring := strip isWhiteSpace s.

(** [Array.prototype.join] with a one-unit separator. *)
Definition join (sep : char) (l : list jsstring) : jsstring :=
  match l with
  | [] => []
  | x :: r => x ++ flat_map (fun y => sep :: y) r
  end.

(** The digit of a value below 36, as [Number.prototype.toString] writes it. *)
Definition digitChar (d : N) : char := if d <? 10 then 48 + d else 87 + d.

Fixpoint toRadix (fuel : nat) (radix n : N) (acc : jsstring) : jsstring :=
  match fuel with
  | O => acc
  | S fuel' =>
      let acc' := digitChar (n mod radix) :: acc in
      if n / radix =? 0 then acc' else toRadix fuel' radix (n / radix) acc'
  end.

(** [n.toString(36)] for a non-negative integer: the binary size of [n]
    bounds the number of digits. *)
Definition toString36 (n : N) : jsstring :=
  toRadix (S (N.to_nat (N.log2 n))) 36 n [].

Fixpoint uintChars (u : Decimal.uint) : jsstring :=
  match u with
  | Decimal.Nil => []
  | Decimal.D0 u => 48 :: uintChars u
  | Decimal.D1 u => 49 :: uintChars u
  | Decimal.D2 u => 50 :: uintChars u
  | Decimal.D3 u => 51 :: uintChars u
  | Decimal.D4 u => 52 :: uintChars u
  | Decimal.D5 u => 53 :: uintChars u
  | Decimal.D6 u => 54 :: uintChars u
  | Decimal.D7 u => 55 :: uintChars u
  | Decimal.D8 u => 56 :: uintChars u
  | Decimal.D9 u => 57 :: uintChars u
  end.

(** A non-negative integer in a template literal: its decimal digits. *)
Definition decimal (n : N) : jsstring := uintChars (N.to_uint n).

Definition isHighSurrogate (c : char) : bool := (55296 <=? c) && (c <=? 56319).

Definition isLowSurrogate (c : char) : bool := (56320 <=? c) && (c <=? 57343).

(** The characters of a string, as PostgreSQL counts them: a surrogate pair
    is one character, any other code unit is one. *)
Fixpoint characters (s : jsstring) : list jsstring :=
  match s with
  | [] => []
  | c :: s' =>
      match s' with
      | d :: s'' =>
          if isHighSurrogate c && isLowSurrogate d
          then [c; d] :: characters s''
          else [c] :: characters s'
      | [] => [[c]]
      end
  end.

(** Code-unit lexicographic order. *)
Fixpoint leb (s t : jsstring) : bool :=
  match s, t with
  | [], _ => true
  | _ :: _, [] => false
  | a :: s', b :: t' => if a <? b then true else if b <? a then false else leb s' t'
  end.

(** The built-ins of the platform the services call and this development
    does not define: Unicode case mapping and canonical decomposition of the
    JavaScript runtime, and PostgreSQL's [LOWER] and [ILIKE]. They are
    parameters. The two laws say that a string over the slug alphabet, which
    is lower-case ASCII, is left as it is. *)
Class Builtins : Type := {
  toLowerCase : jsstring -> jsstring;
  normalizeNFD : jsstring -> jsstring;
  sqlLower : jsstring -> jsstring;
  ilike : jsstring -> jsstring -> bool;
  toLowerCase_slug :
    forall s, forallb isSlugChar s = true -> toLowerCase s = s;
  normalizeNFD_slug :
    forall s, forallb isSlugChar s = true -> normalizeNFD s = s
}.

End Js.

Export Js.

(** ** The data model *)

(** Primary and foreign keys are [uuid] columns. A stored or accepted key is a
    well-formed UUID, so it is never the empty string and a test of its
    truthiness is a test of its presence ([option]). *)
Definition uuid := N.

(** A timestamp, in milliseconds since the epoch. *)
Definition time := N.

(** A [date] column (written YYYY-MM-DD), as a day number. *)
Definition date := N.

(** A [numeric(12,2)] amount, in hundredths. *)
Definition numeric := Z.

(** The numbers of the payloads that are amounts. A JavaScript number is a
    floating-point value; what the services do with such an amount is to
    print it ([toString]) into a numeric(12,2) column, and what they do with
    the column is to read its text back ([Number]). A finite number is
    modelled as the decimal numeral that [toString] prints for it,
    [digits] x 10^-[decimals], which is the value that PostgreSQL reads, and
    [Number] of that numeral is the number again. NaN and the infinities
    are no amounts. *)
Module Amount.
Record t := {
  digits : Z;
  decimals : nat
}.

(** [Number] of the text of a numeric(12,2) value. *)
Definition ofNumeric (value : numeric) : t := {| digits := value; decimals := 2 |}.

(** Two numerals of the same number. *)
Definition sameNumber (a b : t) : bool :=
  (digits a * 10 ^ Z.of_nat (decimals b)
   =? digits b * 10 ^ Z.of_nat (decimals a))%Z.

(** Whether [toString] of the number is the text of the numeric(12,2)
    value, which has two decimals: the number is the value, and the value
    does not end in 0, since [toString] prints no trailing zero. *)
Definition printsAs (a : t) (value : numeric) : bool :=
  sameNumber a (ofNumeric value) && negb (value mod 10 =? 0)%Z.
End Amount.

Inductive HallStatus := DRAFT | ACTIVE | ARCHIVED.

Inductive HallUserRoleType := OWNER | MANAGER | RECEPTIONIST | ACCOUNTANT.

Inductive MediaType := IMAGE | VIDEO | DOCUMENT.

Inductive HostApplicationStatus := NEW | UNDER_REVIEW | APPROVED | REJECTED.

Definition HallStatus_eqb (a b : HallStatus) : bool :=
  match a, b with
  | DRAFT, DRAFT | ACTIVE, ACTIVE | ARCHIVED, ARCHIVED => true
  | _, _ => false
  end.

Definition HallUserRoleType_eqb (a b : HallUserRoleType) : bool :=
  match a, b with
  | OWNER, OWNER | MANAGER, MANAGER | RECEPTIONIST, RECEPTIONIST
  | ACCOUNTANT, ACCOUNTANT => true
  | _, _ => false
  end.

Definition MediaType_eqb (a b : MediaType) : bool :=
  match a, b with
  | IMAGE, IMAGE | VIDEO, VIDEO | DOCUMENT, DOCUMENT => true
  | _, _ => false
  end.

Definition HostApplicationStatus_eqb (a b : HostApplicationStatus) : bool :=
  match a, b with
  | NEW, NEW | UNDER_REVIEW, UNDER_REVIEW | APPROVED, APPROVED
  | REJECTED, REJECTED => true
  | _, _ => false
  end.

Definition option_eqb {A : Type} (eqb : A -> A -> bool) (a b : option A) : bool :=
  match a, b with
  | Some x, Some y => eqb x y
  | None, None => true
  | _, _ => false
  end.

(** An assignment [entity.x = v] of an update changes the column when [v] is
    not the value the entity holds. [save] issues its UPDATE, which sets
    updatedAt, only when a column changes. *)
Definition changes {A : Type} (eqb : A -> A -> bool) (field : option A)
  (current : A) : bool :=
  match field with Some v => negb (eqb v current) | None => false end.

Module Hall.
Record t := {
  id : uuid;
  gerantId : option uuid;
  name : jsstring;
  slug : jsstring;
  address : option jsstring;
  city : option jsstring;
  capacity : option Z;
  description : option jsstring;
  cancellationPolicy : option jsstring;
  isPremium : bool;
  status : HallStatus;
  createdAt : time;
  updatedAt : time
}.
End Hall.

Module HallUserRole.
Record t := {
  id : uuid;
  hall_id : uuid;
  user_id : uuid;
  role : HallUserRoleType;
  created_at : time
}.
End HallUserRole.

Module HallProduct.
Record t := {
  id : uuid;
  hallId : uuid;
  name : jsstring;
  category : option jsstring;
  description : option jsstring;
  isPrimary : bool;
  isActive : bool;
  createdAt : time;
  updatedAt : time
}.
End HallProduct.

Module HallProductRate.
Record t := {
  id : uuid;
  hallProductId : uuid;
  label : jsstring;
  currency : jsstring;
  price : numeric;
  billingUnit : jsstring;
  minHours : option Z;
  maxHours : option Z;
  extraUnitPrice : option numeric;
  dayOfWeekMask : option jsstring;
  seasonStart : option date;
  seasonEnd : option date;
  isDefault : bool;
  createdAt : time;
  updatedAt : time
}.
End HallProductRate.

Module HallAddon.
Record t := {
  id : uuid;
  hallId : uuid;
  name : jsstring;
  description : option jsstring;
  pricingModel : jsstring;
  currency : jsstring;
  unitPrice : numeric;
  packSize : option Z;
  redevanceAmount : option numeric;
  isActive : bool;
  createdAt : time;
  updatedAt : time
}.
End HallAddon.

Module HallBlockedDate.
Record t := {
  id : uuid;
  hallId : uuid;
  startDate : date;
  endDate : option date;
  reason : option jsstring;
  createdByUserId : option uuid;
  createdAt : time
}.
End HallBlockedDate.

Module Media.
Record t := {
  id : uuid;
  hallId : uuid;
  storageProvider : jsstring;
  fileUrl : jsstring;
  originalFilename : option jsstring;
  mimeType : option jsstring;
  sizeBytes : option jsstring;
  width : option Z;
  height : option Z;
  mediaType : MediaType;
  sortOrder : option Z;
  createdAt : time;
  updatedAt : time
}.
End Media.

Module MediaTag.
Record t := {
  id : uuid;
  mediaId : uuid;
  tagTypeId : uuid;
  isPrimary : bool;
  createdAt : time
}.
End MediaTag.

Module MediaTagType.
Record t := {
  id : uuid;
  name : jsstring;
  description : option jsstring;
  createdAt : time
}.
End MediaTagType.

Module HostApplication.
Record t := {
  id : uuid;
  applicantUserId : option uuid;
  hallName : jsstring;
  address : option jsstring;
  city : option jsstring;
  capacity : option Z;
  description : option jsstring;
  additionalDetails : option jsstring;
  contactName : jsstring;
  contactEmail : jsstring;
  contactPhone : option jsstring;
  contactWhatsapp : option jsstring;
  status : HostApplicationStatus;
  adminNotes : option jsstring;
  reviewedByUserId : option uuid;
  reviewedAt : option time;
  createdAt : time;
  updatedAt : time
}.
End HostApplication.

(** ** The database *)

Record Db := {
  (** the keys of the rows of users; the services read no other column *)
  users : list uuid;
  halls : list Hall.t;
  hallUserRoles : list HallUserRole.t;
  hallProducts : list HallProduct.t;
  hallProductRates : list HallProductRate.t;
  hallAddons : list HallAddon.t;
  hallBlockedDates : list HallBlockedDate.t;
  media : list Media.t;
  mediaTags : list MediaTag.t;
  mediaTagTypes : list MediaTagType.t;
  hostApplications : list HostApplication.t;
  (** the next key the database generates *)
  nextId : uuid
}.

Definition emptyDb : Db :=
  {| users := []; halls := []; hallUserRoles := []; hallProducts := [];
     hallProductRates := []; hallAddons := []; hallBlockedDates := [];
     media := []; mediaTags := []; mediaTagTypes := [];
     hostApplications := []; nextId := 1 |}.

Definition setUsers (v : list uuid) (db : Db) : Db :=
  {| users := v; halls := halls db; hallUserRoles := hallUserRoles db;
     hallProducts := hallProducts db; hallProductRates := hallProductRates db;
     hallAddons := hallAddons db; hallBlockedDates := hallBlockedDates db;
     media := media db; mediaTags := mediaTags db;
     mediaTagTypes := mediaTagTypes db;
     hostApplications := hostApplications db; nextId := nextId db |}.

Definition setHalls (v : list Hall.t) (db : Db) : Db :=
  {| users := users db; halls := v; hallUserRoles := hallUserRoles db;
     hallProducts := hallProducts db; hallProductRates := hallProductRates db;
     hallAddons := hallAddons db; hallBlockedDates := hallBlockedDates db;
     media := media db; mediaTags := mediaTags db;
     mediaTagTypes := mediaTagTypes db;
     hostApplications := hostApplications db; nextId := nextId db |}.

Definition setHallUserRoles (v : list HallUserRole.t) (db : Db) : Db :=
  {| users := users db; halls := halls db;
     hallUserRoles := v;
     hallProducts := hallProducts db; hallProductRates := hallProductRates db;
     hallAddons := hallAddons db; hallBlockedDates := hallBlockedDates db;
     media := media db; mediaTags := mediaTags db;
     mediaTagTypes := mediaTagTypes db;
     hostApplications := hostApplications db; nextId := nextId db |}.

Definition setMedia (v : list Media.t) (db : Db) : Db :=
  {| users := users db; halls := halls db;
     hallUserRoles := hallUserRoles db;
     hallProducts := hallProducts db; hallProductRates := hallProductRates db;
     hallAddons := hallAddons db; hallBlockedDates := hallBlockedDates db;
     media := v; mediaTags := mediaTags db;
     mediaTagTypes := mediaTagTypes db;
     hostApplications := hostApplications db; nextId := nextId db |}.

Definition setMediaTags (v : list MediaTag.t) (db : Db) : Db :=
  {| users := users db; halls := halls db;
     hallUserRoles := hallUserRoles db;
     hallProducts := hallProducts db; hallProductRates := hallProductRates db;
     hallAddons := hallAddons db; hallBlockedDates := hallBlockedDates db;
     media := media db; mediaTags := v;
     mediaTagTypes := mediaTagTypes db;
     hostApplications := hostApplications db; nextId := nextId db |}.

Definition setMediaTagTypes (v : list MediaTagType.t) (db : Db) : Db :=
  {| users := users db; halls := halls db;
     hallUserRoles := hallUserRoles db;
     hallProducts := hallProducts db; hallProductRates := hallProductRates db;
     hallAddons := hallAddons db; hallBlockedDates := hallBlockedDates db;
     media := media db; mediaTags := mediaTags db;
     mediaTagTypes := v;
     hostApplications := hostApplications db; nextId := nextId db |}.

Definition setHostApplications (v : list HostApplication.t) (db : Db) : Db :=
  {| users := users db; halls := halls db;
     hallUserRoles := hallUserRoles db;
     hallProducts := hallProducts db; hallProductRates := hallProductRates db;
     hallAddons := hallAddons db; hallBlockedDates := hallBlockedDates db;
     media := media db; mediaTags := mediaTags db;
     mediaTagTypes := mediaTagTypes db;
     hostApplications := v; nextId := nextId db |}.

Definition setNextId (v : uuid) (db : Db) : Db :=
  {| users := users db; halls := halls db;
     hallUserRoles := hallUserRoles db;
     hallProducts := hallProducts db; hallProductRates := hallProductRates db;
     hallAddons := hallAddons db; hallBlockedDates := hallBlockedDates db;
     media := media db; mediaTags := mediaTags db;
     mediaTagTypes := mediaTagTypes db;
     hostApplications := hostApplications db; nextId := v |}.

Definition setHallProducts (v : list HallProduct.t) (db : Db) : Db :=
  {| users := users db; halls := halls db;
     hallUserRoles := hallUserRoles db;
     hallProducts := v; hallProductRates := hallProductRates db;
     hallAddons := hallAddons db; hallBlockedDates := hallBlockedDates db;
     media := media db; mediaTags := mediaTags db;
     mediaTagTypes := mediaTagTypes db;
     hostApplications := hostApplications db; nextId := nextId db |}.

Definition setHallProductRates (v : list HallProductRate.t) (db : Db) : Db :=
  {| users := users db; halls := halls db;
     hallUserRoles := hallUserRoles db;
     hallProducts := hallProducts db; hallProductRates := v;
     hallAddons := hallAddons db; hallBlockedDates := hallBlockedDates db;
     media := media db; mediaTags := mediaTags db;
     mediaTagTypes := mediaTagTypes db;
     hostApplications := hostApplications db; nextId := nextId db |}.

Definition setHallAddons (v : list HallAddon.t) (db : Db) : Db :=
  {| users := users db; halls := halls db;
     hallUserRoles := hallUserRoles db;
     hallProducts := hallProducts db; hallProductRates := hallProductRates db;
     hallAddons := v; hallBlockedDates := hallBlockedDates db;
     media := media db; mediaTags := mediaTags db;
     mediaTagTypes := mediaTagTypes db;
     hostApplications := hostApplications db; nextId := nextId db |}.

Definition setHallBlockedDates (v : list HallBlockedDate.t) (db : Db) : Db :=
  {| users := users db; halls := halls db;
     hallUserRoles := hallUserRoles db;
     hallProducts := hallProducts db; hallProductRates := hallProductRates db;
     hallAddons := hallAddons db; hallBlockedDates := v;
     media := media db; mediaTags := mediaTags db;
     mediaTagTypes := mediaTagTypes db;
     hostApplications := hostApplications db; nextId := nextId db |}.

(** ** Service computations *)

Inductive AppError :=
| NotFoundError (message : string)
| ValidationError (message : string)
| ConflictError (message : string)
(** what the driver throws when a statement violates a constraint *)
| QueryFailedError (constraint : string).

Inductive Outcome (A : Type) :=
| Returned (a : A)
| Thrown (e : AppError)
(** a loop that has not ended within its bound *)
| Diverged.

Arguments Returned {A} a.
Arguments Thrown {A} e.
Arguments Diverged {A}.

(** An [async] method: from the database before to its outcome and the
    database after. *)
Definition M (A : Type) : Type := Db -> Outcome A * Db.

Definition ret {A : Type} (a : A) : M A := fun db => (Returned a, db).

Definition throw {A : Type} (e : AppError) : M A := fun db => (Thrown e, db).

Definition bind {A B : Type} (m : M A) (k : A -> M B) : M B :=
  fun db =>
    match m db with
    | (Returned a, db') => k a db'
    | (Thrown e, db') => (Thrown e, db')
    | (Diverged, db') => (Diverged, db')
    end.

Definition gets {A : Type} (f : Db -> A) : M A := fun db => (Returned (f db), db).

Definition modify (f : Db -> Db) : M unit := fun db => (Returned tt, f db).

Declare Scope service_scope.
Delimit Scope service_scope with service.

Notation "x <- m ;; k" := (bind m (fun x => k))
  (at level 61, m at next level, right associativity) : service_scope.
Notation "m ;;; k" := (bind m (fun _ => k))
  (at level 61, right associativity) : service_scope.

Local Open Scope service_scope.

(** The key of a new row. *)
Definition generateId : M uuid :=
  fun db => (Returned (nextId db), setNextId (N.succ (nextId db)) db).

(** ** Queries *)

Module Sql.

Fixpoint insertBy {A : Type} (le : A -> A -> bool) (x : A) (l : list A) : list A :=
  match l with
  | [] => [x]
  | y :: l' => if le x y then x :: l else y :: insertBy le x l'
  end.

(** ORDER BY: a stable sort of the rows. *)
Definition orderBy {A : Type} (le : A -> A -> bool) (l : list A) : list A :=
  fold_right (insertBy le) [] l.

(** The order of two rows under a first key, then a second. *)
Definition thenBy {A : Type} (le1 le2 : A -> A -> bool) (x y : A) : bool :=
  if le1 x y then (if le1 y x then le2 x y else true) else false.

Definition asc {A : Type} (key : A -> N) (x y : A) : bool := key x <=? key y.

Definition desc {A : Type} (key : A -> N) (x y : A) : bool := key y <=? key x.

Definition boolDesc {A : Type} (key : A -> bool) (x y : A) : bool :=
  implb (key y) (key x).

(** ASC NULLS LAST on a nullable number. *)
Definition ascNullsLast {A : Type} (key : A -> option Z) (x y : A) : bool :=
  match key x, key y with
  | Some a, Some b => (a <=? b)%Z
  | Some _, None => true
  | None, Some _ => false
  | None, None => true
  end.

(** DESC NULLS LAST on a nullable number. *)
Definition descNullsLast {A : Type} (key : A -> option Z) (x y : A) : bool :=
  match key x, key y with
  | Some a, Some b => (b <=? a)%Z
  | Some _, None => true
  | None, Some _ => false
  | None, None => true
  end.

(** The rows that OFFSET [offset] LIMIT [limit] takes, for an offset of 0 or
    more and a limit of 1 or more. *)
Definition slice {A : Type} (offset limit : Z) (l : list A) : list A :=
  firstn (Z.to_nat limit) (skipn (Z.to_nat offset) l).

(** [skip(offset).take(limit)]. TypeORM writes no clause for a value of 0,
    so a limit of 0 does not limit, and PostgreSQL refuses a negative
    OFFSET or LIMIT: the query fails. *)
Definition skipTake {A : Type} (offset limit : Z) (l : list A)
  : option (list A) :=
  if (offset <? 0)%Z || (limit <? 0)%Z then None
  else if (limit =? 0)%Z then Some (skipn (Z.to_nat offset) l)
  else Some (slice offset limit l).

(** A value written to a varchar(n) column: kept when it has at most n
    characters, cut to n characters when the characters beyond are all
    spaces, refused otherwise. *)
Definition varchar (n : nat) (s : jsstring) : option jsstring :=
  let cs := characters s in
  if (List.length cs <=? n)%nat then Some s
  else if forallb (Js.eqb [space]) (skipn n cs) then Some (List.concat (firstn n cs))
  else None.

Definition varcharNullable (n : nat) (o : option jsstring)
  : option (option jsstring) :=
  match o with
  | Some s => option_map Some (varchar n s)
  | None => Some None
  end.

(** The range of an int column. *)
Definition int4 (z : Z) : bool :=
  (-2147483648 <=? z)%Z && (z <=? 2147483647)%Z.

(** What a numeric(12,2) column keeps of a decimal numeral: its value
    rounded to two decimals, half away from zero. The statement fails
    (numeric field overflow) when the rounded value has more than ten
    digits before the point. *)
Definition numeric12_2 (a : Amount.t) : option numeric :=
  let n := (Amount.digits a * 100)%Z in
  let d := (10 ^ Z.of_nat (Amount.decimals a))%Z in
  let rounded := (Z.sgn n * ((2 * Z.abs n + d) / (2 * d)))%Z in
  if (Z.abs rounded <? 10 ^ 12)%Z then Some rounded else None.

Definition numeric12_2Nullable (o : option Amount.t) : option (option numeric) :=
  match o with
  | Some a => option_map Some (numeric12_2 a)
  | None => Some None
  end.

(** MIN over a column, NULL on no value. *)
Definition minZ (l : list Z) : option Z :=
  match l with
  | [] => None
  | x :: r => Some (fold_left Z.min r x)
  end.

Definition minString (l : list jsstring) : option jsstring :=
  match l with
  | [] => None
  | x :: r => Some (fold_left (fun a b => if Js.leb a b then a else b) r x)
  end.

(** The values of a nullable column that are not NULL. *)
Definition notNull {A : Type} (l : list (option A)) : list A :=
  flat_map (fun o => match o with Some a => [a] | None => [] end) l.

End Sql.

(** The result of a paginated list. *)
Record Page (A : Type) := {
  data : list A;
  page : Z;
  limit : Z;
  total : Z
}.

Arguments data {A} _.
Arguments page {A} _.
Arguments limit {A} _.
Arguments total {A} _.

(** ** hall.service.ts *)

Module CreateHallPayload.
Record t := {
  name : jsstring;
  slug : option jsstring;
  address : option jsstring;
  city : option jsstring;
  capacity : option Z;
  description : option jsstring;
  cancellationPolicy : option jsstring;
  isPremium : option bool;
  status : option HallStatus;
  gerantId : option uuid
}.
End CreateHallPayload.

(** A field of a partial update: [None] is [undefined] (leave the column),
    [Some None] is [null]. *)
Module UpdateHallPayload.
Record t := {
  name : option jsstring;
  slug : option jsstring;
  address : option (option jsstring);
  city : option (option jsstring);
  capacity : option (option Z);
  description : option (option jsstring);
  cancellationPolicy : option (option jsstring);
  isPremium : option bool;
  status : option HallStatus;
  gerantId : option (option uuid)
}.
End UpdateHallPayload.

Module ListHallsOptions.
Record t := {
  status : option HallStatus;
  city : option jsstring;
  isPremium : option bool;
  gerantId : option uuid;
  page : option Z;
  limit : option Z
}.
End ListHallsOptions.

Definition HallDTO := Hall.t.

Module HallService.
Section WithBuiltins.
Context `{Builtins}.

(** [.replace(/[^a-z0-9]+/g, "-")]: every maximal run of units outside
    [a-z0-9] becomes one hyphen. [inRun] says that the unit before was part
    of such a run. *)
Fixpoint replaceNonAlnumRuns (inRun : bool) (s : jsstring) : jsstring :=
  match s with
  | [] => []
  | c :: s' =>
      if isAlnum c then c :: replaceNonAlnumRuns false s'
      else if inRun then replaceNonAlnumRuns true s'
      else hyphen :: replaceNonAlnumRuns true s'
  end.

(** [.replace(/^-+|-+$/g, "")] *)
Definition trimHyphens (s : jsstring) : jsstring := strip (N.eqb hyphen) s.

Definition slugify (input : jsstring) : jsstring :=
  trimHyphens
    (replaceNonAlnumRuns false
       (filter (fun c => negb (isCombiningMark c))
          (normalizeNFD (toLowerCase input)))).

Definition generateFallbackBaseSlug (now : time) : jsstring :=
  lit "hall-" ++ toString36 now.

(** The query of the loop: a hall with this slug, other than [excludeId]. *)
Definition existing (db : Db) (excludeId : option uuid) (candidate : jsstring)
  : option Hall.t :=
  find (fun h =>
          Js.eqb (Hall.slug h) candidate
          && match excludeId with
             | Some e => negb (Hall.id h =? e)
             | None => true
             end)
       (halls db).

(** The [while (true)] loop of [generateUniqueSlug], entered with [candidate]
    and [counter]; [fuel] bounds the number of queries. *)
Fixpoint uniqueSlugLoop (fuel : nat) (db : Db) (excludeId : option uuid)
  (baseSlug candidate : jsstring) (counter : N) : option jsstring :=
  match fuel with
  | O => None
  | S fuel' =>
      match existing db excludeId candidate with
      | None => Some candidate
      | Some _ =>
          let counter := counter + 1 in
          uniqueSlugLoop fuel' db excludeId baseSlug
            (baseSlug ++ hyphen :: decimal counter) counter
      end
  end.

(** With n halls, the loop is given n + 1 queries. *)
Definition generateUniqueSlug (now : time) (base : jsstring)
  (excludeId : option uuid) : M jsstring :=
  fun db =>
    let baseSlug := slugify base in
    let baseSlug :=
      if truthy baseSlug then baseSlug else generateFallbackBaseSlug now in
    match uniqueSlugLoop (S (List.length (halls db))) db excludeId baseSlug baseSlug 1 with
    | Some candidate => (Returned candidate, db)
    | None => (Diverged, db)
    end.

Definition toDTO (entity : Hall.t) : HallDTO :=
  {| Hall.id := Hall.id entity;
     Hall.gerantId := Hall.gerantId entity;
     Hall.name := Hall.name entity;
     Hall.slug := Hall.slug entity;
     Hall.address := Hall.address entity;
     Hall.city := Hall.city entity;
     Hall.capacity := Hall.capacity entity;
     Hall.description := Hall.description entity;
     Hall.cancellationPolicy := Hall.cancellationPolicy entity;
     Hall.isPremium := Hall.isPremium entity;
     Hall.status := Hall.status entity;
     Hall.createdAt := Hall.createdAt entity;
     Hall.updatedAt := Hall.updatedAt entity |}.

(** The row as the columns of halls keep it, or nothing when a value does
    not fit its column: name, slug and address are varchar(255), city is
    varchar(100) and capacity is int. *)
Definition hallColumns (row : Hall.t) : option Hall.t :=
  match Sql.varchar 255 (Hall.name row), Sql.varchar 255 (Hall.slug row),
        Sql.varcharNullable 255 (Hall.address row),
        Sql.varcharNullable 100 (Hall.city row) with
  | Some name, Some slug, Some address, Some city =>
      if match Hall.capacity row with
         | Some c => Sql.int4 c
         | None => true
         end
      then Some {| Hall.id := Hall.id row;
                   Hall.gerantId := Hall.gerantId row;
                   Hall.name := name;
                   Hall.slug := slug;
                   Hall.address := address;
                   Hall.city := city;
                   Hall.capacity := Hall.capacity row;
                   Hall.description := Hall.description row;
                   Hall.cancellationPolicy := Hall.cancellationPolicy row;
                   Hall.isPremium := Hall.isPremium row;
                   Hall.status := Hall.status row;
                   Hall.createdAt := Hall.createdAt row;
                   Hall.updatedAt := Hall.updatedAt row |}
      else None
  | _, _, _, _ => None
  end.

(** INSERT into halls of the row that [row] builds around the key the
    database generates, under the widths of the columns and the unique index
    on the slug. A statement that fails writes nothing. [save] returns the
    entity it was given, with its key; the table holds what the columns
    keep of it. *)
Definition insertHall (row : uuid -> Hall.t) : M Hall.t :=
  fun db =>
    let entity := row (nextId db) in
    match hallColumns entity with
    | None => (Thrown (QueryFailedError "halls: value out of range"), db)
    | Some stored =>
        if existsb (fun h => Js.eqb (Hall.slug h) (Hall.slug stored)) (halls db)
        then (Thrown (QueryFailedError "halls.slug"), db)
        else (Returned entity,
              setHalls (halls db ++ [stored])
                (setNextId (N.succ (nextId db)) db))
    end.

(** UPDATE of the hall with the key of [row]; the unique index is checked
    when the slug changes. *)
Definition updateHallRow (old row : Hall.t) : M Hall.t :=
  fun db =>
    if negb (Js.eqb (Hall.slug old) (Hall.slug row))
       && existsb (fun h => Js.eqb (Hall.slug h) (Hall.slug row)
                            && negb (Hall.id h =? Hall.id row))
            (halls db)
    then (Thrown (QueryFailedError "halls.slug"), db)
    else (Returned row,
          setHalls (map (fun h => if Hall.id h =? Hall.id row then row else h)
                      (halls db)) db).

(** INSERT of an OWNER row, under the foreign key of user_id on users: the
    statement fails when the user is no row of users. The hall of the row
    is one the caller has just saved. *)
Definition insertOwnerRole (hallId userId : uuid) (now : time) : M unit :=
  known <- gets (fun db => existsb (N.eqb userId) (users db)) ;;
  if known then
    id <- generateId ;;
    modify (fun db =>
      setHallUserRoles
        (hallUserRoles db ++
         [{| HallUserRole.id := id; HallUserRole.hall_id := hallId;
             HallUserRole.user_id := userId; HallUserRole.role := OWNER;
             HallUserRole.created_at := now |}]) db)
  else throw (QueryFailedError "HallUserRole.user_id").

(** [(payload.slug && payload.slug.trim()) ||
     [payload.name, payload.city].filter(Boolean).join(" ")] *)
Definition baseForSlugRaw (payload : CreateHallPayload.t) : jsstring :=
  let explicit :=
    match CreateHallPayload.slug payload with
    | Some s => if truthy s then trim s else s
    | None => []
    end in
  if truthy explicit then explicit
  else
    join space
      (filter truthy
         [CreateHallPayload.name payload;
          match CreateHallPayload.city payload with Some c => c | None => [] end]).

(** [baseForSlugRaw && baseForSlugRaw.trim().length > 0
     ? baseForSlugRaw : this.generateFallbackBaseSlug()] *)
Definition baseForSlug (payload : CreateHallPayload.t) (now : time) : jsstring :=
  let raw := baseForSlugRaw payload in
  if truthy raw && (0 <? N.of_nat (List.length (trim raw)))
  then raw else generateFallbackBaseSlug now.

Definition createHall (payload : CreateHallPayload.t) (now : time) : M HallDTO :=
  finalSlug <- generateUniqueSlug now (baseForSlug payload now) None ;;
  saved <- insertHall (fun id =>
    {| Hall.id := id;
       Hall.gerantId := CreateHallPayload.gerantId payload;
       Hall.name := trim (CreateHallPayload.name payload);
       Hall.slug := finalSlug;
       Hall.address := CreateHallPayload.address payload;
       Hall.city := CreateHallPayload.city payload;
       Hall.capacity := CreateHallPayload.capacity payload;
       Hall.description := CreateHallPayload.description payload;
       Hall.cancellationPolicy := CreateHallPayload.cancellationPolicy payload;
       Hall.isPremium :=
         match CreateHallPayload.isPremium payload with
         | Some b => b
         | None => false
         end;
       Hall.status :=
         match CreateHallPayload.status payload with
         | Some s => s
         | None => DRAFT
         end;
       Hall.createdAt := now;
       Hall.updatedAt := now |}) ;;
  match CreateHallPayload.gerantId payload with
  | Some gerant => insertOwnerRole (Hall.id saved) gerant now
  | None => ret tt
  end ;;;
  ret (toDTO saved).

Definition findHallById (id : uuid) (db : Db) : option Hall.t :=
  find (fun h => Hall.id h =? id) (halls db).

(** [payload.x !== undefined ? payload.x : entity.x] *)
Definition orKeep {A : Type} (field : option A) (current : A) : A :=
  match field with Some v => v | None => current end.

(** The slug of an update: a new unique slug when the payload gives one that
    differs from the stored slug, the stored slug otherwise. *)
Definition slugForUpdate (hall : Hall.t) (payload : UpdateHallPayload.t)
  (now : time) : M jsstring :=
  match UpdateHallPayload.slug payload with
  | Some s =>
      if truthy s && truthy (trim s)
         && negb (Js.eqb (toLowerCase (trim s)) (Hall.slug hall))
      then generateUniqueSlug now s (Some (Hall.id hall))
      else ret (Hall.slug hall)
  | None => ret (Hall.slug hall)
  end.

(** Whether the assignments of an update change a column of the hall.
    [save] writes, and sets updatedAt, only then. *)
Definition hallChanged (hall : Hall.t) (payload : UpdateHallPayload.t)
  (newSlug : jsstring) : bool :=
  negb (Js.eqb newSlug (Hall.slug hall))
  || changes Js.eqb (option_map trim (UpdateHallPayload.name payload))
       (Hall.name hall)
  || changes (option_eqb Js.eqb) (UpdateHallPayload.address payload)
       (Hall.address hall)
  || changes (option_eqb Js.eqb) (UpdateHallPayload.city payload) (Hall.city hall)
  || changes (option_eqb Z.eqb) (UpdateHallPayload.capacity payload)
       (Hall.capacity hall)
  || changes (option_eqb Js.eqb) (UpdateHallPayload.description payload)
       (Hall.description hall)
  || changes (option_eqb Js.eqb) (UpdateHallPayload.cancellationPolicy payload)
       (Hall.cancellationPolicy hall)
  || changes Bool.eqb (UpdateHallPayload.isPremium payload) (Hall.isPremium hall)
  || changes HallStatus_eqb (UpdateHallPayload.status payload) (Hall.status hall)
  || changes (option_eqb N.eqb) (UpdateHallPayload.gerantId payload)
       (Hall.gerantId hall).

(** The entity after the assignments of the fields the payload defines, as
    [save] returns it. *)
Definition mergeHall (hall : Hall.t) (payload : UpdateHallPayload.t)
  (newSlug : jsstring) (now : time) : Hall.t :=
  {| Hall.id := Hall.id hall;
     Hall.gerantId :=
       orKeep (UpdateHallPayload.gerantId payload) (Hall.gerantId hall);
     Hall.name :=
       match UpdateHallPayload.name payload with
       | Some n => trim n
       | None => Hall.name hall
       end;
     Hall.slug := newSlug;
     Hall.address :=
       orKeep (UpdateHallPayload.address payload) (Hall.address hall);
     Hall.city := orKeep (UpdateHallPayload.city payload) (Hall.city hall);
     Hall.capacity :=
       orKeep (UpdateHallPayload.capacity payload) (Hall.capacity hall);
     Hall.description :=
       orKeep (UpdateHallPayload.description payload) (Hall.description hall);
     Hall.cancellationPolicy :=
       orKeep (UpdateHallPayload.cancellationPolicy payload)
         (Hall.cancellationPolicy hall);
     Hall.isPremium :=
       orKeep (UpdateHallPayload.isPremium payload) (Hall.isPremium hall);
     Hall.status :=
       orKeep (UpdateHallPayload.status payload) (Hall.status hall);
     Hall.createdAt := Hall.createdAt hall;
     Hall.updatedAt :=
       if hallChanged hall payload newSlug then now else Hall.updatedAt hall |}.

Definition isOwnerOf (hallId : uuid) (r : HallUserRole.t) : bool :=
  (HallUserRole.hall_id r =? hallId)
  && HallUserRoleType_eqb (HallUserRole.role r) OWNER.

(** If the owner changed: delete the OWNER rows of the hall, then insert
    the row of the new owner, if there is one. *)
Definition syncOwnerRole (previousGerantId : option uuid) (saved : Hall.t)
  (payload : UpdateHallPayload.t) (now : time) : M unit :=
  match UpdateHallPayload.gerantId payload with
  | Some gerantId =>
      if negb (option_eqb N.eqb gerantId previousGerantId) then
        modify (fun db =>
          setHallUserRoles
            (filter (fun r => negb (isOwnerOf (Hall.id saved) r))
               (hallUserRoles db)) db) ;;;
        match gerantId with
        | Some newOwner => insertOwnerRole (Hall.id saved) newOwner now
        | None => ret tt
        end
      else ret tt
  | None => ret tt
  end.

Definition updateHall (id : uuid) (payload : UpdateHallPayload.t) (now : time)
  : M HallDTO :=
  found <- gets (findHallById id) ;;
  match found with
  | None => throw (NotFoundError "Hall not found")
  | Some hall =>
      let previousGerantId := Hall.gerantId hall in
      newSlug <- slugForUpdate hall payload now ;;
      saved <- updateHallRow hall (mergeHall hall payload newSlug now) ;;
      syncOwnerRole previousGerantId saved payload now ;;;
      ret (toDTO saved)
  end.

Definition getHallById (id : uuid) : M HallDTO :=
  found <- gets (findHallById id) ;;
  match found with
  | None => throw (NotFoundError "Hall not found")
  | Some hall => ret (toDTO hall)
  end.

Definition getHallBySlug (slug : jsstring) : M HallDTO :=
  let normalizedSlug := slugify slug in
  found <- gets (fun db =>
    find (fun h => Js.eqb (Hall.slug h) normalizedSlug) (halls db)) ;;
  match found with
  | None => throw (NotFoundError "Hall not found")
  | Some hall => ret (toDTO hall)
  end.

(** The WHERE clause [listHalls] builds. *)
Definition listHallsWhere (options : ListHallsOptions.t) (h : Hall.t) : bool :=
  match ListHallsOptions.status options with
  | Some s => HallStatus_eqb (Hall.status h) s
  | None => true
  end
  && (if truthyOpt (ListHallsOptions.city options) then
        match Hall.city h, ListHallsOptions.city options with
        | Some hc, Some c => Js.eqb (sqlLower hc) (sqlLower c)
        | _, _ => false
        end
      else true)
  && match ListHallsOptions.isPremium options with
     | Some b => Bool.eqb (Hall.isPremium h) b
     | None => true
     end
  && match ListHallsOptions.gerantId options with
     | Some g => option_eqb N.eqb (Hall.gerantId h) (Some g)
     | None => true
     end.

Definition listHalls (options : ListHallsOptions.t) : M (Page HallDTO) :=
  let page :=
    match ListHallsOptions.page options with
    | Some p => if (0 <? p)%Z then p else 1%Z
    | None => 1%Z
    end in
  let limit :=
    match ListHallsOptions.limit options with
    | Some l => if (0 <? l)%Z && (l <=? 100)%Z then l else 20%Z
    | None => 20%Z
    end in
  fun db =>
    let rows := filter (listHallsWhere options) (halls db) in
    match
      Sql.skipTake ((page - 1) * limit) limit
        (Sql.orderBy (Sql.desc Hall.createdAt) rows)
    with
    | Some halls =>
        (Returned {| data := map toDTO halls;
                     page := page;
                     limit := limit;
                     total := Z.of_nat (List.length rows) |}, db)
    | None => (Thrown (QueryFailedError "OFFSET or LIMIT is negative"), db)
    end.

End WithBuiltins.
End HallService.

(** ** pricing.service.ts *)

(** The DTO mappers of the pricing service copy every column; the amounts
    of a row go from their numeric text to the number of the same value. *)
Definition HallProductDTO := HallProduct.t.
Definition HallProductRateDTO := HallProductRate.t.
Definition HallAddonDTO := HallAddon.t.
Definition HallBlockedDateDTO := HallBlockedDate.t.

(** The DTO of the entity that a write of a rate has saved. [save] returns
    the entity it was given, whose amounts are still the texts that the
    numbers of the payload print as, and the mapper reads them back as those
    numbers, while the row keeps them rounded to its two decimals. [row] is
    the DTO of the row as the table keeps it; [price] and [extraUnitPrice]
    are the amounts that the DTO carries in the place of those of [row]. *)
Module SavedHallProductRateDTO.
Record t := {
  row : HallProductRateDTO;
  price : Amount.t;
  extraUnitPrice : option Amount.t
}.
End SavedHallProductRateDTO.

(** The same for an addon. *)
Module SavedHallAddonDTO.
Record t := {
  row : HallAddonDTO;
  unitPrice : Amount.t;
  redevanceAmount : option Amount.t
}.
End SavedHallAddonDTO.

(** The payloads of the pricing service. A field of a partial update is
    [None] when it is [undefined] and [Some None] when it is [null]. *)
Module CreateHallProductPayload.
Record t := {
  hallId : uuid;
  name : jsstring;
  category : option jsstring;
  description : option jsstring;
  isPrimary : option bool;
  isActive : option bool
}.
End CreateHallProductPayload.

Module UpdateHallProductPayload.
Record t := {
  name : option jsstring;
  category : option (option jsstring);
  description : option (option jsstring);
  isPrimary : option bool;
  isActive : option bool
}.
End UpdateHallProductPayload.

Module CreateHallProductRatePayload.
Record t := {
  hallProductId : uuid;
  label : jsstring;
  currency : jsstring;
  price : Amount.t;
  billingUnit : jsstring;
  minHours : option Z;
  maxHours : option Z;
  extraUnitPrice : option Amount.t;
  dayOfWeekMask : option jsstring;
  seasonStart : option date;
  seasonEnd : option date;
  isDefault : option bool
}.
End CreateHallProductRatePayload.

Module UpdateHallProductRatePayload.
Record t := {
  label : option jsstring;
  currency : option jsstring;
  price : option Amount.t;
  billingUnit : option jsstring;
  minHours : option (option Z);
  maxHours : option (option Z);
  extraUnitPrice : option (option Amount.t);
  dayOfWeekMask : option (option jsstring);
  seasonStart : option (option date);
  seasonEnd : option (option date);
  isDefault : option bool
}.
End UpdateHallProductRatePayload.

Module CreateHallAddonPayload.
Record t := {
  hallId : uuid;
  name : jsstring;
  description : option jsstring;
  pricingModel : jsstring;
  currency : jsstring;
  unitPrice : Amount.t;
  packSize : option Z;
  redevanceAmount : option Amount.t;
  isActive : option bool
}.
End CreateHallAddonPayload.

Module UpdateHallAddonPayload.
Record t := {
  name : option jsstring;
  description : option (option jsstring);
  pricingModel : option jsstring;
  currency : option jsstring;
  unitPrice : option Amount.t;
  packSize : option (option Z);
  redevanceAmount : option (option Amount.t);
  isActive : option bool
}.
End UpdateHallAddonPayload.

Module CreateHallBlockedDatePayload.
Record t := {
  hallId : uuid;
  startDate : date;
  endDate : option date;
  reason : option jsstring;
  createdByUserId : option uuid
}.
End CreateHallBlockedDatePayload.

Module PricingService.

Definition toHallProductDTO (entity : HallProduct.t) : HallProductDTO := entity.
Definition toHallProductRateDTO (entity : HallProductRate.t)
  : HallProductRateDTO := entity.
Definition toHallAddonDTO (entity : HallAddon.t) : HallAddonDTO := entity.
Definition toHallBlockedDateDTO (entity : HallBlockedDate.t)
  : HallBlockedDateDTO := entity.

Definition listHallProducts (hallId : uuid) (isActive : option bool)
  : M (list HallProductDTO) :=
  gets (fun db =>
    let rows :=
      filter (fun p =>
                (HallProduct.hallId p =? hallId)
                && match isActive with
                   | Some b => Bool.eqb (HallProduct.isActive p) b
                   | None => true
                   end)
        (hallProducts db) in
    map toHallProductDTO
      (Sql.orderBy
         (Sql.thenBy (Sql.boolDesc HallProduct.isPrimary)
            (Sql.asc HallProduct.createdAt))
         rows)).

Definition getActiveProductsForHall (hallId : uuid) : M (list HallProductDTO) :=
  listHallProducts hallId (Some true).

Definition listHallProductRates (hallProductId : uuid)
  : M (list HallProductRateDTO) :=
  gets (fun db =>
    map toHallProductRateDTO
      (Sql.orderBy (Sql.asc HallProductRate.createdAt)
         (filter (fun r => HallProductRate.hallProductId r =? hallProductId)
            (hallProductRates db)))).

Definition listHallAddons (hallId : uuid) (isActive : option bool)
  : M (list HallAddonDTO) :=
  gets (fun db =>
    let rows :=
      filter (fun a =>
                (HallAddon.hallId a =? hallId)
                && match isActive with
                   | Some b => Bool.eqb (HallAddon.isActive a) b
                   | None => true
                   end)
        (hallAddons db) in
    map toHallAddonDTO (Sql.orderBy (Sql.asc HallAddon.createdAt) rows)).

(** [fromDate] and [toDate] are [None] when absent or empty. *)
Definition listHallBlockedDates (hallId : uuid) (fromDate toDate : option date)
  : M (list HallBlockedDateDTO) :=
  gets (fun db =>
    let rows :=
      filter (fun b =>
                (HallBlockedDate.hallId b =? hallId)
                && match fromDate with
                   | Some d => d <=? HallBlockedDate.startDate b
                   | None => true
                   end
                && match toDate with
                   | Some d => HallBlockedDate.startDate b <=? d
                   | None => true
                   end)
        (hallBlockedDates db) in
    map toHallBlockedDateDTO
      (Sql.orderBy (Sql.asc HallBlockedDate.startDate) rows)).

(** [value ?? fallback] *)
Definition orDefault {A : Type} (value : option A) (fallback : A) : A :=
  match value with Some v => v | None => fallback end.

(** [if (payload.x !== undefined) entity.x = payload.x] *)
Definition assign {A : Type} (field : option A) (current : A) : A :=
  match field with Some v => v | None => current end.

Definition createHallProduct (payload : CreateHallProductPayload.t) (now : time)
  : M HallProductDTO :=
  id <- generateId ;;
  let saved :=
    {| HallProduct.id := id;
       HallProduct.hallId := CreateHallProductPayload.hallId payload;
       HallProduct.name := CreateHallProductPayload.name payload;
       HallProduct.category := CreateHallProductPayload.category payload;
       HallProduct.description := CreateHallProductPayload.description payload;
       HallProduct.isPrimary :=
         orDefault (CreateHallProductPayload.isPrimary payload) false;
       HallProduct.isActive :=
         orDefault (CreateHallProductPayload.isActive payload) true;
       HallProduct.createdAt := now;
       HallProduct.updatedAt := now |} in
  modify (fun db => setHallProducts (hallProducts db ++ [saved]) db) ;;;
  ret (toHallProductDTO saved).

Definition findHallProduct (id : uuid) (db : Db) : option HallProduct.t :=
  find (fun p => HallProduct.id p =? id) (hallProducts db).

(** Whether the assignments of an update change a column of the product. *)
Definition productChanged (entity : HallProduct.t)
  (payload : UpdateHallProductPayload.t) : bool :=
  changes Js.eqb (UpdateHallProductPayload.name payload) (HallProduct.name entity)
  || changes (option_eqb Js.eqb) (UpdateHallProductPayload.category payload)
       (HallProduct.category entity)
  || changes (option_eqb Js.eqb) (UpdateHallProductPayload.description payload)
       (HallProduct.description entity)
  || changes Bool.eqb (UpdateHallProductPayload.isPrimary payload)
       (HallProduct.isPrimary entity)
  || changes Bool.eqb (UpdateHallProductPayload.isActive payload)
       (HallProduct.isActive entity).

Definition updateHallProduct (id : uuid) (payload : UpdateHallProductPayload.t)
  (now : time) : M HallProductDTO :=
  found <- gets (findHallProduct id) ;;
  match found with
  | None => throw (NotFoundError "Hall product not found")
  | Some entity =>
      let saved :=
        {| HallProduct.id := HallProduct.id entity;
           HallProduct.hallId := HallProduct.hallId entity;
           HallProduct.name :=
             assign (UpdateHallProductPayload.name payload) (HallProduct.name entity);
           HallProduct.category :=
             assign (UpdateHallProductPayload.category payload)
               (HallProduct.category entity);
           HallProduct.description :=
             assign (UpdateHallProductPayload.description payload)
               (HallProduct.description entity);
           HallProduct.isPrimary :=
             assign (UpdateHallProductPayload.isPrimary payload)
               (HallProduct.isPrimary entity);
           HallProduct.isActive :=
             assign (UpdateHallProductPayload.isActive payload)
               (HallProduct.isActive entity);
           HallProduct.createdAt := HallProduct.createdAt entity;
           HallProduct.updatedAt :=
             if productChanged entity payload then now
             else HallProduct.updatedAt entity |} in
      modify (fun db =>
        setHallProducts
          (map (fun p => if HallProduct.id p =? id then saved else p)
             (hallProducts db)) db) ;;;
      ret (toHallProductDTO saved)
  end.

Definition getHallProductById (id : uuid) : M HallProductDTO :=
  found <- gets (findHallProduct id) ;;
  match found with
  | None => throw (NotFoundError "Hall product not found")
  | Some entity => ret (toHallProductDTO entity)
  end.

(** The amount a column holds after the assignment of a field of an
    update, when the column can hold it. *)
Definition assignAmount (field : option Amount.t) (current : numeric)
  : option numeric :=
  match field with
  | Some a => Sql.numeric12_2 a
  | None => Some current
  end.

Definition assignAmountNullable (field : option (option Amount.t))
  (current : option numeric) : option (option numeric) :=
  match field with
  | Some o => Sql.numeric12_2Nullable o
  | None => Some current
  end.

(** The assignment of an amount changes the column when the text the
    number prints as is not the text the entity holds. *)
Definition amountChanges (field : option Amount.t) (current : numeric) : bool :=
  match field with
  | Some a => negb (Amount.printsAs a current)
  | None => false
  end.

Definition amountChangesNullable (field : option (option Amount.t))
  (current : option numeric) : bool :=
  match field, current with
  | None, _ => false
  | Some None, None => false
  | Some (Some a), Some value => negb (Amount.printsAs a value)
  | Some None, Some _ | Some (Some _), None => true
  end.

(** [Number] of the text an entity holds for an amount after the
    assignment of a field of an update. *)
Definition amountOf (field : option Amount.t) (current : numeric) : Amount.t :=
  match field with
  | Some a => a
  | None => Amount.ofNumeric current
  end.

Definition amountOfNullable (field : option (option Amount.t))
  (current : option numeric) : option Amount.t :=
  match field with
  | Some o => o
  | None => option_map Amount.ofNumeric current
  end.

Definition createHallProductRate (payload : CreateHallProductRatePayload.t)
  (now : time) : M SavedHallProductRateDTO.t :=
  match Sql.numeric12_2 (CreateHallProductRatePayload.price payload),
        Sql.numeric12_2Nullable (CreateHallProductRatePayload.extraUnitPrice payload)
  with
  | Some price, Some extraUnitPrice =>
      id <- generateId ;;
      let saved :=
        {| HallProductRate.id := id;
           HallProductRate.hallProductId :=
             CreateHallProductRatePayload.hallProductId payload;
           HallProductRate.label := CreateHallProductRatePayload.label payload;
           HallProductRate.currency :=
             CreateHallProductRatePayload.currency payload;
           HallProductRate.price := price;
           HallProductRate.billingUnit :=
             CreateHallProductRatePayload.billingUnit payload;
           HallProductRate.minHours :=
             CreateHallProductRatePayload.minHours payload;
           HallProductRate.maxHours :=
             CreateHallProductRatePayload.maxHours payload;
           HallProductRate.extraUnitPrice := extraUnitPrice;
           HallProductRate.dayOfWeekMask :=
             CreateHallProductRatePayload.dayOfWeekMask payload;
           HallProductRate.seasonStart :=
             CreateHallProductRatePayload.seasonStart payload;
           HallProductRate.seasonEnd :=
             CreateHallProductRatePayload.seasonEnd payload;
           HallProductRate.isDefault :=
             orDefault (CreateHallProductRatePayload.isDefault payload) false;
           HallProductRate.createdAt := now;
           HallProductRate.updatedAt := now |} in
      modify (fun db =>
        setHallProductRates (hallProductRates db ++ [saved]) db) ;;;
      ret {| SavedHallProductRateDTO.row := toHallProductRateDTO saved;
             SavedHallProductRateDTO.price :=
               CreateHallProductRatePayload.price payload;
             SavedHallProductRateDTO.extraUnitPrice :=
               CreateHallProductRatePayload.extraUnitPrice payload |}
  | _, _ => throw (QueryFailedError "numeric field overflow")
  end.

Definition findHallProductRate (id : uuid) (db : Db) : option HallProductRate.t :=
  find (fun r => HallProductRate.id r =? id) (hallProductRates db).

(** Whether the assignments of an update change a column of the rate. *)
Definition rateChanged (entity : HallProductRate.t)
  (payload : UpdateHallProductRatePayload.t) : bool :=
  changes Js.eqb (UpdateHallProductRatePayload.label payload)
    (HallProductRate.label entity)
  || changes Js.eqb (UpdateHallProductRatePayload.currency payload)
       (HallProductRate.currency entity)
  || amountChanges (UpdateHallProductRatePayload.price payload)
       (HallProductRate.price entity)
  || changes Js.eqb (UpdateHallProductRatePayload.billingUnit payload)
       (HallProductRate.billingUnit entity)
  || changes (option_eqb Z.eqb) (UpdateHallProductRatePayload.minHours payload)
       (HallProductRate.minHours entity)
  || changes (option_eqb Z.eqb) (UpdateHallProductRatePayload.maxHours payload)
       (HallProductRate.maxHours entity)
  || amountChangesNullable (UpdateHallProductRatePayload.extraUnitPrice payload)
       (HallProductRate.extraUnitPrice entity)
  || changes (option_eqb Js.eqb)
       (UpdateHallProductRatePayload.dayOfWeekMask payload)
       (HallProductRate.dayOfWeekMask entity)
  || changes (option_eqb N.eqb) (UpdateHallProductRatePayload.seasonStart payload)
       (HallProductRate.seasonStart entity)
  || changes (option_eqb N.eqb) (UpdateHallProductRatePayload.seasonEnd payload)
       (HallProductRate.seasonEnd entity)
  || changes Bool.eqb (UpdateHallProductRatePayload.isDefault payload)
       (HallProductRate.isDefault entity).

Definition updateHallProductRate (id : uuid)
  (payload : UpdateHallProductRatePayload.t) (now : time)
  : M SavedHallProductRateDTO.t :=
  found <- gets (findHallProductRate id) ;;
  match found with
  | None => throw (NotFoundError "Hall product rate not found")
  | Some entity =>
      match assignAmount (UpdateHallProductRatePayload.price payload)
              (HallProductRate.price entity),
            assignAmountNullable
              (UpdateHallProductRatePayload.extraUnitPrice payload)
              (HallProductRate.extraUnitPrice entity)
      with
      | Some price, Some extraUnitPrice =>
          let saved :=
            {| HallProductRate.id := HallProductRate.id entity;
               HallProductRate.hallProductId :=
                 HallProductRate.hallProductId entity;
               HallProductRate.label :=
                 assign (UpdateHallProductRatePayload.label payload)
                   (HallProductRate.label entity);
               HallProductRate.currency :=
                 assign (UpdateHallProductRatePayload.currency payload)
                   (HallProductRate.currency entity);
               HallProductRate.price := price;
               HallProductRate.billingUnit :=
                 assign (UpdateHallProductRatePayload.billingUnit payload)
                   (HallProductRate.billingUnit entity);
               HallProductRate.minHours :=
                 assign (UpdateHallProductRatePayload.minHours payload)
                   (HallProductRate.minHours entity);
               HallProductRate.maxHours :=
                 assign (UpdateHallProductRatePayload.maxHours payload)
                   (HallProductRate.maxHours entity);
               HallProductRate.extraUnitPrice := extraUnitPrice;
               HallProductRate.dayOfWeekMask :=
                 assign (UpdateHallProductRatePayload.dayOfWeekMask payload)
                   (HallProductRate.dayOfWeekMask entity);
               HallProductRate.seasonStart :=
                 assign (UpdateHallProductRatePayload.seasonStart payload)
                   (HallProductRate.seasonStart entity);
               HallProductRate.seasonEnd :=
                 assign (UpdateHallProductRatePayload.seasonEnd payload)
                   (HallProductRate.seasonEnd entity);
               HallProductRate.isDefault :=
                 assign (UpdateHallProductRatePayload.isDefault payload)
                   (HallProductRate.isDefault entity);
               HallProductRate.createdAt := HallProductRate.createdAt entity;
               HallProductRate.updatedAt :=
                 if rateChanged entity payload then now
                 else HallProductRate.updatedAt entity |} in
          modify (fun db =>
            setHallProductRates
              (map (fun r => if HallProductRate.id r =? id then saved else r)
                 (hallProductRates db)) db) ;;;
          ret {| SavedHallProductRateDTO.row := toHallProductRateDTO saved;
                 SavedHallProductRateDTO.price :=
                   amountOf (UpdateHallProductRatePayload.price payload)
                     (HallProductRate.price entity);
                 SavedHallProductRateDTO.extraUnitPrice :=
                   amountOfNullable
                     (UpdateHallProductRatePayload.extraUnitPrice payload)
                     (HallProductRate.extraUnitPrice entity) |}
      | _, _ => throw (QueryFailedError "numeric field overflow")
      end
  end.

Definition getHallProductRateById (id : uuid) : M HallProductRateDTO :=
  found <- gets (findHallProductRate id) ;;
  match found with
  | None => throw (NotFoundError "Hall product rate not found")
  | Some entity => ret (toHallProductRateDTO entity)
  end.

Definition createHallAddon (payload : CreateHallAddonPayload.t) (now : time)
  : M SavedHallAddonDTO.t :=
  match Sql.numeric12_2 (CreateHallAddonPayload.unitPrice payload),
        Sql.numeric12_2Nullable (CreateHallAddonPayload.redevanceAmount payload)
  with
  | Some unitPrice, Some redevanceAmount =>
      id <- generateId ;;
      let saved :=
        {| HallAddon.id := id;
           HallAddon.hallId := CreateHallAddonPayload.hallId payload;
           HallAddon.name := CreateHallAddonPayload.name payload;
           HallAddon.description := CreateHallAddonPayload.description payload;
           HallAddon.pricingModel := CreateHallAddonPayload.pricingModel payload;
           HallAddon.currency := CreateHallAddonPayload.currency payload;
           HallAddon.unitPrice := unitPrice;
           HallAddon.packSize := CreateHallAddonPayload.packSize payload;
           HallAddon.redevanceAmount := redevanceAmount;
           HallAddon.isActive :=
             orDefault (CreateHallAddonPayload.isActive payload) true;
           HallAddon.createdAt := now;
           HallAddon.updatedAt := now |} in
      modify (fun db => setHallAddons (hallAddons db ++ [saved]) db) ;;;
      ret {| SavedHallAddonDTO.row := toHallAddonDTO saved;
             SavedHallAddonDTO.unitPrice :=
               CreateHallAddonPayload.unitPrice payload;
             SavedHallAddonDTO.redevanceAmount :=
               CreateHallAddonPayload.redevanceAmount payload |}
  | _, _ => throw (QueryFailedError "numeric field overflow")
  end.

Definition findHallAddon (id : uuid) (db : Db) : option HallAddon.t :=
  find (fun a => HallAddon.id a =? id) (hallAddons db).

(** Whether the assignments of an update change a column of the addon. *)
Definition addonChanged (entity : HallAddon.t) (payload : UpdateHallAddonPayload.t)
  : bool :=
  changes Js.eqb (UpdateHallAddonPayload.name payload) (HallAddon.name entity)
  || changes (option_eqb Js.eqb) (UpdateHallAddonPayload.description payload)
       (HallAddon.description entity)
  || changes Js.eqb (UpdateHallAddonPayload.pricingModel payload)
       (HallAddon.pricingModel entity)
  || changes Js.eqb (UpdateHallAddonPayload.currency payload)
       (HallAddon.currency entity)
  || amountChanges (UpdateHallAddonPayload.unitPrice payload)
       (HallAddon.unitPrice entity)
  || changes (option_eqb Z.eqb) (UpdateHallAddonPayload.packSize payload)
       (HallAddon.packSize entity)
  || amountChangesNullable (UpdateHallAddonPayload.redevanceAmount payload)
       (HallAddon.redevanceAmount entity)
  || changes Bool.eqb (UpdateHallAddonPayload.isActive payload)
       (HallAddon.isActive entity).

Definition updateHallAddon (id : uuid) (payload : UpdateHallAddonPayload.t)
  (now : time) : M SavedHallAddonDTO.t :=
  found <- gets (findHallAddon id) ;;
  match found with
  | None => throw (NotFoundError "Hall addon not found")
  | Some entity =>
      match assignAmount (UpdateHallAddonPayload.unitPrice payload)
              (HallAddon.unitPrice entity),
            assignAmountNullable (UpdateHallAddonPayload.redevanceAmount payload)
              (HallAddon.redevanceAmount entity)
      with
      | Some unitPrice, Some redevanceAmount =>
          let saved :=
            {| HallAddon.id := HallAddon.id entity;
               HallAddon.hallId := HallAddon.hallId entity;
               HallAddon.name :=
                 assign (UpdateHallAddonPayload.name payload)
                   (HallAddon.name entity);
               HallAddon.description :=
                 assign (UpdateHallAddonPayload.description payload)
                   (HallAddon.description entity);
               HallAddon.pricingModel :=
                 assign (UpdateHallAddonPayload.pricingModel payload)
                   (HallAddon.pricingModel entity);
               HallAddon.currency :=
                 assign (UpdateHallAddonPayload.currency payload)
                   (HallAddon.currency entity);
               HallAddon.unitPrice := unitPrice;
               HallAddon.packSize :=
                 assign (UpdateHallAddonPayload.packSize payload)
                   (HallAddon.packSize entity);
               HallAddon.redevanceAmount := redevanceAmount;
               HallAddon.isActive :=
                 assign (UpdateHallAddonPayload.isActive payload)
                   (HallAddon.isActive entity);
               HallAddon.createdAt := HallAddon.createdAt entity;
               HallAddon.updatedAt :=
                 if addonChanged entity payload then now
                 else HallAddon.updatedAt entity |} in
          modify (fun db =>
            setHallAddons
              (map (fun a => if HallAddon.id a =? id then saved else a)
                 (hallAddons db)) db) ;;;
          ret {| SavedHallAddonDTO.row := toHallAddonDTO saved;
                 SavedHallAddonDTO.unitPrice :=
                   amountOf (UpdateHallAddonPayload.unitPrice payload)
                     (HallAddon.unitPrice entity);
                 SavedHallAddonDTO.redevanceAmount :=
                   amountOfNullable
                     (UpdateHallAddonPayload.redevanceAmount payload)
                     (HallAddon.redevanceAmount entity) |}
      | _, _ => throw (QueryFailedError "numeric field overflow")
      end
  end.

Definition getHallAddonById (id : uuid) : M HallAddonDTO :=
  found <- gets (findHallAddon id) ;;
  match found with
  | None => throw (NotFoundError "Hall addon not found")
  | Some entity => ret (toHallAddonDTO entity)
  end.

Definition createHallBlockedDate (payload : CreateHallBlockedDatePayload.t)
  (now : time) : M HallBlockedDateDTO :=
  id <- generateId ;;
  let saved :=
    {| HallBlockedDate.id := id;
       HallBlockedDate.hallId := CreateHallBlockedDatePayload.hallId payload;
       HallBlockedDate.startDate := CreateHallBlockedDatePayload.startDate payload;
       HallBlockedDate.endDate := CreateHallBlockedDatePayload.endDate payload;
       HallBlockedDate.reason := CreateHallBlockedDatePayload.reason payload;
       HallBlockedDate.createdByUserId :=
         CreateHallBlockedDatePayload.createdByUserId payload;
       HallBlockedDate.createdAt := now |} in
  modify (fun db => setHallBlockedDates (hallBlockedDates db ++ [saved]) db) ;;;
  ret (toHallBlockedDateDTO saved).

End PricingService.

(** ** media.service.ts *)

Definition MediaDTO := Media.t.

Module MediaTagDTO.
Record t := {
  id : uuid;
  mediaId : uuid;
  tagTypeId : uuid;
  tagName : jsstring;
  isPrimary : bool;
  createdAt : time
}.
End MediaTagDTO.

Module CreateMediaPayload.
Record t := {
  hallId : uuid;
  storageProvider : jsstring;
  fileUrl : jsstring;
  originalFilename : option jsstring;
  mimeType : option jsstring;
  sizeBytes : option jsstring;
  width : option Z;
  height : option Z;
  mediaType : option MediaType;
  sortOrder : option Z
}.
End CreateMediaPayload.

Module MediaService.
Section WithBuiltins.
Context `{Builtins}.

Definition toMediaDTO (entity : Media.t) : MediaDTO := entity.

Definition toMediaTagDTO (mediaTag : MediaTag.t) (tagName : jsstring)
  : MediaTagDTO.t :=
  {| MediaTagDTO.id := MediaTag.id mediaTag;
     MediaTagDTO.mediaId := MediaTag.mediaId mediaTag;
     MediaTagDTO.tagTypeId := MediaTag.tagTypeId mediaTag;
     MediaTagDTO.tagName := tagName;
     MediaTagDTO.isPrimary := MediaTag.isPrimary mediaTag;
     MediaTagDTO.createdAt := MediaTag.createdAt mediaTag |}.

Definition createMedia (payload : CreateMediaPayload.t) (now : time) : M MediaDTO :=
  id <- generateId ;;
  let saved :=
    {| Media.id := id;
       Media.hallId := CreateMediaPayload.hallId payload;
       Media.storageProvider := CreateMediaPayload.storageProvider payload;
       Media.fileUrl := CreateMediaPayload.fileUrl payload;
       Media.originalFilename := CreateMediaPayload.originalFilename payload;
       Media.mimeType := CreateMediaPayload.mimeType payload;
       Media.sizeBytes := CreateMediaPayload.sizeBytes payload;
       Media.width := CreateMediaPayload.width payload;
       Media.height := CreateMediaPayload.height payload;
       Media.mediaType :=
         match CreateMediaPayload.mediaType payload with
         | Some t => t
         | None => IMAGE
         end;
       Media.sortOrder := CreateMediaPayload.sortOrder payload;
       Media.createdAt := now;
       Media.updatedAt := now |} in
  modify (fun db => setMedia (media db ++ [saved]) db) ;;;
  ret (toMediaDTO saved).

Definition findOrCreateTagTypeByName (name : jsstring) (now : time)
  : M MediaTagType.t :=
  let normalized := trim name in
  found <- gets (fun db =>
    find (fun t => Js.eqb (sqlLower (MediaTagType.name t)) (sqlLower normalized))
      (mediaTagTypes db)) ;;
  match found with
  | Some tagType => ret tagType
  | None =>
      id <- generateId ;;
      let tagType :=
        {| MediaTagType.id := id; MediaTagType.name := normalized;
           MediaTagType.description := None;
           MediaTagType.createdAt := now |} in
      modify (fun db => setMediaTagTypes (mediaTagTypes db ++ [tagType]) db) ;;;
      ret tagType
  end.

(** The tag rows that join a media row of the hall. *)
Definition tagOfHall (db : Db) (hallId : uuid) (mt : MediaTag.t) : bool :=
  existsb (fun m => (Media.id m =? MediaTag.mediaId mt)
                    && (Media.hallId m =? hallId))
    (media db).

Definition primaryTagsForHallAndTagType (hallId tagTypeId : uuid) (db : Db)
  : list MediaTag.t :=
  filter (fun mt =>
            tagOfHall db hallId mt
            && (MediaTag.tagTypeId mt =? tagTypeId)
            && MediaTag.isPrimary mt)
    (mediaTags db).

Definition unsetExistingPrimaryForHallAndTagType (hallId tagTypeId : uuid)
  : M unit :=
  existingPrimaryTags <- gets (primaryTagsForHallAndTagType hallId tagTypeId) ;;
  match existingPrimaryTags with
  | [] => ret tt
  | _ :: _ =>
      (* each tag is written back, by its key, with isPrimary = false *)
      modify (fun db =>
        setMediaTags
          (map (fun row =>
                  if existsb (fun tag => MediaTag.id tag =? MediaTag.id row)
                       existingPrimaryTags
                  then {| MediaTag.id := MediaTag.id row;
                          MediaTag.mediaId := MediaTag.mediaId row;
                          MediaTag.tagTypeId := MediaTag.tagTypeId row;
                          MediaTag.isPrimary := false;
                          MediaTag.createdAt := MediaTag.createdAt row |}
                  else row)
             (mediaTags db)) db)
  end.

(** INSERT into media_tags, under the unique constraint uq_media_tag on
    (mediaId, tagTypeId). *)
Definition insertMediaTag (row : MediaTag.t) : M MediaTag.t :=
  fun db =>
    if existsb (fun t => (MediaTag.mediaId t =? MediaTag.mediaId row)
                         && (MediaTag.tagTypeId t =? MediaTag.tagTypeId row))
         (mediaTags db)
    then (Thrown (QueryFailedError "uq_media_tag"), db)
    else (Returned row, setMediaTags (mediaTags db ++ [row]) db).

Definition tagMediaByName (mediaId : uuid) (tagName : jsstring)
  (isPrimary : option bool) (now : time) : M MediaTagDTO.t :=
  let isPrimary := match isPrimary with Some b => b | None => false end in
  found <- gets (fun db => find (fun m => Media.id m =? mediaId) (media db)) ;;
  match found with
  | None => throw (NotFoundError "Media not found")
  | Some media =>
      tagType <- findOrCreateTagTypeByName tagName now ;;
      (if isPrimary
       then unsetExistingPrimaryForHallAndTagType (Media.hallId media)
              (MediaTagType.id tagType)
       else ret tt) ;;;
      id <- generateId ;;
      saved <- insertMediaTag
        {| MediaTag.id := id;
           MediaTag.mediaId := Media.id media;
           MediaTag.tagTypeId := MediaTagType.id tagType;
           MediaTag.isPrimary := isPrimary;
           MediaTag.createdAt := now |} ;;
      ret (toMediaTagDTO saved (MediaTagType.name tagType))
  end.

(** The media rows that join a tag whose type has this name, up to case. *)
Definition hasTagNamed (db : Db) (tagName : jsstring) (primaryOnly : bool)
  (m : Media.t) : bool :=
  existsb (fun mt =>
             (MediaTag.mediaId mt =? Media.id m)
             && (if primaryOnly then MediaTag.isPrimary mt else true)
             && existsb (fun mtt =>
                           (MediaTagType.id mtt =? MediaTag.tagTypeId mt)
                           && Js.eqb (sqlLower (MediaTagType.name mtt))
                                (sqlLower tagName))
                  (mediaTagTypes db))
    (mediaTags db).

Definition listMediaForHall (hallId : uuid) (tagName : option jsstring)
  (mediaType : option MediaType) : M (list MediaDTO) :=
  gets (fun db =>
    let rows :=
      filter (fun m =>
                (Media.hallId m =? hallId)
                && match mediaType with
                   | Some t => MediaType_eqb (Media.mediaType m) t
                   | None => true
                   end
                && match tagName with
                   | Some n => if truthy n then hasTagNamed db n false m else true
                   | None => true
                   end)
        (media db) in
    map toMediaDTO
      (Sql.orderBy
         (Sql.thenBy (Sql.ascNullsLast Media.sortOrder)
            (Sql.desc Media.createdAt))
         rows)).

Definition getPrimaryMediaForHall (hallId : uuid) (tagName : jsstring)
  : M (option MediaDTO) :=
  gets (fun db =>
    let rows :=
      filter (fun m => (Media.hallId m =? hallId) && hasTagNamed db tagName true m)
        (media db) in
    match Sql.orderBy (Sql.desc Media.createdAt) rows with
    | [] => None
    | m :: _ => Some (toMediaDTO m)
    end).

End WithBuiltins.
End MediaService.

(** ** hall-query.service.ts *)

Inductive HallSortBy := relevance | price_asc | price_desc | capacity_desc | featured.

(** The filters are the contract between the controller and the service:
    page and limit are required, and the controller passes a page of 1 or
    more and a limit of 1 or more ([Math.max(..., 1)] on both). *)
Module HallSearchFilters.
Record t := {
  q : option jsstring;
  city : option jsstring;
  eventType : option jsstring;
  date : option date;
  capacityMin : option Z;
  capacityMax : option Z;
  priceMin : option numeric;
  priceMax : option numeric;
  isPremium : option bool;
  features : option (list jsstring);
  sortBy : option HallSortBy;
  page : positive;
  limit : positive
}.
End HallSearchFilters.

Module PublicHallCardDTO.
Record t := {
  id : uuid;
  name : jsstring;
  slug : jsstring;
  city : option jsstring;
  capacity : option Z;
  isPremium : bool;
  heroImageUrl : option jsstring;
  startingFromPrice : option numeric;
  startingFromCurrency : option jsstring
}.
End PublicHallCardDTO.

Module PublicHallRateDTO.
Record t := {
  id : uuid;
  label : jsstring;
  currency : jsstring;
  price : numeric;
  billingUnit : jsstring;
  minHours : option Z;
  maxHours : option Z;
  extraUnitPrice : option numeric;
  dayOfWeekMask : option jsstring;
  seasonStart : option date;
  seasonEnd : option date;
  isDefault : bool
}.
End PublicHallRateDTO.

Module PublicHallProductDTO.
Record t := {
  id : uuid;
  name : jsstring;
  category : option jsstring;
  description : option jsstring;
  isPrimary : bool;
  rates : list PublicHallRateDTO.t
}.
End PublicHallProductDTO.

Module PublicHallAddonDTO.
Record t := {
  id : uuid;
  name : jsstring;
  description : option jsstring;
  pricingModel : jsstring;
  currency : jsstring;
  unitPrice : numeric;
  packSize : option Z;
  isActive : bool
}.
End PublicHallAddonDTO.

Module PublicHallDetailDTO.
Record t := {
  id : uuid;
  name : jsstring;
  slug : jsstring;
  address : option jsstring;
  city : option jsstring;
  capacity : option Z;
  description : option jsstring;
  cancellationPolicy : option jsstring;
  isPremium : bool;
  heroImageUrl : option jsstring;
  gallery : list MediaDTO;
  products : list PublicHallProductDTO.t;
  addons : list PublicHallAddonDTO.t
}.
End PublicHallDetailDTO.

(** A row of the grouped query: the hall and the two aggregates. *)
Module HallGroup.
Record t := {
  h : Hall.t;
  min_price : option numeric;
  min_currency : option jsstring
}.
End HallGroup.

Fixpoint mapM {A B : Type} (f : A -> M B) (l : list A) : M (list B) :=
  match l with
  | [] => ret []
  | x :: r => y <- f x ;; ys <- mapM f r ;; ret (y :: ys)
  end.

Module HallQueryService.
Section WithBuiltins.
Context `{Builtins}.

(** The rows of h LEFT JOIN hp (active products of the hall) LEFT JOIN hpr
    (their rates), for one hall. *)
Definition joinedRows (db : Db) (h : Hall.t)
  : list (option HallProduct.t * option HallProductRate.t) :=
  match
    filter (fun hp => (HallProduct.hallId hp =? Hall.id h)
                      && HallProduct.isActive hp)
      (hallProducts db)
  with
  | [] => [(None, None)]
  | hps =>
      flat_map
        (fun hp =>
           match
             filter (fun hpr => HallProductRate.hallProductId hpr =? HallProduct.id hp)
               (hallProductRates db)
           with
           | [] => [(Some hp, None)]
           | hprs => map (fun hpr => (Some hp, Some hpr)) hprs
           end)
        hps
  end.

(** [text ILIKE pattern], not true on NULL. *)
Definition ilikeNullable (text : option jsstring) (pattern : jsstring) : bool :=
  match text with Some t => ilike t pattern | None => false end.

Definition percent : char := 37.

(** The WHERE clause, on a joined row. A comparison with NULL is not true. *)
Definition whereRow (filters : HallSearchFilters.t) (db : Db) (h : Hall.t)
  (row : option HallProduct.t * option HallProductRate.t) : bool :=
  let hp := fst row in
  HallStatus_eqb (Hall.status h) ACTIVE
  && (if truthyOpt (HallSearchFilters.city filters)
      then option_eqb Js.eqb (Hall.city h) (HallSearchFilters.city filters)
      else true)
  && match HallSearchFilters.isPremium filters with
     | Some b => Bool.eqb (Hall.isPremium h) b
     | None => true
     end
  && match HallSearchFilters.capacityMin filters, Hall.capacity h with
     | Some capMin, Some c => (capMin <=? c)%Z
     | Some _, None => false
     | None, _ => true
     end
  && match HallSearchFilters.capacityMax filters, Hall.capacity h with
     | Some capMax, Some c => (c <=? capMax)%Z
     | Some _, None => false
     | None, _ => true
     end
  && match HallSearchFilters.q filters with
     | Some s =>
         if truthy s then
           let q := percent :: s ++ [percent] in
           ilikeNullable (Some (Hall.name h)) q
           || ilikeNullable (Hall.city h) q
           || ilikeNullable (Hall.description h) q
           || ilikeNullable (option_map HallProduct.name hp) q
         else true
     | None => true
     end
  && (if truthyOpt (HallSearchFilters.eventType filters)
      then
        match hp with
        | Some p =>
            option_eqb Js.eqb (HallProduct.category p)
              (HallSearchFilters.eventType filters)
        | None => false
        end
      else true)
  && match HallSearchFilters.date filters with
     | Some d =>
         negb (existsb
                 (fun hbd =>
                    (HallBlockedDate.hallId hbd =? Hall.id h)
                    && (HallBlockedDate.startDate hbd <=? d)
                    && match HallBlockedDate.endDate hbd with
                       | None => true
                       | Some e => d <=? e
                       end)
                 (hallBlockedDates db))
     | None => true
     end.

(** GROUP BY h.id with MIN(hpr.price) and MIN(hpr.currency): the halls table
    has one row per key, so the group of a hall is its joined rows. *)
Definition groupOf (filters : HallSearchFilters.t) (db : Db) (h : Hall.t)
  : list HallGroup.t :=
  match filter (whereRow filters db h) (joinedRows db h) with
  | [] => []
  | rows =>
      let hprs := Sql.notNull (map snd rows) in
      [{| HallGroup.h := h;
          HallGroup.min_price := Sql.minZ (map HallProductRate.price hprs);
          HallGroup.min_currency :=
            Sql.minString (map HallProductRate.currency hprs) |}]
  end.

(** The HAVING clause, on MIN(hpr.price) of a group. *)
Definition havingPrice (filters : HallSearchFilters.t) (min_price : option numeric)
  : bool :=
  match HallSearchFilters.priceMin filters, min_price with
  | Some priceMin, Some p => (priceMin <=? p)%Z
  | Some _, None => false
  | None, _ => true
  end
  && match HallSearchFilters.priceMax filters, min_price with
     | Some priceMax, Some p => (p <=? priceMax)%Z
     | Some _, None => false
     | None, _ => true
     end.

Definition having (filters : HallSearchFilters.t) (g : HallGroup.t) : bool :=
  havingPrice filters (HallGroup.min_price g).

Definition premiumFirst (a b : HallGroup.t) : bool :=
  Sql.boolDesc (fun g => Hall.isPremium (HallGroup.h g)) a b.

Definition newestFirst (a b : HallGroup.t) : bool :=
  Sql.desc (fun g => Hall.createdAt (HallGroup.h g)) a b.

(** The ORDER BY clause of each sort mode. *)
Definition sortOrderOf (sortBy : HallSortBy) : HallGroup.t -> HallGroup.t -> bool :=
  match sortBy with
  | price_asc => Sql.ascNullsLast HallGroup.min_price
  | price_desc => Sql.descNullsLast HallGroup.min_price
  | capacity_desc => Sql.descNullsLast (fun g => Hall.capacity (HallGroup.h g))
  | relevance =>
      Sql.thenBy premiumFirst
        (Sql.thenBy (Sql.ascNullsLast HallGroup.min_price) newestFirst)
  | featured => Sql.thenBy premiumFirst newestFirst
  end.

(** The grouped, filtered and ordered rows, before OFFSET and LIMIT. *)
Definition groupedRows (filters : HallSearchFilters.t) (db : Db)
  : list HallGroup.t :=
  let sortBy :=
    match HallSearchFilters.sortBy filters with
    | Some s => s
    | None => featured
    end in
  Sql.orderBy (sortOrderOf sortBy)
    (filter (having filters) (flat_map (groupOf filters db) (halls db))).

Definition toCard (g : HallGroup.t) : M PublicHallCardDTO.t :=
  let hall := HallGroup.h g in
  let startingFromPrice := HallGroup.min_price g in
  let startingFromCurrency :=
    match startingFromPrice with
    | Some _ => HallGroup.min_currency g
    | None => None
    end in
  hero <- MediaService.getPrimaryMediaForHall (Hall.id hall) (lit "HERO") ;;
  ret {| PublicHallCardDTO.id := Hall.id hall;
         PublicHallCardDTO.name := Hall.name hall;
         PublicHallCardDTO.slug := Hall.slug hall;
         PublicHallCardDTO.city := Hall.city hall;
         PublicHallCardDTO.capacity := Hall.capacity hall;
         PublicHallCardDTO.isPremium := Hall.isPremium hall;
         PublicHallCardDTO.heroImageUrl := option_map Media.fileUrl hero;
         PublicHallCardDTO.startingFromPrice := startingFromPrice;
         PublicHallCardDTO.startingFromCurrency := startingFromCurrency |}.

(** [getCount()] on the query. TypeORM counts the distinct keys of the halls
    over the joined rows that pass WHERE, without the GROUP BY and ORDER BY
    of the query and with its HAVING, which PostgreSQL then applies to the
    one group of all those rows: when it does not hold there, the count
    query answers no row and [getCount()] is 0. *)
Definition getCount (filters : HallSearchFilters.t) (db : Db) : Z :=
  let rows :=
    flat_map (fun h => filter (whereRow filters db h) (joinedRows db h))
      (halls db) in
  let hprs := Sql.notNull (map snd rows) in
  if havingPrice filters (Sql.minZ (map HallProductRate.price hprs))
  then Z.of_nat (List.length (flat_map (groupOf filters db) (halls db)))
  else 0%Z.

Definition getPublicHallList (filters : HallSearchFilters.t)
  : M (Page PublicHallCardDTO.t) :=
  let page := Z.pos (HallSearchFilters.page filters) in
  let limit := Z.pos (HallSearchFilters.limit filters) in
  let offset := ((page - 1) * limit)%Z in
  total <- gets (getCount filters) ;;
  all <- gets (groupedRows filters) ;;
  match Sql.skipTake offset limit all with
  | Some rows =>
      data <- mapM toCard rows ;;
      ret {| data := data; page := page; limit := limit; total := total |}
  | None => throw (QueryFailedError "OFFSET or LIMIT is negative")
  end.

Definition toPublicRate (r : HallProductRateDTO) : PublicHallRateDTO.t :=
  {| PublicHallRateDTO.id := HallProductRate.id r;
     PublicHallRateDTO.label := HallProductRate.label r;
     PublicHallRateDTO.currency := HallProductRate.currency r;
     PublicHallRateDTO.price := HallProductRate.price r;
     PublicHallRateDTO.billingUnit := HallProductRate.billingUnit r;
     PublicHallRateDTO.minHours := HallProductRate.minHours r;
     PublicHallRateDTO.maxHours := HallProductRate.maxHours r;
     PublicHallRateDTO.extraUnitPrice := HallProductRate.extraUnitPrice r;
     PublicHallRateDTO.dayOfWeekMask := HallProductRate.dayOfWeekMask r;
     PublicHallRateDTO.seasonStart := HallProductRate.seasonStart r;
     PublicHallRateDTO.seasonEnd := HallProductRate.seasonEnd r;
     PublicHallRateDTO.isDefault := HallProductRate.isDefault r |}.

Definition toPublicProduct (product : HallProductDTO) : M PublicHallProductDTO.t :=
  rateDTOs <- PricingService.listHallProductRates (HallProduct.id product) ;;
  ret {| PublicHallProductDTO.id := HallProduct.id product;
         PublicHallProductDTO.name := HallProduct.name product;
         PublicHallProductDTO.category := HallProduct.category product;
         PublicHallProductDTO.description := HallProduct.description product;
         PublicHallProductDTO.isPrimary := HallProduct.isPrimary product;
         PublicHallProductDTO.rates := map toPublicRate rateDTOs |}.

Definition toPublicAddon (a : HallAddonDTO) : PublicHallAddonDTO.t :=
  {| PublicHallAddonDTO.id := HallAddon.id a;
     PublicHallAddonDTO.name := HallAddon.name a;
     PublicHallAddonDTO.description := HallAddon.description a;
     PublicHallAddonDTO.pricingModel := HallAddon.pricingModel a;
     PublicHallAddonDTO.currency := HallAddon.currency a;
     PublicHallAddonDTO.unitPrice := HallAddon.unitPrice a;
     PublicHallAddonDTO.packSize := HallAddon.packSize a;
     PublicHallAddonDTO.isActive := HallAddon.isActive a |}.

Definition getPublicHallDetail (slug : jsstring) : M PublicHallDetailDTO.t :=
  hall <- HallService.getHallBySlug slug ;;
  if negb (HallStatus_eqb (Hall.status hall) ACTIVE)
  then throw (NotFoundError "Hall not found")
  else
    hero <- MediaService.getPrimaryMediaForHall (Hall.id hall) (lit "HERO") ;;
    gallery <- MediaService.listMediaForHall (Hall.id hall) None (Some IMAGE) ;;
    productDTOs <- PricingService.getActiveProductsForHall (Hall.id hall) ;;
    publicProducts <- mapM toPublicProduct productDTOs ;;
    addonDTOs <- PricingService.listHallAddons (Hall.id hall) (Some true) ;;
    ret {| PublicHallDetailDTO.id := Hall.id hall;
           PublicHallDetailDTO.name := Hall.name hall;
           PublicHallDetailDTO.slug := Hall.slug hall;
           PublicHallDetailDTO.address := Hall.address hall;
           PublicHallDetailDTO.city := Hall.city hall;
           PublicHallDetailDTO.capacity := Hall.capacity hall;
           PublicHallDetailDTO.description := Hall.description hall;
           PublicHallDetailDTO.cancellationPolicy := Hall.cancellationPolicy hall;
           PublicHallDetailDTO.isPremium := Hall.isPremium hall;
           PublicHallDetailDTO.heroImageUrl := option_map Media.fileUrl hero;
           PublicHallDetailDTO.gallery := gallery;
           PublicHallDetailDTO.products := publicProducts;
           PublicHallDetailDTO.addons := map toPublicAddon addonDTOs |}.

End WithBuiltins.
End HallQueryService.

(** ** host-application.service.ts *)

Definition HostApplicationDTO := HostApplication.t.

Module UpdateHostApplicationStatusPayload.
Record t := {
  status : HostApplicationStatus;
  adminNotes : option jsstring;
  reviewedByUserId : option uuid
}.
End UpdateHostApplicationStatusPayload.

Module CreateHostApplicationPayload.
Record t := {
  hallName : jsstring;
  address : option jsstring;
  city : option jsstring;
  capacity : option Z;
  description : option jsstring;
  additionalDetails : option jsstring;
  contactName : jsstring;
  contactEmail : jsstring;
  contactPhone : option jsstring;
  contactWhatsapp : option jsstring;
  applicantUserId : option uuid
}.
End CreateHostApplicationPayload.

Module HostApplicationService.
Section WithBuiltins.
Context `{Builtins}.

Definition toDTO (entity : HostApplication.t) : HostApplicationDTO := entity.

(** [a ?? b] *)
Definition orElse {A : Type} (a b : option A) : option A :=
  match a with Some _ => a | None => b end.

(** Whether the assignments of a status update change a column of the
    application. *)
Definition applicationChanged (entity : HostApplication.t)
  (payload : UpdateHostApplicationStatusPayload.t) : bool :=
  let status := UpdateHostApplicationStatusPayload.status payload in
  negb (HostApplicationStatus_eqb status (HostApplication.status entity))
  || negb (option_eqb Js.eqb
             (orElse (UpdateHostApplicationStatusPayload.adminNotes payload)
                (HostApplication.adminNotes entity))
             (HostApplication.adminNotes entity))
  || negb (option_eqb N.eqb
             (orElse (UpdateHostApplicationStatusPayload.reviewedByUserId payload)
                (HostApplication.reviewedByUserId entity))
             (HostApplication.reviewedByUserId entity))
  || match HostApplication.reviewedAt entity with
     | None =>
         HostApplicationStatus_eqb status APPROVED
         || HostApplicationStatus_eqb status REJECTED
     | Some _ => false
     end.

Definition updateHostApplicationStatus (id : uuid)
  (payload : UpdateHostApplicationStatusPayload.t) (now : time)
  : M HostApplicationDTO :=
  found <- gets (fun db =>
    find (fun a => HostApplication.id a =? id) (hostApplications db)) ;;
  match found with
  | None => throw (NotFoundError "Host application not found")
  | Some entity =>
      let previousStatus := HostApplication.status entity in
      let status := UpdateHostApplicationStatusPayload.status payload in
      let isFinalStatus :=
        HostApplicationStatus_eqb status APPROVED
        || HostApplicationStatus_eqb status REJECTED in
      let saved :=
        {| HostApplication.id := HostApplication.id entity;
           HostApplication.applicantUserId := HostApplication.applicantUserId entity;
           HostApplication.hallName := HostApplication.hallName entity;
           HostApplication.address := HostApplication.address entity;
           HostApplication.city := HostApplication.city entity;
           HostApplication.capacity := HostApplication.capacity entity;
           HostApplication.description := HostApplication.description entity;
           HostApplication.additionalDetails :=
             HostApplication.additionalDetails entity;
           HostApplication.contactName := HostApplication.contactName entity;
           HostApplication.contactEmail := HostApplication.contactEmail entity;
           HostApplication.contactPhone := HostApplication.contactPhone entity;
           HostApplication.contactWhatsapp :=
             HostApplication.contactWhatsapp entity;
           HostApplication.status := status;
           HostApplication.adminNotes :=
             orElse (UpdateHostApplicationStatusPayload.adminNotes payload)
               (HostApplication.adminNotes entity);
           HostApplication.reviewedByUserId :=
             orElse (UpdateHostApplicationStatusPayload.reviewedByUserId payload)
               (HostApplication.reviewedByUserId entity);
           HostApplication.reviewedAt :=
             match HostApplication.reviewedAt entity with
             | None => if isFinalStatus then Some now else None
             | Some t => Some t
             end;
           HostApplication.createdAt := HostApplication.createdAt entity;
           HostApplication.updatedAt :=
             if applicationChanged entity payload then now
             else HostApplication.updatedAt entity |} in
      modify (fun db =>
        setHostApplications
          (map (fun a => if HostApplication.id a =? id then saved else a)
             (hostApplications db)) db) ;;;
      let justApproved :=
        negb (HostApplicationStatus_eqb previousStatus APPROVED)
        && HostApplicationStatus_eqb status APPROVED in
      match justApproved, HostApplication.applicantUserId entity with
      | true, Some applicant =>
          _ <- HallService.createHall
            {| CreateHallPayload.name := HostApplication.hallName entity;
               CreateHallPayload.slug := None;
               CreateHallPayload.address := HostApplication.address entity;
               CreateHallPayload.city := HostApplication.city entity;
               CreateHallPayload.capacity := HostApplication.capacity entity;
               CreateHallPayload.description := HostApplication.description entity;
               CreateHallPayload.cancellationPolicy := None;
               CreateHallPayload.isPremium := Some false;
               CreateHallPayload.status := Some DRAFT;
               CreateHallPayload.gerantId := Some applicant |} now ;;
          ret (toDTO saved)
      | _, _ => ret (toDTO saved)
      end
  end.

Definition createHostApplication (payload : CreateHostApplicationPayload.t)
  (now : time) : M HostApplicationDTO :=
  id <- generateId ;;
  let saved :=
    {| HostApplication.id := id;
       HostApplication.applicantUserId :=
         CreateHostApplicationPayload.applicantUserId payload;
       HostApplication.hallName :=
         trim (CreateHostApplicationPayload.hallName payload);
       HostApplication.address := CreateHostApplicationPayload.address payload;
       HostApplication.city := CreateHostApplicationPayload.city payload;
       HostApplication.capacity := CreateHostApplicationPayload.capacity payload;
       HostApplication.description :=
         CreateHostApplicationPayload.description payload;
       HostApplication.additionalDetails :=
         CreateHostApplicationPayload.additionalDetails payload;
       HostApplication.contactName :=
         trim (CreateHostApplicationPayload.contactName payload);
       HostApplication.contactEmail :=
         toLowerCase (trim (CreateHostApplicationPayload.contactEmail payload));
       HostApplication.contactPhone :=
         CreateHostApplicationPayload.contactPhone payload;
       HostApplication.contactWhatsapp :=
         CreateHostApplicationPayload.contactWhatsapp payload;
       HostApplication.status := NEW;
       HostApplication.adminNotes := None;
       HostApplication.reviewedByUserId := None;
       HostApplication.reviewedAt := None;
       HostApplication.createdAt := now;
       HostApplication.updatedAt := now |} in
  modify (fun db => setHostApplications (hostApplications db ++ [saved]) db) ;;;
  ret (toDTO saved).

Definition getHostApplicationById (id : uuid) : M HostApplicationDTO :=
  found <- gets (fun db =>
    find (fun a => HostApplication.id a =? id) (hostApplications db)) ;;
  match found with
  | None => throw (NotFoundError "Host application not found")
  | Some entity => ret (toDTO entity)
  end.

End WithBuiltins.
End HostApplicationService.

(** ** A concrete platform

    The built-ins on Basic Latin and the Latin-1 Supplement; a code unit
    outside these blocks is left as it is. The examples run on it. *)

Module Latin1.

Definition lowerChar (c : char) : char :=
  if ((65 <=? c) && (c <=? 90))
     || ((192 <=? c) && (c <=? 222) && negb (c =? 215))
  then c + 32 else c.

Definition toLowerCase (s : jsstring) : jsstring := map lowerChar s.

(** The canonical decompositions of the capital letters of the Latin-1
    Supplement: the letter, its base letter and its combining mark. *)
Definition decompositions : list (char * (char * char)) :=
  [ (192, (65, 768)); (193, (65, 769)); (194, (65, 770)); (195, (65, 771));
    (196, (65, 776)); (197, (65, 778)); (199, (67, 807)); (200, (69, 768));
    (201, (69, 769)); (202, (69, 770)); (203, (69, 776)); (204, (73, 768));
    (205, (73, 769)); (206, (73, 770)); (207, (73, 776)); (209, (78, 771));
    (210, (79, 768)); (211, (79, 769)); (212, (79, 770)); (213, (79, 771));
    (214, (79, 776)); (217, (85, 768)); (218, (85, 769)); (219, (85, 770));
    (220, (85, 776)); (221, (89, 769)) ].

Definition decompose (c : char) : jsstring :=
  if c =? 255 then [121; 776]
  else
    let capital := if (224 <=? c) && (c <=? 254) then c - 32 else c in
    let shift := c - capital in
    match find (fun e => fst e =? capital) decompositions with
    | Some (_, (base, mark)) => [base + shift; mark]
    | None => [c]
    end.

Definition normalizeNFD (s : jsstring) : jsstring := flat_map decompose s.

(** [LIKE]: [%] stands for any run of units, [_] for any one unit, and a
    backslash makes the unit after it stand for itself. A pattern that ends
    with a backslash, which PostgreSQL refuses, matches nothing. *)
Fixpoint like (pattern text : jsstring) : bool :=
  match pattern with
  | [] => match text with [] => true | _ :: _ => false end
  | p :: pattern' =>
      if p =? 37 then
        (fix anySuffix (t : jsstring) : bool :=
           like pattern' t
           || match t with [] => false | _ :: t' => anySuffix t' end) text
      else if p =? 92 then
        match pattern', text with
        | q :: pattern'', c :: text' => (q =? c) && like pattern'' text'
        | _, _ => false
        end
      else
        match text with
        | [] => false
        | c :: text' => ((p =? 95) || (p =? c)) && like pattern' text'
        end
  end.

Definition ilike (text pattern : jsstring) : bool :=
  like (toLowerCase pattern) (toLowerCase text).

End Latin1.

(** * Properties *)

(** ** Strings *)

Lemma jseqb_eq (s t : jsstring) : Js.eqb s t = true <-> s = t.
Proof.
  unfold Js.eqb. destruct (list_eq_dec N.eq_dec s t); split; congruence.
Qed.

Lemma jseqb_refl (s : jsstring) : Js.eqb s s = true.
Proof. now apply jseqb_eq. Qed.

Lemma jseqb_neq (s t : jsstring) : Js.eqb s t = false <-> s <> t.
Proof.
  unfold Js.eqb. destruct (list_eq_dec N.eq_dec s t); split; congruence.
Qed.

Lemma dropWhile_suffix (p : char -> bool) (s : jsstring) :
  exists pre, s = pre ++ dropWhile p s.
Proof.
  induction s as [|c s IH]; simpl.
  - now exists [].
  - destruct (p c).
    + destruct IH as [pre E]. exists (c :: pre). simpl. now f_equal.
    + now exists [].
Qed.

(** The first unit, if any, does not satisfy [p]. *)
Definition headOk (p : char -> bool) (s : jsstring) : bool :=
  match s with [] => true | c :: _ => negb (p c) end.

Lemma dropWhile_headOk (p : char -> bool) (s : jsstring) :
  headOk p (dropWhile p s) = true.
Proof.
  induction s as [|c s IH]; simpl; auto.
  destruct (p c) eqn:E; auto. simpl. now rewrite E.
Qed.

Lemma dropWhile_fixed (p : char -> bool) (s : jsstring) :
  headOk p s = true -> dropWhile p s = s.
Proof.
  destruct s as [|c s]; simpl; auto.
  now destruct (p c).
Qed.

Lemma strip_infix (p : char -> bool) (s : jsstring) :
  exists pre post, s = pre ++ strip p s ++ post.
Proof.
  unfold strip.
  destruct (dropWhile_suffix p s) as [pre E].
  destruct (dropWhile_suffix p (rev (dropWhile p s))) as [post' E'].
  exists pre, (rev post').
  rewrite <- rev_app_distr, <- E', rev_involutive. exact E.
Qed.

Lemma strip_headOk (p : char -> bool) (s : jsstring) :
  headOk p (strip p s) = true.
Proof.
  unfold strip.
  pose proof (dropWhile_headOk p s) as Ha.
  destruct (dropWhile_suffix p (rev (dropWhile p s))) as [pre E].
  remember (dropWhile p (rev (dropWhile p s))) as b eqn:Eb.
  apply (f_equal (@rev char)) in E.
  rewrite rev_involutive, rev_app_distr in E.
  destruct (rev b) as [|c r] eqn:Er; auto.
  rewrite E in Ha. simpl in *. exact Ha.
Qed.

Lemma strip_idempotent (p : char -> bool) (s : jsstring) :
  strip p (strip p s) = strip p s.
Proof.
  pose proof (strip_headOk p s) as Hh.
  unfold strip at 1.
  rewrite (dropWhile_fixed p _ Hh).
  unfold strip. rewrite rev_involutive.
  rewrite (dropWhile_fixed p (dropWhile p _)); auto.
  apply dropWhile_headOk.
Qed.

Lemma strip_fixed_nil (p : char -> bool) : strip p [] = [].
Proof. reflexivity. Qed.

Lemma uintChars_inj (u v : Decimal.uint) : uintChars u = uintChars v -> u = v.
Proof.
  revert v. induction u; destruct v; simpl; intros E;
    try discriminate; try reflexivity;
    injection E as E; f_equal; now apply IHu.
Qed.

Lemma decimal_inj (m n : N) : decimal m = decimal n -> m = n.
Proof.
  unfold decimal. intros E. apply DecimalN.Unsigned.to_uint_inj.
  now apply uintChars_inj.
Qed.

(** ** The shape of a slug *)

(** Units of the slug alphabet, no two hyphens in a row; [prevHyphen] says
    that a hyphen stands before the string. *)
Fixpoint singleHyphens (prevHyphen : bool) (s : jsstring) : bool :=
  match s with
  | [] => true
  | c :: s' =>
      if isAlnum c then singleHyphens false s'
      else (c =? hyphen) && negb prevHyphen && singleHyphens true s'
  end.

Lemma singleHyphens_weaken (b : bool) (s : jsstring) :
  singleHyphens b s = true -> singleHyphens false s = true.
Proof.
  destruct s as [|c s]; simpl; auto.
  destruct (isAlnum c); auto.
  destruct b; simpl; auto.
  rewrite andb_false_r. discriminate.
Qed.

Lemma singleHyphens_prefix (b : bool) (s t : jsstring) :
  singleHyphens b (s ++ t) = true -> singleHyphens b s = true.
Proof.
  revert b. induction s as [|c s IH]; simpl; intros b E; auto.
  destruct (isAlnum c).
  - now apply IH.
  - apply andb_true_iff in E. destruct E as [E1 E2].
    rewrite E1. simpl. now apply IH.
Qed.

Lemma singleHyphens_suffix (b : bool) (s t : jsstring) :
  singleHyphens b (s ++ t) = true -> singleHyphens false t = true.
Proof.
  revert b. induction s as [|c s IH]; simpl; intros b E.
  - now apply singleHyphens_weaken with b.
  - destruct (isAlnum c).
    + now apply IH with false.
    + apply andb_true_iff in E. destruct E as [_ E]. now apply IH with true.
Qed.

Lemma singleHyphens_slugChars (b : bool) (s : jsstring) :
  singleHyphens b s = true -> forallb isSlugChar s = true.
Proof.
  revert b. induction s as [|c s IH]; simpl; intros b E; auto.
  unfold isSlugChar at 1.
  destruct (isAlnum c); simpl.
  - now apply IH with false.
  - apply andb_true_iff in E. destruct E as [E1 E2].
    apply andb_true_iff in E1. destruct E1 as [E1 _].
    rewrite E1. simpl. now apply IH with true.
Qed.

Lemma isAlnum_not_hyphen (c : char) : isAlnum c = true -> (hyphen =? c) = false.
Proof.
  unfold isAlnum, hyphen. intros E. apply N.eqb_neq. intros <-.
  vm_compute in E. discriminate.
Qed.

Lemma isSlugChar_not_combining (c : char) :
  isSlugChar c = true -> negb (isCombiningMark c) = true.
Proof.
  unfold isSlugChar, isAlnum, isCombiningMark, hyphen. intros E.
  apply negb_true_iff. apply andb_false_iff.
  destruct (N.leb_spec 768 c) as [L|L]; [right|now left].
  apply N.leb_gt.
  repeat (apply orb_true_iff in E; destruct E as [E|E]);
    try (apply andb_true_iff in E; destruct E as [_ E]; apply N.leb_le in E; lia).
  apply N.eqb_eq in E. lia.
Qed.

Section Slugify.
Context `{Builtins}.

Lemma replaceNonAlnumRuns_singleHyphens (b : bool) (s : jsstring) :
  singleHyphens b (HallService.replaceNonAlnumRuns b s) = true.
Proof.
  revert b. induction s as [|c s IH]; simpl; intros b; auto.
  destruct (isAlnum c) eqn:E.
  - simpl. rewrite E. apply IH.
  - destruct b.
    + apply IH.
    + cbn [singleHyphens].
      replace (isAlnum hyphen) with false by reflexivity.
      rewrite N.eqb_refl. simpl. apply IH.
Qed.

Lemma replaceNonAlnumRuns_fixed (b : bool) (s : jsstring) :
  singleHyphens b s = true -> HallService.replaceNonAlnumRuns b s = s.
Proof.
  revert b. induction s as [|c s IH]; simpl; intros b E; auto.
  destruct (isAlnum c).
  - f_equal. now apply IH.
  - apply andb_true_iff in E. destruct E as [E1 E2].
    apply andb_true_iff in E1. destruct E1 as [Ec Eb].
    apply N.eqb_eq in Ec. subst c.
    destruct b; [discriminate|].
    f_equal. now apply IH.
Qed.

(** A string of the shape of a slug is a fixed point of [slugify]. *)
Lemma slugify_fixed (s : jsstring) :
  singleHyphens false s = true ->
  HallService.trimHyphens s = s ->
  HallService.slugify s = s.
Proof.
  intros Hs Ht. unfold HallService.slugify.
  pose proof (singleHyphens_slugChars _ _ Hs) as Hc.
  rewrite (toLowerCase_slug s Hc), (normalizeNFD_slug s Hc).
  rewrite forallb_filter_id.
  - now rewrite (replaceNonAlnumRuns_fixed _ _ Hs).
  - rewrite forallb_forall in *. intros c Hin.
    apply isSlugChar_not_combining. now apply Hc.
Qed.

Lemma slugify_shape (s : jsstring) :
  singleHyphens false (HallService.slugify s) = true
  /\ HallService.trimHyphens (HallService.slugify s) = HallService.slugify s.
Proof.
  unfold HallService.slugify, HallService.trimHyphens. split.
  - set (y := HallService.replaceNonAlnumRuns false _).
    destruct (strip_infix (N.eqb hyphen) y) as (pre & post & E).
    pose proof (replaceNonAlnumRuns_singleHyphens false
                  (filter (fun c => negb (isCombiningMark c))
                     (normalizeNFD (toLowerCase s)))) as Hy.
    fold y in Hy. rewrite E in Hy.
    apply singleHyphens_suffix in Hy.
    now apply singleHyphens_prefix in Hy.
  - apply strip_idempotent.
Qed.

Lemma slugify_idempotent (s : jsstring) :
  HallService.slugify (HallService.slugify s) = HallService.slugify s.
Proof.
  destruct (slugify_shape s) as [Hs Ht]. now apply slugify_fixed.
Qed.

End Slugify.

(** ** The concrete platform satisfies the laws *)

Lemma isSlugChar_range (c : char) : isSlugChar c = true -> 45 <= c <= 122.
Proof.
  unfold isSlugChar, isAlnum, hyphen. intros E.
  repeat (apply orb_true_iff in E; destruct E as [E|E]);
    try (apply andb_true_iff in E; destruct E as [E1 E2];
         apply N.leb_le in E1; apply N.leb_le in E2; lia).
  apply N.eqb_eq in E. lia.
Qed.

Lemma lowerChar_slug (c : char) : isSlugChar c = true -> Latin1.lowerChar c = c.
Proof.
  intros E. apply isSlugChar_range in E as R.
  unfold Latin1.lowerChar.
  destruct (N.leb_spec 192 c); [lia|].
  destruct (N.leb_spec 65 c); simpl; auto.
  destruct (N.leb_spec c 90); simpl; auto.
  exfalso. unfold isSlugChar, isAlnum, hyphen in E.
  destruct (N.leb_spec 97 c); [lia|].
  destruct (N.leb_spec 48 c); [|lia].
  destruct (N.leb_spec c 57); [lia|].
  destruct (N.eqb_spec c 45); [lia|]. discriminate.
Qed.

Lemma find_decomposition_none (c : char) :
  c < 192 -> find (fun e => fst e =? c) Latin1.decompositions = None.
Proof.
  intros L.
  destruct (find (fun e => fst e =? c) Latin1.decompositions)
    as [[k [b m]]|] eqn:F; [|reflexivity].
  exfalso. apply find_some in F. destruct F as [Hin Hf].
  apply N.eqb_eq in Hf. simpl in Hf. subst k.
  unfold Latin1.decompositions in Hin. simpl in Hin.
  repeat (destruct Hin as [Hin|Hin]; [injection Hin as ? ? ?; lia|]).
  exact Hin.
Qed.

Lemma decompose_slug (c : char) : isSlugChar c = true -> Latin1.decompose c = [c].
Proof.
  intros E. apply isSlugChar_range in E.
  unfold Latin1.decompose.
  destruct (N.eqb_spec c 255); [lia|].
  destruct (N.leb_spec 224 c); [lia|].
  cbn [andb]. cbv zeta.
  rewrite find_decomposition_none by lia. reflexivity.
Qed.

Lemma Latin1_toLowerCase_slug (s : jsstring) :
  forallb isSlugChar s = true -> Latin1.toLowerCase s = s.
Proof.
  induction s as [|c s IH]; simpl; intros E; auto.
  apply andb_true_iff in E. destruct E as [Ec Es].
  now rewrite (lowerChar_slug c Ec), (IH Es).
Qed.

Lemma Latin1_normalizeNFD_slug (s : jsstring) :
  forallb isSlugChar s = true -> Latin1.normalizeNFD s = s.
Proof.
  induction s as [|c s IH]; simpl; intros E; auto.
  apply andb_true_iff in E. destruct E as [Ec Es].
  unfold Latin1.normalizeNFD in *. simpl.
  now rewrite (decompose_slug c Ec), (IH Es).
Qed.

Definition latin1 : Builtins :=
  {| toLowerCase := Latin1.toLowerCase;
     normalizeNFD := Latin1.normalizeNFD;
     sqlLower := Latin1.toLowerCase;
     ilike := Latin1.ilike;
     toLowerCase_slug := Latin1_toLowerCase_slug;
     normalizeNFD_slug := Latin1_normalizeNFD_slug |}.

(** "Salle Élysée -- Kinshasa!" -> "salle-elysee-kinshasa" *)
Example slugify_example :
  @HallService.slugify latin1
    (lit "Salle " ++ [201] ++ lit "lys" ++ [233] ++ lit "e -- Kinshasa!")
  = lit "salle-elysee-kinshasa".
Proof. reflexivity. Qed.

Example slugify_symbols : @HallService.slugify latin1 (lit "!!!") = [].
Proof. reflexivity. Qed.

Example toString36_example : toString36 1730505600000 = lit "m2zecqo0".
Proof. vm_compute. reflexivity. Qed.

(** ** Service computations *)

Lemma bind_returned {A B : Type} (m : M A) (k : A -> M B) (db db' : Db) (a : A) :
  m db = (Returned a, db') -> bind m k db = k a db'.
Proof. unfold bind. now intros ->. Qed.

Lemma bind_thrown {A B : Type} (m : M A) (k : A -> M B) (db db' : Db) (e : AppError) :
  m db = (Thrown e, db') -> bind m k db = (Thrown e, db').
Proof. unfold bind. now intros ->. Qed.

(** ** Unique slugs *)

(** The candidate the loop tries at a value of its counter: the base, then
    base-2, base-3, ... *)
Definition candidateAt (baseSlug : jsstring) (counter : N) : jsstring :=
  if counter =? 1 then baseSlug else baseSlug ++ hyphen :: decimal counter.

Lemma candidateAt_inj (baseSlug : jsstring) (i j : N) :
  candidateAt baseSlug i = candidateAt baseSlug j -> i = j.
Proof.
  unfold candidateAt.
  destruct (N.eqb_spec i 1), (N.eqb_spec j 1); intros E; try congruence.
  - apply (f_equal (@List.length char)) in E.
    rewrite length_app in E. simpl in E. lia.
  - apply (f_equal (@List.length char)) in E.
    rewrite length_app in E. simpl in E. lia.
  - apply app_inv_head in E. injection E as E. now apply decimal_inj.
Qed.

Section UniqueSlug.
Context `{Builtins}.

(** The base of the candidates: the slugified input, or the fallback. *)
Definition baseSlugOf (now : time) (base : jsstring) : jsstring :=
  if truthy (HallService.slugify base) then HallService.slugify base
  else HallService.generateFallbackBaseSlug now.

Definition taken (db : Db) (excludeId : option uuid) (candidate : jsstring) : Prop :=
  HallService.existing db excludeId candidate <> None.

Lemma existing_some (db : Db) (excludeId : option uuid) (c : jsstring) (h : Hall.t) :
  HallService.existing db excludeId c = Some h ->
  In h (halls db) /\ Hall.slug h = c.
Proof.
  unfold HallService.existing. intros E. apply find_some in E.
  destruct E as [Hin E]. apply andb_true_iff in E. destruct E as [E _].
  split; auto. now apply jseqb_eq.
Qed.

Lemma existing_none (db : Db) (c : jsstring) :
  HallService.existing db None c = None ->
  Forall (fun h => Hall.slug h <> c) (halls db).
Proof.
  unfold HallService.existing. intros E. apply Forall_forall. intros h Hin.
  apply (find_none _ _ E) in Hin. rewrite andb_true_r in Hin.
  now apply jseqb_neq.
Qed.

Lemma existing_none_excluding (db : Db) (e : uuid) (c : jsstring) :
  HallService.existing db (Some e) c = None ->
  Forall (fun h => Hall.slug h = c -> Hall.id h = e) (halls db).
Proof.
  unfold HallService.existing. intros E. apply Forall_forall. intros h Hin Hs.
  apply (find_none _ _ E) in Hin.
  apply andb_false_iff in Hin. destruct Hin as [Hin|Hin].
  - apply jseqb_neq in Hin. contradiction.
  - apply negb_false_iff in Hin. now apply N.eqb_eq.
Qed.

Lemma taken_slug (db : Db) (excludeId : option uuid) (c : jsstring) :
  taken db excludeId c -> In c (map Hall.slug (halls db)).
Proof.
  unfold taken. destruct (HallService.existing db excludeId c) as [h|] eqn:E.
  - intros _. apply existing_some in E. destruct E as [Hin <-].
    now apply in_map.
  - congruence.
Qed.

(** What the loop does, entered at the counter [k]. *)
Lemma uniqueSlugLoop_spec (db : Db) (excludeId : option uuid) (baseSlug : jsstring) :
  forall (fuel : nat) (k : N), 1 <= k ->
  match
    HallService.uniqueSlugLoop fuel db excludeId baseSlug (candidateAt baseSlug k) k
  with
  | Some c =>
      exists j, k <= j /\ c = candidateAt baseSlug j
                /\ HallService.existing db excludeId c = None
                /\ forall i, k <= i < j -> taken db excludeId (candidateAt baseSlug i)
  | None =>
      forall i, k <= i < k + N.of_nat fuel ->
                taken db excludeId (candidateAt baseSlug i)
  end.
Proof.
  induction fuel as [|fuel IH]; intros k Hk.
  - simpl. intros i Hi. lia.
  - cbn [HallService.uniqueSlugLoop].
    destruct (HallService.existing db excludeId (candidateAt baseSlug k)) eqn:E.
    + assert (Ec : baseSlug ++ hyphen :: decimal (k + 1)
                   = candidateAt baseSlug (k + 1)).
      { unfold candidateAt. destruct (N.eqb_spec (k + 1) 1); [lia|reflexivity]. }
      rewrite Ec.
      specialize (IH (k + 1) ltac:(lia)).
      destruct (HallService.uniqueSlugLoop fuel db excludeId baseSlug
                  (candidateAt baseSlug (k + 1)) (k + 1)) as [c|].
      * destruct IH as (j & Hj & Hc & Hfree & Hbefore).
        exists j. repeat split; auto; try lia.
        intros i Hi. destruct (N.eq_dec i k) as [->|Hne].
        -- unfold taken. congruence.
        -- apply Hbefore. lia.
      * intros i Hi. destruct (N.eq_dec i k) as [->|Hne].
        -- unfold taken. congruence.
        -- apply IH. lia.
    + exists k. repeat split; auto; try lia.
Qed.

(** Pigeonhole: the candidates are pairwise distinct, so n halls cannot
    hold n + 1 of them. *)
Lemma uniqueSlugLoop_ends (db : Db) (excludeId : option uuid) (baseSlug : jsstring) :
  HallService.uniqueSlugLoop (S (List.length (halls db))) db excludeId baseSlug
    baseSlug 1 <> None.
Proof.
  intros E.
  pose proof (uniqueSlugLoop_spec db excludeId baseSlug
                (S (List.length (halls db))) 1 ltac:(lia)) as Hspec.
  change (candidateAt baseSlug 1) with baseSlug in Hspec. rewrite E in Hspec.
  set (n := List.length (halls db)) in *.
  set (cands := map (fun i => candidateAt baseSlug (N.of_nat i)) (seq 1 (S n))).
  assert (Hnd : NoDup cands).
  { apply NoDup_map_NoDup_ForallPairs; [|apply seq_NoDup].
    intros i j _ _ Eij. apply candidateAt_inj in Eij. lia. }
  assert (Hincl : incl cands (map Hall.slug (halls db))).
  { intros c Hc. apply in_map_iff in Hc. destruct Hc as (i & <- & Hi).
    apply in_seq in Hi. apply taken_slug with excludeId. apply Hspec. lia. }
  pose proof (NoDup_incl_length Hnd Hincl) as L.
  unfold cands in L. rewrite !length_map, length_seq in L. unfold n in L. lia.
Qed.

Lemma generateUniqueSlug_spec (now : time) (base : jsstring)
  (excludeId : option uuid) (db : Db) :
  exists c j,
    HallService.generateUniqueSlug now base excludeId db = (Returned c, db)
    /\ HallService.existing db excludeId c = None
    /\ 1 <= j /\ c = candidateAt (baseSlugOf now base) j
    /\ forall i, 1 <= i < j ->
                 taken db excludeId (candidateAt (baseSlugOf now base) i).
Proof.
  unfold HallService.generateUniqueSlug. fold (baseSlugOf now base).
  pose proof (uniqueSlugLoop_ends db excludeId (baseSlugOf now base)) as Hend.
  pose proof (uniqueSlugLoop_spec db excludeId (baseSlugOf now base)
                (S (List.length (halls db))) 1 ltac:(lia)) as Hspec.
  change (candidateAt (baseSlugOf now base) 1) with (baseSlugOf now base) in Hspec.
  destruct (HallService.uniqueSlugLoop _ db excludeId _ _ 1) as [c|];
    [|congruence].
  destruct Hspec as (j & Hj & Hc & Hfree & Hbefore).
  exists c, j. repeat split; auto.
Qed.



End UniqueSlug.

(** ** The slugs the service stores are in normal form *)

Lemma strip_fixed (p : char -> bool) (s : jsstring) :
  headOk p s = true -> headOk p (rev s) = true -> strip p s = s.
Proof.
  intros H1 H2. unfold strip.
  rewrite (dropWhile_fixed p s H1), (dropWhile_fixed p (rev s) H2).
  apply rev_involutive.
Qed.

Lemma strip_lastOk (p : char -> bool) (s : jsstring) :
  headOk p (rev (strip p s)) = true.
Proof. unfold strip. rewrite rev_involutive. apply dropWhile_headOk. Qed.

(** The slug alphabet, single hyphens, none at either end. *)
Definition slugShape (s : jsstring) : Prop :=
  singleHyphens false s = true
  /\ headOk (N.eqb hyphen) s = true
  /\ headOk (N.eqb hyphen) (rev s) = true.

(** Whether a hyphen stands last, [b] saying so of what is before [s]. *)
Fixpoint endsInHyphen (b : bool) (s : jsstring) : bool :=
  match s with
  | [] => b
  | c :: s' => endsInHyphen (c =? hyphen) s'
  end.

Lemma singleHyphens_app (b : bool) (s t : jsstring) :
  singleHyphens b (s ++ t) = singleHyphens b s && singleHyphens (endsInHyphen b s) t.
Proof.
  revert b. induction s as [|c s IH]; intros b; simpl; auto.
  destruct (isAlnum c) eqn:Ea.
  - rewrite IH. apply isAlnum_not_hyphen in Ea. rewrite N.eqb_sym in Ea.
    now rewrite Ea.
  - destruct (c =? hyphen); simpl; auto.
    destruct b; simpl; auto.
Qed.

Lemma endsInHyphen_last (b : bool) (s : jsstring) (c : char) :
  endsInHyphen b (s ++ [c]) = (c =? hyphen).
Proof. revert b. induction s as [|x s IH]; intros b; simpl; auto. Qed.

Lemma endsInHyphen_lastOk (s : jsstring) :
  s <> [] -> headOk (N.eqb hyphen) (rev s) = true -> endsInHyphen false s = false.
Proof.
  intros Hne Hh. rewrite <- (rev_involutive s).
  destruct (rev s) as [|c r] eqn:E.
  - apply (f_equal (@rev char)) in E. rewrite rev_involutive in E.
    simpl in E. contradiction.
  - simpl. rewrite endsInHyphen_last. simpl in Hh.
    apply negb_true_iff in Hh. now rewrite N.eqb_sym.
Qed.

Lemma singleHyphens_alnum (b : bool) (d : jsstring) :
  forallb isAlnum d = true -> singleHyphens b d = true.
Proof.
  revert b. induction d as [|c d IH]; intros b; simpl; auto.
  intros E. apply andb_true_iff in E. destruct E as [Ec Ed].
  rewrite Ec. now apply IH.
Qed.

Lemma forallb_rev {A : Type} (p : A -> bool) (l : list A) :
  forallb p l = true -> forallb p (rev l) = true.
Proof.
  rewrite !forallb_forall. intros F x Hx. apply F. now apply in_rev.
Qed.

Lemma headOk_rev_alnum (d x : jsstring) :
  d <> [] -> forallb isAlnum d = true ->
  headOk (N.eqb hyphen) (rev d ++ x) = true.
Proof.
  intros Hne Ha. apply forallb_rev in Ha.
  destruct (rev d) as [|c r] eqn:E.
  - apply (f_equal (@rev char)) in E. rewrite rev_involutive in E.
    simpl in E. contradiction.
  - simpl in *. apply andb_true_iff in Ha. destruct Ha as [Hc _].
    apply negb_true_iff. now apply isAlnum_not_hyphen.
Qed.

(** A slug followed by a hyphen and letters or digits is a slug. *)
Lemma slugShape_suffixed (base d : jsstring) :
  slugShape base -> base <> [] -> d <> [] -> forallb isAlnum d = true ->
  slugShape (base ++ hyphen :: d).
Proof.
  intros (Hs & Hh & Hl) Hb Hd Ha. repeat split.
  - rewrite singleHyphens_app, Hs, (endsInHyphen_lastOk base Hb Hl).
    cbn [andb singleHyphens].
    replace (isAlnum hyphen) with false by reflexivity.
    rewrite N.eqb_refl. simpl. now apply singleHyphens_alnum.
  - destruct base; [contradiction|exact Hh].
  - rewrite rev_app_distr. simpl. rewrite <- app_assoc. simpl.
    now apply headOk_rev_alnum.
Qed.

Lemma uintChars_alnum (u : Decimal.uint) : forallb isAlnum (uintChars u) = true.
Proof. induction u; simpl; auto. Qed.

Lemma decimal_nonempty (n : N) : decimal n <> [].
Proof.
  unfold decimal. destruct n as [|p]; [discriminate|].
  simpl. pose proof (DecimalPos.Unsigned.to_uint_nonnil p) as Hn.
  destruct (Pos.to_uint p); simpl; try discriminate. congruence.
Qed.

Lemma digitChar_alnum (d : N) : d < 36 -> isAlnum (digitChar d) = true.
Proof.
  intros L. unfold digitChar, isAlnum.
  destruct (N.ltb_spec d 10).
  - apply orb_true_iff. right. apply andb_true_iff. split; apply N.leb_le; lia.
  - apply orb_true_iff. left. apply andb_true_iff. split; apply N.leb_le; lia.
Qed.

Lemma toRadix_alnum (fuel : nat) (n : N) (acc : jsstring) :
  forallb isAlnum acc = true -> forallb isAlnum (toRadix fuel 36 n acc) = true.
Proof.
  revert n acc. induction fuel as [|fuel IH]; intros n acc Ha; simpl; auto.
  assert (Hd : forallb isAlnum (digitChar (n mod 36) :: acc) = true).
  { simpl. rewrite Ha, digitChar_alnum; auto. apply N.mod_lt. discriminate. }
  destruct (n / 36 =? 0); auto.
Qed.

Lemma toRadix_nonempty (fuel : nat) (n : N) (acc : jsstring) :
  acc <> [] -> toRadix fuel 36 n acc <> [].
Proof.
  revert n acc. induction fuel as [|fuel IH]; intros n acc Ha; simpl; auto.
  destruct (n / 36 =? 0); [discriminate|]. apply IH. discriminate.
Qed.

Lemma toString36_alnum (n : N) : forallb isAlnum (toString36 n) = true.
Proof. unfold toString36. now apply toRadix_alnum. Qed.

Lemma toString36_nonempty (n : N) : toString36 n <> [].
Proof.
  unfold toString36. cbn [toRadix].
  destruct (n / 36 =? 0); [discriminate|]. apply toRadix_nonempty. discriminate.
Qed.

Section NormalForm.
Context `{Builtins}.

Lemma slugShape_normal (s : jsstring) : slugShape s -> HallService.slugify s = s.
Proof.
  intros (Hs & Hh & Hl). apply slugify_fixed; auto.
  unfold HallService.trimHyphens. now apply strip_fixed.
Qed.

Lemma slugify_slugShape (s : jsstring) : slugShape (HallService.slugify s).
Proof.
  destruct (slugify_shape s) as [Hs Ht]. unfold HallService.trimHyphens in Ht.
  repeat split; auto.
  - rewrite <- Ht. apply strip_headOk.
  - rewrite <- Ht. apply strip_lastOk.
Qed.

Lemma fallback_slugShape (now : time) :
  slugShape (HallService.generateFallbackBaseSlug now).
Proof.
  unfold HallService.generateFallbackBaseSlug.
  change (lit "hall-" ++ toString36 now)
    with (lit "hall" ++ hyphen :: toString36 now).
  apply slugShape_suffixed.
  - repeat split.
  - discriminate.
  - apply toString36_nonempty.
  - apply toString36_alnum.
Qed.

Lemma baseSlugOf_slugShape (now : time) (base : jsstring) :
  slugShape (baseSlugOf now base) /\ baseSlugOf now base <> [].
Proof.
  unfold baseSlugOf.
  destruct (truthy (HallService.slugify base)) eqn:E.
  - split; [apply slugify_slugShape|].
    destruct (HallService.slugify base); discriminate.
  - split; [apply fallback_slugShape|].
    unfold HallService.generateFallbackBaseSlug. discriminate.
Qed.

(** Every candidate of the loop is a fixed point of [slugify]. *)
Lemma candidateAt_normal (now : time) (base : jsstring) (j : N) :
  HallService.slugify (candidateAt (baseSlugOf now base) j)
  = candidateAt (baseSlugOf now base) j.
Proof.
  destruct (baseSlugOf_slugShape now base) as [Hs Hne].
  apply slugShape_normal. unfold candidateAt.
  destruct (j =? 1); auto.
  apply slugShape_suffixed; auto.
  - apply decimal_nonempty.
  - apply uintChars_alnum.
Qed.

End NormalForm.

(** The tables of the pricing and media services. *)
Definition pricingTables (db : Db) :=
  (hallProducts db, hallProductRates db, hallAddons db, hallBlockedDates db).

Definition mediaTables (db : Db) := (media db, mediaTags db, mediaTagTypes db).

Definition ownerRow (id hallId userId : uuid) (now : time) : HallUserRole.t :=
  {| HallUserRole.id := id; HallUserRole.hall_id := hallId;
     HallUserRole.user_id := userId; HallUserRole.role := OWNER;
     HallUserRole.created_at := now |}.

(** ** createHall *)

Lemma list_ind2 {A : Type} (P : list A -> Prop) :
  P [] -> (forall a, P [a]) ->
  (forall a b l, P l -> P (b :: l) -> P (a :: b :: l)) ->
  forall l, P l.
Proof.
  intros H0 H1 H2 l.
  assert (Hboth : P l /\ forall a, P (a :: l)).
  { induction l as [|b l [IH1 IH2]]; split; auto. }
  apply Hboth.
Qed.

(** The units of the characters of a string are units of the string. *)
Lemma characters_units (s : jsstring) (e : jsstring) (c : char) :
  In e (characters s) -> In c e -> In c s.
Proof.
  revert e c. induction s as [|a|a b l IHl IHbl] using list_ind2; intros e c.
  - intros [].
  - intros [<-|[]] Hc. exact Hc.
  - cbn [characters].
    destruct (isHighSurrogate a && isLowSurrogate b).
    + intros [<-|He] Hc.
      * destruct Hc as [<-|[<-|[]]]; [now left|right; now left].
      * right. right. now apply IHl with e.
    + intros [<-|He] Hc.
      * destruct Hc as [<-|[]]. now left.
      * right. now apply IHbl with e.
Qed.

(** A string without a space is kept as it is by a varchar column, or
    refused. *)
Lemma varchar_no_space (n : nat) (s s' : jsstring) :
  ~ In space s -> Sql.varchar n s = Some s' -> s' = s.
Proof.
  intros Hns. unfold Sql.varchar.
  destruct (List.length (characters s) <=? n)%nat eqn:L; [congruence|].
  destruct (forallb (Js.eqb [space]) (skipn n (characters s))) eqn:F;
    [|discriminate].
  exfalso. apply Nat.leb_gt in L.
  destruct (skipn n (characters s)) as [|e rest] eqn:Sk.
  - apply (f_equal (@List.length _)) in Sk. rewrite length_skipn in Sk.
    simpl in Sk. lia.
  - simpl in F. apply andb_true_iff in F. destruct F as [F _].
    apply jseqb_eq in F. subst e. apply Hns.
    apply characters_units with [space]; [|now left].
    rewrite <- (firstn_skipn n (characters s)), Sk.
    apply in_or_app. right. now left.
Qed.

Lemma slugShape_no_space (s : jsstring) : slugShape s -> ~ In space s.
Proof.
  intros (Hs & _) Hin. apply singleHyphens_slugChars in Hs.
  rewrite forallb_forall in Hs. apply Hs in Hin. discriminate.
Qed.

Section CreateHall.
Context `{Builtins}.

Lemma toDTO_eq (h : Hall.t) : HallService.toDTO h = h.
Proof. now destruct h. Qed.

(** The base of the slug of a creation. *)
Definition slugBaseOf (payload : CreateHallPayload.t) (now : time) : jsstring :=
  baseSlugOf now (HallService.baseForSlug payload now).

(** The hall a creation builds around its slug and the key the database
    generates. *)
Definition newHall (payload : CreateHallPayload.t) (slug : jsstring) (now : time)
  (id : uuid) : Hall.t :=
  {| Hall.id := id;
     Hall.gerantId := CreateHallPayload.gerantId payload;
     Hall.name := trim (CreateHallPayload.name payload);
     Hall.slug := slug;
     Hall.address := CreateHallPayload.address payload;
     Hall.city := CreateHallPayload.city payload;
     Hall.capacity := CreateHallPayload.capacity payload;
     Hall.description := CreateHallPayload.description payload;
     Hall.cancellationPolicy := CreateHallPayload.cancellationPolicy payload;
     Hall.isPremium :=
       match CreateHallPayload.isPremium payload with
       | Some b => b
       | None => false
       end;
     Hall.status :=
       match CreateHallPayload.status payload with
       | Some s => s
       | None => DRAFT
       end;
     Hall.createdAt := now;
     Hall.updatedAt := now |}.

(** What the columns of halls keep of a row: every column but the four
    varchar columns as it is, and those as varchar keeps them. *)
Lemma hallColumns_some (row stored : Hall.t) :
  HallService.hallColumns row = Some stored ->
  Hall.id stored = Hall.id row
  /\ Hall.gerantId stored = Hall.gerantId row
  /\ Hall.status stored = Hall.status row
  /\ Hall.isPremium stored = Hall.isPremium row
  /\ Hall.capacity stored = Hall.capacity row
  /\ Hall.description stored = Hall.description row
  /\ Hall.cancellationPolicy stored = Hall.cancellationPolicy row
  /\ Hall.createdAt stored = Hall.createdAt row
  /\ Hall.updatedAt stored = Hall.updatedAt row
  /\ Sql.varchar 255 (Hall.name row) = Some (Hall.name stored)
  /\ Sql.varchar 255 (Hall.slug row) = Some (Hall.slug stored)
  /\ Sql.varcharNullable 255 (Hall.address row) = Some (Hall.address stored)
  /\ Sql.varcharNullable 100 (Hall.city row) = Some (Hall.city stored)
  /\ (forall c, Hall.capacity row = Some c -> Sql.int4 c = true).
Proof.
  unfold HallService.hallColumns.
  destruct (Sql.varchar 255 (Hall.name row)) as [name|]; [|discriminate].
  destruct (Sql.varchar 255 (Hall.slug row)) as [slug|]; [|discriminate].
  destruct (Sql.varcharNullable 255 (Hall.address row)) as [address|];
    [|discriminate].
  destruct (Sql.varcharNullable 100 (Hall.city row)) as [city|]; [|discriminate].
  destruct (match Hall.capacity row with
            | Some c => Sql.int4 c
            | None => true
            end) eqn:C; [|discriminate].
  intros [= <-]. cbn. repeat split; auto.
  intros c Ec. now rewrite Ec in C.
Qed.

(** A row whose varchar values are not longer than their columns and
    whose capacity is in range is stored as it is. *)
Lemma hallColumns_fits (row : Hall.t) :
  (List.length (characters (Hall.name row)) <= 255)%nat ->
  (List.length (characters (Hall.slug row)) <= 255)%nat ->
  (forall a, Hall.address row = Some a ->
     (List.length (characters a) <= 255)%nat) ->
  (forall c, Hall.city row = Some c -> (List.length (characters c) <= 100)%nat) ->
  (forall c, Hall.capacity row = Some c -> Sql.int4 c = true) ->
  HallService.hallColumns row = Some row.
Proof.
  intros Hn Hs Ha Hc Hcap. unfold HallService.hallColumns, Sql.varcharNullable,
    Sql.varchar.
  apply Nat.leb_le in Hn, Hs. rewrite Hn, Hs.
  assert (Ea : match Hall.address row with
               | Some s =>
                   option_map Some
                     (if (List.length (characters s) <=? 255)%nat then Some s
                      else if forallb (Js.eqb [space]) (skipn 255 (characters s))
                           then Some (List.concat (firstn 255 (characters s)))
                           else None)
               | None => Some None
               end = Some (Hall.address row)).
  { destruct (Hall.address row) as [a|]; auto.
    specialize (Ha a eq_refl). apply Nat.leb_le in Ha. now rewrite Ha. }
  assert (Ec : match Hall.city row with
               | Some s =>
                   option_map Some
                     (if (List.length (characters s) <=? 100)%nat then Some s
                      else if forallb (Js.eqb [space]) (skipn 100 (characters s))
                           then Some (List.concat (firstn 100 (characters s)))
                           else None)
               | None => Some None
               end = Some (Hall.city row)).
  { destruct (Hall.city row) as [c|]; auto.
    specialize (Hc c eq_refl). apply Nat.leb_le in Hc. now rewrite Hc. }
  rewrite Ea, Ec.
  assert (Ecap : match Hall.capacity row with
                 | Some c => Sql.int4 c
                 | None => true
                 end = true).
  { destruct (Hall.capacity row) as [c|]; auto. }
  rewrite Ecap. now destruct row.
Qed.

Lemma createHall_unfold (payload : CreateHallPayload.t) (now : time) :
  HallService.createHall payload now
  = (finalSlug <-
       HallService.generateUniqueSlug now (HallService.baseForSlug payload now)
         None ;;
     saved <- HallService.insertHall (newHall payload finalSlug now) ;;
     match CreateHallPayload.gerantId payload with
     | Some gerant => HallService.insertOwnerRole (Hall.id saved) gerant now
     | None => ret tt
     end ;;;
     ret (HallService.toDTO saved)).
Proof. reflexivity. Qed.

Lemma insertHall_refused (row : uuid -> Hall.t) (db : Db) :
  HallService.hallColumns (row (nextId db)) = None ->
  HallService.insertHall row db
  = (Thrown (QueryFailedError "halls: value out of range"), db).
Proof. unfold HallService.insertHall. now intros ->. Qed.

Lemma insertHall_stored (row : uuid -> Hall.t) (db : Db) (stored : Hall.t) :
  HallService.hallColumns (row (nextId db)) = Some stored ->
  Forall (fun h => Hall.slug h <> Hall.slug stored) (halls db) ->
  HallService.insertHall row db
  = (Returned (row (nextId db)),
     setHalls (halls db ++ [stored]) (setNextId (N.succ (nextId db)) db)).
Proof.
  unfold HallService.insertHall. intros -> F.
  destruct (existsb _ (halls db)) eqn:E; auto.
  apply existsb_exists in E. destruct E as (h & Hin & E).
  apply jseqb_eq in E. rewrite Forall_forall in F. now apply F in Hin.
Qed.

(** The three outcomes of a creation. Its slug is the first free candidate
    over its base. When the hall it builds does not fit the columns of
    halls, the INSERT fails and nothing is written. Otherwise the hall is
    stored under the next key; the creation then returns the hall it built,
    after the insert of the owner row when it has an owner, unless that
    owner is no user: then the INSERT of the owner row fails and the
    creation throws, the hall being stored. *)
Lemma createHall_cases (payload : CreateHallPayload.t) (now : time) (db : Db) :
  exists c j,
    HallService.generateUniqueSlug now (HallService.baseForSlug payload now) None db
    = (Returned c, db)
    /\ Forall (fun h0 => Hall.slug h0 <> c) (halls db)
    /\ 1 <= j /\ c = candidateAt (slugBaseOf payload now) j
    /\ (forall i, 1 <= i < j ->
          In (candidateAt (slugBaseOf payload now) i) (map Hall.slug (halls db)))
    /\ let entity := newHall payload c now (nextId db) in
       match HallService.hallColumns entity with
       | None =>
           HallService.createHall payload now db
           = (Thrown (QueryFailedError "halls: value out of range"), db)
       | Some stored =>
           Hall.slug stored = c
           /\ let db1 :=
                setHalls (halls db ++ [stored])
                  (setNextId (N.succ (nextId db)) db) in
              match CreateHallPayload.gerantId payload with
              | None => HallService.createHall payload now db = (Returned entity, db1)
              | Some g =>
                  if existsb (N.eqb g) (users db)
                  then HallService.createHall payload now db
                       = (Returned entity,
                          setHallUserRoles
                            (hallUserRoles db
                             ++ [ownerRow (N.succ (nextId db)) (nextId db) g now])
                            (setNextId (N.succ (N.succ (nextId db))) db1))
                  else HallService.createHall payload now db
                       = (Thrown (QueryFailedError "HallUserRole.user_id"), db1)
              end
       end.
Proof.
  destruct (generateUniqueSlug_spec now (HallService.baseForSlug payload now)
              None db) as (c & j & Hrun & Hfree & Hj & Hc & Hbefore).
  fold (slugBaseOf payload now) in Hc, Hbefore.
  apply existing_none in Hfree.
  exists c, j. split; [exact Hrun|]. split; [exact Hfree|].
  split; [exact Hj|]. split; [exact Hc|]. split.
  { intros i Hi. apply taken_slug with None. now apply Hbefore. }
  cbv zeta.
  assert (Hshape : slugShape c).
  { rewrite Hc. unfold slugBaseOf.
    rewrite <- candidateAt_normal. apply slugify_slugShape. }
  rewrite createHall_unfold.
  rewrite (bind_returned _ _ _ _ _ Hrun).
  destruct (HallService.hallColumns (newHall payload c now (nextId db)))
    as [stored|] eqn:Hcol.
  2:{ now rewrite (bind_thrown _ _ _ _ _ (insertHall_refused _ db Hcol)). }
  destruct (hallColumns_some _ _ Hcol)
    as (_ & _ & _ & _ & _ & _ & _ & _ & _ & _ & Hslug & _).
  cbn [newHall Hall.slug] in Hslug.
  apply varchar_no_space in Hslug; [|now apply slugShape_no_space].
  split; [exact Hslug|].
  rewrite <- Hslug in Hfree.
  rewrite (bind_returned _ _ _ _ _ (insertHall_stored _ db stored Hcol Hfree)).
  destruct (CreateHallPayload.gerantId payload) as [g|] eqn:G.
  - unfold HallService.insertOwnerRole, bind, gets. cbn [users setHalls setNextId].
    destruct (existsb (N.eqb g) (users db)).
    + unfold generateId, modify, ret. cbn. now rewrite toDTO_eq.
    + reflexivity.
  - unfold bind, ret. now rewrite toDTO_eq.
Qed.

(** [created payload now db db' h k]: the creation has added the hall [h]
    to the table, and nothing else, under the slug that is the [k]-th
    candidate over its base, the first that no hall of [db] has. *)
Definition created (payload : CreateHallPayload.t) (now : time) (db db' : Db)
  (h : Hall.t) (k : N) : Prop :=
  halls db' = halls db ++ [h]
  /\ Forall (fun h0 => Hall.slug h0 <> Hall.slug h) (halls db)
  /\ 1 <= k
  /\ Hall.slug h = candidateAt (slugBaseOf payload now) k
  /\ (forall i, 1 <= i < k ->
        In (candidateAt (slugBaseOf payload now) i) (map Hall.slug (halls db)))
  /\ Hall.id h = nextId db
  /\ Hall.gerantId h = CreateHallPayload.gerantId payload
  /\ Hall.status h
     = match CreateHallPayload.status payload with Some s => s | None => DRAFT end.

(** What a creation writes, under each of its outcomes. *)
Lemma createHall_effect (payload : CreateHallPayload.t) (now : time) (db : Db) :
  exists o db',
    HallService.createHall payload now db = (o, db')
    /\ users db' = users db
    /\ pricingTables db' = pricingTables db
    /\ mediaTables db' = mediaTables db
    /\ hostApplications db' = hostApplications db
    /\ nextId db <= nextId db'
    /\ ((o = Thrown (QueryFailedError "halls: value out of range") /\ db' = db)
        \/ exists h k,
             created payload now db db' h k
             /\ match CreateHallPayload.gerantId payload with
                | Some g =>
                    if existsb (N.eqb g) (users db)
                    then hallUserRoles db'
                         = hallUserRoles db
                           ++ [ownerRow (N.succ (nextId db)) (nextId db) g now]
                         /\ nextId db' = N.succ (N.succ (nextId db))
                         /\ exists dto, o = Returned dto
                                        /\ Hall.id dto = Hall.id h
                                        /\ Hall.slug dto = Hall.slug h
                    else hallUserRoles db' = hallUserRoles db
                         /\ nextId db' = N.succ (nextId db)
                         /\ o = Thrown (QueryFailedError "HallUserRole.user_id")
                | None =>
                    hallUserRoles db' = hallUserRoles db
                    /\ nextId db' = N.succ (nextId db)
                    /\ exists dto, o = Returned dto
                                   /\ Hall.id dto = Hall.id h
                                   /\ Hall.slug dto = Hall.slug h
                end).
Proof.
  destruct (createHall_cases payload now db)
    as (c & j & _ & Hfree & Hj & Hc & Hbefore & Hcases).
  cbv zeta in Hcases.
  destruct (HallService.hallColumns (newHall payload c now (nextId db)))
    as [stored|] eqn:Hcol.
  2:{ eexists _, _. split; [exact Hcases|].
      repeat split; auto; try lia. }
  destruct Hcases as [Hslug Hcases].
  destruct (hallColumns_some _ _ Hcol)
    as (Hid & Hg & Hst & _).
  cbn [newHall Hall.id Hall.gerantId Hall.status] in Hid, Hg, Hst.
  assert (Hcr : forall db',
            halls db' = halls db ++ [stored] -> created payload now db db' stored j).
  { intros db' Hh. unfold created. rewrite Hslug. repeat split; auto. }
  destruct (CreateHallPayload.gerantId payload) as [g|] eqn:G.
  - destruct (existsb (N.eqb g) (users db)) eqn:K.
    + eexists _, _. split; [exact Hcases|]. cbn.
      repeat split; auto; try lia.
      right. exists stored, j. split; [now apply Hcr|].
      repeat split; auto. eexists. split; [reflexivity|].
      cbn. split; congruence.
    + eexists _, _. split; [exact Hcases|]. cbn.
      repeat split; auto; try lia.
      right. exists stored, j. split; [now apply Hcr|].
      repeat split; auto.
  - eexists _, _. split; [exact Hcases|]. cbn.
    repeat split; auto; try lia.
    right. exists stored, j. split; [now apply Hcr|].
    repeat split; auto. eexists. split; [reflexivity|].
    cbn. split; congruence.
Qed.

End CreateHall.

(** ** C1: the slugs of created halls *)

Section C1.
Context `{Builtins}.







End C1.


Definition lakeview : CreateHallPayload.t :=
  {| CreateHallPayload.name := lit "Lakeview";
     CreateHallPayload.slug := None;
     CreateHallPayload.address := None;
     CreateHallPayload.city := Some (lit "Kinshasa");
     CreateHallPayload.capacity := None;
     CreateHallPayload.description := None;
     CreateHallPayload.cancellationPolicy := None;
     CreateHallPayload.isPremium := None;
     CreateHallPayload.status := None;
     CreateHallPayload.gerantId := None |}.

(** The slugs of the halls of a database, in the order of their creation. *)
Definition slugsAfter (ops : list (M HallDTO)) (db : Db) : list jsstring :=
  map Hall.slug (halls (fold_left (fun d op => snd (op d)) ops db)).

(** The scenario of the specification: twice the same name and city, from
    an empty database. *)
Example lakeview_twice :
  slugsAfter
    [@HallService.createHall latin1 lakeview 1000;
     @HallService.createHall latin1 lakeview 2000] emptyDb
  = [lit "lakeview-kinshasa"; lit "lakeview-kinshasa-2"].
Proof. vm_compute. reflexivity. Qed.

(** Another hall, of another name and city, created with the explicit slug
    "lakeview-kinshasa". *)
Definition dbWithLakeview : Db :=
  snd (@HallService.createHall latin1
         {| CreateHallPayload.name := lit "Grand Hall";
            CreateHallPayload.slug := Some (lit "lakeview-kinshasa");
            CreateHallPayload.address := None;
            CreateHallPayload.city := Some (lit "Goma");
            CreateHallPayload.capacity := None;
            CreateHallPayload.description := None;
            CreateHallPayload.cancellationPolicy := None;
            CreateHallPayload.isPremium := None;
            CreateHallPayload.status := None;
            CreateHallPayload.gerantId := None |} 1000 emptyDb).

Example lakeview_after_lakeview :
  slugsAfter
    [@HallService.createHall latin1 lakeview 2000;
     @HallService.createHall latin1 lakeview 3000] dbWithLakeview
  = [lit "lakeview-kinshasa"; lit "lakeview-kinshasa-2";
     lit "lakeview-kinshasa-3"].
Proof. vm_compute. reflexivity. Qed.

(** A name with no letter or digit of Basic Latin: the base is the fallback
    of each creation. *)
Definition symbolsOnly : CreateHallPayload.t :=
  {| CreateHallPayload.name := lit "***";
     CreateHallPayload.slug := None;
     CreateHallPayload.address := None;
     CreateHallPayload.city := None;
     CreateHallPayload.capacity := None;
     CreateHallPayload.description := None;
     CreateHallPayload.cancellationPolicy := None;
     CreateHallPayload.isPremium := None;
     CreateHallPayload.status := None;
     CreateHallPayload.gerantId := None |}.

Example symbolsOnly_twice :
  slugsAfter
    [@HallService.createHall latin1 symbolsOnly 1730505600000;
     @HallService.createHall latin1 symbolsOnly 1730505600001] emptyDb
  = [lit "hall-m2zecqo0"; lit "hall-m2zecqo1"].
Proof. vm_compute. reflexivity. Qed.



(** ** ORDER BY *)

Section OrderBy.
Variable A : Type.
Variable le : A -> A -> bool.

Definition totalOrder : Prop := forall x y, le x y = false -> le y x = true.
Definition transitiveOrder : Prop :=
  forall x y z, le x y = true -> le y z = true -> le x z = true.

Lemma insertBy_perm (x : A) (l : list A) : Permutation (Sql.insertBy le x l) (x :: l).
Proof.
  induction l as [|y l IH]; simpl; auto.
  destruct (le x y); auto.
  rewrite IH. apply perm_swap.
Qed.

Lemma orderBy_perm (l : list A) : Permutation (Sql.orderBy le l) l.
Proof.
  induction l as [|x l IH]; simpl; auto.
  unfold Sql.orderBy in *. simpl. rewrite insertBy_perm. now constructor.
Qed.

Lemma orderBy_In (l : list A) (x : A) : In x (Sql.orderBy le l) <-> In x l.
Proof.
  split; apply Permutation_in; [|symmetry]; apply orderBy_perm.
Qed.


Lemma insertBy_sorted (x : A) (l : list A) :
  totalOrder -> transitiveOrder ->
  StronglySorted (fun a b => le a b = true) l ->
  StronglySorted (fun a b => le a b = true) (Sql.insertBy le x l).
Proof.
  intros Htot Htr. induction l as [|y l IH]; simpl; intros S.
  - constructor; auto.
  - inversion S as [|? ? Sl Fy]; subst.
    destruct (le x y) eqn:E.
    + constructor; auto. constructor; auto.
      apply Forall_forall. intros z Hz. rewrite Forall_forall in Fy.
      apply Htr with y; auto.
    + constructor; auto.
      apply Forall_forall. intros z Hz.
      apply (Permutation_in _ (insertBy_perm x l)) in Hz.
      destruct Hz as [<-|Hz]; auto.
      rewrite Forall_forall in Fy. auto.
Qed.

Lemma orderBy_sorted (l : list A) :
  totalOrder -> transitiveOrder ->
  StronglySorted (fun a b => le a b = true) (Sql.orderBy le l).
Proof.
  intros Htot Htr. induction l as [|x l IH]; simpl.
  - constructor.
  - unfold Sql.orderBy in *. simpl. now apply insertBy_sorted.
Qed.

End OrderBy.

Arguments totalOrder {A} le.
Arguments transitiveOrder {A} le.

Lemma asc_total {A : Type} (key : A -> N) : totalOrder (Sql.asc key).
Proof. unfold totalOrder, Sql.asc. intros x y E. apply N.leb_gt in E. apply N.leb_le. lia. Qed.

Lemma asc_transitive {A : Type} (key : A -> N) : transitiveOrder (Sql.asc key).
Proof.
  unfold transitiveOrder, Sql.asc. intros x y z E1 E2.
  apply N.leb_le in E1, E2. apply N.leb_le. lia.
Qed.

Lemma desc_total {A : Type} (key : A -> N) : totalOrder (Sql.desc key).
Proof. unfold totalOrder, Sql.desc. intros x y E. apply N.leb_gt in E. apply N.leb_le. lia. Qed.

Lemma desc_transitive {A : Type} (key : A -> N) : transitiveOrder (Sql.desc key).
Proof.
  unfold transitiveOrder, Sql.desc. intros x y z E1 E2.
  apply N.leb_le in E1, E2. apply N.leb_le. lia.
Qed.

Lemma boolDesc_total {A : Type} (key : A -> bool) : totalOrder (Sql.boolDesc key).
Proof. unfold totalOrder, Sql.boolDesc. intros x y. now destruct (key x), (key y). Qed.

Lemma boolDesc_transitive {A : Type} (key : A -> bool) : transitiveOrder (Sql.boolDesc key).
Proof.
  unfold transitiveOrder, Sql.boolDesc. intros x y z.
  now destruct (key x), (key y), (key z).
Qed.

Lemma ascNullsLast_total {A : Type} (key : A -> option Z) : totalOrder (Sql.ascNullsLast key).
Proof.
  unfold totalOrder, Sql.ascNullsLast. intros x y.
  destruct (key x), (key y); auto; try discriminate.
  intros E. apply Z.leb_gt in E. apply Z.leb_le. lia.
Qed.

Lemma ascNullsLast_transitive {A : Type} (key : A -> option Z) :
  transitiveOrder (Sql.ascNullsLast key).
Proof.
  unfold transitiveOrder, Sql.ascNullsLast. intros x y z.
  destruct (key x), (key y), (key z); auto; try discriminate.
  intros E1 E2. apply Z.leb_le in E1, E2. apply Z.leb_le. lia.
Qed.

Lemma thenBy_total {A : Type} (le1 le2 : A -> A -> bool) :
  totalOrder le1 -> totalOrder le2 -> totalOrder (Sql.thenBy le1 le2).
Proof.
  unfold totalOrder, Sql.thenBy. intros T1 T2 x y.
  destruct (le1 x y) eqn:E1, (le1 y x) eqn:E2; auto; try discriminate.
  apply T1 in E1. congruence.
Qed.

Lemma thenBy_transitive {A : Type} (le1 le2 : A -> A -> bool) :
  transitiveOrder le1 -> transitiveOrder le2 -> transitiveOrder (Sql.thenBy le1 le2).
Proof.
  unfold transitiveOrder, Sql.thenBy. intros T1 T2 x y z Hxy Hyz.
  destruct (le1 x y) eqn:Exy; [|discriminate].
  destruct (le1 y z) eqn:Eyz; [|discriminate].
  rewrite (T1 x y z Exy Eyz).
  destruct (le1 z x) eqn:Ezx; auto.
  rewrite (T1 y z x Eyz Ezx) in Hxy.
  rewrite (T1 z x y Ezx Exy) in Hyz.
  now apply T2 with y.
Qed.

Lemma StronglySorted_impl {A : Type} (R S : A -> A -> Prop) (l : list A) :
  (forall a b, R a b -> S a b) -> StronglySorted R l -> StronglySorted S l.
Proof.
  intros I. induction 1 as [|a l HS IH F]; constructor; auto.
  apply Forall_forall. intros b Hb. rewrite Forall_forall in F. auto.
Qed.

Lemma StronglySorted_firstn {A : Type} (R : A -> A -> Prop) (n : nat) (l : list A) :
  StronglySorted R l -> StronglySorted R (firstn n l).
Proof.
  revert n. induction l as [|x l IH]; intros n S; destruct n; simpl;
    try constructor.
  - inversion S; subst. now apply IH.
  - inversion S as [|? ? _ F]; subst.
    apply Forall_forall. intros y Hy. rewrite Forall_forall in F.
    apply F. revert Hy. rewrite <- (firstn_skipn n l) at 2.
    intros Hy. apply in_or_app. now left.
Qed.

Lemma StronglySorted_skipn {A : Type} (R : A -> A -> Prop) (n : nat) (l : list A) :
  StronglySorted R l -> StronglySorted R (skipn n l).
Proof.
  revert l. induction n as [|n IH]; intros l S; simpl; auto.
  destruct l; auto. inversion S; subst. now apply IH.
Qed.

Lemma StronglySorted_slice {A : Type} (R : A -> A -> Prop) (offset limit : Z)
  (l : list A) :
  StronglySorted R l -> StronglySorted R (Sql.slice offset limit l).
Proof.
  intros S. unfold Sql.slice.
  now apply StronglySorted_firstn, StronglySorted_skipn.
Qed.

Lemma slice_incl {A : Type} (offset limit : Z) (l : list A) :
  incl (Sql.slice offset limit l) l.
Proof.
  unfold Sql.slice. intros x Hx.
  rewrite <- (firstn_skipn (Z.to_nat offset) l). apply in_or_app. right.
  rewrite <- (firstn_skipn (Z.to_nat limit) (skipn (Z.to_nat offset) l)).
  apply in_or_app. now left.
Qed.

(** ** C8: the order of the lists of the pricing service *)

(** Primary products first, then by time of creation. *)
Definition primaryFirstThenCreated (a b : HallProduct.t) : Prop :=
  (HallProduct.isPrimary a = true /\ HallProduct.isPrimary b = false)
  \/ (HallProduct.isPrimary a = HallProduct.isPrimary b
      /\ HallProduct.createdAt a <= HallProduct.createdAt b).

Lemma productOrder_sound (a b : HallProduct.t) :
  Sql.thenBy (Sql.boolDesc HallProduct.isPrimary) (Sql.asc HallProduct.createdAt) a b
  = true ->
  primaryFirstThenCreated a b.
Proof.
  unfold Sql.thenBy, Sql.boolDesc, Sql.asc, primaryFirstThenCreated.
  destruct (HallProduct.isPrimary a), (HallProduct.isPrimary b); simpl;
    intros E; try discriminate; auto; right; split; auto; now apply N.leb_le.
Qed.

Lemma orderBy_asc_sorted {A : Type} (key : A -> N) (l : list A) :
  StronglySorted (fun a b => key a <= key b) (Sql.orderBy (Sql.asc key) l).
Proof.
  apply StronglySorted_impl with (fun a b => Sql.asc key a b = true).
  - intros a b E. now apply N.leb_le.
  - apply orderBy_sorted; [apply asc_total | apply asc_transitive].
Qed.

(** C8 (as amended). The products of a hall are listed primary first, then
    by time of creation; the rates of a product and the addons of a hall by
    time of creation; the blocked dates of a hall by start date. *)
Theorem C8_pricing_lists_ordered (db : Db) (hallId hallProductId : uuid)
  (isActive : option bool) (fromDate toDate : option date) :
  (exists l, PricingService.listHallProducts hallId isActive db = (Returned l, db)
             /\ StronglySorted primaryFirstThenCreated l)
  /\ (exists l, PricingService.listHallProductRates hallProductId db = (Returned l, db)
                /\ StronglySorted
                     (fun a b => HallProductRate.createdAt a <= HallProductRate.createdAt b) l)
  /\ (exists l, PricingService.listHallAddons hallId isActive db = (Returned l, db)
                /\ StronglySorted
                     (fun a b => HallAddon.createdAt a <= HallAddon.createdAt b) l)
  /\ (exists l, PricingService.listHallBlockedDates hallId fromDate toDate db
                = (Returned l, db)
                /\ StronglySorted
                     (fun a b => HallBlockedDate.startDate a <= HallBlockedDate.startDate b) l).
Proof.
  repeat split.
  - eexists. split; [reflexivity|].
    unfold PricingService.toHallProductDTO. rewrite map_id.
    apply StronglySorted_impl with (1 := productOrder_sound).
    apply orderBy_sorted.
    + apply thenBy_total; [apply boolDesc_total | apply asc_total].
    + apply thenBy_transitive; [apply boolDesc_transitive | apply asc_transitive].
  - eexists. split; [reflexivity|].
    unfold PricingService.toHallProductRateDTO. rewrite map_id.
    apply orderBy_asc_sorted.
  - eexists. split; [reflexivity|].
    unfold PricingService.toHallAddonDTO. rewrite map_id.
    apply orderBy_asc_sorted.
  - eexists. split; [reflexivity|].
    unfold PricingService.toHallBlockedDateDTO. rewrite map_id.
    apply orderBy_asc_sorted.
Qed.

(** C8 as stated: the blocked dates, too, by time of creation. *)
Definition C8_as_stated : Prop :=
  forall (db : Db) (hallId : uuid) (fromDate toDate : option date),
  exists l,
    PricingService.listHallBlockedDates hallId fromDate toDate db = (Returned l, db)
    /\ StronglySorted
         (fun a b => HallBlockedDate.createdAt a <= HallBlockedDate.createdAt b) l.

Definition blockedDate (id : uuid) (startDate : date) (createdAt : time)
  : HallBlockedDate.t :=
  {| HallBlockedDate.id := id; HallBlockedDate.hallId := 1;
     HallBlockedDate.startDate := startDate; HallBlockedDate.endDate := None;
     HallBlockedDate.reason := None; HallBlockedDate.createdByUserId := None;
     HallBlockedDate.createdAt := createdAt |}.

(** Hall 1 blocked first from day 20, then from day 10. *)
Definition dbBlockedDates : Db :=
  {| users := []; halls := []; hallUserRoles := []; hallProducts := [];
     hallProductRates := []; hallAddons := [];
     hallBlockedDates := [blockedDate 2 20 1000; blockedDate 3 10 2000];
     media := []; mediaTags := []; mediaTagTypes := [];
     hostApplications := []; nextId := 4 |}.

Example listHallBlockedDates_by_start :
  PricingService.listHallBlockedDates 1 None None dbBlockedDates
  = (Returned [blockedDate 3 10 2000; blockedDate 2 20 1000], dbBlockedDates).
Proof. reflexivity. Qed.

(** The later block starts earlier and is listed first. *)
Lemma C8_counterexample : ~ C8_as_stated.
Proof.
  intros C. destruct (C dbBlockedDates 1 None None) as (l & E & S).
  rewrite listHallBlockedDates_by_start in E. injection E as <-.
  inversion S as [|? ? _ F]; subst.
  inversion F as [|? ? L _]; subst.
  vm_compute in L. now apply L.
Qed.

(** ** C7: the status filter of listHalls *)

(** With an offset of 0 or more and a limit of 1 or more, the query takes
    its slice. *)
Lemma skipTake_slice {A : Type} (offset limit : Z) (l : list A) :
  (0 <= offset)%Z -> (1 <= limit)%Z ->
  Sql.skipTake offset limit l = Some (Sql.slice offset limit l).
Proof.
  intros Ho Hl. unfold Sql.skipTake.
  destruct (Z.ltb_spec offset 0); [lia|].
  destruct (Z.ltb_spec limit 0); [lia|].
  destruct (Z.eqb_spec limit 0); [lia|]. reflexivity.
Qed.

Section C7.
Context `{Builtins}.

Lemma HallStatus_eqb_eq (a b : HallStatus) : HallStatus_eqb a b = true <-> a = b.
Proof. destruct a, b; simpl; split; congruence. Qed.

(** listHalls keeps its page at 1 or more and its limit between 1 and 100,
    so its query does not fail: it returns the slice of the filtered rows,
    newest first. *)
Lemma listHalls_eq (options : ListHallsOptions.t) (db : Db) :
  HallService.listHalls options db
  = (Returned
       {| data :=
            map HallService.toDTO
              (Sql.slice
                 ((match ListHallsOptions.page options with
                   | Some p => if (0 <? p)%Z then p else 1%Z
                   | None => 1%Z
                   end - 1)
                  * match ListHallsOptions.limit options with
                    | Some l => if (0 <? l)%Z && (l <=? 100)%Z then l else 20%Z
                    | None => 20%Z
                    end)
                 match ListHallsOptions.limit options with
                 | Some l => if (0 <? l)%Z && (l <=? 100)%Z then l else 20%Z
                 | None => 20%Z
                 end
                 (Sql.orderBy (Sql.desc Hall.createdAt)
                    (filter (HallService.listHallsWhere options) (halls db))));
          page :=
            match ListHallsOptions.page options with
            | Some p => if (0 <? p)%Z then p else 1%Z
            | None => 1%Z
            end;
          limit :=
            match ListHallsOptions.limit options with
            | Some l => if (0 <? l)%Z && (l <=? 100)%Z then l else 20%Z
            | None => 20%Z
            end;
          total :=
            Z.of_nat
              (List.length
                 (filter (HallService.listHallsWhere options) (halls db))) |},
     db).
Proof.
  unfold HallService.listHalls.
  set (pg := match ListHallsOptions.page options with
             | Some p => if (0 <? p)%Z then p else 1%Z
             | None => 1%Z
             end).
  set (lim := match ListHallsOptions.limit options with
              | Some l => if (0 <? l)%Z && (l <=? 100)%Z then l else 20%Z
              | None => 20%Z
              end).
  assert (Hpg : (1 <= pg)%Z).
  { unfold pg. destruct (ListHallsOptions.page options) as [p|]; [|lia].
    destruct (Z.ltb_spec 0 p); lia. }
  assert (Hlim : (1 <= lim)%Z).
  { unfold lim. destruct (ListHallsOptions.limit options) as [l|]; [|lia].
    destruct (Z.ltb_spec 0 l), (Z.leb_spec l 100); simpl; lia. }
  rewrite skipTake_slice by nia. reflexivity.
Qed.

(** C7. With a status filter, listHalls returns halls of that status only;
    with ACTIVE, no DRAFT and no ARCHIVED hall. *)
Theorem C7_listHalls_status (db : Db) (options : ListHallsOptions.t) (s : HallStatus) :
  ListHallsOptions.status options = Some s ->
  exists r,
    HallService.listHalls options db = (Returned r, db)
    /\ Forall (fun h => Hall.status h = s) (data r)
    /\ (s = ACTIVE ->
        Forall (fun h => Hall.status h <> DRAFT /\ Hall.status h <> ARCHIVED) (data r)).
Proof.
  intros Hs. eexists. split; [apply listHalls_eq|]. cbn [data].
  match goal with
  | |- Forall ?P ?l /\ _ => assert (F : Forall P l)
  end.
  { apply Forall_forall. intros h Hh.
    apply in_map_iff in Hh. destruct Hh as (h0 & <- & Hh).
    rewrite toDTO_eq. apply slice_incl in Hh.
    apply orderBy_In in Hh. apply filter_In in Hh. destruct Hh as [_ Hw].
    unfold HallService.listHallsWhere in Hw. rewrite Hs in Hw.
    repeat (apply andb_true_iff in Hw; destruct Hw as [Hw _]).
    now apply HallStatus_eqb_eq. }
  split; [exact F|].
  intros ->. eapply Forall_impl; [|exact F].
  intros h E. simpl in E. rewrite E. split; discriminate.
Qed.

End C7.

Definition hallOf (id : uuid) (slug : jsstring) (status : HallStatus)
  (createdAt : time) : Hall.t :=
  {| Hall.id := id; Hall.gerantId := None; Hall.name := slug; Hall.slug := slug;
     Hall.address := None; Hall.city := None; Hall.capacity := None;
     Hall.description := None; Hall.cancellationPolicy := None;
     Hall.isPremium := false; Hall.status := status;
     Hall.createdAt := createdAt; Hall.updatedAt := createdAt |}.

(** A draft, an active and an archived hall. *)
Definition dbThreeHalls : Db :=
  setHalls [hallOf 1 (lit "alpha") DRAFT 1000; hallOf 2 (lit "beta") ACTIVE 2000;
            hallOf 3 (lit "gamma") ARCHIVED 3000]
    (setNextId 4 emptyDb).

Definition onlyActive : ListHallsOptions.t :=
  {| ListHallsOptions.status := Some ACTIVE; ListHallsOptions.city := None;
     ListHallsOptions.isPremium := None; ListHallsOptions.gerantId := None;
     ListHallsOptions.page := None; ListHallsOptions.limit := None |}.

Example listHalls_active :
  @HallService.listHalls latin1 onlyActive dbThreeHalls
  = (Returned {| data := [hallOf 2 (lit "beta") ACTIVE 2000];
                 page := 1; limit := 20; total := 1 |}, dbThreeHalls).
Proof. reflexivity. Qed.

Lemma C7_listHalls_status_witness :
  exists r,
    @HallService.listHalls latin1 onlyActive dbThreeHalls = (Returned r, dbThreeHalls)
    /\ Forall (fun h => Hall.status h = ACTIVE) (data r)
    /\ (ACTIVE = ACTIVE ->
        Forall (fun h => Hall.status h <> DRAFT /\ Hall.status h <> ARCHIVED) (data r)).
Proof.
  exact (@C7_listHalls_status latin1 dbThreeHalls onlyActive ACTIVE eq_refl).
Defined.

(** ** C9 and C6: the lookup by slug *)

(** The first unit is in [a-z0-9]. *)
Definition startsAlnum (s : jsstring) : bool :=
  match s with c :: _ => isAlnum c | [] => false end.

(** The words of a string: its maximal runs of units in [a-z0-9], in
    order. A unit in [a-z0-9] joins the word that follows it when the next
    unit is in [a-z0-9] too, and is a word of its own otherwise. *)
Fixpoint words (s : jsstring) : list jsstring :=
  match s with
  | [] => []
  | c :: s' =>
      if isAlnum c then
        if startsAlnum s' then
          match words s' with
          | w :: ws => (c :: w) :: ws
          | [] => [[c]]
          end
        else [c] :: words s'
      else words s'
  end.

(** The words, with one hyphen between two of them. *)
Fixpoint joinHyphens (ws : list jsstring) : jsstring :=
  match ws with
  | [] => []
  | w :: ws' =>
      match ws' with
      | [] => w
      | _ :: _ => w ++ hyphen :: joinHyphens ws'
      end
  end.

(** The first unit is not in [a-z0-9]. *)
Definition startsSeparator (s : jsstring) : bool :=
  match s with c :: _ => negb (isAlnum c) | [] => false end.

(** The last unit is not in [a-z0-9]. *)
Fixpoint endsSeparator (s : jsstring) : bool :=
  match s with
  | [] => false
  | c :: s' => match s' with [] => negb (isAlnum c) | _ :: _ => endsSeparator s' end
  end.

Lemma words_nil (s : jsstring) :
  words s = [] -> forallb (fun c => negb (isAlnum c)) s = true.
Proof.
  induction s as [|c s IH]; cbn [words forallb]; auto.
  destruct (isAlnum c); cbn [negb andb]; auto.
  destruct (startsAlnum s); [|discriminate].
  destruct (words s); discriminate.
Qed.

Lemma endsSeparator_all (s : jsstring) :
  s <> [] -> forallb (fun c => negb (isAlnum c)) s = true -> endsSeparator s = true.
Proof.
  induction s as [|c s IH]; [congruence|]. intros _ E.
  cbn [forallb] in E. apply andb_true_iff in E. destruct E as [Ec Es].
  cbn [endsSeparator]. destruct s as [|c' s']; auto.
  apply IH; [discriminate|exact Es].
Qed.

Lemma words_alnum_head (c : char) (s : jsstring) :
  isAlnum c = true -> words (c :: s) <> [].
Proof.
  intros E. cbn [words]. rewrite E.
  destruct (startsAlnum s); [|discriminate].
  destruct (words s); discriminate.
Qed.

(** What the replacement of the runs leaves: the words with one hyphen
    between two of them, one more hyphen in front when the string starts
    with a run and none stands before it, and one more at the end when the
    string ends with a run. *)
Lemma replaceNonAlnumRuns_words (s : jsstring) :
  forall b,
    HallService.replaceNonAlnumRuns b s
    = match words s with
      | [] => if b then [] else match s with [] => [] | _ :: _ => [hyphen] end
      | _ :: _ =>
          (if negb b && startsSeparator s then [hyphen] else [])
          ++ joinHyphens (words s)
          ++ (if endsSeparator s then [hyphen] else [])
      end.
Proof.
  induction s as [|c s IH]; intros b.
  - now destruct b.
  - cbn [HallService.replaceNonAlnumRuns words startsSeparator endsSeparator].
    destruct (isAlnum c) eqn:Ec; cbn [negb].
    + rewrite andb_false_r. cbn [app]. rewrite (IH false). cbn [negb andb].
      destruct s as [|c' s'].
      * reflexivity.
      * cbn [startsSeparator startsAlnum].
        destruct (words (c' :: s')) as [|w ws] eqn:Ew.
        -- pose proof (words_nil _ Ew) as Hall.
           rewrite (endsSeparator_all (c' :: s')) by (auto; discriminate).
           cbn [forallb] in Hall. apply andb_true_iff in Hall.
           destruct Hall as [Hc' _]. apply negb_true_iff in Hc'.
           rewrite Hc'. reflexivity.
        -- destruct (isAlnum c') eqn:Ec'; cbn [negb app joinHyphens].
           ++ destruct ws; reflexivity.
           ++ reflexivity.
    + rewrite andb_true_r.
      assert (Etail : HallService.replaceNonAlnumRuns true s
                      = match words s with
                        | [] => []
                        | _ :: _ =>
                            joinHyphens (words s)
                            ++ (if endsSeparator s then [hyphen] else [])
                        end).
      { rewrite (IH true). now destruct (words s). }
      assert (Eends : words s <> [] ->
                      match s with
                      | [] => true
                      | _ :: _ => endsSeparator s
                      end = endsSeparator s).
      { destruct s; [|reflexivity]. intros Hw. now contradiction Hw. }
      destruct b; rewrite Etail;
        destruct (words s) as [|w ws] eqn:Ew; try reflexivity;
        rewrite Eends by discriminate; reflexivity.
Qed.

Lemma dropWhile_all (p : char -> bool) (s t : jsstring) :
  forallb p s = true -> dropWhile p (s ++ t) = dropWhile p t.
Proof.
  induction s as [|c s IH]; cbn [forallb app dropWhile]; auto.
  intros E. apply andb_true_iff in E. destruct E as [-> E]. auto.
Qed.

(** Stripping removes what satisfies [p] around a string that neither
    starts nor ends with such a unit. *)
Lemma strip_between (p : char -> bool) (pre m post : jsstring) :
  forallb p pre = true -> forallb p post = true ->
  headOk p m = true -> headOk p (rev m) = true ->
  strip p (pre ++ m ++ post) = m.
Proof.
  intros Hpre Hpost Hm Hr. unfold strip.
  rewrite (dropWhile_all p pre _ Hpre).
  destruct m as [|c m'].
  - cbn [app]. rewrite <- (app_nil_r post), (dropWhile_all p post [] Hpost).
    reflexivity.
  - rewrite (dropWhile_fixed p ((c :: m') ++ post)) by exact Hm.
    rewrite rev_app_distr, dropWhile_all.
    + rewrite (dropWhile_fixed p _ Hr). apply rev_involutive.
    + rewrite forallb_forall in *. intros x Hx. apply Hpost.
      now apply in_rev.
Qed.

(** A word is not empty and holds units in [a-z0-9] only. *)
Definition isWord (w : jsstring) : Prop := w <> [] /\ forallb isAlnum w = true.

Lemma words_isWord (s : jsstring) : Forall isWord (words s).
Proof.
  induction s as [|c s IH]; cbn [words]; [constructor|].
  destruct (isAlnum c) eqn:Ec; auto.
  assert (Hc : isWord [c]).
  { split; [discriminate|]. cbn. now rewrite Ec. }
  destruct (startsAlnum s); [|now constructor].
  destruct (words s) as [|w ws]; [now constructor|].
  inversion IH as [|? ? [Hne Hw] Hws]; subst.
  constructor; auto.
  split; [discriminate|]. cbn [forallb]. now rewrite Ec.
Qed.

Lemma headOk_app (p : char -> bool) (s t : jsstring) :
  s <> [] -> headOk p (s ++ t) = headOk p s.
Proof. destruct s; [congruence|reflexivity]. Qed.

Lemma isWord_ends (w : jsstring) :
  isWord w ->
  headOk (N.eqb hyphen) w = true /\ headOk (N.eqb hyphen) (rev w) = true.
Proof.
  intros [Hne Hw].
  assert (Hall : forall x, In x w -> negb (hyphen =? x) = true).
  { intros x Hx. rewrite forallb_forall in Hw.
    now rewrite (isAlnum_not_hyphen x (Hw x Hx)). }
  split.
  - destruct w as [|c w']; [congruence|]. cbn. apply Hall. now left.
  - destruct (rev w) as [|c r] eqn:Er; auto. cbn. apply Hall.
    apply in_rev. rewrite Er. now left.
Qed.

Lemma joinHyphens_ends (ws : list jsstring) :
  Forall isWord ws ->
  headOk (N.eqb hyphen) (joinHyphens ws) = true
  /\ headOk (N.eqb hyphen) (rev (joinHyphens ws)) = true.
Proof.
  induction 1 as [|w ws Hw Hws IH]; [split; reflexivity|].
  cbn [joinHyphens]. destruct ws as [|w' ws'].
  - now apply isWord_ends.
  - destruct (isWord_ends w Hw) as [Hh _]. destruct IH as [_ IH]. split.
    + rewrite headOk_app; [exact Hh|apply Hw].
    + rewrite rev_app_distr. cbn [rev]. rewrite <- app_assoc.
      rewrite headOk_app; [exact IH|].
      intros E. apply (f_equal (@rev char)) in E.
      rewrite rev_involutive in E. cbn [rev] in E.
      inversion Hws as [|? ? [Hne' _] _]; subst.
      cbn [joinHyphens] in E. destruct ws'; [congruence|].
      destruct w'; [congruence|discriminate].
Qed.

(** Trimmed of its hyphens, the replacement of the runs is the words of the
    string with one hyphen between two of them. *)
Lemma trimHyphens_replaceNonAlnumRuns (s : jsstring) :
  HallService.trimHyphens (HallService.replaceNonAlnumRuns false s)
  = joinHyphens (words s).
Proof.
  rewrite replaceNonAlnumRuns_words. unfold HallService.trimHyphens.
  destruct (words s) as [|w ws] eqn:Ew.
  - destruct s; reflexivity.
  - destruct (joinHyphens_ends (w :: ws)) as [Hh Hr].
    { rewrite <- Ew. apply words_isWord. }
    apply strip_between; auto.
    + now destruct (negb false && startsSeparator s).
    + now destruct (endsSeparator s).
Qed.

Section SlugLookup.
Context `{Builtins}.

(** The string in lower case, decomposed, without its combining marks: the
    first three steps of slugify. *)
Definition unmarked (input : jsstring) : jsstring :=
  filter (fun c => negb (isCombiningMark c)) (normalizeNFD (toLowerCase input)).

(** slugify as the specification words it: lower case, no diacritics, the
    runs of other units collapsed to one hyphen, no hyphen at either end. *)
Definition slugifySpec (input : jsstring) : jsstring :=
  joinHyphens (words (unmarked input)).

Lemma slugify_slugifySpec (input : jsstring) :
  HallService.slugify input = slugifySpec input.
Proof. apply trimHyphens_replaceNonAlnumRuns. Qed.

(** The hall stored under a slug, as the lookup finds it. *)
Definition lookupSlug (slug : jsstring) (db : Db) : Outcome HallDTO * Db :=
  match find (fun h => Js.eqb (Hall.slug h) slug) (halls db) with
  | Some h => (Returned h, db)
  | None => (Thrown (NotFoundError "Hall not found"), db)
  end.

Lemma getHallBySlug_lookupSlug (s : jsstring) (db : Db) :
  HallService.getHallBySlug s db = lookupSlug (HallService.slugify s) db.
Proof.
  unfold HallService.getHallBySlug, lookupSlug, bind, gets.
  destruct (find _ (halls db)) as [h|]; auto.
  unfold ret. now rewrite toDTO_eq.
Qed.

(** C9. The lookup of a hall by a string is the lookup by the slugified
    string, and so is the public detail. The lookup returns the first hall
    whose stored slug is the slugified string, and throws NotFound when no
    hall has it. The slugified string is the words of the string in lower
    case, decomposed and without its combining marks (its runs of units in
    a-z0-9), with one hyphen between two words. So two strings with the
    same words have the same lookup and the same public detail: the case,
    the diacritics and the separators do not count. *)
Theorem C9_getHallBySlug_slugifies (s : jsstring) (db : Db) :
  HallService.getHallBySlug (HallService.slugify s) db
  = HallService.getHallBySlug s db
  /\ HallQueryService.getPublicHallDetail (HallService.slugify s) db
     = HallQueryService.getPublicHallDetail s db
  /\ HallService.getHallBySlug s db = lookupSlug (HallService.slugify s) db
  /\ HallService.slugify s = joinHyphens (words (unmarked s))
  /\ (forall s',
        words (unmarked s') = words (unmarked s) ->
        HallService.getHallBySlug s' db = HallService.getHallBySlug s db
        /\ HallQueryService.getPublicHallDetail s' db
           = HallQueryService.getPublicHallDetail s db).
Proof.
  assert (E : HallService.getHallBySlug (HallService.slugify s)
              = HallService.getHallBySlug s).
  { unfold HallService.getHallBySlug. now rewrite slugify_idempotent. }
  split; [now rewrite E|].
  split; [unfold HallQueryService.getPublicHallDetail; now rewrite E|].
  split; [apply getHallBySlug_lookupSlug|].
  split; [apply slugify_slugifySpec|].
  intros s' Hw.
  assert (E' : HallService.getHallBySlug s' = HallService.getHallBySlug s).
  { unfold HallService.getHallBySlug.
    now rewrite (slugify_slugifySpec s'), (slugify_slugifySpec s),
      (f_equal joinHyphens Hw : slugifySpec s' = slugifySpec s). }
  split; [now rewrite E'|].
  unfold HallQueryService.getPublicHallDetail. now rewrite E'.
Qed.

Lemma find_by_unique_slug (l : list Hall.t) (h : Hall.t) :
  In h l -> NoDup (map Hall.slug l) ->
  find (fun x => Js.eqb (Hall.slug x) (Hall.slug h)) l = Some h.
Proof.
  induction l as [|x l IH]; simpl; intros Hin Hnd; [contradiction|].
  inversion Hnd as [|? ? Hnotin Hnd']; subst.
  destruct Hin as [->|Hin].
  - now rewrite jseqb_refl.
  - destruct (Js.eqb (Hall.slug x) (Hall.slug h)) eqn:E.
    + apply jseqb_eq in E. exfalso. apply Hnotin. rewrite E. now apply in_map.
    + now apply IH.
Qed.

(** The public detail of a string that the lookup resolves to a hall that
    is not active is NotFound, and nothing is written. *)
Lemma getPublicHallDetail_not_active (s : jsstring) (db : Db) (h : HallDTO) :
  HallService.getHallBySlug s db = (Returned h, db) ->
  Hall.status h <> ACTIVE ->
  HallQueryService.getPublicHallDetail s db
  = (Thrown (NotFoundError "Hall not found"), db).
Proof.
  intros E Hs. unfold HallQueryService.getPublicHallDetail.
  rewrite (bind_returned _ _ _ _ _ E).
  destruct (Hall.status h); simpl; try reflexivity. congruence.
Qed.

(** In a database whose slugs are unique, the public detail of the slug of
    a hall that is not active, a slug in normal form, is NotFound, and the
    database is as before. *)
Lemma getPublicHallDetail_of_inactive (db : Db) (h : Hall.t) :
  In h (halls db) ->
  NoDup (map Hall.slug (halls db)) ->
  HallService.slugify (Hall.slug h) = Hall.slug h ->
  Hall.status h <> ACTIVE ->
  HallQueryService.getPublicHallDetail (Hall.slug h) db
  = (Thrown (NotFoundError "Hall not found"), db).
Proof.
  intros Hin Hnd Hnorm Hs.
  apply getPublicHallDetail_not_active with h; auto.
  unfold HallService.getHallBySlug, bind, gets. rewrite Hnorm.
  rewrite (find_by_unique_slug _ _ Hin Hnd). unfold ret. now rewrite toDTO_eq.
Qed.

End SlugLookup.


(** The lookup is insensitive to case, diacritics and separators. *)
Example getHallBySlug_insensitive :
  @HallService.getHallBySlug latin1 (lit "  B" ++ [201] ++ lit "TA !") dbThreeHalls
  = (Returned (hallOf 2 (lit "beta") ACTIVE 2000), dbThreeHalls).
Proof. reflexivity. Qed.

Example slugify_words :
  words (@unmarked latin1 (lit " Grand  H" ++ [193] ++ lit "ll -- 2 ")) 
  = [lit "grand"; lit "hall"; lit "2"]
  /\ @HallService.slugify latin1 (lit " Grand  H" ++ [193] ++ lit "ll -- 2 ")
     = lit "grand-hall-2".
Proof. split; reflexivity. Qed.

Lemma C9_getHallBySlug_slugifies_witness :
  @HallService.getHallBySlug latin1 (lit "  B" ++ [201] ++ lit "TA !") dbThreeHalls
  = (Returned (hallOf 2 (lit "beta") ACTIVE 2000), dbThreeHalls)
  /\ @HallService.getHallBySlug latin1 (lit "**beta**") dbThreeHalls
     = @HallService.getHallBySlug latin1 (lit "  B" ++ [201] ++ lit "TA !")
         dbThreeHalls
  /\ @HallService.getHallBySlug latin1 (lit "b eta") dbThreeHalls
     = (Thrown (NotFoundError "Hall not found"), dbThreeHalls).
Proof.
  destruct (@C9_getHallBySlug_slugifies latin1 (lit "  B" ++ [201] ++ lit "TA !")
              dbThreeHalls) as (_ & _ & Hlook & _ & Hsame).
  split; [rewrite Hlook; reflexivity|].
  split; [apply (Hsame (lit "**beta**")); reflexivity|].
  now rewrite (proj1 (proj2 (proj2 (@C9_getHallBySlug_slugifies latin1
                                      (lit "b eta") dbThreeHalls)))).
Defined.


(** ** C2 and C10: updateHall and the owner rows *)

Section UpdateHall.
Context `{Builtins}.

Lemma findHallById_some (id : uuid) (db : Db) (hall : Hall.t) :
  HallService.findHallById id db = Some hall ->
  In hall (halls db) /\ Hall.id hall = id.
Proof.
  unfold HallService.findHallById. intros E. apply find_some in E.
  destruct E as [Hin E]. split; auto. now apply N.eqb_eq.
Qed.

Lemma find_none_existsb {A : Type} (f : A -> bool) (l : list A) :
  find f l = None -> existsb f l = false.
Proof.
  induction l as [|x l IH]; simpl; auto.
  destruct (f x); [discriminate|auto].
Qed.

Lemma slugForUpdate_spec (hall : Hall.t) (payload : UpdateHallPayload.t)
  (now : time) (db : Db) :
  exists c,
    HallService.slugForUpdate hall payload now db = (Returned c, db)
    /\ (c = Hall.slug hall
        \/ (HallService.existing db (Some (Hall.id hall)) c = None
            /\ HallService.slugify c = c)).
Proof.
  unfold HallService.slugForUpdate.
  destruct (UpdateHallPayload.slug payload) as [s|].
  - destruct (truthy s && truthy (trim s)
              && negb (Js.eqb (toLowerCase (trim s)) (Hall.slug hall))).
    + destruct (generateUniqueSlug_spec now s (Some (Hall.id hall)) db)
        as (c & j & R & F & _ & Ec & _).
      exists c. split; auto. right. split; auto.
      rewrite Ec. apply candidateAt_normal.
    + exists (Hall.slug hall). auto.
  - exists (Hall.slug hall). auto.
Qed.

(** The database after the UPDATE of the hall. *)
Definition withHall (row : Hall.t) (db : Db) : Db :=
  setHalls (map (fun h => if Hall.id h =? Hall.id row then row else h) (halls db)) db.

Lemma updateHallRow_spec (hall row : Hall.t) (db : Db) :
  Hall.id row = Hall.id hall ->
  Hall.slug row = Hall.slug hall
  \/ HallService.existing db (Some (Hall.id hall)) (Hall.slug row) = None ->
  HallService.updateHallRow hall row db = (Returned row, withHall row db).
Proof.
  intros Hid Hslug. unfold HallService.updateHallRow, withHall.
  destruct Hslug as [E|E].
  - rewrite E, jseqb_refl. reflexivity.
  - unfold HallService.existing in E. apply find_none_existsb in E.
    rewrite Hid, E, andb_false_r. reflexivity.
Qed.

(** An update of an existing hall goes through its first two steps: the
    slug is settled and the row is written. *)
Lemma updateHall_saves (id : uuid) (payload : UpdateHallPayload.t) (now : time)
  (db : Db) (hall : Hall.t) :
  HallService.findHallById id db = Some hall ->
  exists c,
    (c = Hall.slug hall
     \/ (HallService.existing db (Some (Hall.id hall)) c = None
         /\ HallService.slugify c = c))
    /\ let saved := HallService.mergeHall hall payload c now in
       HallService.updateHall id payload now db
       = bind (HallService.syncOwnerRole (Hall.gerantId hall) saved payload now)
           (fun _ => ret (HallService.toDTO saved)) (withHall saved db).
Proof.
  intros Hf.
  destruct (slugForUpdate_spec hall payload now db) as (c & Rc & Hc).
  exists c. split; [exact Hc|]. cbv zeta.
  unfold HallService.updateHall.
  unfold bind at 1, gets. rewrite Hf.
  rewrite (bind_returned _ _ _ _ _ Rc).
  assert (Hc' : Hall.slug (HallService.mergeHall hall payload c now) = Hall.slug hall
                \/ HallService.existing db (Some (Hall.id hall))
                     (Hall.slug (HallService.mergeHall hall payload c now)) = None).
  { simpl. destruct Hc as [?|[? _]]; auto. }
  rewrite (bind_returned _ _ _ _ _
             (updateHallRow_spec hall (HallService.mergeHall hall payload c now)
                db eq_refl Hc')).
  reflexivity.
Qed.

Lemma findHallById_withHall (id : uuid) (db : Db) (hall row : Hall.t) :
  HallService.findHallById id db = Some hall ->
  Hall.id row = id ->
  HallService.findHallById id (withHall row db) = Some row.
Proof.
  unfold HallService.findHallById, withHall. simpl. intros Hf <-.
  induction (halls db) as [|x l IH]; simpl in *; [discriminate|].
  destruct (Hall.id x =? Hall.id row) eqn:E.
  - simpl. now rewrite N.eqb_refl.
  - simpl. rewrite E. now apply IH.
Qed.

(** C10. An update whose payload leaves gerantId undefined returns, leaves
    every HallUserRole row as it is, and leaves the owner of the hall as it
    is, whatever else it changes. *)
Theorem C10_updateHall_keeps_owner (id : uuid) (payload : UpdateHallPayload.t)
  (now : time) (db : Db) (hall : Hall.t) :
  HallService.findHallById id db = Some hall ->
  UpdateHallPayload.gerantId payload = None ->
  exists dto db' hall',
    HallService.updateHall id payload now db = (Returned dto, db')
    /\ hallUserRoles db' = hallUserRoles db
    /\ HallService.findHallById id db' = Some hall'
    /\ Hall.gerantId hall' = Hall.gerantId hall
    /\ Hall.gerantId dto = Hall.gerantId hall.
Proof.
  intros Hf Hg.
  destruct (updateHall_saves id payload now db hall Hf) as (c & _ & E).
  cbv zeta in E. rewrite E.
  unfold HallService.syncOwnerRole. rewrite Hg.
  set (saved := HallService.mergeHall hall payload c now).
  exists saved, (withHall saved db), saved.
  split; [unfold bind, ret; now rewrite toDTO_eq|].
  split; [reflexivity|].
  split.
  - apply findHallById_withHall with hall; auto.
    now apply findHallById_some in Hf.
  - unfold saved. simpl. now rewrite Hg.
Qed.


(** Whether the update names a new owner who is no user: the INSERT of the
    owner row then fails on its foreign key. *)
Definition ownerUnknown (previous : option uuid) (payload : UpdateHallPayload.t)
  (db : Db) : bool :=
  match UpdateHallPayload.gerantId payload with
  | Some (Some newOwner) =>
      negb (option_eqb N.eqb (Some newOwner) previous)
      && negb (existsb (N.eqb newOwner) (users db))
  | _ => false
  end.

(** The role rows after the owner of the hall [saved] is synchronised: when
    the owner changes, the OWNER rows of the hall are deleted, and the row
    of the new owner is inserted when there is one and it is a user. *)
Definition rolesAfterSync (previous : option uuid) (saved : Hall.t)
  (payload : UpdateHallPayload.t) (now : time) (db : Db) : list HallUserRole.t :=
  match UpdateHallPayload.gerantId payload with
  | Some gerantId =>
      if option_eqb N.eqb gerantId previous then hallUserRoles db
      else
        filter (fun r => negb (HallService.isOwnerOf (Hall.id saved) r))
          (hallUserRoles db)
        ++ match gerantId with
           | Some newOwner =>
               if existsb (N.eqb newOwner) (users db)
               then [ownerRow (nextId db) (Hall.id saved) newOwner now]
               else []
           | None => []
           end
  | None => hallUserRoles db
  end.

Lemma syncOwnerRole_effect (previous : option uuid) (saved : Hall.t)
  (payload : UpdateHallPayload.t) (now : time) (db : Db) :
  exists db',
    HallService.syncOwnerRole previous saved payload now db
    = ((if ownerUnknown previous payload db
        then Thrown (QueryFailedError "HallUserRole.user_id")
        else Returned tt), db')
    /\ halls db' = halls db
    /\ hallUserRoles db' = rolesAfterSync previous saved payload now db
    /\ pricingTables db' = pricingTables db
    /\ mediaTables db' = mediaTables db
    /\ hostApplications db' = hostApplications db
    /\ nextId db <= nextId db'
    /\ users db' = users db.
Proof.
  unfold HallService.syncOwnerRole, rolesAfterSync, ownerUnknown.
  destruct (UpdateHallPayload.gerantId payload) as [[g|]|].
  - destruct (option_eqb N.eqb (Some g) previous); cbn [negb andb].
    + eexists. split; [reflexivity|]. repeat split; auto. lia.
    + unfold bind at 1, modify. unfold HallService.insertOwnerRole, bind, gets.
      cbn [users setHallUserRoles].
      destruct (existsb (N.eqb g) (users db)); cbn [negb].
      * eexists. split; [reflexivity|]. cbn. repeat split; auto. lia.
      * eexists. split; [reflexivity|]. cbn. rewrite app_nil_r.
        repeat split; auto. lia.
  - destruct previous as [p|]; cbn [option_eqb negb].
    + eexists. split; [reflexivity|]. cbn. rewrite app_nil_r.
      repeat split; auto. lia.
    + eexists. split; [reflexivity|]. repeat split; auto. lia.
  - eexists. split; [reflexivity|]. repeat split; auto. lia.
Qed.

(** An update of an existing hall: the slug is settled, the row is written
    under its key, and the owner rows are synchronised; the update returns
    the hall it wrote unless the INSERT of the owner row fails. *)
Lemma updateHall_effect (id : uuid) (payload : UpdateHallPayload.t) (now : time)
  (db : Db) (hall : Hall.t) :
  HallService.findHallById id db = Some hall ->
  exists c db',
    HallService.slugForUpdate hall payload now db = (Returned c, db)
    /\ (c = Hall.slug hall
        \/ (HallService.existing db (Some (Hall.id hall)) c = None
            /\ HallService.slugify c = c))
    /\ let saved := HallService.mergeHall hall payload c now in
       HallService.updateHall id payload now db
       = ((if ownerUnknown (Hall.gerantId hall) payload db
           then Thrown (QueryFailedError "HallUserRole.user_id")
           else Returned saved), db')
       /\ halls db' = map (fun h => if Hall.id h =? id then saved else h) (halls db)
       /\ hallUserRoles db'
          = rolesAfterSync (Hall.gerantId hall) saved payload now db
       /\ pricingTables db' = pricingTables db
       /\ mediaTables db' = mediaTables db
       /\ hostApplications db' = hostApplications db
       /\ nextId db <= nextId db'
       /\ users db' = users db.
Proof.
  intros Hf.
  pose proof (findHallById_some _ _ _ Hf) as [_ Hid].
  destruct (slugForUpdate_spec hall payload now db) as (c & Rc & Hc).
  set (saved := HallService.mergeHall hall payload c now).
  destruct (syncOwnerRole_effect (Hall.gerantId hall) saved payload now
              (withHall saved db))
    as (db' & R & Hh & Hr & Hp & Hm & Ha & Hn & Hu).
  change (ownerUnknown (Hall.gerantId hall) payload (withHall saved db))
    with (ownerUnknown (Hall.gerantId hall) payload db) in R.
  exists c, db'. split; [exact Rc|]. split; [exact Hc|]. cbv zeta. fold saved.
  split.
  { unfold HallService.updateHall.
    unfold bind at 1, gets. rewrite Hf.
    rewrite (bind_returned _ _ _ _ _ Rc).
    assert (Hc' : Hall.slug saved = Hall.slug hall
                  \/ HallService.existing db (Some (Hall.id hall)) (Hall.slug saved)
                     = None).
    { simpl. destruct Hc as [?|[? _]]; auto. }
    rewrite (bind_returned _ _ _ _ _
               (updateHallRow_spec hall saved db eq_refl Hc')).
    destruct (ownerUnknown (Hall.gerantId hall) payload db).
    - now rewrite (bind_thrown _ _ _ _ _ R).
    - rewrite (bind_returned _ _ _ _ _ R). unfold ret. now rewrite toDTO_eq. }
  split.
  { rewrite Hh. unfold withHall. cbn [halls setHalls].
    change (Hall.id saved) with (Hall.id hall). now rewrite Hid. }
  repeat split; auto.
Qed.





End UpdateHall.

Definition ownedHall : Hall.t :=
  {| Hall.id := 1; Hall.gerantId := Some 7; Hall.name := lit "Lakeview";
     Hall.slug := lit "lakeview-kinshasa"; Hall.address := None;
     Hall.city := Some (lit "Kinshasa"); Hall.capacity := None;
     Hall.description := None; Hall.cancellationPolicy := None;
     Hall.isPremium := false; Hall.status := DRAFT;
     Hall.createdAt := 1000; Hall.updatedAt := 1000 |}.

(** The users 7 and 9, and a hall of user 7 as a creation leaves it. *)
Definition dbOwned : Db :=
  setHalls [ownedHall]
    (setHallUserRoles
       [{| HallUserRole.id := 2; HallUserRole.hall_id := 1;
           HallUserRole.user_id := 7; HallUserRole.role := OWNER;
           HallUserRole.created_at := 1000 |}]
       (setNextId 3 (setUsers [7; 9] emptyDb))).

Example dbOwned_created :
  snd (@HallService.createHall latin1
         {| CreateHallPayload.name := lit "Lakeview";
            CreateHallPayload.slug := None;
            CreateHallPayload.address := None;
            CreateHallPayload.city := Some (lit "Kinshasa");
            CreateHallPayload.capacity := None;
            CreateHallPayload.description := None;
            CreateHallPayload.cancellationPolicy := None;
            CreateHallPayload.isPremium := None;
            CreateHallPayload.status := None;
            CreateHallPayload.gerantId := Some 7 |} 1000
         (setUsers [7; 9] emptyDb))
  = dbOwned.
Proof. vm_compute. reflexivity. Qed.

Definition updatePayload (name : option jsstring) (gerantId : option (option uuid))
  : UpdateHallPayload.t :=
  {| UpdateHallPayload.name := name; UpdateHallPayload.slug := None;
     UpdateHallPayload.address := None; UpdateHallPayload.city := None;
     UpdateHallPayload.capacity := None; UpdateHallPayload.description := None;
     UpdateHallPayload.cancellationPolicy := None;
     UpdateHallPayload.isPremium := Some true;
     UpdateHallPayload.status := Some ACTIVE;
     UpdateHallPayload.gerantId := gerantId |}.


(** The hall of user 7 is given to 8, who is no user: the update throws
    after the OWNER row of 7 is deleted, and the hall has no OWNER row. *)
Example updateHall_unknown_owner :
  let r := @HallService.updateHall latin1 1 (updatePayload None (Some (Some 8)))
             2000 dbOwned in
  fst r = Thrown (QueryFailedError "HallUserRole.user_id")
  /\ filter (HallService.isOwnerOf 1) (hallUserRoles (snd r)) = []
  /\ map Hall.gerantId (halls (snd r)) = [Some 8].
Proof. vm_compute. repeat split. Qed.


Lemma C10_updateHall_keeps_owner_witness :
  exists dto db' hall',
    @HallService.updateHall latin1 1 (updatePayload (Some (lit "Lake View")) None)
      2000 dbOwned
    = (Returned dto, db')
    /\ hallUserRoles db' = hallUserRoles dbOwned
    /\ HallService.findHallById 1 db' = Some hall'
    /\ Hall.gerantId hall' = Some 7
    /\ Hall.gerantId dto = Some 7.
Proof.
  apply (@C10_updateHall_keeps_owner latin1 1
           (updatePayload (Some (lit "Lake View")) None) 2000 dbOwned ownedHall).
  - reflexivity.
  - reflexivity.
Defined.

(** ** C3: the approval of a host application *)

Section C3.
Context `{Builtins}.

Definition findHostApplication (id : uuid) (db : Db) : option HostApplication.t :=
  find (fun a => HostApplication.id a =? id) (hostApplications db).





End C3.

Definition application (applicantUserId : option uuid) (status : HostApplicationStatus)
  : HostApplication.t :=
  {| HostApplication.id := 1;
     HostApplication.applicantUserId := applicantUserId;
     HostApplication.hallName := lit "Lakeview";
     HostApplication.address := None;
     HostApplication.city := Some (lit "Kinshasa");
     HostApplication.capacity := Some 300%Z;
     HostApplication.description := None;
     HostApplication.additionalDetails := None;
     HostApplication.contactName := lit "Ada";
     HostApplication.contactEmail := lit "ada@example.org";
     HostApplication.contactPhone := None;
     HostApplication.contactWhatsapp := None;
     HostApplication.status := status;
     HostApplication.adminNotes := None;
     HostApplication.reviewedByUserId := None;
     HostApplication.reviewedAt := None;
     HostApplication.createdAt := 1000;
     HostApplication.updatedAt := 1000 |}.

(** The user 5 and one new application. *)
Definition dbApplication (applicantUserId : option uuid) : Db :=
  setHostApplications [application applicantUserId NEW]
    (setNextId 2 (setUsers [5] emptyDb)).

Definition approve : UpdateHostApplicationStatusPayload.t :=
  {| UpdateHostApplicationStatusPayload.status := APPROVED;
     UpdateHostApplicationStatusPayload.adminNotes := None;
     UpdateHostApplicationStatusPayload.reviewedByUserId := Some 99 |}.

(** The scenario of the specification: the application of user 5 is
    approved, and a draft hall of user 5 exists. *)
Example approval_scenario :
  map (fun h => (Hall.slug h, Hall.status h, Hall.gerantId h))
    (halls (snd (@HostApplicationService.updateHostApplicationStatus latin1 1
                   approve 2000 (dbApplication (Some 5)))))
  = [(lit "lakeview-kinshasa", DRAFT, Some 5)].
Proof. vm_compute. reflexivity. Qed.


(** An application whose hall name and city fit the columns of the
    applications, and whose slug does not fit the column of halls. *)
Definition longApplication : HostApplication.t :=
  {| HostApplication.id := 1;
     HostApplication.applicantUserId := Some 5;
     HostApplication.hallName := List.repeat 97 200;
     HostApplication.address := None;
     HostApplication.city := Some (List.repeat 98 100);
     HostApplication.capacity := None;
     HostApplication.description := None;
     HostApplication.additionalDetails := None;
     HostApplication.contactName := lit "Ada";
     HostApplication.contactEmail := lit "ada@example.org";
     HostApplication.contactPhone := None;
     HostApplication.contactWhatsapp := None;
     HostApplication.status := NEW;
     HostApplication.adminNotes := None;
     HostApplication.reviewedByUserId := None;
     HostApplication.reviewedAt := None;
     HostApplication.createdAt := 1000;
     HostApplication.updatedAt := 1000 |}.

Definition dbLongApplication : Db :=
  setHostApplications [longApplication] (setNextId 2 (setUsers [5] emptyDb)).

(** Its approval throws on the slug, 301 characters long: the application
    is saved as approved and no hall is created. *)
Example approval_of_long_application :
  let r := @HostApplicationService.updateHostApplicationStatus latin1 1 approve
             2000 dbLongApplication in
  fst r = Thrown (QueryFailedError "halls: value out of range")
  /\ halls (snd r) = []
  /\ map HostApplication.status (hostApplications (snd r)) = [APPROVED].
Proof. vm_compute. repeat split. Qed.


(** ** C5: primary tags *)

Section PrimaryTags.
Context `{Builtins}.

(** What the write-back of [unsetExistingPrimaryForHallAndTagType] does to a
    row of media_tags. *)
Definition unsetIn (existingPrimaryTags : list MediaTag.t) (row : MediaTag.t)
  : MediaTag.t :=
  if existsb (fun tag => MediaTag.id tag =? MediaTag.id row) existingPrimaryTags
  then {| MediaTag.id := MediaTag.id row;
          MediaTag.mediaId := MediaTag.mediaId row;
          MediaTag.tagTypeId := MediaTag.tagTypeId row;
          MediaTag.isPrimary := false;
          MediaTag.createdAt := MediaTag.createdAt row |}
  else row.

(** The test of the query for the primary tags of a hall and a tag type. *)
Definition isPrimaryOf (mediaRows : list Media.t) (hallId tagTypeId : uuid)
  (mt : MediaTag.t) : bool :=
  existsb (fun m => (Media.id m =? MediaTag.mediaId mt) && (Media.hallId m =? hallId))
    mediaRows
  && (MediaTag.tagTypeId mt =? tagTypeId)
  && MediaTag.isPrimary mt.

Lemma primaryTags_filter (hallId tagTypeId : uuid) (db : Db) :
  MediaService.primaryTagsForHallAndTagType hallId tagTypeId db
  = filter (isPrimaryOf (media db) hallId tagTypeId) (mediaTags db).
Proof. reflexivity. Qed.

Lemma unsetIn_nil (l : list MediaTag.t) : map (unsetIn []) l = l.
Proof.
  induction l as [|row l IH]; simpl; auto.
  rewrite IH. reflexivity.
Qed.

Lemma isPrimaryOf_unsetIn (mediaRows : list Media.t) (h tt : uuid)
  (existingPrimaryTags : list MediaTag.t) (row : MediaTag.t) :
  isPrimaryOf mediaRows h tt (unsetIn existingPrimaryTags row)
  = isPrimaryOf mediaRows h tt row
    && negb (existsb (fun tag => MediaTag.id tag =? MediaTag.id row)
               existingPrimaryTags).
Proof.
  unfold unsetIn, isPrimaryOf.
  destruct (existsb _ existingPrimaryTags); simpl.
  - now rewrite !andb_false_r.
  - now rewrite andb_true_r.
Qed.

Lemma existsb_self (l : list MediaTag.t) (row : MediaTag.t) :
  In row l -> existsb (fun tag => MediaTag.id tag =? MediaTag.id row) l = true.
Proof.
  intros Hin. apply existsb_exists. exists row. split; auto. apply N.eqb_refl.
Qed.

(** After the write-back, the hall has no primary tag of the type. *)
Lemma unsetIn_clears (mediaRows : list Media.t) (h tt : uuid) (l : list MediaTag.t) :
  filter (isPrimaryOf mediaRows h tt)
    (map (unsetIn (filter (isPrimaryOf mediaRows h tt) l)) l) = [].
Proof.
  set (existingPrimaryTags := filter (isPrimaryOf mediaRows h tt) l).
  assert (Hall : forall row, In row l -> isPrimaryOf mediaRows h tt row = true ->
                             In row existingPrimaryTags).
  { intros row Hin Hp. apply filter_In. auto. }
  clearbody existingPrimaryTags.
  induction l as [|row l IH]; simpl; auto.
  rewrite isPrimaryOf_unsetIn.
  destruct (isPrimaryOf mediaRows h tt row) eqn:Ep; simpl.
  - rewrite existsb_self by (apply Hall; simpl; auto). simpl.
    apply IH. intros r Hr. apply Hall. now right.
  - apply IH. intros r Hr. apply Hall. now right.
Qed.

(** For any hall and type, the write-back adds no primary tag. *)
Lemma unsetIn_length (mediaRows : list Media.t) (h tt : uuid)
  (existingPrimaryTags l : list MediaTag.t) :
  (List.length (filter (isPrimaryOf mediaRows h tt) (map (unsetIn existingPrimaryTags) l))
   <= List.length (filter (isPrimaryOf mediaRows h tt) l))%nat.
Proof.
  induction l as [|row l IH]; simpl; auto.
  rewrite isPrimaryOf_unsetIn.
  destruct (isPrimaryOf mediaRows h tt row); simpl.
  - destruct (negb _); simpl; lia.
  - exact IH.
Qed.

Lemma unsetIn_mediaId (existingPrimaryTags l : list MediaTag.t) :
  map MediaTag.mediaId (map (unsetIn existingPrimaryTags) l) = map MediaTag.mediaId l.
Proof.
  induction l as [|row l IH]; simpl; auto.
  rewrite IH. f_equal. unfold unsetIn. now destruct (existsb _ _).
Qed.

Lemma unsetIn_keys (existingPrimaryTags l : list MediaTag.t) :
  map (fun t => (MediaTag.mediaId t, MediaTag.tagTypeId t))
    (map (unsetIn existingPrimaryTags) l)
  = map (fun t => (MediaTag.mediaId t, MediaTag.tagTypeId t)) l.
Proof.
  induction l as [|row l IH]; simpl; auto.
  rewrite IH. f_equal. unfold unsetIn. now destruct (existsb _ _).
Qed.

Lemma unsetExisting_spec (hallId tagTypeId : uuid) (db : Db) :
  exists db',
    MediaService.unsetExistingPrimaryForHallAndTagType hallId tagTypeId db
    = (Returned tt, db')
    /\ media db' = media db
    /\ mediaTagTypes db' = mediaTagTypes db
    /\ nextId db' = nextId db
    /\ mediaTags db' =
       map (unsetIn (MediaService.primaryTagsForHallAndTagType hallId tagTypeId db))
         (mediaTags db).
Proof.
  unfold MediaService.unsetExistingPrimaryForHallAndTagType.
  unfold bind at 1, gets.
  destruct (MediaService.primaryTagsForHallAndTagType hallId tagTypeId db)
    as [|t l] eqn:E.
  - exists db. rewrite unsetIn_nil. repeat split; reflexivity.
  - eexists. split; [reflexivity|]. repeat split; reflexivity.
Qed.

Definition tagTypeMatches (name : jsstring) (t : MediaTagType.t) : bool :=
  Js.eqb (sqlLower (MediaTagType.name t)) (sqlLower (trim name)).

Lemma findOrCreate_spec (name : jsstring) (now : time) (db : Db) :
  exists tagType db',
    MediaService.findOrCreateTagTypeByName name now db = (Returned tagType, db')
    /\ media db' = media db
    /\ mediaTags db' = mediaTags db
    /\ nextId db <= nextId db'
    /\ find (tagTypeMatches name) (mediaTagTypes db') = Some tagType
    /\ (forall t0, find (tagTypeMatches name) (mediaTagTypes db) = Some t0 ->
                   tagType = t0).
Proof.
  unfold MediaService.findOrCreateTagTypeByName.
  unfold bind at 1, gets.
  fold (tagTypeMatches name).
  destruct (find (tagTypeMatches name) (mediaTagTypes db)) as [t|] eqn:E.
  - exists t, db. repeat split; auto; try lia. congruence.
  - eexists _, _. split; [reflexivity|]. cbn.
    repeat split; try lia; try discriminate.
    induction (mediaTagTypes db) as [|x l IH]; simpl in *.
    + unfold tagTypeMatches. simpl. now rewrite jseqb_refl.
    + destruct (tagTypeMatches name x); [discriminate|auto].
Qed.

(** A second lookup of the name finds the same tag type. *)
Lemma findOrCreate_again (name : jsstring) (now : time) (db : Db)
  (tagType : MediaTagType.t) :
  find (tagTypeMatches name) (mediaTagTypes db) = Some tagType ->
  MediaService.findOrCreateTagTypeByName name now db = (Returned tagType, db).
Proof.
  intros E. unfold MediaService.findOrCreateTagTypeByName.
  unfold bind at 1, gets. fold (tagTypeMatches name). now rewrite E.
Qed.

End PrimaryTags.

Section TagMediaByName.
Context `{Builtins}.

Definition findMedia (mediaId : uuid) (db : Db) : option Media.t :=
  find (fun m => Media.id m =? mediaId) (media db).

Definition primaryFlag (isPrimary : option bool) : bool :=
  match isPrimary with Some b => b | None => false end.

(** The tag row a call inserts. *)
Definition newTag (id : uuid) (m : Media.t) (tagType : MediaTagType.t)
  (isPrimary : option bool) (now : time) : MediaTag.t :=
  {| MediaTag.id := id;
     MediaTag.mediaId := Media.id m;
     MediaTag.tagTypeId := MediaTagType.id tagType;
     MediaTag.isPrimary := primaryFlag isPrimary;
     MediaTag.createdAt := now |}.

(** A call on an existing media row runs up to the insertion of the tag:
    the tag type is there, and the earlier primary tags of the hall and the
    type are unset when the new tag is primary. *)
Lemma tagMediaByName_steps (mediaId : uuid) (tagName : jsstring)
  (isPrimary : option bool) (now : time) (db : Db) (m : Media.t) :
  findMedia mediaId db = Some m ->
  exists tagType db2,
    find (tagTypeMatches tagName) (mediaTagTypes db2) = Some tagType
    /\ (forall t0, find (tagTypeMatches tagName) (mediaTagTypes db) = Some t0 ->
                   tagType = t0)
    /\ media db2 = media db
    /\ nextId db <= nextId db2
    /\ mediaTags db2 =
       (if primaryFlag isPrimary
        then map (unsetIn (filter (isPrimaryOf (media db) (Media.hallId m)
                                     (MediaTagType.id tagType))
                             (mediaTags db)))
               (mediaTags db)
        else mediaTags db)
    /\ MediaService.tagMediaByName mediaId tagName isPrimary now db
       = bind (MediaService.insertMediaTag
                 (newTag (nextId db2) m tagType isPrimary now))
           (fun saved =>
              ret (MediaService.toMediaTagDTO saved (MediaTagType.name tagType)))
           (setNextId (N.succ (nextId db2)) db2).
Proof.
  intros Hm. unfold findMedia in Hm.
  destruct (findOrCreate_spec tagName now db)
    as (tagType & db1 & R1 & Hmed1 & Htags1 & Hid1 & Hfind1 & Hsame).
  unfold MediaService.tagMediaByName. fold (primaryFlag isPrimary).
  unfold bind at 1, gets. rewrite Hm.
  rewrite (bind_returned _ _ _ _ _ R1).
  destruct (primaryFlag isPrimary) eqn:Ep.
  - destruct (unsetExisting_spec (Media.hallId m) (MediaTagType.id tagType) db1)
      as (db2 & R2 & Hmed2 & Htt2 & Hid2 & Htags2).
    exists tagType, db2.
    rewrite (bind_returned _ _ _ _ _ R2).
    repeat split.
    + now rewrite Htt2.
    + exact Hsame.
    + congruence.
    + now rewrite Hid2.
    + rewrite Htags2, primaryTags_filter. now rewrite Hmed1, Htags1.
    + unfold generateId, newTag. unfold bind at 1. now rewrite Ep.
  - exists tagType, db1. repeat split; auto.
    unfold ret at 1. unfold bind at 1.
    unfold generateId, newTag. unfold bind at 1. now rewrite Ep.
Qed.

Lemma tagMediaByName_notFound (mediaId : uuid) (tagName : jsstring)
  (isPrimary : option bool) (now : time) (db : Db) :
  findMedia mediaId db = None ->
  MediaService.tagMediaByName mediaId tagName isPrimary now db
  = (Thrown (NotFoundError "Media not found"), db).
Proof.
  intros Hm. unfold findMedia in Hm. unfold MediaService.tagMediaByName.
  unfold bind at 1, gets. now rewrite Hm.
Qed.

Lemma findMedia_some (mediaId : uuid) (db : Db) (m : Media.t) :
  findMedia mediaId db = Some m -> In m (media db) /\ Media.id m = mediaId.
Proof.
  unfold findMedia. intros E. apply find_some in E. destruct E as [Hin E].
  split; auto. now apply N.eqb_eq.
Qed.

(** The two ways a call on an existing media row ends: the tag is inserted,
    or the row breaks the unique constraint on (mediaId, tagTypeId). *)
Lemma tagMediaByName_outcome (mediaId : uuid) (tagName : jsstring)
  (isPrimary : option bool) (now : time) (db : Db) (m : Media.t) :
  findMedia mediaId db = Some m ->
  exists tagType db2,
    find (tagTypeMatches tagName) (mediaTagTypes db2) = Some tagType
    /\ (forall t0, find (tagTypeMatches tagName) (mediaTagTypes db) = Some t0 ->
                   tagType = t0)
    /\ media db2 = media db
    /\ nextId db <= nextId db2
    /\ mediaTags db2 =
       (if primaryFlag isPrimary
        then map (unsetIn (filter (isPrimaryOf (media db) (Media.hallId m)
                                     (MediaTagType.id tagType))
                             (mediaTags db)))
               (mediaTags db)
        else mediaTags db)
    /\ let tag := newTag (nextId db2) m tagType isPrimary now in
       (MediaService.tagMediaByName mediaId tagName isPrimary now db
        = (Returned (MediaService.toMediaTagDTO tag (MediaTagType.name tagType)),
           setMediaTags (mediaTags db2 ++ [tag])
             (setNextId (N.succ (nextId db2)) db2))
        /\ ~ In (MediaTag.mediaId tag, MediaTag.tagTypeId tag)
               (map (fun t => (MediaTag.mediaId t, MediaTag.tagTypeId t))
                  (mediaTags db)))
       \/ MediaService.tagMediaByName mediaId tagName isPrimary now db
          = (Thrown (QueryFailedError "uq_media_tag"),
             setNextId (N.succ (nextId db2)) db2).
Proof.
  intros Hm.
  destruct (tagMediaByName_steps mediaId tagName isPrimary now db m Hm)
    as (tagType & db2 & Hfind & Hsame & Hmed & Hid & Htags & E).
  exists tagType, db2. repeat (split; [assumption|]).
  cbv zeta. rewrite E. clear E.
  unfold bind, MediaService.insertMediaTag. cbn [mediaTags setNextId].
  destruct (existsb _ (mediaTags db2)) eqn:Ex.
  - now right.
  - left. split; [reflexivity|].
    intros Hin.
    assert (Hkeys : map (fun t => (MediaTag.mediaId t, MediaTag.tagTypeId t))
                      (mediaTags db2)
                    = map (fun t => (MediaTag.mediaId t, MediaTag.tagTypeId t))
                        (mediaTags db)).
    { rewrite Htags. destruct (primaryFlag isPrimary); auto. apply unsetIn_keys. }
    rewrite <- Hkeys in Hin. apply in_map_iff in Hin.
    destruct Hin as (t & Et & Hin). injection Et as E1 E2.
    assert (Hex : existsb
                    (fun t0 => (MediaTag.mediaId t0
                                =? MediaTag.mediaId
                                     (newTag (nextId db2) m tagType isPrimary now))
                               && (MediaTag.tagTypeId t0
                                   =? MediaTag.tagTypeId
                                        (newTag (nextId db2) m tagType isPrimary now)))
                    (mediaTags db2) = true).
    { apply existsb_exists. exists t. split; auto.
      rewrite E1, E2. now rewrite !N.eqb_refl. }
    congruence.
Qed.

(** A primary tag that is inserted is the one primary tag of its hall and
    type. *)
Lemma tagMediaByName_primary (mediaId : uuid) (tagName : jsstring) (now : time)
  (db db' : Db) (m : Media.t) (dto : MediaTagDTO.t) :
  findMedia mediaId db = Some m ->
  MediaService.tagMediaByName mediaId tagName (Some true) now db = (Returned dto, db') ->
  (exists tag,
     MediaService.primaryTagsForHallAndTagType (Media.hallId m)
       (MediaTagDTO.tagTypeId dto) db' = [tag]
     /\ MediaTag.id tag = MediaTagDTO.id dto
     /\ MediaTag.mediaId tag = mediaId)
  /\ media db' = media db
  /\ (exists tagType,
        find (tagTypeMatches tagName) (mediaTagTypes db') = Some tagType
        /\ MediaTagType.id tagType = MediaTagDTO.tagTypeId dto
        /\ (forall t0, find (tagTypeMatches tagName) (mediaTagTypes db) = Some t0 ->
                       tagType = t0)).
Proof.
  intros Hm R.
  destruct (tagMediaByName_outcome mediaId tagName (Some true) now db m Hm)
    as (tagType & db2 & Hfind & Hsame & Hmed & Hid & Htags & [[E _]|E]);
    rewrite E in R; [|discriminate].
  injection R as <- <-.
  pose proof (findMedia_some _ _ _ Hm) as [Hin Hmid].
  split; [|split].
  - exists (newTag (nextId db2) m tagType (Some true) now).
    split; [|split; auto].
    rewrite primaryTags_filter. cbn [media mediaTags setMediaTags setNextId].
    cbn [MediaService.toMediaTagDTO MediaTagDTO.tagTypeId newTag MediaTag.tagTypeId].
    rewrite Hmed, Htags. cbn [primaryFlag].
    rewrite filter_app, unsetIn_clears. simpl.
    assert (Hp : isPrimaryOf (media db) (Media.hallId m) (MediaTagType.id tagType)
                   (newTag (nextId db2) m tagType (Some true) now) = true).
    { unfold isPrimaryOf. simpl. rewrite N.eqb_refl, !andb_true_r.
      apply existsb_exists. exists m. now rewrite !N.eqb_refl. }
    now rewrite Hp.
  - exact Hmed.
  - exists tagType. repeat split; auto.
Qed.

End TagMediaByName.

(** *** Sequences of calls of the media service *)

Inductive MediaOp :=
| OpCreateMedia (payload : CreateMediaPayload.t) (now : time)
| OpTagMediaByName (mediaId : uuid) (tagName : jsstring) (isPrimary : option bool)
    (now : time).

Section MediaInvariant.
Context `{Builtins}.

(** The database after a call, whatever its outcome. *)
Definition runOp (op : MediaOp) (db : Db) : Db :=
  match op with
  | OpCreateMedia payload now => snd (MediaService.createMedia payload now db)
  | OpTagMediaByName mediaId tagName isPrimary now =>
      snd (MediaService.tagMediaByName mediaId tagName isPrimary now db)
  end.

Definition runOps (ops : list MediaOp) (db : Db) : Db :=
  fold_left (fun d op => runOp op d) ops db.

(** The keys of the media rows are unique and were generated, and the tags
    point to generated keys. *)
Definition mediaWf (db : Db) : Prop :=
  NoDup (map Media.id (media db))
  /\ Forall (fun m => Media.id m < nextId db) (media db)
  /\ Forall (fun t => MediaTag.mediaId t < nextId db) (mediaTags db).

(** At most one primary tag per hall and tag type. *)
Definition onePrimary (db : Db) : Prop :=
  forall hallId tagTypeId,
    (List.length (MediaService.primaryTagsForHallAndTagType hallId tagTypeId db) <= 1)%nat.

Lemma media_id_unique (l : list Media.t) (a b : Media.t) :
  NoDup (map Media.id l) -> In a l -> In b l -> Media.id a = Media.id b -> a = b.
Proof.
  induction l as [|x l IH]; simpl; intros Hnd Ha Hb E; [contradiction|].
  inversion Hnd as [|? ? Hnotin Hnd']; subst.
  destruct Ha as [->|Ha], Hb as [->|Hb]; auto.
  - exfalso. apply Hnotin. rewrite E. now apply in_map.
  - exfalso. apply Hnotin. rewrite <- E. now apply in_map.
Qed.

Lemma Forall_mediaId (n : N) (l l' : list MediaTag.t) :
  map MediaTag.mediaId l' = map MediaTag.mediaId l ->
  Forall (fun t => MediaTag.mediaId t < n) l ->
  Forall (fun t => MediaTag.mediaId t < n) l'.
Proof.
  intros E F.
  apply Forall_map with (f := MediaTag.mediaId) (P := fun x => x < n).
  rewrite E. now apply Forall_map.
Qed.

Lemma Forall_lt_weaken {A : Type} (key : A -> N) (n n' : N) (l : list A) :
  n <= n' -> Forall (fun x => key x < n) l -> Forall (fun x => key x < N.succ n') l.
Proof.
  intros L F. eapply Forall_impl; [|exact F]. simpl. intros. lia.
Qed.

Lemma tagMediaByName_preserves (mediaId : uuid) (tagName : jsstring)
  (isPrimary : option bool) (now : time) (db : Db) :
  mediaWf db -> onePrimary db ->
  mediaWf (runOp (OpTagMediaByName mediaId tagName isPrimary now) db)
  /\ onePrimary (runOp (OpTagMediaByName mediaId tagName isPrimary now) db).
Proof.
  intros (Hnd & Hmid & Htid) Hone. unfold runOp.
  destruct (findMedia mediaId db) as [m|] eqn:Hm.
  2:{ rewrite tagMediaByName_notFound by exact Hm. simpl.
      split; [repeat split|]; assumption. }
  pose proof (findMedia_some _ _ _ Hm) as [Hin Hmeq].
  destruct (tagMediaByName_outcome mediaId tagName isPrimary now db m Hm)
    as (tagType & db2 & _ & _ & Hmed & Hid & Htags & Hout).
  cbv zeta in Hout.
  assert (Hids : map MediaTag.mediaId (mediaTags db2)
                 = map MediaTag.mediaId (mediaTags db)).
  { rewrite Htags. destruct (primaryFlag isPrimary); auto. apply unsetIn_mediaId. }
  assert (Hlen : forall h tt,
             (List.length (filter (isPrimaryOf (media db) h tt) (mediaTags db2))
              <= 1)%nat).
  { intros h tt. specialize (Hone h tt). rewrite primaryTags_filter in Hone.
    rewrite Htags. destruct (primaryFlag isPrimary); auto.
    eapply Nat.le_trans; [apply unsetIn_length|exact Hone]. }
  assert (Hmid2 : Forall (fun m0 => Media.id m0 < N.succ (nextId db2)) (media db)).
  { now apply Forall_lt_weaken with (nextId db). }
  assert (Htid2 : Forall (fun t => MediaTag.mediaId t < N.succ (nextId db2))
                    (mediaTags db2)).
  { apply Forall_mediaId with (mediaTags db); auto.
    now apply Forall_lt_weaken with (nextId db). }
  destruct Hout as [[E _]|E]; rewrite E; cbn [snd].
  - split.
    + unfold mediaWf. cbn [media mediaTags nextId setMediaTags setNextId].
      rewrite Hmed. repeat split; auto.
      apply Forall_app. split; auto. constructor; [|constructor].
      cbn. rewrite Forall_forall in Hmid. specialize (Hmid m Hin). lia.
    + intros h tt. rewrite primaryTags_filter.
      cbn [media mediaTags setMediaTags setNextId]. rewrite Hmed, filter_app.
      rewrite length_app. cbn [filter].
      destruct (isPrimaryOf (media db) h tt
                  (newTag (nextId db2) m tagType isPrimary now)) eqn:Ep.
      * unfold isPrimaryOf in Ep. cbn in Ep.
        apply andb_true_iff in Ep. destruct Ep as [Ep Eprim].
        apply andb_true_iff in Ep. destruct Ep as [Eex Ett].
        apply N.eqb_eq in Ett. subst tt.
        apply existsb_exists in Eex. destruct Eex as (m' & Hin' & Em').
        apply andb_true_iff in Em'. destruct Em' as [Eid Eh].
        apply N.eqb_eq in Eid, Eh.
        assert (m' = m) by (apply (media_id_unique (media db)); auto).
        subst m' h.
        rewrite Htags, Eprim, unsetIn_clears. simpl. lia.
      * specialize (Hlen h tt). simpl. lia.
  - split.
    + unfold mediaWf. cbn [media mediaTags nextId setNextId].
      rewrite Hmed. repeat split; auto.
    + intros h tt. rewrite primaryTags_filter.
      cbn [media mediaTags setNextId]. rewrite Hmed. apply Hlen.
Qed.

Lemma createMedia_preserves (payload : CreateMediaPayload.t) (now : time) (db : Db) :
  mediaWf db -> onePrimary db ->
  mediaWf (runOp (OpCreateMedia payload now) db)
  /\ onePrimary (runOp (OpCreateMedia payload now) db).
Proof.
  intros (Hnd & Hmid & Htid) Hone. unfold runOp.
  unfold MediaService.createMedia, generateId, modify, bind, ret.
  cbn [snd]. split.
  - unfold mediaWf. cbn [media mediaTags nextId setMedia setNextId].
    repeat split.
    + rewrite map_app. simpl.
      apply NoDup_app_remove_l with (l := []). simpl.
      apply Permutation_NoDup with (nextId db :: map Media.id (media db)).
      * apply Permutation_cons_append.
      * constructor; auto. intros Hin. apply in_map_iff in Hin.
        destruct Hin as (m & Em & Hin). rewrite Forall_forall in Hmid.
        specialize (Hmid m Hin). lia.
    + apply Forall_app. split.
      * now apply Forall_lt_weaken with (nextId db).
      * constructor; [|constructor]. cbn. lia.
    + now apply Forall_lt_weaken with (nextId db).
  - intros h tt. specialize (Hone h tt).
    rewrite primaryTags_filter in *.
    cbn [media mediaTags setMedia setNextId].
    erewrite filter_ext_in; [exact Hone|].
    intros t Ht. unfold isPrimaryOf. rewrite existsb_app.
    cbn [existsb Media.id Media.hallId].
    rewrite Forall_forall in Htid. specialize (Htid t Ht).
    destruct (N.eqb_spec (nextId db) (MediaTag.mediaId t)); [lia|].
    cbn [andb orb]. now rewrite !orb_false_r.
Qed.

Lemma runOps_preserves (ops : list MediaOp) (db : Db) :
  mediaWf db -> onePrimary db ->
  mediaWf (runOps ops db) /\ onePrimary (runOps ops db).
Proof.
  revert db. induction ops as [|op ops IH]; intros db Hwf Hone; simpl; auto.
  apply IH.
  - destruct op; [now apply createMedia_preserves|now apply tagMediaByName_preserves].
  - destruct op; [now apply createMedia_preserves|now apply tagMediaByName_preserves].
Qed.

End MediaInvariant.

Section C5.
Context `{Builtins}.

(** C5 as stated: after the two calls, whatever their outcomes, the hall
    has one primary tag of some type, on the second media row. *)
Definition C5_as_stated : Prop :=
  forall (db : Db) (m1 m2 : uuid) (a b : Media.t) (tagName : jsstring)
         (t1 t2 : time),
    findMedia m1 db = Some a ->
    findMedia m2 db = Some b ->
    Media.hallId a = Media.hallId b ->
    m1 <> m2 ->
    let db1 := snd (MediaService.tagMediaByName m1 tagName (Some true) t1 db) in
    let db2 := snd (MediaService.tagMediaByName m2 tagName (Some true) t2 db1) in
    exists tagTypeId tag,
      MediaService.primaryTagsForHallAndTagType (Media.hallId b) tagTypeId db2
      = [tag]
      /\ MediaTag.mediaId tag = m2.

(** C5 (as amended). Two successive calls that tag two media rows of one
    hall as primary under one tag name, and both return, use one tag type
    and leave one primary tag of that type for the hall, the tag of the
    second call. And no sequence of calls of the media service, whatever
    their outcomes, leaves a hall with two primary tags of one type. *)
Theorem C5_one_primary_tag :
  (forall (db db1 db2 : Db) (m1 m2 : uuid) (a b : Media.t) (tagName : jsstring)
          (t1 t2 : time) (d1 d2 : MediaTagDTO.t),
     findMedia m1 db = Some a ->
     findMedia m2 db = Some b ->
     Media.hallId a = Media.hallId b ->
     m1 <> m2 ->
     MediaService.tagMediaByName m1 tagName (Some true) t1 db = (Returned d1, db1) ->
     MediaService.tagMediaByName m2 tagName (Some true) t2 db1 = (Returned d2, db2) ->
     MediaTagDTO.tagTypeId d1 = MediaTagDTO.tagTypeId d2
     /\ exists tag,
          MediaService.primaryTagsForHallAndTagType (Media.hallId b)
            (MediaTagDTO.tagTypeId d2) db2 = [tag]
          /\ MediaTag.id tag = MediaTagDTO.id d2
          /\ MediaTag.mediaId tag = m2)
  /\ (forall (ops : list MediaOp) (db : Db),
        mediaWf db -> onePrimary db -> onePrimary (runOps ops db)).
Proof.
  split.
  - intros db db1 db2 m1 m2 a b tagName t1 t2 d1 d2 Ha Hb Hh _ R1 R2.
    destruct (tagMediaByName_primary m1 tagName t1 db db1 a d1 Ha R1)
      as (_ & Hmed1 & (tagType1 & Hf1 & Hid1 & _)).
    assert (Hb1 : findMedia m2 db1 = Some b).
    { unfold findMedia in *. now rewrite Hmed1. }
    destruct (tagMediaByName_primary m2 tagName t2 db1 db2 b d2 Hb1 R2)
      as (Htag & _ & (tagType2 & _ & Hid2 & Hsame)).
    split; [|exact Htag].
    rewrite <- Hid1, <- Hid2. f_equal. symmetry. now apply Hsame.
  - intros ops db Hwf Hone. now apply runOps_preserves.
Qed.

End C5.

Definition photo (hallId : uuid) (fileUrl : jsstring) : CreateMediaPayload.t :=
  {| CreateMediaPayload.hallId := hallId;
     CreateMediaPayload.storageProvider := lit "SUPABASE";
     CreateMediaPayload.fileUrl := fileUrl;
     CreateMediaPayload.originalFilename := None;
     CreateMediaPayload.mimeType := None;
     CreateMediaPayload.sizeBytes := None;
     CreateMediaPayload.width := None;
     CreateMediaPayload.height := None;
     CreateMediaPayload.mediaType := None;
     CreateMediaPayload.sortOrder := None |}.

(** Two photos of hall 10, with the keys 1 and 2. *)
Definition dbTwoPhotos : Db :=
  @runOps latin1
    [OpCreateMedia (photo 10 (lit "a.jpg")) 1000;
     OpCreateMedia (photo 10 (lit "b.jpg")) 1001] emptyDb.

(** Both tagged HERO and primary, one after the other: the tag of the
    first photo (key 4) is no longer primary, the tag of the second (key 5)
    is. *)
Example two_heroes :
  map (fun t => (MediaTag.id t, MediaTag.mediaId t, MediaTag.isPrimary t))
    (mediaTags
       (@runOps latin1
          [OpTagMediaByName 1 (lit "HERO") (Some true) 2000;
           OpTagMediaByName 2 (lit "hero") (Some true) 2001] dbTwoPhotos))
  = [(4, 1, false); (5, 2, true)].
Proof. vm_compute. reflexivity. Qed.

(** A call whose insertion breaks the unique constraint throws after the
    earlier primary tag is unset. The second photo is tagged HERO, not
    primary; the first is tagged HERO and primary; the second is tagged
    again, as primary: the call throws, and the hall has no primary HERO. *)
Example retag_throws :
  let db :=
    @runOps latin1
      [OpTagMediaByName 2 (lit "HERO") (Some false) 2000;
       OpTagMediaByName 1 (lit "HERO") (Some true) 2001] dbTwoPhotos in
  let after := @MediaService.tagMediaByName latin1 2 (lit "HERO") (Some true) 2002 db in
  fst after = Thrown (QueryFailedError "uq_media_tag")
  /\ map (fun t => (MediaTag.mediaId t, MediaTag.isPrimary t)) (mediaTags db)
     = [(2, false); (1, true)]
  /\ map (fun t => (MediaTag.mediaId t, MediaTag.isPrimary t)) (mediaTags (snd after))
     = [(2, false); (1, false)].
Proof. vm_compute. repeat split. Qed.

Lemma emptyDb_mediaWf : mediaWf emptyDb.
Proof. repeat split; constructor. Qed.

Lemma emptyDb_onePrimary : onePrimary emptyDb.
Proof. intros h tt. simpl. lia. Qed.

Lemma C5_one_primary_tag_witness :
  exists d1 db1 d2 db2 tag,
    @MediaService.tagMediaByName latin1 1 (lit "HERO") (Some true) 2000 dbTwoPhotos
    = (Returned d1, db1)
    /\ @MediaService.tagMediaByName latin1 2 (lit "HERO") (Some true) 2001 db1
       = (Returned d2, db2)
    /\ MediaTagDTO.tagTypeId d1 = MediaTagDTO.tagTypeId d2
    /\ MediaService.primaryTagsForHallAndTagType 10 (MediaTagDTO.tagTypeId d2) db2
       = [tag]
    /\ MediaTag.id tag = MediaTagDTO.id d2
    /\ MediaTag.mediaId tag = 2
    /\ onePrimary
         (@runOps latin1
            [OpTagMediaByName 1 (lit "HERO") (Some true) 2000;
             OpTagMediaByName 2 (lit "HERO") (Some true) 2001] dbTwoPhotos).
Proof.
  destruct (@MediaService.tagMediaByName latin1 1 (lit "HERO") (Some true) 2000
              dbTwoPhotos) as [o1 db1] eqn:R1.
  destruct (@MediaService.tagMediaByName latin1 2 (lit "HERO") (Some true) 2001 db1)
    as [o2 db2] eqn:R2.
  vm_compute in R1. injection R1 as <- <-.
  vm_compute in R2. injection R2 as <- <-.
  destruct (proj1 (@C5_one_primary_tag latin1)
              dbTwoPhotos _ _ 1 2 _ _ (lit "HERO") 2000 2001 _ _
              eq_refl eq_refl eq_refl ltac:(discriminate) eq_refl eq_refl)
    as (Htt & tag & Hp & Hid & Hm).
  do 4 eexists. exists tag.
  split; [reflexivity|]. split; [reflexivity|].
  split; [exact Htt|]. split; [exact Hp|]. split; [exact Hid|].
  split; [exact Hm|].
  apply (proj2 (@C5_one_primary_tag latin1)).
  - apply (@runOps_preserves latin1 _ emptyDb emptyDb_mediaWf emptyDb_onePrimary).
  - apply (@runOps_preserves latin1 _ emptyDb emptyDb_mediaWf emptyDb_onePrimary).
Defined.

(** The second photo carries the tag HERO, not primary, and the two
    photos are tagged HERO and primary one after the other: the first call
    returns, the second throws on the unique constraint after it has unset
    the tag of the first, and the hall has no primary tag. *)
Definition dbTaggedPhoto : Db :=
  @runOps latin1 [OpTagMediaByName 2 (lit "HERO") (Some false) 2000] dbTwoPhotos.

Lemma C5_counterexample : ~ (forall B : Builtins, @C5_as_stated B).
Proof.
  intros K.
  destruct (findMedia 1 dbTaggedPhoto) as [a|] eqn:Ea;
    [|vm_compute in Ea; discriminate].
  destruct (findMedia 2 dbTaggedPhoto) as [b|] eqn:Eb;
    [|vm_compute in Eb; discriminate].
  destruct (K latin1 dbTaggedPhoto 1 2 a b (lit "HERO") 2001 2002 Ea Eb)
    as (tagTypeId & tag & E & _).
  - vm_compute in Ea, Eb. injection Ea as <-. injection Eb as <-. reflexivity.
  - discriminate.
  - match type of E with
    | ?l = _ => assert (Hin : In tag l) by (rewrite E; now left)
    end.
    unfold MediaService.primaryTagsForHallAndTagType in Hin.
    apply filter_In in Hin. destruct Hin as [Hin Hp].
    apply andb_true_iff in Hp. destruct Hp as [_ Hp].
    vm_compute in Hin. destruct Hin as [<-|[<-|[]]]; discriminate.
Defined.

(** ** C4: the public list by price range *)

Lemma fold_left_min_spec (l : list Z) (x : Z) :
  (fold_left Z.min l x = x \/ In (fold_left Z.min l x) l)
  /\ (fold_left Z.min l x <= x)%Z
  /\ (forall y, In y l -> (fold_left Z.min l x <= y)%Z).
Proof.
  revert x. induction l as [|a l IH]; intros x; simpl.
  - repeat split; auto; try lia; intros y [].
  - destruct (IH (Z.min x a)) as (Hin & Hle & Hall).
    repeat split.
    + destruct Hin as [E|Hin]; auto.
      rewrite E. destruct (Z.min_spec x a) as [[_ ->]|[_ ->]]; auto.
    + lia.
    + intros y [<-|Hy]; [lia|auto].
Qed.

Lemma minZ_spec (l : list Z) (m : Z) :
  Sql.minZ l = Some m -> In m l /\ (forall y, In y l -> (m <= y)%Z).
Proof.
  destruct l as [|x l]; simpl; [discriminate|]. intros [= <-].
  destruct (fold_left_min_spec l x) as (Hin & Hle & Hall).
  split.
  - destruct Hin as [->|Hin]; auto.
  - intros y [<-|Hy]; auto.
Qed.


(** The rates of the active products of a hall. *)
Definition activeRates (db : Db) (h : Hall.t) : list HallProductRate.t :=
  filter (fun r =>
            existsb (fun p =>
                       (HallProduct.hallId p =? Hall.id h)
                       && HallProduct.isActive p
                       && (HallProductRate.hallProductId r =? HallProduct.id p))
              (hallProducts db))
    (hallProductRates db).



(** A search by price range alone, cheapest first. *)
Definition priceRange (priceMin priceMax : numeric) (page limit : positive)
  : HallSearchFilters.t :=
  {| HallSearchFilters.q := None;
     HallSearchFilters.city := None;
     HallSearchFilters.eventType := None;
     HallSearchFilters.date := None;
     HallSearchFilters.capacityMin := None;
     HallSearchFilters.capacityMax := None;
     HallSearchFilters.priceMin := Some priceMin;
     HallSearchFilters.priceMax := Some priceMax;
     HallSearchFilters.isPremium := None;
     HallSearchFilters.features := None;
     HallSearchFilters.sortBy := Some price_asc;
     HallSearchFilters.page := page;
     HallSearchFilters.limit := limit |}.

Section PriceRange.
Context `{Builtins}.

Lemma joinedRows_rates (db : Db) (h : Hall.t) (r : HallProductRate.t) :
  In (Some r) (map snd (HallQueryService.joinedRows db h)) <-> In r (activeRates db h).
Proof.
  unfold HallQueryService.joinedRows, activeRates.
  set (ps := filter _ (hallProducts db)).
  assert (Hps : forall p, In p ps <->
                          In p (hallProducts db)
                          /\ HallProduct.hallId p = Hall.id h
                          /\ HallProduct.isActive p = true).
  { intros p. unfold ps. rewrite filter_In, andb_true_iff, N.eqb_eq. tauto. }
  clearbody ps.
  rewrite filter_In, existsb_exists.
  assert (Hflat :
    In (Some r)
      (map snd
         (flat_map
            (fun hp =>
               match
                 filter (fun hpr => HallProductRate.hallProductId hpr =? HallProduct.id hp)
                   (hallProductRates db)
               with
               | [] => [(Some hp, None)]
               | hprs => map (fun hpr => (Some hp, Some hpr)) hprs
               end) ps))
    <-> exists p, In p ps /\ In r (hallProductRates db)
                  /\ HallProductRate.hallProductId r = HallProduct.id p).
  { rewrite in_map_iff. split.
    - intros ([op or] & Esnd & Hin). simpl in Esnd. subst or.
      apply in_flat_map in Hin. destruct Hin as (p & Hp & Hin).
      exists p. split; auto.
      destruct (filter _ (hallProductRates db)) as [|r0 rs] eqn:Ef.
      + destruct Hin as [Hin|[]]. discriminate.
      + rewrite <- Ef in Hin. apply in_map_iff in Hin.
        destruct Hin as (r' & Er & Hin). injection Er as _ ->.
        apply filter_In in Hin. destruct Hin as [Hin E].
        apply N.eqb_eq in E. auto.
    - intros (p & Hp & Hr & E).
      exists (Some p, Some r). split; auto.
      apply in_flat_map. exists p. split; auto.
      assert (Hin : In r (filter (fun hpr => HallProductRate.hallProductId hpr
                                              =? HallProduct.id p)
                            (hallProductRates db))).
      { apply filter_In. split; auto. now apply N.eqb_eq. }
      destruct (filter _ (hallProductRates db)) as [|r0 rs] eqn:Ef;
        [contradiction|].
      rewrite <- Ef. apply in_map_iff. exists r. split; auto.
      rewrite Ef. exact Hin. }
  destruct ps as [|p0 ps'].
  - simpl. split.
    + intros [E|[]]. discriminate.
    + intros (_ & p & Hp & E). repeat (apply andb_true_iff in E; destruct E as [E ?]).
      exfalso. apply (proj2 (Hps p)). repeat split; auto. now apply N.eqb_eq.
  - rewrite Hflat. split.
    + intros (p & Hp & Hr & E). split; auto. exists p.
      apply Hps in Hp. destruct Hp as (Hp & Eh & Ea). split; auto.
      rewrite Eh, Ea, E, !N.eqb_refl. reflexivity.
    + intros (Hr & p & Hp & E).
      repeat (apply andb_true_iff in E; destruct E as [E ?]).
      apply N.eqb_eq in E. exists p. repeat split; auto.
      * apply Hps. repeat split; auto.
      * now apply N.eqb_eq.
Qed.


Lemma notNull_In {A : Type} (l : list (option A)) (a : A) :
  In a (Sql.notNull l) <-> In (Some a) l.
Proof.
  unfold Sql.notNull. rewrite in_flat_map. split.
  - intros ([x|] & Hin & Hx); simpl in Hx; [|contradiction].
    destruct Hx as [->|[]]. exact Hin.
  - intros Hin. exists (Some a). split; auto. now left.
Qed.


End PriceRange.

Section PublicList.
Context `{Builtins}.

(** The primary HERO media of a hall, as [getPrimaryMediaForHall] reads it. *)
Definition heroOf (db : Db) (hallId : uuid) : option MediaDTO :=
  match
    Sql.orderBy (Sql.desc Media.createdAt)
      (filter (fun m => (Media.hallId m =? hallId)
                        && MediaService.hasTagNamed db (lit "HERO") true m)
         (media db))
  with
  | [] => None
  | m :: _ => Some (MediaService.toMediaDTO m)
  end.

(** The card of a grouped row. *)
Definition cardOf (db : Db) (g : HallGroup.t) : PublicHallCardDTO.t :=
  {| PublicHallCardDTO.id := Hall.id (HallGroup.h g);
     PublicHallCardDTO.name := Hall.name (HallGroup.h g);
     PublicHallCardDTO.slug := Hall.slug (HallGroup.h g);
     PublicHallCardDTO.city := Hall.city (HallGroup.h g);
     PublicHallCardDTO.capacity := Hall.capacity (HallGroup.h g);
     PublicHallCardDTO.isPremium := Hall.isPremium (HallGroup.h g);
     PublicHallCardDTO.heroImageUrl :=
       option_map Media.fileUrl (heroOf db (Hall.id (HallGroup.h g)));
     PublicHallCardDTO.startingFromPrice := HallGroup.min_price g;
     PublicHallCardDTO.startingFromCurrency :=
       match HallGroup.min_price g with
       | Some _ => HallGroup.min_currency g
       | None => None
       end |}.

Lemma toCard_reads (db : Db) (g : HallGroup.t) :
  HallQueryService.toCard g db = (Returned (cardOf db g), db).
Proof. reflexivity. Qed.

Lemma mapM_toCard (db : Db) (l : list HallGroup.t) :
  mapM HallQueryService.toCard l db = (Returned (map (cardOf db) l), db).
Proof.
  induction l as [|g l IH]; simpl; auto.
  unfold bind at 1. rewrite toCard_reads.
  unfold bind at 1. rewrite IH. reflexivity.
Qed.

(** The list is the page of the cards of the grouped rows; its total is
    the count of the query. *)
Lemma getPublicHallList_page (filters : HallSearchFilters.t) (db : Db) :
  exists r,
    HallQueryService.getPublicHallList filters db = (Returned r, db)
    /\ data r =
       Sql.slice
         ((Z.pos (HallSearchFilters.page filters) - 1)
          * Z.pos (HallSearchFilters.limit filters))
         (Z.pos (HallSearchFilters.limit filters))
         (map (cardOf db) (HallQueryService.groupedRows filters db))
    /\ page r = Z.pos (HallSearchFilters.page filters)
    /\ limit r = Z.pos (HallSearchFilters.limit filters)
    /\ total r = HallQueryService.getCount filters db.
Proof.
  unfold HallQueryService.getPublicHallList.
  unfold bind at 1, gets. unfold bind at 1.
  rewrite skipTake_slice; [|nia|lia].
  unfold bind at 1. rewrite mapM_toCard.
  eexists. split; [reflexivity|]. cbn [data page limit total].
  repeat split.
  unfold Sql.slice. now rewrite skipn_map, firstn_map.
Qed.







End PublicList.



Lemma StronglySorted_map {A B : Type} (f : A -> B) (R : B -> B -> Prop) (l : list A) :
  StronglySorted (fun a b => R (f a) (f b)) l -> StronglySorted R (map f l).
Proof.
  induction 1 as [|a l HS IH F]; simpl; constructor; auto.
  apply Forall_forall. intros b Hb. apply in_map_iff in Hb.
  destruct Hb as (x & <- & Hx). rewrite Forall_forall in F. auto.
Qed.


Section C4.
Context `{Builtins}.



End C4.


Definition product (id hallId : uuid) (isActive : bool) : HallProduct.t :=
  {| HallProduct.id := id; HallProduct.hallId := hallId;
     HallProduct.name := lit "Wedding"; HallProduct.category := None;
     HallProduct.description := None; HallProduct.isPrimary := false;
     HallProduct.isActive := isActive; HallProduct.createdAt := 1000;
     HallProduct.updatedAt := 1000 |}.

Definition rate (id hallProductId : uuid) (price : numeric) : HallProductRate.t :=
  {| HallProductRate.id := id; HallProductRate.hallProductId := hallProductId;
     HallProductRate.label := lit "Day"; HallProductRate.currency := lit "USD";
     HallProductRate.price := price; HallProductRate.billingUnit := lit "DAY";
     HallProductRate.minHours := None; HallProductRate.maxHours := None;
     HallProductRate.extraUnitPrice := None;
     HallProductRate.dayOfWeekMask := None; HallProductRate.seasonStart := None;
     HallProductRate.seasonEnd := None; HallProductRate.isDefault := false;
     HallProductRate.createdAt := 1000; HallProductRate.updatedAt := 1000 |}.

(** Five halls: 1 from 250 (its other rate is 300), 2 from 150 (its
    rate of 50 is on an inactive product), 3 with no product, 4 from 700,
    and 5, a draft, from 200. *)
Definition dbPriced : Db :=
  {| users := [];
     halls := [hallOf 1 (lit "one") ACTIVE 1000; hallOf 2 (lit "two") ACTIVE 2000;
               hallOf 3 (lit "three") ACTIVE 3000; hallOf 4 (lit "four") ACTIVE 4000;
               hallOf 5 (lit "five") DRAFT 5000];
     hallUserRoles := [];
     hallProducts := [product 11 1 true; product 12 2 true; product 14 4 true;
                      product 15 5 true; product 16 2 false];
     hallProductRates := [rate 21 11 300%Z; rate 22 11 250%Z; rate 23 12 150%Z;
                          rate 24 14 700%Z; rate 25 15 200%Z; rate 26 16 50%Z];
     hallAddons := []; hallBlockedDates := []; media := []; mediaTags := [];
     mediaTagTypes := []; hostApplications := []; nextId := 30 |}.

Definition idsAndPrices (o : Outcome (Page PublicHallCardDTO.t) * Db)
  : list (uuid * option numeric) :=
  match fst o with
  | Returned r =>
      map (fun c => (PublicHallCardDTO.id c, PublicHallCardDTO.startingFromPrice c))
        (data r)
  | _ => []
  end.

(** The scenario of the specification, prices from 100 to 500. *)
Example price_range_scenario :
  idsAndPrices
    (@HallQueryService.getPublicHallList latin1
       (priceRange 100%Z 500%Z 1%positive 20%positive) dbPriced)
  = [(2, Some 150%Z); (1, Some 250%Z)].
Proof. vm_compute. reflexivity. Qed.

Example price_range_first_of_one :
  idsAndPrices
    (@HallQueryService.getPublicHallList latin1
       (priceRange 100%Z 500%Z 1%positive 1%positive) dbPriced)
  = [(2, Some 150%Z)].
Proof. vm_compute. reflexivity. Qed.


(** ** C6: the halls table under the writes of the services *)

Inductive HallOp :=
| OpCreateHall (payload : CreateHallPayload.t) (now : time)
| OpUpdateHall (id : uuid) (payload : UpdateHallPayload.t) (now : time)
| OpUpdateHostApplicationStatus (id : uuid)
    (payload : UpdateHostApplicationStatusPayload.t) (now : time).

Lemma NoDup_snoc {A : Type} (l : list A) (x : A) :
  NoDup l -> ~ In x l -> NoDup (l ++ [x]).
Proof.
  intros Hnd Hx. apply Permutation_NoDup with (x :: l).
  - apply Permutation_cons_append.
  - now constructor.
Qed.

Section HallInvariant.
Context `{Builtins}.

(** The database after a call, whatever its outcome. *)
Definition runHallOp (op : HallOp) (db : Db) : Db :=
  match op with
  | OpCreateHall payload now => snd (HallService.createHall payload now db)
  | OpUpdateHall id payload now => snd (HallService.updateHall id payload now db)
  | OpUpdateHostApplicationStatus id payload now =>
      snd (HostApplicationService.updateHostApplicationStatus id payload now db)
  end.

Definition runHallOps (ops : list HallOp) (db : Db) : Db :=
  fold_left (fun d op => runHallOp op d) ops db.

(** The keys of the halls are unique and were generated; the slugs are
    unique (the index of the table) and in the normal form of [slugify]. *)
Definition hallsWf (db : Db) : Prop :=
  NoDup (map Hall.id (halls db))
  /\ Forall (fun h => Hall.id h < nextId db) (halls db)
  /\ NoDup (map Hall.slug (halls db))
  /\ Forall (fun h => HallService.slugify (Hall.slug h) = Hall.slug h) (halls db).

Lemma hallsWf_ext (db db' : Db) :
  halls db' = halls db -> nextId db <= nextId db' -> hallsWf db -> hallsWf db'.
Proof.
  intros Eh Hn (H1 & H2 & H3 & H4). unfold hallsWf. rewrite Eh.
  repeat split; auto.
  eapply Forall_impl; [|exact H2]. simpl. intros. lia.
Qed.

Lemma createHall_preserves (payload : CreateHallPayload.t) (now : time) (db : Db) :
  hallsWf db -> hallsWf (snd (HallService.createHall payload now db)).
Proof.
  intros (Hid & Hlt & Hslug & Hnorm).
  destruct (createHall_effect payload now db)
    as (o & db' & R & _ & _ & _ & _ & _ & [[_ ->]|(h & j & Hcr & Hrole)]);
    rewrite R; cbn [snd].
  { unfold hallsWf. auto. }
  destruct Hcr as (Hh & Hfresh & _ & Hs & _ & Hhid & _).
  assert (Hnext : nextId db < nextId db').
  { destruct (CreateHallPayload.gerantId payload) as [g|];
      [destruct (existsb (N.eqb g) (users db))|];
      destruct Hrole as (_ & -> & _); lia. }
  unfold hallsWf. rewrite Hh, !map_app. simpl.
  repeat split.
  - apply NoDup_snoc; auto. intros Hin. apply in_map_iff in Hin.
    destruct Hin as (x & Ex & Hx). rewrite Forall_forall in Hlt.
    specialize (Hlt x Hx). lia.
  - apply Forall_app. split.
    + eapply Forall_impl; [|exact Hlt]. simpl. intros. lia.
    + constructor; [lia|constructor].
  - apply NoDup_snoc; auto. intros Hin. apply in_map_iff in Hin.
    destruct Hin as (x & Ex & Hx). rewrite Forall_forall in Hfresh.
    now apply (Hfresh x Hx).
  - apply Forall_app. split; auto. constructor; [|constructor].
    rewrite Hs. apply candidateAt_normal.
Qed.

(** The slugs stay unique when the row of one key gets a slug that no row
    of another key holds. *)
Lemma replace_slug_NoDup (l : list Hall.t) (hall row : Hall.t) :
  NoDup (map Hall.id l) -> NoDup (map Hall.slug l) -> In hall l ->
  Hall.id row = Hall.id hall ->
  (forall x, In x l -> Hall.slug x = Hall.slug row -> Hall.id x = Hall.id hall) ->
  NoDup (map Hall.slug
           (map (fun h => if Hall.id h =? Hall.id row then row else h) l)).
Proof.
  intros Hid Hslug Hin Erow Hfree. rewrite Erow.
  clear Hin.
  induction l as [|x l IH]; simpl; [constructor|].
  inversion Hid as [|? ? Hidx Hid']; subst.
  inversion Hslug as [|? ? Hslugx Hslug']; subst.
  constructor.
  - intros Hin. apply in_map_iff in Hin. destruct Hin as (y & Ey & Hy).
    apply in_map_iff in Hy. destruct Hy as (z & Ez & Hz).
    destruct (N.eqb_spec (Hall.id x) (Hall.id hall)) as [Ex|Nx];
      destruct (N.eqb_spec (Hall.id z) (Hall.id hall)) as [Ezid|Nz]; subst y.
    + apply Hidx. rewrite Ex, <- Ezid. now apply in_map.
    + apply Nz. apply Hfree; [now right|]. now symmetry.
    + apply Nx. apply Hfree; [now left|]. now symmetry.
    + apply Hslugx. rewrite <- Ey. now apply in_map.
  - apply IH; auto.
    intros y Hy. apply Hfree. now right.
Qed.

Lemma updateHall_preserves (id : uuid) (payload : UpdateHallPayload.t)
  (now : time) (db : Db) :
  hallsWf db -> hallsWf (snd (HallService.updateHall id payload now db)).
Proof.
  intros Hwf.
  destruct (HallService.findHallById id db) as [hall|] eqn:Hf.
  2:{ unfold HallService.updateHall, bind, gets. rewrite Hf. exact Hwf. }
  destruct (updateHall_effect id payload now db hall Hf)
    as (c & db' & _ & Hc & E & Hh & _ & _ & _ & _ & Hn & _).
  cbv zeta in E, Hh. rewrite E. clear E. cbn [snd].
  set (saved := HallService.mergeHall hall payload c now) in *.
  apply hallsWf_ext with (withHall saved db); auto.
  { rewrite Hh. unfold withHall. cbn [halls setHalls].
    change (Hall.id saved) with (Hall.id hall).
    now rewrite (proj2 (findHallById_some _ _ _ Hf)). }
  destruct Hwf as (Hid & Hlt & Hslug & Hnorm).
  pose proof (findHallById_some _ _ _ Hf) as [Hin Hhid].
  assert (Hcnorm : HallService.slugify c = c).
  { destruct Hc as [->|[_ ?]]; auto. rewrite Forall_forall in Hnorm. auto. }
  unfold hallsWf, withHall. cbn [halls nextId setHalls].
  assert (Hids : map Hall.id
                   (map (fun h => if Hall.id h =? Hall.id saved then saved else h)
                      (halls db))
                 = map Hall.id (halls db)).
  { rewrite map_map. apply map_ext. intros x.
    destruct (N.eqb_spec (Hall.id x) (Hall.id saved)); auto. }
  repeat split.
  - now rewrite Hids.
  - apply Forall_map with (f := Hall.id) (P := fun x => x < nextId db).
    rewrite Hids. now apply Forall_map.
  - apply replace_slug_NoDup with hall; auto.
    intros x Hx Ex. cbn in Ex.
    destruct Hc as [->|[Hfree _]].
    + f_equal. revert Ex. clear - Hslug Hx Hin.
      induction (halls db) as [|y l IH]; simpl in *; [contradiction|].
      inversion Hslug as [|? ? Hy Hl]; subst. intros Ex.
      destruct Hx as [->|Hx], Hin as [->|Hin]; auto.
      * exfalso. apply Hy. rewrite Ex. now apply in_map.
      * exfalso. apply Hy. rewrite <- Ex. now apply in_map.
    + apply existing_none_excluding in Hfree. rewrite Forall_forall in Hfree.
      now apply Hfree.
  - apply Forall_forall. intros x Hx. apply in_map_iff in Hx.
    destruct Hx as (y & Ey & Hy).
    destruct (Hall.id y =? Hall.id saved); subst x.
    + exact Hcnorm.
    + rewrite Forall_forall in Hnorm. auto.
Qed.

Lemma updateHostApplicationStatus_preserves (id : uuid)
  (payload : UpdateHostApplicationStatusPayload.t) (now : time) (db : Db) :
  hallsWf db ->
  hallsWf (snd (HostApplicationService.updateHostApplicationStatus id payload now db)).
Proof.
  intros Hwf. unfold HostApplicationService.updateHostApplicationStatus.
  unfold bind at 1, gets.
  destruct (find _ (hostApplications db)) as [entity|]; [|exact Hwf].
  unfold bind at 1, modify. cbv beta iota.
  match goal with
  | |- context [setHostApplications ?v db] => set (db1 := setHostApplications v db)
  end.
  assert (Hwf1 : hallsWf db1) by exact Hwf.
  destruct (negb _ && _); [|exact Hwf1].
  destruct (HostApplication.applicantUserId entity) as [applicant|]; [|exact Hwf1].
  match goal with
  | |- context [bind (HallService.createHall ?p now) _ db1] =>
      pose proof (createHall_preserves p now db1 Hwf1) as Hc;
      unfold bind;
      destruct (HallService.createHall p now db1) as [[h|e|] db']
  end; exact Hc.
Qed.

(** Every database the services reach from the empty one is well formed. *)
Lemma runHallOps_hallsWf (ops : list HallOp) (db : Db) :
  hallsWf db -> hallsWf (runHallOps ops db).
Proof.
  revert db. induction ops as [|op ops IH]; intros db Hwf; simpl; auto.
  apply IH. destruct op.
  - now apply createHall_preserves.
  - now apply updateHall_preserves.
  - now apply updateHostApplicationStatus_preserves.
Qed.


(** C6. In a well-formed database, as the services leave it, the public
    detail of the slug of a hall that is not active (a draft, say) is
    NotFound, and the database is as before. *)
Theorem C6_getPublicHallDetail_hides_inactive (db : Db) (h : Hall.t) :
  hallsWf db ->
  In h (halls db) ->
  Hall.status h <> ACTIVE ->
  HallQueryService.getPublicHallDetail (Hall.slug h) db
  = (Thrown (NotFoundError "Hall not found"), db).
Proof.
  intros (_ & _ & Hslug & Hnorm) Hin Hs.
  apply getPublicHallDetail_of_inactive; auto.
  rewrite Forall_forall in Hnorm. auto.
Qed.

End HallInvariant.

(** The application of user 5 is approved: the hall it creates is a draft,
    and its public detail is NotFound. *)
Definition dbApproved : Db :=
  @runHallOps latin1 [OpUpdateHostApplicationStatus 1 approve 2000]
    (dbApplication (Some 5)).

Lemma dbApplication_hallsWf (applicant : option uuid) :
  @hallsWf latin1 (dbApplication applicant).
Proof. repeat split; constructor. Qed.

Lemma C6_getPublicHallDetail_hides_inactive_witness :
  @HallQueryService.getPublicHallDetail latin1 (lit "lakeview-kinshasa") dbApproved
  = (Thrown (NotFoundError "Hall not found"), dbApproved).
Proof.
  apply (@C6_getPublicHallDetail_hides_inactive latin1 dbApproved
           {| Hall.id := 2; Hall.gerantId := Some 5; Hall.name := lit "Lakeview";
              Hall.slug := lit "lakeview-kinshasa"; Hall.address := None;
              Hall.city := Some (lit "Kinshasa"); Hall.capacity := Some 300%Z;
              Hall.description := None; Hall.cancellationPolicy := None;
              Hall.isPremium := false; Hall.status := DRAFT;
              Hall.createdAt := 2000; Hall.updatedAt := 2000 |}).
  - apply (@runHallOps_hallsWf latin1). apply dbApplication_hallsWf.
  - vm_compute. now left.
  - discriminate.
Defined.
(** * Further properties of the services *)

(** ** The normal form of a slug *)

Lemma singleHyphens_no_double (b : bool) (s u v : jsstring) :
  singleHyphens b s = true -> s <> u ++ hyphen :: hyphen :: v.
Proof.
  revert b s. induction u as [|c u IH]; intros b s E ->.
  - cbn [app singleHyphens] in E.
    change (isAlnum hyphen) with false in E. cbv iota in E.
    rewrite !andb_false_r in E. discriminate.
  - cbn [app singleHyphens] in E.
    destruct (isAlnum c).
    + now apply (IH false _ E).
    + apply andb_true_iff in E. destruct E as [_ E]. now apply (IH true _ E).
Qed.

Lemma headOk_hd_error (s : jsstring) :
  headOk (N.eqb hyphen) s = true -> hd_error s <> Some hyphen.
Proof.
  destruct s as [|c s]; cbn [headOk hd_error]; [discriminate|].
  intros E [= ->]. apply negb_true_iff in E. now rewrite N.eqb_refl in E.
Qed.

Section SlugifyNormalForm.
Context `{Builtins}.

(** X1. Whatever the input, the result of slugify is made of the units
    a-z, 0-9 and the hyphen, has no two hyphens in a row and none at either
    end, and slugify leaves it as it is. *)
Theorem slugify_normal_form (input : jsstring) :
  let s := HallService.slugify input in
  Forall (fun c => isSlugChar c = true) s
  /\ (forall u v, s <> u ++ hyphen :: hyphen :: v)
  /\ hd_error s <> Some hyphen
  /\ hd_error (rev s) <> Some hyphen
  /\ HallService.slugify s = s.
Proof.
  intros s. destruct (slugify_slugShape input) as (Hs & Hh & Hl). fold s in Hs, Hh, Hl.
  repeat split.
  - apply Forall_forall. intros c Hc.
    apply singleHyphens_slugChars in Hs. rewrite forallb_forall in Hs. auto.
  - intros u v. now apply singleHyphens_no_double with false.
  - now apply headOk_hd_error.
  - now apply headOk_hd_error.
  - apply slugify_idempotent.
Qed.

(** X2. The search for a unique slug returns, reads only, and its result is
    not empty, is in the normal form of slugify, and is the slug of no hall
    but the excluded one. *)
Theorem generateUniqueSlug_returns_free (now : time) (base : jsstring)
  (excludeId : option uuid) (db : Db) :
  exists c,
    HallService.generateUniqueSlug now base excludeId db = (Returned c, db)
    /\ c <> []
    /\ HallService.slugify c = c
    /\ (forall h, In h (halls db) -> Hall.slug h = c -> excludeId = Some (Hall.id h)).
Proof.
  destruct (generateUniqueSlug_spec now base excludeId db)
    as (c & j & R & Hfree & Hj & Ec & _).
  exists c. split; [exact R|]. split; [|split].
  - rewrite Ec. destruct (baseSlugOf_slugShape now base) as [_ Hne].
    unfold candidateAt. destruct (j =? 1); auto.
    destruct (baseSlugOf now base); [contradiction|discriminate].
  - rewrite Ec. apply candidateAt_normal.
  - intros h Hin Hs. destruct excludeId as [e|].
    + apply existing_none_excluding in Hfree. rewrite Forall_forall in Hfree.
      f_equal. symmetry. now apply Hfree.
    + apply existing_none in Hfree. rewrite Forall_forall in Hfree.
      now apply Hfree in Hin.
Qed.

End SlugifyNormalForm.

(** ** Lookups of halls *)

Lemma find_snoc_fresh {A : Type} (f : A -> bool) (l : list A) (x : A) :
  Forall (fun y => f y = false) l -> f x = true -> find f (l ++ [x]) = Some x.
Proof.
  intros F Hx. induction F as [|y l Hy F IH]; simpl.
  - now rewrite Hx.
  - now rewrite Hy.
Qed.

Lemma find_none_notin {A : Type} (key : A -> N) (k : N) (l : list A) :
  ~ In k (map key l) -> find (fun x => key x =? k) l = None.
Proof.
  induction l as [|x l IH]; simpl; auto.
  intros Hn. destruct (N.eqb_spec (key x) k) as [E|E].
  - exfalso. apply Hn. now left.
  - apply IH. intros Hin. apply Hn. now right.
Qed.

Lemma find_some_in {A : Type} (key : A -> N) (k : N) (l : list A) :
  In k (map key l) -> exists x, find (fun x => key x =? k) l = Some x.
Proof.
  induction l as [|x l IH]; simpl; [contradiction|].
  intros Hin. destruct (N.eqb_spec (key x) k) as [E|E].
  - now exists x.
  - apply IH. destruct Hin as [Hin|Hin]; [contradiction|exact Hin].
Qed.

Section HallLookups.
Context `{Builtins}.



(** X5. Every lookup or update of a hall that is not there throws NotFound
    and writes nothing: by a key that no hall has, and by a string whose
    slugified form is the slug of no hall. *)
Theorem missing_hall_not_found (id : uuid) (s : jsstring)
  (payload : UpdateHallPayload.t) (now : time) (db : Db) :
  ~ In id (map Hall.id (halls db)) ->
  ~ In (HallService.slugify s) (map Hall.slug (halls db)) ->
  HallService.getHallById id db = (Thrown (NotFoundError "Hall not found"), db)
  /\ HallService.updateHall id payload now db
     = (Thrown (NotFoundError "Hall not found"), db)
  /\ HallService.getHallBySlug s db = (Thrown (NotFoundError "Hall not found"), db)
  /\ HallQueryService.getPublicHallDetail s db
     = (Thrown (NotFoundError "Hall not found"), db).
Proof.
  intros Hid Hslug.
  assert (Ef : HallService.findHallById id db = None).
  { unfold HallService.findHallById. now apply find_none_notin. }
  assert (Es : HallService.getHallBySlug s db
               = (Thrown (NotFoundError "Hall not found"), db)).
  { unfold HallService.getHallBySlug, bind, gets.
    destruct (find _ (halls db)) as [h|] eqn:E; auto.
    apply find_some in E. destruct E as [Hin E]. apply jseqb_eq in E.
    exfalso. apply Hslug. rewrite <- E. now apply in_map. }
  repeat split.
  - unfold HallService.getHallById, bind, gets. now rewrite Ef.
  - unfold HallService.updateHall, bind, gets. now rewrite Ef.
  - exact Es.
  - unfold HallQueryService.getPublicHallDetail.
    now rewrite (bind_thrown _ _ _ _ _ Es).
Qed.

End HallLookups.




Lemma missing_hall_not_found_witness :
  HallService.getHallById 5 dbOwned
  = (Thrown (NotFoundError "Hall not found"), dbOwned)
  /\ @HallService.updateHall latin1 5 (updatePayload None None) 2000 dbOwned
     = (Thrown (NotFoundError "Hall not found"), dbOwned)
  /\ @HallService.getHallBySlug latin1 (lit "Grand Hall") dbOwned
     = (Thrown (NotFoundError "Hall not found"), dbOwned)
  /\ @HallQueryService.getPublicHallDetail latin1 (lit "Grand Hall") dbOwned
     = (Thrown (NotFoundError "Hall not found"), dbOwned).
Proof.
  apply (@missing_hall_not_found latin1 5 (lit "Grand Hall") (updatePayload None None)
           2000 dbOwned).
  - simpl. intros [E|[]]. discriminate.
  - vm_compute. intros [E|[]]. discriminate.
Defined.

(** ** The pages of listHalls *)

Lemma nth_in_firstn {A : Type} (l : list A) (d : A) (n i : nat) :
  (i < n)%nat -> (i < List.length l)%nat -> In (nth i l d) (firstn n l).
Proof.
  revert n i. induction l as [|x l IH]; intros n i Hn Hl; simpl in Hl; [lia|].
  destruct n as [|n]; [lia|]. destruct i as [|i]; simpl.
  - now left.
  - right. apply IH; lia.
Qed.

Lemma nth_in_page {A : Type} (l : list A) (d : A) (m n i : nat) :
  (m <= i < m + n)%nat -> (i < List.length l)%nat ->
  In (nth i l d) (firstn n (skipn m l)).
Proof.
  revert l i. induction m as [|m IH]; intros l i Hi Hl.
  - simpl. apply nth_in_firstn; lia.
  - destruct l as [|x l]; simpl in Hl; [lia|].
    destruct i as [|i]; [lia|]. simpl. apply IH; lia.
Qed.

(** The options, with the page set. *)
Definition atPage (options : ListHallsOptions.t) (p : Z) : ListHallsOptions.t :=
  {| ListHallsOptions.status := ListHallsOptions.status options;
     ListHallsOptions.city := ListHallsOptions.city options;
     ListHallsOptions.isPremium := ListHallsOptions.isPremium options;
     ListHallsOptions.gerantId := ListHallsOptions.gerantId options;
     ListHallsOptions.page := Some p;
     ListHallsOptions.limit := ListHallsOptions.limit options |}.

Section ListHalls.
Context `{Builtins}.

Lemma map_toDTO (l : list Hall.t) : map HallService.toDTO l = l.
Proof.
  rewrite <- (map_id l) at 2. apply map_ext. apply toDTO_eq.
Qed.

(** The halls of a page are rows of the table that pass the filters. *)
Lemma listHalls_rows (options : ListHallsOptions.t) (db : Db) :
  exists r,
    HallService.listHalls options db = (Returned r, db)
    /\ incl (data r) (filter (HallService.listHallsWhere options) (halls db)).
Proof.
  eexists. split; [apply listHalls_eq|]. cbn [data]. rewrite map_toDTO.
  intros h Hh. apply slice_incl in Hh. now apply orderBy_In in Hh.
Qed.


(** X7. What the filters of listHalls mean: with gerantId, every hall of the
    page is a hall of that owner; with isPremium, every hall has that flag;
    with a city, every hall has a city equal to it up to case. *)
Theorem listHalls_filters (options : ListHallsOptions.t) (db : Db) :
  exists r,
    HallService.listHalls options db = (Returned r, db)
    /\ (forall g, ListHallsOptions.gerantId options = Some g ->
          Forall (fun h => Hall.gerantId h = Some g) (data r))
    /\ (forall b, ListHallsOptions.isPremium options = Some b ->
          Forall (fun h => Hall.isPremium h = b) (data r))
    /\ (forall c, ListHallsOptions.city options = Some c -> c <> [] ->
          Forall (fun h => exists hc, Hall.city h = Some hc
                                      /\ sqlLower hc = sqlLower c) (data r)).
Proof.
  destruct (listHalls_rows options db) as (r & R & Hincl).
  exists r. split; [exact R|].
  assert (Hw : forall h, In h (data r) -> HallService.listHallsWhere options h = true).
  { intros h Hh. apply Hincl in Hh. now apply filter_In in Hh. }
  repeat split.
  - intros g Eg. apply Forall_forall. intros h Hh. apply Hw in Hh.
    unfold HallService.listHallsWhere in Hh. rewrite Eg in Hh.
    apply andb_true_iff in Hh. destruct Hh as [_ Hh].
    destruct (Hall.gerantId h) as [g'|]; simpl in Hh; [|discriminate].
    apply N.eqb_eq in Hh. now subst.
  - intros b Eb. apply Forall_forall. intros h Hh. apply Hw in Hh.
    unfold HallService.listHallsWhere in Hh. rewrite Eb in Hh.
    apply andb_true_iff in Hh. destruct Hh as [Hh _].
    apply andb_true_iff in Hh. destruct Hh as [_ Hh].
    now apply eqb_prop in Hh.
  - intros c Ec Hc. apply Forall_forall. intros h Hh. apply Hw in Hh.
    unfold HallService.listHallsWhere in Hh. rewrite Ec in Hh.
    apply andb_true_iff in Hh. destruct Hh as [Hh _].
    apply andb_true_iff in Hh. destruct Hh as [Hh _].
    apply andb_true_iff in Hh. destruct Hh as [_ Hh].
    destruct c as [|x c]; [contradiction|]. cbn [truthyOpt truthy] in Hh.
    destruct (Hall.city h) as [hc|]; [|discriminate].
    exists hc. split; auto. now apply jseqb_eq.
Qed.

(** X8. The pages of listHalls leave no hall out: a hall of the table that
    passes the filters is on one of the pages. *)
Theorem listHalls_pages_cover (options : ListHallsOptions.t) (db : Db) (h : Hall.t) :
  In h (halls db) ->
  HallService.listHallsWhere options h = true ->
  exists p r,
    (1 <= p)%Z
    /\ HallService.listHalls (atPage options p) db = (Returned r, db)
    /\ In h (data r).
Proof.
  intros Hin Hw.
  set (lim := match ListHallsOptions.limit options with
              | Some l => if (0 <? l)%Z && (l <=? 100)%Z then l else 20%Z
              | None => 20%Z
              end).
  assert (Hlim : (1 <= lim)%Z).
  { unfold lim. destruct (ListHallsOptions.limit options) as [l|]; [|lia].
    destruct (Z.ltb_spec 0 l), (Z.leb_spec l 100); simpl; lia. }
  set (sorted := Sql.orderBy (Sql.desc Hall.createdAt)
                   (filter (HallService.listHallsWhere options) (halls db))).
  assert (Hs : In h sorted).
  { apply orderBy_In. apply filter_In. auto. }
  destruct (In_nth _ _ h Hs) as (i & Hi & Ei).
  set (n := Z.to_nat lim).
  assert (Hn : (1 <= n)%nat) by (unfold n; lia).
  set (k := (i / n)%nat).
  exists (Z.of_nat k + 1)%Z. eexists.
  split; [lia|]. split; [apply listHalls_eq|].
  cbn [data]. rewrite map_toDTO.
  change (HallService.listHallsWhere (atPage options (Z.of_nat k + 1)))
    with (HallService.listHallsWhere options).
  cbn [atPage ListHallsOptions.page ListHallsOptions.limit].
  fold lim. fold sorted.
  replace (0 <? Z.of_nat k + 1)%Z with true
    by (symmetry; apply Z.ltb_lt; lia).
  unfold Sql.slice.
  replace (Z.to_nat ((Z.of_nat k + 1 - 1) * lim)) with (k * n)%nat
    by (unfold n; nia).
  fold n. rewrite <- Ei. apply nth_in_page; auto.
  pose proof (Nat.div_mod_eq i n) as Hd.
  pose proof (Nat.mod_upper_bound i n ltac:(lia)) as Hm.
  fold k in Hd. nia.
Qed.

End ListHalls.

(** The halls of user 7, on pages of one hall. *)
Definition hallsOfOwner7 : ListHallsOptions.t :=
  {| ListHallsOptions.status := None; ListHallsOptions.city := None;
     ListHallsOptions.isPremium := None; ListHallsOptions.gerantId := Some 7;
     ListHallsOptions.page := None; ListHallsOptions.limit := Some 1%Z |}.

Lemma listHalls_pages_cover_witness :
  exists p r,
    (1 <= p)%Z
    /\ @HallService.listHalls latin1 (atPage hallsOfOwner7 p) dbOwned
       = (Returned r, dbOwned)
    /\ In ownedHall (data r).
Proof.
  apply (@listHalls_pages_cover latin1 hallsOfOwner7 dbOwned ownedHall).
  - simpl. now left.
  - reflexivity.
Defined.

(** ** What updateHall writes *)

Section UpdateHallEffect.
Context `{Builtins}.

(** X9. An update that returns has written one hall: the hall of the key,
    which keeps its key and its time of creation, and its slug, name, status
    and premium flag when the payload leaves them undefined; every other
    hall of the table is as before. *)
Theorem updateHall_touches_one_hall (id : uuid) (payload : UpdateHallPayload.t)
  (now : time) (db db' : Db) (dto : HallDTO) :
  HallService.updateHall id payload now db = (Returned dto, db') ->
  exists old,
    HallService.findHallById id db = Some old
    /\ Hall.id dto = id
    /\ Hall.createdAt dto = Hall.createdAt old
    /\ (UpdateHallPayload.slug payload = None -> Hall.slug dto = Hall.slug old)
    /\ (UpdateHallPayload.name payload = None -> Hall.name dto = Hall.name old)
    /\ (UpdateHallPayload.status payload = None -> Hall.status dto = Hall.status old)
    /\ (UpdateHallPayload.isPremium payload = None ->
        Hall.isPremium dto = Hall.isPremium old)
    /\ halls db' = map (fun h => if Hall.id h =? id then dto else h) (halls db)
    /\ (forall h, In h (halls db) -> Hall.id h <> id -> In h (halls db'))
    /\ (forall h, In h (halls db') -> h = dto \/ (In h (halls db) /\ Hall.id h <> id)).
Proof.
  intros R.
  destruct (HallService.findHallById id db) as [hall|] eqn:Hf.
  2:{ unfold HallService.updateHall, bind, gets in R. rewrite Hf in R.
      discriminate. }
  pose proof (findHallById_some _ _ _ Hf) as [_ Hid].
  destruct (updateHall_effect id payload now db hall Hf)
    as (c & db1 & Rc & _ & E & Hh & _).
  cbv zeta in E, Hh. rewrite E in R.
  destruct (ownerUnknown (Hall.gerantId hall) payload db); [discriminate|].
  injection R as <- <-.
  exists hall. split; [reflexivity|]. split; [exact Hid|]. split; [reflexivity|].
  split.
  { intros Es. unfold HallService.slugForUpdate in Rc. rewrite Es in Rc.
    injection Rc as <-. reflexivity. }
  split; [intros E0; simpl; now rewrite E0|].
  split; [intros E0; simpl; now rewrite E0|].
  split; [intros E0; simpl; now rewrite E0|].
  split; [exact Hh|]. split.
  - intros h Hin Hne. rewrite Hh. apply in_map_iff. exists h. split; auto.
    destruct (N.eqb_spec (Hall.id h) id); [contradiction|reflexivity].
  - intros h Hin. rewrite Hh in Hin. apply in_map_iff in Hin.
    destruct Hin as (x & Ex & Hx).
    destruct (N.eqb_spec (Hall.id x) id) as [E0|E0]; subst h; auto.
Qed.


End UpdateHallEffect.

Lemma updateHall_touches_one_hall_witness :
  exists dto db' old,
    @HallService.updateHall latin1 1 (updatePayload (Some (lit "Lake View")) None)
      2000 dbOwned = (Returned dto, db')
    /\ HallService.findHallById 1 dbOwned = Some old
    /\ Hall.slug dto = Hall.slug old
    /\ halls db' = [dto].
Proof.
  destruct (@HallService.updateHall latin1 1
              (updatePayload (Some (lit "Lake View")) None) 2000 dbOwned)
    as [o db'] eqn:R.
  vm_compute in R. injection R as <- <-.
  destruct (@updateHall_touches_one_hall latin1 1
              (updatePayload (Some (lit "Lake View")) None) 2000 dbOwned _ _ eq_refl)
    as (old & Hf & _ & _ & Hs & _ & _ & _ & Hh & _).
  eexists _, _, old. split; [reflexivity|]. split; [exact Hf|].
  split; [exact (Hs eq_refl)|]. exact Hh.
Defined.


(** ** The pricing service *)

Lemma find_replaced {A : Type} (key : A -> N) (k : N) (l : list A) (old x : A) :
  find (fun y => key y =? k) l = Some old -> key x = k ->
  find (fun y => key y =? k) (map (fun y => if key y =? k then x else y) l) = Some x.
Proof.
  intros Hf Hx. induction l as [|y l IH]; simpl in *; [discriminate|].
  destruct (key y =? k) eqn:E.
  - simpl. now rewrite Hx, N.eqb_refl.
  - simpl. rewrite E. now apply IH.
Qed.

Lemma in_replaced {A : Type} (key : A -> N) (k : N) (l : list A) (x y : A) :
  In y (map (fun z => if key z =? k then x else z) l) ->
  y = x \/ (In y l /\ key y <> k).
Proof.
  intros Hin. apply in_map_iff in Hin. destruct Hin as (z & Ez & Hz).
  destruct (N.eqb_spec (key z) k); subst y; auto.
Qed.

Lemma replaced_in {A : Type} (key : A -> N) (k : N) (l : list A) (x y : A) :
  In y l -> key y <> k -> In y (map (fun z => if key z =? k then x else z) l).
Proof.
  intros Hin Hne. apply in_map_iff. exists y. split; auto.
  destruct (N.eqb_spec (key y) k); [contradiction|reflexivity].
Qed.

Lemma fresh_key {A : Type} (key : A -> N) (n : N) (l : list A) :
  Forall (fun x => key x < n) l -> Forall (fun x => (key x =? n) = false) l.
Proof.
  intros F. eapply Forall_impl; [|exact F]. simpl. intros x Hx.
  apply N.eqb_neq. lia.
Qed.

(** The value is the number, rounded to the nearest hundredth. *)
Definition roundedToHundredths (a : Amount.t) (value : numeric) : Prop :=
  (2 * Z.abs (value * 10 ^ Z.of_nat (Amount.decimals a) - Amount.digits a * 100)
   <= 10 ^ Z.of_nat (Amount.decimals a))%Z.

Lemma numeric12_2_rounds (a : Amount.t) (value : numeric) :
  Sql.numeric12_2 a = Some value ->
  roundedToHundredths a value /\ (Z.abs value < 10 ^ 12)%Z.
Proof.
  unfold Sql.numeric12_2, roundedToHundredths.
  set (n := (Amount.digits a * 100)%Z).
  set (d := (10 ^ Z.of_nat (Amount.decimals a))%Z).
  assert (Hd : (0 < d)%Z) by (apply Z.pow_pos_nonneg; lia).
  cbv zeta.
  set (q := ((2 * Z.abs n + d) / (2 * d))%Z).
  destruct (Z.ltb_spec (Z.abs (Z.sgn n * q)) (10 ^ 12)) as [Hlt|]; [|discriminate].
  intros [= <-]. split; [|exact Hlt].
  pose proof (Z.div_mod (2 * Z.abs n + d) (2 * d) ltac:(lia)) as Hdm.
  pose proof (Z.mod_pos_bound (2 * Z.abs n + d) (2 * d) ltac:(lia)) as Hr.
  fold q in Hdm.
  set (r := ((2 * Z.abs n + d) mod (2 * d))%Z) in *.
  clearbody q r d n. clear Hlt.
  destruct (Z.sgn_spec n) as [[Hn ->]|[[Hn ->]|[Hn ->]]]; nia.
Qed.

(** A number with two decimals at most is stored as it is. *)
Lemma numeric12_2_exact (a : Amount.t) (value : numeric) :
  (Amount.decimals a <= 2)%nat ->
  Sql.numeric12_2 a = Some value ->
  Amount.sameNumber (Amount.ofNumeric value) a = true.
Proof.
  intros Hk E. apply numeric12_2_rounds in E. destruct E as [E _].
  unfold roundedToHundredths in E. unfold Amount.sameNumber, Amount.ofNumeric.
  cbn [Amount.digits Amount.decimals]. apply Z.eqb_eq.
  destruct (Amount.decimals a) as [|[|[|k]]]; [| | |lia];
    cbn [Z.of_nat Pos.of_succ_nat Pos.succ] in *;
    change (10 ^ 0)%Z with 1%Z in *; change (10 ^ 1)%Z with 10%Z in *;
    change (10 ^ 2)%Z with 100%Z in *; change (10 ^ Z.of_nat 2)%Z with 100%Z;
    lia.
Qed.

(** The rows the creations of the pricing service insert. *)
Definition newHallProduct (payload : CreateHallProductPayload.t) (now : time)
  (id : uuid) : HallProduct.t :=
  {| HallProduct.id := id;
     HallProduct.hallId := CreateHallProductPayload.hallId payload;
     HallProduct.name := CreateHallProductPayload.name payload;
     HallProduct.category := CreateHallProductPayload.category payload;
     HallProduct.description := CreateHallProductPayload.description payload;
     HallProduct.isPrimary :=
       PricingService.orDefault (CreateHallProductPayload.isPrimary payload) false;
     HallProduct.isActive :=
       PricingService.orDefault (CreateHallProductPayload.isActive payload) true;
     HallProduct.createdAt := now;
     HallProduct.updatedAt := now |}.

Definition newHallBlockedDate (payload : CreateHallBlockedDatePayload.t)
  (now : time) (id : uuid) : HallBlockedDate.t :=
  {| HallBlockedDate.id := id;
     HallBlockedDate.hallId := CreateHallBlockedDatePayload.hallId payload;
     HallBlockedDate.startDate := CreateHallBlockedDatePayload.startDate payload;
     HallBlockedDate.endDate := CreateHallBlockedDatePayload.endDate payload;
     HallBlockedDate.reason := CreateHallBlockedDatePayload.reason payload;
     HallBlockedDate.createdByUserId :=
       CreateHallBlockedDatePayload.createdByUserId payload;
     HallBlockedDate.createdAt := now |}.

Lemma createHallProduct_eq (payload : CreateHallProductPayload.t) (now : time)
  (db : Db) :
  PricingService.createHallProduct payload now db
  = (Returned (newHallProduct payload now (nextId db)),
     setHallProducts (hallProducts db ++ [newHallProduct payload now (nextId db)])
       (setNextId (N.succ (nextId db)) db)).
Proof. reflexivity. Qed.

Definition newHallProductRate (payload : CreateHallProductRatePayload.t)
  (price : numeric) (extraUnitPrice : option numeric) (now : time) (id : uuid)
  : HallProductRate.t :=
  {| HallProductRate.id := id;
     HallProductRate.hallProductId :=
       CreateHallProductRatePayload.hallProductId payload;
     HallProductRate.label := CreateHallProductRatePayload.label payload;
     HallProductRate.currency := CreateHallProductRatePayload.currency payload;
     HallProductRate.price := price;
     HallProductRate.billingUnit :=
       CreateHallProductRatePayload.billingUnit payload;
     HallProductRate.minHours := CreateHallProductRatePayload.minHours payload;
     HallProductRate.maxHours := CreateHallProductRatePayload.maxHours payload;
     HallProductRate.extraUnitPrice := extraUnitPrice;
     HallProductRate.dayOfWeekMask :=
       CreateHallProductRatePayload.dayOfWeekMask payload;
     HallProductRate.seasonStart :=
       CreateHallProductRatePayload.seasonStart payload;
     HallProductRate.seasonEnd := CreateHallProductRatePayload.seasonEnd payload;
     HallProductRate.isDefault :=
       PricingService.orDefault (CreateHallProductRatePayload.isDefault payload)
         false;
     HallProductRate.createdAt := now;
     HallProductRate.updatedAt := now |}.

Definition newHallAddon (payload : CreateHallAddonPayload.t)
  (unitPrice : numeric) (redevanceAmount : option numeric) (now : time) (id : uuid)
  : HallAddon.t :=
  {| HallAddon.id := id;
     HallAddon.hallId := CreateHallAddonPayload.hallId payload;
     HallAddon.name := CreateHallAddonPayload.name payload;
     HallAddon.description := CreateHallAddonPayload.description payload;
     HallAddon.pricingModel := CreateHallAddonPayload.pricingModel payload;
     HallAddon.currency := CreateHallAddonPayload.currency payload;
     HallAddon.unitPrice := unitPrice;
     HallAddon.packSize := CreateHallAddonPayload.packSize payload;
     HallAddon.redevanceAmount := redevanceAmount;
     HallAddon.isActive :=
       PricingService.orDefault (CreateHallAddonPayload.isActive payload) true;
     HallAddon.createdAt := now;
     HallAddon.updatedAt := now |}.

Lemma createHallProductRate_eq (payload : CreateHallProductRatePayload.t)
  (now : time) (db : Db) (price : numeric) (extraUnitPrice : option numeric) :
  Sql.numeric12_2 (CreateHallProductRatePayload.price payload) = Some price ->
  Sql.numeric12_2Nullable (CreateHallProductRatePayload.extraUnitPrice payload)
  = Some extraUnitPrice ->
  PricingService.createHallProductRate payload now db
  = (Returned
       {| SavedHallProductRateDTO.row :=
            newHallProductRate payload price extraUnitPrice now (nextId db);
          SavedHallProductRateDTO.price :=
            CreateHallProductRatePayload.price payload;
          SavedHallProductRateDTO.extraUnitPrice :=
            CreateHallProductRatePayload.extraUnitPrice payload |},
     setHallProductRates
       (hallProductRates db
        ++ [newHallProductRate payload price extraUnitPrice now (nextId db)])
       (setNextId (N.succ (nextId db)) db)).
Proof.
  intros Ep Ee. unfold PricingService.createHallProductRate.
  now rewrite Ep, Ee.
Qed.

Lemma createHallAddon_eq (payload : CreateHallAddonPayload.t) (now : time)
  (db : Db) (unitPrice : numeric) (redevanceAmount : option numeric) :
  Sql.numeric12_2 (CreateHallAddonPayload.unitPrice payload) = Some unitPrice ->
  Sql.numeric12_2Nullable (CreateHallAddonPayload.redevanceAmount payload)
  = Some redevanceAmount ->
  PricingService.createHallAddon payload now db
  = (Returned
       {| SavedHallAddonDTO.row :=
            newHallAddon payload unitPrice redevanceAmount now (nextId db);
          SavedHallAddonDTO.unitPrice := CreateHallAddonPayload.unitPrice payload;
          SavedHallAddonDTO.redevanceAmount :=
            CreateHallAddonPayload.redevanceAmount payload |},
     setHallAddons
       (hallAddons db
        ++ [newHallAddon payload unitPrice redevanceAmount now (nextId db)])
       (setNextId (N.succ (nextId db)) db)).
Proof.
  intros Ep Ee. unfold PricingService.createHallAddon.
  now rewrite Ep, Ee.
Qed.

Lemma createHallBlockedDate_eq (payload : CreateHallBlockedDatePayload.t)
  (now : time) (db : Db) :
  PricingService.createHallBlockedDate payload now db
  = (Returned (newHallBlockedDate payload now (nextId db)),
     setHallBlockedDates
       (hallBlockedDates db ++ [newHallBlockedDate payload now (nextId db)])
       (setNextId (N.succ (nextId db)) db)).
Proof. reflexivity. Qed.

(** X11. A product that createHallProduct has just returned is the product
    that the lookup by its key returns, in a database whose product keys
    were generated. It belongs to the hall of the payload, is the last row
    of the table, and is among the active products of the hall unless the
    payload said isActive: false. *)
Theorem createHallProduct_then_get (payload : CreateHallProductPayload.t)
  (now : time) (db : Db) :
  Forall (fun p => HallProduct.id p < nextId db) (hallProducts db) ->
  exists dto db',
    PricingService.createHallProduct payload now db = (Returned dto, db')
    /\ PricingService.getHallProductById (HallProduct.id dto) db' = (Returned dto, db')
    /\ HallProduct.hallId dto = CreateHallProductPayload.hallId payload
    /\ hallProducts db' = hallProducts db ++ [dto]
    /\ exists l,
         PricingService.getActiveProductsForHall
           (CreateHallProductPayload.hallId payload) db' = (Returned l, db')
         /\ (CreateHallProductPayload.isActive payload <> Some false -> In dto l)
         /\ (CreateHallProductPayload.isActive payload = Some false -> ~ In dto l).
Proof.
  intros Hlt. eexists _, _. split; [apply createHallProduct_eq|].
  split.
  { unfold PricingService.getHallProductById, bind, gets,
      PricingService.findHallProduct.
    cbn [hallProducts setHallProducts setNextId HallProduct.id
         PricingService.toHallProductDTO newHallProduct].
    rewrite find_snoc_fresh; [reflexivity| |apply N.eqb_refl].
    now apply (fresh_key HallProduct.id). }
  split; [reflexivity|]. split; [reflexivity|].
  eexists. split; [reflexivity|].
  unfold PricingService.toHallProductDTO. rewrite map_id.
  cbn [hallProducts setHallProducts setNextId].
  split.
  - intros Ha. apply orderBy_In. apply filter_In. split.
    + apply in_or_app. right. now left.
    + cbn. rewrite N.eqb_refl.
      destruct (CreateHallProductPayload.isActive payload) as [[|]|]; auto;
        exfalso; now apply Ha.
  - intros Ha Hin. apply orderBy_In in Hin. apply filter_In in Hin.
    destruct Hin as [_ Hin]. cbn in Hin. rewrite Ha in Hin. cbn in Hin.
    now rewrite andb_false_r in Hin.
Qed.

(** X12. createHallProductRate writes the amounts of the payload into
    numeric(12,2) columns. When the columns can hold them, in a database
    whose rate keys were generated, it returns a DTO that carries the
    numbers of the payload and appends one row, whose price is that of the
    payload rounded to the nearest hundredth, and the same number when it
    has two decimals at most; the lookup by the key of the row then returns
    the row, which is among the rates listed for its product. When a column
    cannot hold its amount, the creation throws and writes nothing. *)
Theorem createHallProductRate_then_get (payload : CreateHallProductRatePayload.t)
  (now : time) (db : Db) :
  Forall (fun r => HallProductRate.id r < nextId db) (hallProductRates db) ->
  (forall price extraUnitPrice,
     Sql.numeric12_2 (CreateHallProductRatePayload.price payload) = Some price ->
     Sql.numeric12_2Nullable (CreateHallProductRatePayload.extraUnitPrice payload)
     = Some extraUnitPrice ->
     exists dto db',
       PricingService.createHallProductRate payload now db = (Returned dto, db')
       /\ SavedHallProductRateDTO.price dto
          = CreateHallProductRatePayload.price payload
       /\ SavedHallProductRateDTO.extraUnitPrice dto
          = CreateHallProductRatePayload.extraUnitPrice payload
       /\ let row := SavedHallProductRateDTO.row dto in
          HallProductRate.price row = price
          /\ HallProductRate.extraUnitPrice row = extraUnitPrice
          /\ roundedToHundredths (CreateHallProductRatePayload.price payload) price
          /\ ((Amount.decimals (CreateHallProductRatePayload.price payload) <= 2)%nat ->
              Amount.sameNumber (Amount.ofNumeric price)
                (CreateHallProductRatePayload.price payload) = true)
          /\ HallProductRate.hallProductId row
             = CreateHallProductRatePayload.hallProductId payload
          /\ hallProductRates db' = hallProductRates db ++ [row]
          /\ PricingService.getHallProductRateById (HallProductRate.id row) db'
             = (Returned row, db')
          /\ exists l,
               PricingService.listHallProductRates
                 (CreateHallProductRatePayload.hallProductId payload) db'
               = (Returned l, db')
               /\ In row l)
  /\ (Sql.numeric12_2 (CreateHallProductRatePayload.price payload) = None
      \/ Sql.numeric12_2Nullable (CreateHallProductRatePayload.extraUnitPrice payload)
         = None ->
      PricingService.createHallProductRate payload now db
      = (Thrown (QueryFailedError "numeric field overflow"), db)).
Proof.
  intros Hlt. split.
  - intros price extraUnitPrice Ep Ee.
    eexists _, _. split; [exact (createHallProductRate_eq _ _ _ _ _ Ep Ee)|].
    split; [reflexivity|]. split; [reflexivity|].
    cbv zeta. cbn [SavedHallProductRateDTO.row].
    split; [reflexivity|]. split; [reflexivity|].
    split; [now apply numeric12_2_rounds|].
    split; [intros Hk; now apply numeric12_2_exact|].
    split; [reflexivity|]. split; [reflexivity|].
    split.
    { unfold PricingService.getHallProductRateById, bind, gets,
        PricingService.findHallProductRate.
      cbn [hallProductRates setHallProductRates setNextId HallProductRate.id
           PricingService.toHallProductRateDTO newHallProductRate].
      rewrite find_snoc_fresh; [reflexivity| |apply N.eqb_refl].
      now apply (fresh_key HallProductRate.id). }
    eexists. split; [reflexivity|].
    unfold PricingService.toHallProductRateDTO. rewrite map_id.
    cbn [hallProductRates setHallProductRates setNextId].
    apply orderBy_In. apply filter_In. split.
    + apply in_or_app. right. now left.
    + cbn. apply N.eqb_refl.
  - unfold PricingService.createHallProductRate. intros [E|E]; rewrite E.
    + reflexivity.
    + now destruct (Sql.numeric12_2 _).
Qed.

(** X13. createHallAddon writes the amounts of the payload into
    numeric(12,2) columns. When the columns can hold them, in a database
    whose addon keys were generated, it returns a DTO that carries the
    numbers of the payload and appends one row, whose unit price is that of
    the payload rounded to the nearest hundredth; the lookup by the key of
    the row then returns the row, which is listed among the active addons
    of its hall unless the payload said isActive: false. When a column
    cannot hold its amount, the creation throws and writes nothing. *)
Theorem createHallAddon_then_get (payload : CreateHallAddonPayload.t)
  (now : time) (db : Db) :
  Forall (fun a => HallAddon.id a < nextId db) (hallAddons db) ->
  (forall unitPrice redevanceAmount,
     Sql.numeric12_2 (CreateHallAddonPayload.unitPrice payload) = Some unitPrice ->
     Sql.numeric12_2Nullable (CreateHallAddonPayload.redevanceAmount payload)
     = Some redevanceAmount ->
     exists dto db',
       PricingService.createHallAddon payload now db = (Returned dto, db')
       /\ SavedHallAddonDTO.unitPrice dto = CreateHallAddonPayload.unitPrice payload
       /\ SavedHallAddonDTO.redevanceAmount dto
          = CreateHallAddonPayload.redevanceAmount payload
       /\ let row := SavedHallAddonDTO.row dto in
          HallAddon.unitPrice row = unitPrice
          /\ HallAddon.redevanceAmount row = redevanceAmount
          /\ roundedToHundredths (CreateHallAddonPayload.unitPrice payload) unitPrice
          /\ HallAddon.hallId row = CreateHallAddonPayload.hallId payload
          /\ hallAddons db' = hallAddons db ++ [row]
          /\ PricingService.getHallAddonById (HallAddon.id row) db'
             = (Returned row, db')
          /\ exists l,
               PricingService.listHallAddons
                 (CreateHallAddonPayload.hallId payload) (Some true) db'
               = (Returned l, db')
               /\ (CreateHallAddonPayload.isActive payload <> Some false ->
                   In row l)
               /\ (CreateHallAddonPayload.isActive payload = Some false ->
                   ~ In row l))
  /\ (Sql.numeric12_2 (CreateHallAddonPayload.unitPrice payload) = None
      \/ Sql.numeric12_2Nullable (CreateHallAddonPayload.redevanceAmount payload)
         = None ->
      PricingService.createHallAddon payload now db
      = (Thrown (QueryFailedError "numeric field overflow"), db)).
Proof.
  intros Hlt. split.
  - intros unitPrice redevanceAmount Ep Ee.
    eexists _, _. split; [exact (createHallAddon_eq _ _ _ _ _ Ep Ee)|].
    split; [reflexivity|]. split; [reflexivity|].
    cbv zeta. cbn [SavedHallAddonDTO.row].
    split; [reflexivity|]. split; [reflexivity|].
    split; [now apply numeric12_2_rounds|].
    split; [reflexivity|]. split; [reflexivity|].
    split.
    { unfold PricingService.getHallAddonById, bind, gets,
        PricingService.findHallAddon.
      cbn [hallAddons setHallAddons setNextId HallAddon.id
           PricingService.toHallAddonDTO newHallAddon].
      rewrite find_snoc_fresh; [reflexivity| |apply N.eqb_refl].
      now apply (fresh_key HallAddon.id). }
    eexists. split; [reflexivity|].
    unfold PricingService.toHallAddonDTO. rewrite map_id.
    cbn [hallAddons setHallAddons setNextId].
    split.
    + intros Ha. apply orderBy_In. apply filter_In. split.
      * apply in_or_app. right. now left.
      * cbn. rewrite N.eqb_refl.
        destruct (CreateHallAddonPayload.isActive payload) as [[|]|]; auto;
          exfalso; now apply Ha.
    + intros Ha Hin. apply orderBy_In in Hin. apply filter_In in Hin.
      destruct Hin as [_ Hin]. cbn in Hin. rewrite Ha in Hin. cbn in Hin.
      now rewrite andb_false_r in Hin.
  - unfold PricingService.createHallAddon. intros [E|E]; rewrite E.
    + reflexivity.
    + now destruct (Sql.numeric12_2 _).
Qed.

(** X14. updateHallProduct, on a key that a product has, returns and writes
    that product only: it keeps its key, its hall and its time of creation,
    and each field the payload leaves undefined; the lookup by the key then
    returns what the update returned. On a key that no product has, the
    update and the lookup throw NotFound and nothing is written. *)
Theorem updateHallProduct_writes_one (id : uuid)
  (payload : UpdateHallProductPayload.t) (now : time) (db : Db) :
  (In id (map HallProduct.id (hallProducts db)) ->
   exists old dto db',
     PricingService.findHallProduct id db = Some old
     /\ PricingService.updateHallProduct id payload now db = (Returned dto, db')
     /\ PricingService.getHallProductById id db' = (Returned dto, db')
     /\ HallProduct.id dto = id
     /\ HallProduct.hallId dto = HallProduct.hallId old
     /\ HallProduct.createdAt dto = HallProduct.createdAt old
     /\ (UpdateHallProductPayload.name payload = None ->
         HallProduct.name dto = HallProduct.name old)
     /\ (UpdateHallProductPayload.isActive payload = None ->
         HallProduct.isActive dto = HallProduct.isActive old)
     /\ (UpdateHallProductPayload.isPrimary payload = None ->
         HallProduct.isPrimary dto = HallProduct.isPrimary old)
     /\ (forall p, In p (hallProducts db') ->
           p = dto \/ (In p (hallProducts db) /\ HallProduct.id p <> id))
     /\ (forall p, In p (hallProducts db) -> HallProduct.id p <> id ->
           In p (hallProducts db'))
     /\ hallProductRates db' = hallProductRates db
     /\ halls db' = halls db)
  /\ (~ In id (map HallProduct.id (hallProducts db)) ->
      PricingService.updateHallProduct id payload now db
      = (Thrown (NotFoundError "Hall product not found"), db)
      /\ PricingService.getHallProductById id db
         = (Thrown (NotFoundError "Hall product not found"), db)).
Proof.
  split.
  - intros Hin.
    destruct (find_some_in HallProduct.id id (hallProducts db) Hin) as [old Hf].
    assert (Hid : HallProduct.id old = id).
    { apply find_some in Hf. destruct Hf as [_ Hf]. now apply N.eqb_eq. }
    exists old.
    unfold PricingService.updateHallProduct, PricingService.getHallProductById,
      PricingService.findHallProduct, bind, gets, modify, ret.
    rewrite Hf. eexists _, _. split; [reflexivity|]. split; [reflexivity|].
    cbn [hallProducts setHallProducts hallProductRates halls
         PricingService.toHallProductDTO HallProduct.id HallProduct.hallId
         HallProduct.createdAt HallProduct.name HallProduct.isActive
         HallProduct.isPrimary].
    split.
    { rewrite (find_replaced HallProduct.id id _ old); auto. }
    split; [exact Hid|]. split; [reflexivity|]. split; [reflexivity|].
    split; [now intros ->|]. split; [now intros ->|]. split; [now intros ->|].
    split; [intros p Hp; now apply (in_replaced HallProduct.id) in Hp|].
    split; [intros p Hp Hne; now apply (replaced_in HallProduct.id)|].
    split; reflexivity.
  - intros Hn.
    pose proof (find_none_notin HallProduct.id id (hallProducts db) Hn) as Hf.
    unfold PricingService.updateHallProduct, PricingService.getHallProductById,
      PricingService.findHallProduct, bind, gets.
    now rewrite Hf.
Qed.

(** X15. updateHallProductRate, on a key that a rate has and with amounts
    that the numeric(12,2) columns can hold, returns and writes that rate
    only. The row keeps its key, its product and its time of creation; its
    price is the price of the payload rounded to the nearest hundredth when
    there is one, and the price it had otherwise; the DTO carries the
    number of the payload, or the price the row had. The lookup by the key
    then returns the row. With an amount that its column cannot hold, the
    update throws and writes nothing; on a key that no rate has, the update
    and the lookup throw NotFound and nothing is written. *)
Theorem updateHallProductRate_writes_one (id : uuid)
  (payload : UpdateHallProductRatePayload.t) (now : time) (db : Db) :
  (forall old price extraUnitPrice,
     PricingService.findHallProductRate id db = Some old ->
     PricingService.assignAmount (UpdateHallProductRatePayload.price payload)
       (HallProductRate.price old) = Some price ->
     PricingService.assignAmountNullable
       (UpdateHallProductRatePayload.extraUnitPrice payload)
       (HallProductRate.extraUnitPrice old) = Some extraUnitPrice ->
     exists dto db',
       PricingService.updateHallProductRate id payload now db = (Returned dto, db')
       /\ SavedHallProductRateDTO.price dto
          = match UpdateHallProductRatePayload.price payload with
            | Some a => a
            | None => Amount.ofNumeric (HallProductRate.price old)
            end
       /\ let row := SavedHallProductRateDTO.row dto in
          PricingService.getHallProductRateById id db' = (Returned row, db')
          /\ HallProductRate.id row = id
          /\ HallProductRate.hallProductId row = HallProductRate.hallProductId old
          /\ HallProductRate.createdAt row = HallProductRate.createdAt old
          /\ HallProductRate.price row = price
          /\ HallProductRate.extraUnitPrice row = extraUnitPrice
          /\ (forall a, UpdateHallProductRatePayload.price payload = Some a ->
                roundedToHundredths a price)
          /\ (UpdateHallProductRatePayload.price payload = None ->
              price = HallProductRate.price old)
          /\ (forall r, In r (hallProductRates db') ->
                r = row
                \/ (In r (hallProductRates db) /\ HallProductRate.id r <> id))
          /\ (forall r, In r (hallProductRates db) -> HallProductRate.id r <> id ->
                In r (hallProductRates db'))
          /\ hallProducts db' = hallProducts db)
  /\ (forall old,
        PricingService.findHallProductRate id db = Some old ->
        PricingService.assignAmount (UpdateHallProductRatePayload.price payload)
          (HallProductRate.price old) = None
        \/ PricingService.assignAmountNullable
             (UpdateHallProductRatePayload.extraUnitPrice payload)
             (HallProductRate.extraUnitPrice old) = None ->
        PricingService.updateHallProductRate id payload now db
        = (Thrown (QueryFailedError "numeric field overflow"), db))
  /\ (PricingService.findHallProductRate id db = None ->
      PricingService.updateHallProductRate id payload now db
      = (Thrown (NotFoundError "Hall product rate not found"), db)
      /\ PricingService.getHallProductRateById id db
         = (Thrown (NotFoundError "Hall product rate not found"), db)).
Proof.
  split; [|split].
  - intros old price extraUnitPrice Hf Ep Ee.
    assert (Hid : HallProductRate.id old = id).
    { apply find_some in Hf. destruct Hf as [_ Hf]. now apply N.eqb_eq. }
    unfold PricingService.updateHallProductRate,
      PricingService.getHallProductRateById, bind, gets.
    rewrite Hf, Ep, Ee. unfold modify, ret.
    eexists _, _. split; [reflexivity|].
    split; [reflexivity|].
    cbv zeta.
    cbn [SavedHallProductRateDTO.row hallProductRates setHallProductRates
         hallProducts PricingService.toHallProductRateDTO HallProductRate.id
         HallProductRate.hallProductId HallProductRate.createdAt
         HallProductRate.price HallProductRate.extraUnitPrice].
    split.
    { unfold PricingService.findHallProductRate in *.
      cbn [hallProductRates setHallProductRates].
      rewrite (find_replaced HallProductRate.id id _ old); auto. }
    split; [exact Hid|]. split; [reflexivity|]. split; [reflexivity|].
    split; [reflexivity|]. split; [reflexivity|].
    split.
    { intros a Ea. rewrite Ea in Ep. cbn in Ep.
      now apply numeric12_2_rounds in Ep. }
    split.
    { intros Ea. rewrite Ea in Ep. cbn in Ep. congruence. }
    split; [intros r Hr; now apply (in_replaced HallProductRate.id) in Hr|].
    split; [intros r Hr Hne; now apply (replaced_in HallProductRate.id)|].
    reflexivity.
  - intros old Hf E.
    unfold PricingService.updateHallProductRate, bind, gets. rewrite Hf.
    destruct E as [E|E]; rewrite E; [reflexivity|].
    now destruct (PricingService.assignAmount _ _).
  - intros Hf.
    unfold PricingService.updateHallProductRate,
      PricingService.getHallProductRateById, bind, gets.
    now rewrite Hf.
Qed.

(** X16. updateHallAddon, on a key that an addon has and with amounts that
    the numeric(12,2) columns can hold, returns and writes that addon only.
    The row keeps its key, its hall and its time of creation, and its
    active flag and unit price when the payload leaves them undefined; its
    unit price is otherwise that of the payload rounded to the nearest
    hundredth, and the DTO carries the number of the payload. The lookup by
    the key then returns the row. With an amount that its column cannot
    hold, the update throws and writes nothing; on a key that no addon has,
    the update and the lookup throw NotFound and nothing is written. *)
Theorem updateHallAddon_writes_one (id : uuid)
  (payload : UpdateHallAddonPayload.t) (now : time) (db : Db) :
  (forall old unitPrice redevanceAmount,
     PricingService.findHallAddon id db = Some old ->
     PricingService.assignAmount (UpdateHallAddonPayload.unitPrice payload)
       (HallAddon.unitPrice old) = Some unitPrice ->
     PricingService.assignAmountNullable
       (UpdateHallAddonPayload.redevanceAmount payload)
       (HallAddon.redevanceAmount old) = Some redevanceAmount ->
     exists dto db',
       PricingService.updateHallAddon id payload now db = (Returned dto, db')
       /\ SavedHallAddonDTO.unitPrice dto
          = match UpdateHallAddonPayload.unitPrice payload with
            | Some a => a
            | None => Amount.ofNumeric (HallAddon.unitPrice old)
            end
       /\ let row := SavedHallAddonDTO.row dto in
          PricingService.getHallAddonById id db' = (Returned row, db')
          /\ HallAddon.id row = id
          /\ HallAddon.hallId row = HallAddon.hallId old
          /\ HallAddon.createdAt row = HallAddon.createdAt old
          /\ HallAddon.unitPrice row = unitPrice
          /\ HallAddon.redevanceAmount row = redevanceAmount
          /\ (forall a, UpdateHallAddonPayload.unitPrice payload = Some a ->
                roundedToHundredths a unitPrice)
          /\ (UpdateHallAddonPayload.unitPrice payload = None ->
              unitPrice = HallAddon.unitPrice old)
          /\ (UpdateHallAddonPayload.isActive payload = None ->
              HallAddon.isActive row = HallAddon.isActive old)
          /\ (forall a, In a (hallAddons db') ->
                a = row \/ (In a (hallAddons db) /\ HallAddon.id a <> id))
          /\ (forall a, In a (hallAddons db) -> HallAddon.id a <> id ->
                In a (hallAddons db')))
  /\ (forall old,
        PricingService.findHallAddon id db = Some old ->
        PricingService.assignAmount (UpdateHallAddonPayload.unitPrice payload)
          (HallAddon.unitPrice old) = None
        \/ PricingService.assignAmountNullable
             (UpdateHallAddonPayload.redevanceAmount payload)
             (HallAddon.redevanceAmount old) = None ->
        PricingService.updateHallAddon id payload now db
        = (Thrown (QueryFailedError "numeric field overflow"), db))
  /\ (PricingService.findHallAddon id db = None ->
      PricingService.updateHallAddon id payload now db
      = (Thrown (NotFoundError "Hall addon not found"), db)
      /\ PricingService.getHallAddonById id db
         = (Thrown (NotFoundError "Hall addon not found"), db)).
Proof.
  split; [|split].
  - intros old unitPrice redevanceAmount Hf Ep Ee.
    assert (Hid : HallAddon.id old = id).
    { apply find_some in Hf. destruct Hf as [_ Hf]. now apply N.eqb_eq. }
    unfold PricingService.updateHallAddon, PricingService.getHallAddonById,
      bind, gets.
    rewrite Hf, Ep, Ee. unfold modify, ret.
    eexists _, _. split; [reflexivity|].
    split; [reflexivity|].
    cbv zeta.
    cbn [SavedHallAddonDTO.row hallAddons setHallAddons
         PricingService.toHallAddonDTO HallAddon.id HallAddon.hallId
         HallAddon.createdAt HallAddon.unitPrice HallAddon.redevanceAmount
         HallAddon.isActive].
    split.
    { unfold PricingService.findHallAddon in *.
      cbn [hallAddons setHallAddons].
      rewrite (find_replaced HallAddon.id id _ old); auto. }
    split; [exact Hid|]. split; [reflexivity|]. split; [reflexivity|].
    split; [reflexivity|]. split; [reflexivity|].
    split.
    { intros a Ea. rewrite Ea in Ep. cbn in Ep.
      now apply numeric12_2_rounds in Ep. }
    split.
    { intros Ea. rewrite Ea in Ep. cbn in Ep. congruence. }
    split; [now intros ->|].
    split; [intros a Ha; now apply (in_replaced HallAddon.id) in Ha|].
    intros a Ha Hne. now apply (replaced_in HallAddon.id).
  - intros old Hf E.
    unfold PricingService.updateHallAddon, bind, gets. rewrite Hf.
    destruct E as [E|E]; rewrite E; [reflexivity|].
    now destruct (PricingService.assignAmount _ _).
  - intros Hf.
    unfold PricingService.updateHallAddon, PricingService.getHallAddonById,
      bind, gets.
    now rewrite Hf.
Qed.

(** X17. The lists of the pricing service hold the rows of their hall or
    product that pass their filter, and nothing else: the products and the
    addons of the hall with the active flag asked for, the rates of the
    product, and the blocked dates of the hall that start in the range. *)
Theorem pricing_lists_exact (db : Db) (hallId hallProductId : uuid)
  (isActive : option bool) (fromDate toDate : option date) :
  (exists l,
     PricingService.listHallProducts hallId isActive db = (Returned l, db)
     /\ forall p, In p l <->
          In p (hallProducts db) /\ HallProduct.hallId p = hallId
          /\ (forall b, isActive = Some b -> HallProduct.isActive p = b))
  /\ (exists l,
        PricingService.listHallProductRates hallProductId db = (Returned l, db)
        /\ forall r, In r l <->
             In r (hallProductRates db)
             /\ HallProductRate.hallProductId r = hallProductId)
  /\ (exists l,
        PricingService.listHallAddons hallId isActive db = (Returned l, db)
        /\ forall a, In a l <->
             In a (hallAddons db) /\ HallAddon.hallId a = hallId
             /\ (forall b, isActive = Some b -> HallAddon.isActive a = b))
  /\ (exists l,
        PricingService.listHallBlockedDates hallId fromDate toDate db = (Returned l, db)
        /\ forall b, In b l <->
             In b (hallBlockedDates db) /\ HallBlockedDate.hallId b = hallId
             /\ (forall d, fromDate = Some d -> d <= HallBlockedDate.startDate b)
             /\ (forall d, toDate = Some d -> HallBlockedDate.startDate b <= d)).
Proof.
  repeat split.
  - eexists. split; [reflexivity|]. intros p.
    unfold PricingService.toHallProductDTO. rewrite map_id, orderBy_In, filter_In.
    rewrite andb_true_iff, N.eqb_eq.
    destruct isActive as [b|].
    + rewrite eqb_true_iff. split.
      * intros (Hin & Eh & Ea). repeat split; auto. now intros b' [= <-].
      * intros (Hin & Eh & Ea). repeat split; auto.
    + split.
      * intros (Hin & Eh & _). repeat split; auto. discriminate.
      * intros (Hin & Eh & _). repeat split; auto.
  - eexists. split; [reflexivity|]. intros r.
    unfold PricingService.toHallProductRateDTO.
    rewrite map_id, orderBy_In, filter_In, N.eqb_eq. reflexivity.
  - eexists. split; [reflexivity|]. intros a.
    unfold PricingService.toHallAddonDTO. rewrite map_id, orderBy_In, filter_In.
    rewrite andb_true_iff, N.eqb_eq.
    destruct isActive as [b|].
    + rewrite eqb_true_iff. split.
      * intros (Hin & Eh & Ea). repeat split; auto. now intros b' [= <-].
      * intros (Hin & Eh & Ea). repeat split; auto.
    + split.
      * intros (Hin & Eh & _). repeat split; auto. discriminate.
      * intros (Hin & Eh & _). repeat split; auto.
  - eexists. split; [reflexivity|]. intros b.
    unfold PricingService.toHallBlockedDateDTO.
    rewrite map_id, orderBy_In, filter_In, !andb_true_iff, N.eqb_eq.
    split.
    + intros (Hin & (Eh & Ef) & Et). repeat split; auto.
      * intros d ->. now apply N.leb_le.
      * intros d ->. now apply N.leb_le.
    + intros (Hin & Eh & Ef & Et). repeat split; auto.
      * destruct fromDate as [d|]; auto. apply N.leb_le. now apply Ef.
      * destruct toDate as [d|]; auto. apply N.leb_le. now apply Et.
Qed.

(** A rate of a given price, with 0.5 for each extra unit, and candles of a
    given unit price. *)
Definition eveningRate (price : Amount.t) : CreateHallProductRatePayload.t :=
  {| CreateHallProductRatePayload.hallProductId := 11;
     CreateHallProductRatePayload.label := lit "Evening";
     CreateHallProductRatePayload.currency := lit "USD";
     CreateHallProductRatePayload.price := price;
     CreateHallProductRatePayload.billingUnit := lit "EVENT";
     CreateHallProductRatePayload.minHours := None;
     CreateHallProductRatePayload.maxHours := None;
     CreateHallProductRatePayload.extraUnitPrice :=
       Some {| Amount.digits := 5; Amount.decimals := 1 |};
     CreateHallProductRatePayload.dayOfWeekMask := None;
     CreateHallProductRatePayload.seasonStart := None;
     CreateHallProductRatePayload.seasonEnd := None;
     CreateHallProductRatePayload.isDefault := None |}.

Definition candles (unitPrice : Amount.t) : CreateHallAddonPayload.t :=
  {| CreateHallAddonPayload.hallId := 1;
     CreateHallAddonPayload.name := lit "Candles";
     CreateHallAddonPayload.description := None;
     CreateHallAddonPayload.pricingModel := lit "PER_UNIT";
     CreateHallAddonPayload.currency := lit "USD";
     CreateHallAddonPayload.unitPrice := unitPrice;
     CreateHallAddonPayload.packSize := None;
     CreateHallAddonPayload.redevanceAmount := None;
     CreateHallAddonPayload.isActive := None |}.

Lemma createHallProductRate_then_get_witness :
  exists dto db',
    PricingService.createHallProductRate
      (eveningRate {| Amount.digits := 12345; Amount.decimals := 3 |}) 2000 dbPriced
    = (Returned dto, db')
    /\ SavedHallProductRateDTO.price dto
       = {| Amount.digits := 12345; Amount.decimals := 3 |}
    /\ HallProductRate.price (SavedHallProductRateDTO.row dto) = 1235%Z
    /\ HallProductRate.extraUnitPrice (SavedHallProductRateDTO.row dto)
       = Some 50%Z
    /\ PricingService.getHallProductRateById 30 db'
       = (Returned (SavedHallProductRateDTO.row dto), db').
Proof.
  destruct (createHallProductRate_then_get
              (eveningRate {| Amount.digits := 12345; Amount.decimals := 3 |})
              2000 dbPriced) as [H _].
  { repeat constructor. }
  destruct (H 1235%Z (Some 50%Z) eq_refl eq_refl)
    as (dto & db' & R & Ep & _ & Hrow).
  cbv zeta in Hrow. destruct Hrow as (Hp & He & _ & _ & _ & _ & G & _).
  exists dto, db'. split; [exact R|]. split; [exact Ep|].
  split; [exact Hp|]. split; [exact He|].
  vm_compute in R. injection R as <- <-. exact G.
Defined.

(** 10000000000 is one digit too long for the column. *)
Example createHallProductRate_overflow :
  PricingService.createHallProductRate
    (eveningRate {| Amount.digits := 10000000000; Amount.decimals := 0 |})
    2000 dbPriced
  = (Thrown (QueryFailedError "numeric field overflow"), dbPriced).
Proof. vm_compute. reflexivity. Qed.

(** So is 9999999999.995, which rounds to it. *)
Example createHallProductRate_rounds_to_overflow :
  PricingService.createHallProductRate
    (eveningRate {| Amount.digits := 9999999999995; Amount.decimals := 3 |})
    2000 dbPriced
  = (Thrown (QueryFailedError "numeric field overflow"), dbPriced).
Proof. vm_compute. reflexivity. Qed.

Lemma createHallAddon_then_get_witness :
  exists dto db',
    PricingService.createHallAddon
      (candles {| Amount.digits := 25; Amount.decimals := 1 |}) 2000 dbPriced
    = (Returned dto, db')
    /\ SavedHallAddonDTO.unitPrice dto
       = {| Amount.digits := 25; Amount.decimals := 1 |}
    /\ HallAddon.unitPrice (SavedHallAddonDTO.row dto) = 250%Z
    /\ PricingService.getHallAddonById 30 db'
       = (Returned (SavedHallAddonDTO.row dto), db').
Proof.
  destruct (createHallAddon_then_get
              (candles {| Amount.digits := 25; Amount.decimals := 1 |})
              2000 dbPriced) as [H _].
  { constructor. }
  destruct (H 250%Z None eq_refl eq_refl) as (dto & db' & R & Ep & _ & Hrow).
  cbv zeta in Hrow. destruct Hrow as (Hp & _ & _ & _ & _ & G & _).
  exists dto, db'. split; [exact R|]. split; [exact Ep|]. split; [exact Hp|].
  vm_compute in R. injection R as <- <-. exact G.
Defined.

(** The price of rate 22 set to -0.005, which the column keeps as -0.01,
    while the DTO says -0.005. *)
Example updateHallProductRate_rounds :
  match
    fst (PricingService.updateHallProductRate 22
           {| UpdateHallProductRatePayload.label := None;
              UpdateHallProductRatePayload.currency := None;
              UpdateHallProductRatePayload.price :=
                Some {| Amount.digits := (-5)%Z; Amount.decimals := 3 |};
              UpdateHallProductRatePayload.billingUnit := None;
              UpdateHallProductRatePayload.minHours := None;
              UpdateHallProductRatePayload.maxHours := None;
              UpdateHallProductRatePayload.extraUnitPrice := None;
              UpdateHallProductRatePayload.dayOfWeekMask := None;
              UpdateHallProductRatePayload.seasonStart := None;
              UpdateHallProductRatePayload.seasonEnd := None;
              UpdateHallProductRatePayload.isDefault := None |} 2000 dbPriced)
  with
  | Returned dto =>
      Some (SavedHallProductRateDTO.price dto,
            HallProductRate.price (SavedHallProductRateDTO.row dto),
            HallProductRate.updatedAt (SavedHallProductRateDTO.row dto))
  | _ => None
  end
  = Some ({| Amount.digits := (-5)%Z; Amount.decimals := 3 |}, (-1)%Z, 2000).
Proof. vm_compute. reflexivity. Qed.

Lemma createHallProduct_then_get_witness :
  exists dto db',
    PricingService.createHallProduct
      {| CreateHallProductPayload.hallId := 1;
         CreateHallProductPayload.name := lit "Wedding";
         CreateHallProductPayload.category := None;
         CreateHallProductPayload.description := None;
         CreateHallProductPayload.isPrimary := None;
         CreateHallProductPayload.isActive := None |} 2000 dbPriced
    = (Returned dto, db')
    /\ PricingService.getHallProductById 30 db' = (Returned dto, db')
    /\ In dto (hallProducts db')
    /\ HallProduct.isActive dto = true.
Proof.
  destruct (createHallProduct_then_get
              {| CreateHallProductPayload.hallId := 1;
                 CreateHallProductPayload.name := lit "Wedding";
                 CreateHallProductPayload.category := None;
                 CreateHallProductPayload.description := None;
                 CreateHallProductPayload.isPrimary := None;
                 CreateHallProductPayload.isActive := None |} 2000 dbPriced)
    as (dto & db' & R & G & _ & Hp & _).
  { repeat constructor. }
  exists dto, db'. split; [exact R|].
  vm_compute in R. injection R as <- <-.
  split; [exact G|]. split; [|reflexivity].
  rewrite Hp. apply in_or_app. right. now left.
Defined.

(** ** Host applications *)

Section CreateHallFrame.
Context `{Builtins}.

(** A creation of a hall leaves the tables of the pricing and media
    services as they are. *)
Lemma createHall_frame (payload : CreateHallPayload.t) (now : time) (db : Db) :
  pricingTables (snd (HallService.createHall payload now db)) = pricingTables db
  /\ mediaTables (snd (HallService.createHall payload now db)) = mediaTables db.
Proof.
  destruct (createHall_effect payload now db) as (o & db' & R & _ & Hp & Hm & _).
  rewrite R. auto.
Qed.

End CreateHallFrame.

(** The row a submission inserts. *)
Definition newHostApplication `{Builtins} (payload : CreateHostApplicationPayload.t)
  (now : time) (id : uuid) : HostApplication.t :=
  {| HostApplication.id := id;
     HostApplication.applicantUserId :=
       CreateHostApplicationPayload.applicantUserId payload;
     HostApplication.hallName :=
       trim (CreateHostApplicationPayload.hallName payload);
     HostApplication.address := CreateHostApplicationPayload.address payload;
     HostApplication.city := CreateHostApplicationPayload.city payload;
     HostApplication.capacity := CreateHostApplicationPayload.capacity payload;
     HostApplication.description :=
       CreateHostApplicationPayload.description payload;
     HostApplication.additionalDetails :=
       CreateHostApplicationPayload.additionalDetails payload;
     HostApplication.contactName :=
       trim (CreateHostApplicationPayload.contactName payload);
     HostApplication.contactEmail :=
       toLowerCase (trim (CreateHostApplicationPayload.contactEmail payload));
     HostApplication.contactPhone :=
       CreateHostApplicationPayload.contactPhone payload;
     HostApplication.contactWhatsapp :=
       CreateHostApplicationPayload.contactWhatsapp payload;
     HostApplication.status := NEW;
     HostApplication.adminNotes := None;
     HostApplication.reviewedByUserId := None;
     HostApplication.reviewedAt := None;
     HostApplication.createdAt := now;
     HostApplication.updatedAt := now |}.

(** The row a status update writes back. *)
Definition reviewed (entity : HostApplication.t)
  (payload : UpdateHostApplicationStatusPayload.t) (now : time) : HostApplication.t :=
  {| HostApplication.id := HostApplication.id entity;
     HostApplication.applicantUserId := HostApplication.applicantUserId entity;
     HostApplication.hallName := HostApplication.hallName entity;
     HostApplication.address := HostApplication.address entity;
     HostApplication.city := HostApplication.city entity;
     HostApplication.capacity := HostApplication.capacity entity;
     HostApplication.description := HostApplication.description entity;
     HostApplication.additionalDetails := HostApplication.additionalDetails entity;
     HostApplication.contactName := HostApplication.contactName entity;
     HostApplication.contactEmail := HostApplication.contactEmail entity;
     HostApplication.contactPhone := HostApplication.contactPhone entity;
     HostApplication.contactWhatsapp := HostApplication.contactWhatsapp entity;
     HostApplication.status := UpdateHostApplicationStatusPayload.status payload;
     HostApplication.adminNotes :=
       HostApplicationService.orElse
         (UpdateHostApplicationStatusPayload.adminNotes payload)
         (HostApplication.adminNotes entity);
     HostApplication.reviewedByUserId :=
       HostApplicationService.orElse
         (UpdateHostApplicationStatusPayload.reviewedByUserId payload)
         (HostApplication.reviewedByUserId entity);
     HostApplication.reviewedAt :=
       match HostApplication.reviewedAt entity with
       | None =>
           if HostApplicationStatus_eqb
                (UpdateHostApplicationStatusPayload.status payload) APPROVED
              || HostApplicationStatus_eqb
                   (UpdateHostApplicationStatusPayload.status payload) REJECTED
           then Some now else None
       | Some t => Some t
       end;
     HostApplication.createdAt := HostApplication.createdAt entity;
     HostApplication.updatedAt :=
       if HostApplicationService.applicationChanged entity payload then now
       else HostApplication.updatedAt entity |}.

(** Whether a status update calls createHall. *)
Definition createsHall (entity : HostApplication.t)
  (payload : UpdateHostApplicationStatusPayload.t) : bool :=
  negb (HostApplicationStatus_eqb (HostApplication.status entity) APPROVED)
  && HostApplicationStatus_eqb (UpdateHostApplicationStatusPayload.status payload)
       APPROVED
  && match HostApplication.applicantUserId entity with
     | Some _ => true
     | None => false
     end.

(** The status updates of one application, one after the other, whatever
    their outcomes. *)
Definition reviewAll `{Builtins} (id : uuid)
  (updates : list (UpdateHostApplicationStatusPayload.t * time)) (db : Db) : Db :=
  fold_left
    (fun d u =>
       snd (HostApplicationService.updateHostApplicationStatus id (fst u) (snd u) d))
    updates db.

Section HostApplications.
Context `{Builtins}.

Lemma createHostApplication_eq (payload : CreateHostApplicationPayload.t)
  (now : time) (db : Db) :
  HostApplicationService.createHostApplication payload now db
  = (Returned (newHostApplication payload now (nextId db)),
     setHostApplications
       (hostApplications db ++ [newHostApplication payload now (nextId db)])
       (setNextId (N.succ (nextId db)) db)).
Proof. reflexivity. Qed.

(** X18. An application that createHostApplication has just returned is the
    one that the lookup by its key returns, in a database whose application
    keys were generated. It is NEW, carries no review, belongs to the
    applicant of the payload, and no hall and no role row is written. *)
Theorem createHostApplication_then_get (payload : CreateHostApplicationPayload.t)
  (now : time) (db : Db) :
  Forall (fun a => HostApplication.id a < nextId db) (hostApplications db) ->
  exists dto db',
    HostApplicationService.createHostApplication payload now db = (Returned dto, db')
    /\ HostApplicationService.getHostApplicationById (HostApplication.id dto) db'
       = (Returned dto, db')
    /\ HostApplication.status dto = NEW
    /\ HostApplication.reviewedAt dto = None
    /\ HostApplication.reviewedByUserId dto = None
    /\ HostApplication.adminNotes dto = None
    /\ HostApplication.applicantUserId dto
       = CreateHostApplicationPayload.applicantUserId payload
    /\ hostApplications db' = hostApplications db ++ [dto]
    /\ halls db' = halls db
    /\ hallUserRoles db' = hallUserRoles db.
Proof.
  intros Hlt. eexists _, _. split; [apply createHostApplication_eq|].
  split.
  { unfold HostApplicationService.getHostApplicationById, bind, gets.
    cbn [hostApplications setHostApplications setNextId HostApplication.id
         newHostApplication].
    rewrite find_snoc_fresh; [reflexivity| |apply N.eqb_refl].
    now apply (fresh_key HostApplication.id). }
  repeat split.
Qed.

(** A status update of an existing application: the row is written back
    under its key, and createHall is called when the application has just
    been approved and has an applicant; the update returns the row unless
    that creation throws. *)
Lemma updateHostApplicationStatus_effect (id : uuid)
  (payload : UpdateHostApplicationStatusPayload.t) (now : time) (db : Db)
  (app : HostApplication.t) :
  findHostApplication id db = Some app ->
  let saved := reviewed app payload now in
  let db1 :=
    setHostApplications
      (map (fun a => if HostApplication.id a =? id then saved else a)
         (hostApplications db)) db in
  exists o db',
    HostApplicationService.updateHostApplicationStatus id payload now db = (o, db')
    /\ hostApplications db' = hostApplications db1
    /\ nextId db <= nextId db'
    /\ pricingTables db' = pricingTables db
    /\ mediaTables db' = mediaTables db
    /\ users db' = users db
    /\ (createsHall app payload = false -> o = Returned saved /\ db' = db1)
    /\ (createsHall app payload = true ->
        exists p, db' = snd (HallService.createHall p now db1)).
Proof.
  intros Hf saved db1. unfold findHostApplication in Hf.
  unfold HostApplicationService.updateHostApplicationStatus.
  unfold bind at 1, gets. rewrite Hf.
  unfold bind at 1, modify. cbv beta iota zeta.
  fold (reviewed app payload now). fold saved. fold db1. unfold createsHall.
  destruct (negb (HostApplicationStatus_eqb (HostApplication.status app) APPROVED)
            && HostApplicationStatus_eqb
                 (UpdateHostApplicationStatusPayload.status payload) APPROVED) eqn:J.
  - destruct (HostApplication.applicantUserId app) as [applicant|] eqn:A.
    + match goal with
      | |- context [bind (HallService.createHall ?p now) _ db1] =>
          destruct (createHall_effect p now db1)
            as (o & db' & R & Hu & Hp & Hm & Ha & Hn & _);
          exists (match o with
                  | Returned _ => Returned (HostApplicationService.toDTO saved)
                  | Thrown e => Thrown e
                  | Diverged => Diverged
                  end), db'
      end.
      split.
      { unfold bind. rewrite R. now destruct o. }
      split; [exact Ha|]. split; [exact Hn|].
      split; [exact Hp|]. split; [exact Hm|]. split; [exact Hu|].
      split; [discriminate|].
      intros _. eexists. rewrite R. reflexivity.
    + exists (Returned saved), db1. unfold ret, HostApplicationService.toDTO.
      split; [reflexivity|]. split; [reflexivity|]. split; [cbn; lia|].
      split; [reflexivity|]. split; [reflexivity|]. split; [reflexivity|].
      split; [auto|discriminate].
  - exists (Returned saved), db1. unfold ret, HostApplicationService.toDTO.
    split; [reflexivity|]. split; [reflexivity|]. split; [cbn; lia|].
    split; [reflexivity|]. split; [reflexivity|]. split; [reflexivity|].
    split; [auto|discriminate].
Qed.

(** X19. A status update that is not a fresh approval creates no hall: when
    the new status is not APPROVED, or the application was already APPROVED,
    the update returns the application with the new status, writes it back,
    and leaves the halls, the role rows and the key counter as they are. *)
Theorem status_update_creates_no_hall (id : uuid)
  (payload : UpdateHostApplicationStatusPayload.t) (now : time) (db : Db)
  (app : HostApplication.t) :
  findHostApplication id db = Some app ->
  UpdateHostApplicationStatusPayload.status payload <> APPROVED
  \/ HostApplication.status app = APPROVED ->
  exists dto db',
    HostApplicationService.updateHostApplicationStatus id payload now db
    = (Returned dto, db')
    /\ HostApplication.status dto = UpdateHostApplicationStatusPayload.status payload
    /\ HostApplicationService.getHostApplicationById id db' = (Returned dto, db')
    /\ halls db' = halls db
    /\ hallUserRoles db' = hallUserRoles db
    /\ nextId db' = nextId db.
Proof.
  intros Hf Hno.
  destruct (updateHostApplicationStatus_effect id payload now db app Hf)
    as (o & db' & R & _ & _ & _ & _ & _ & Hsame & _).
  assert (Hc : createsHall app payload = false).
  { unfold createsHall. destruct Hno as [Hno|Hno].
    - destruct (UpdateHostApplicationStatusPayload.status payload);
        try reflexivity; try (now rewrite andb_false_r).
      now contradiction Hno.
    - now rewrite Hno. }
  destruct (Hsame Hc) as [-> ->].
  eexists _, _. split; [exact R|]. split; [reflexivity|]. split.
  { unfold HostApplicationService.getHostApplicationById, bind, gets.
    cbn [hostApplications setHostApplications].
    unfold findHostApplication in Hf.
    rewrite (find_replaced HostApplication.id id _ app); auto.
    apply find_some in Hf. destruct Hf as [_ Hf]. now apply N.eqb_eq. }
  repeat split.
Qed.

Lemma findHostApplication_after (id : uuid)
  (payload : UpdateHostApplicationStatusPayload.t) (now : time) (db : Db)
  (app : HostApplication.t) :
  findHostApplication id db = Some app ->
  findHostApplication id
    (snd (HostApplicationService.updateHostApplicationStatus id payload now db))
  = Some (reviewed app payload now).
Proof.
  intros Hf.
  destruct (updateHostApplicationStatus_effect id payload now db app Hf)
    as (o & db' & R & Ha & _).
  rewrite R. cbn [snd]. unfold findHostApplication. rewrite Ha.
  cbn [hostApplications setHostApplications].
  unfold findHostApplication in Hf.
  apply (find_replaced HostApplication.id id _ app); auto.
  apply find_some in Hf. destruct Hf as [_ Hf]. now apply N.eqb_eq.
Qed.

Lemma reviewedAt_kept (id : uuid)
  (updates : list (UpdateHostApplicationStatusPayload.t * time)) (db : Db)
  (app : HostApplication.t) (t : time) :
  findHostApplication id db = Some app ->
  HostApplication.reviewedAt app = Some t ->
  exists app',
    findHostApplication id (reviewAll id updates db) = Some app'
    /\ HostApplication.reviewedAt app' = Some t.
Proof.
  revert db app. induction updates as [|[payload now] updates IH];
    intros db app Hf Ht.
  - exists app. auto.
  - cbn [reviewAll fold_left fst snd].
    apply (IH _ (reviewed app payload now)).
    + now apply findHostApplication_after.
    + cbn. now rewrite Ht.
Qed.

(** X20. The time of review is the time of the first decision: once an
    application that has no time of review is updated to APPROVED or
    REJECTED, the time of that update is its time of review after any
    further status updates, whatever they are. *)
Theorem reviewedAt_is_first_decision (id : uuid)
  (payload : UpdateHostApplicationStatusPayload.t) (now : time)
  (updates : list (UpdateHostApplicationStatusPayload.t * time)) (db : Db)
  (app : HostApplication.t) :
  findHostApplication id db = Some app ->
  HostApplication.reviewedAt app = None ->
  UpdateHostApplicationStatusPayload.status payload = APPROVED
  \/ UpdateHostApplicationStatusPayload.status payload = REJECTED ->
  exists app',
    findHostApplication id (reviewAll id ((payload, now) :: updates) db) = Some app'
    /\ HostApplication.reviewedAt app' = Some now.
Proof.
  intros Hf Hnone Hfinal.
  cbn [reviewAll fold_left fst snd].
  apply (reviewedAt_kept id updates _ (reviewed app payload now)).
  - now apply findHostApplication_after.
  - cbn. rewrite Hnone. destruct Hfinal as [->| ->]; reflexivity.
Qed.

End HostApplications.

Definition becomeHost : CreateHostApplicationPayload.t :=
  {| CreateHostApplicationPayload.hallName := lit "  Lakeview ";
     CreateHostApplicationPayload.address := None;
     CreateHostApplicationPayload.city := Some (lit "Kinshasa");
     CreateHostApplicationPayload.capacity := Some 300%Z;
     CreateHostApplicationPayload.description := None;
     CreateHostApplicationPayload.additionalDetails := None;
     CreateHostApplicationPayload.contactName := lit "Ada";
     CreateHostApplicationPayload.contactEmail := lit " Ada@Example.org";
     CreateHostApplicationPayload.contactPhone := None;
     CreateHostApplicationPayload.contactWhatsapp := None;
     CreateHostApplicationPayload.applicantUserId := Some 5 |}.

Lemma createHostApplication_then_get_witness :
  exists dto db',
    @HostApplicationService.createHostApplication latin1 becomeHost 3000
      (dbApplication (Some 5)) = (Returned dto, db')
    /\ HostApplicationService.getHostApplicationById 2 db' = (Returned dto, db')
    /\ HostApplication.status dto = NEW
    /\ HostApplication.contactEmail dto = lit "ada@example.org"
    /\ halls db' = [].
Proof.
  destruct (@createHostApplication_then_get latin1 becomeHost 3000
              (dbApplication (Some 5)))
    as (dto & db' & R & G & Hs & _ & _ & _ & _ & _ & Hh & _).
  { repeat constructor. }
  exists dto, db'. split; [exact R|].
  vm_compute in R. injection R as <- <-.
  split; [exact G|]. split; [exact Hs|]. split; [reflexivity|exact Hh].
Defined.

Definition reject : UpdateHostApplicationStatusPayload.t :=
  {| UpdateHostApplicationStatusPayload.status := REJECTED;
     UpdateHostApplicationStatusPayload.adminNotes := Some (lit "incomplete");
     UpdateHostApplicationStatusPayload.reviewedByUserId := Some 99 |}.

Lemma status_update_creates_no_hall_witness :
  exists dto db',
    @HostApplicationService.updateHostApplicationStatus latin1 1 approve 3000 dbApproved
    = (Returned dto, db')
    /\ HostApplication.status dto = APPROVED
    /\ HostApplicationService.getHostApplicationById 1 db' = (Returned dto, db')
    /\ halls db' = halls dbApproved
    /\ hallUserRoles db' = hallUserRoles dbApproved
    /\ nextId db' = nextId dbApproved.
Proof.
  apply (@status_update_creates_no_hall latin1 1 approve 3000 dbApproved
           (reviewed (application (Some 5) NEW) approve 2000)).
  - reflexivity.
  - right. reflexivity.
Defined.

Lemma reviewedAt_is_first_decision_witness :
  exists app',
    findHostApplication 1
      (@reviewAll latin1 1 [(reject, 2000); (approve, 3000)] (dbApplication (Some 5)))
    = Some app'
    /\ HostApplication.reviewedAt app' = Some 2000.
Proof.
  apply (@reviewedAt_is_first_decision latin1 1 reject 2000 [(approve, 3000)]
           (dbApplication (Some 5)) (application (Some 5) NEW)).
  - reflexivity.
  - reflexivity.
  - right. reflexivity.
Defined.

(** ** The media service *)

Lemma NoDup_map_inj {A B : Type} (f : A -> B) (l : list A) (a b : A) :
  NoDup (map f l) -> In a l -> In b l -> f a = f b -> a = b.
Proof.
  induction l as [|x l IH]; simpl; intros Hnd Ha Hb E; [contradiction|].
  inversion Hnd as [|? ? Hnotin Hnd']; subst.
  destruct Ha as [->|Ha], Hb as [->|Hb]; auto.
  - exfalso. apply Hnotin. rewrite E. now apply in_map.
  - exfalso. apply Hnotin. rewrite <- E. now apply in_map.
Qed.

Lemma NoDup_of_map {A B : Type} (f : A -> B) (l : list A) :
  NoDup (map f l) -> NoDup l.
Proof.
  induction l as [|x l IH]; simpl; intros Hnd; constructor;
    inversion Hnd as [|? ? Hnotin Hnd']; subst; auto.
  intros Hin. apply Hnotin. now apply in_map.
Qed.

(** The one row of a table without repetition that passes a test. *)
Lemma filter_singleton {A : Type} (p : A -> bool) (l : list A) (m : A) :
  NoDup l -> In m l -> p m = true ->
  (forall x, In x l -> p x = true -> x = m) ->
  filter p l = [m].
Proof.
  induction l as [|x l IH]; simpl; intros Hnd Hin Hm Huniq; [contradiction|].
  inversion Hnd as [|? ? Hnotin Hnd']; subst.
  destruct Hin as [->|Hin].
  - rewrite Hm. f_equal.
    destruct (filter p l) as [|y r] eqn:E; auto.
    assert (Hy : In y (filter p l)) by (rewrite E; now left).
    apply filter_In in Hy. destruct Hy as [Hy Hpy].
    assert (y = m) by (apply Huniq; auto). subst y. contradiction.
  - destruct (p x) eqn:Ex.
    + assert (x = m) by (apply Huniq; auto). subst x. contradiction.
    + apply IH; auto.
Qed.

(** The key of a tag type under the comparison of names: its name in lower
    case. *)
Definition lowerName `{Builtins} (t : MediaTagType.t) : jsstring :=
  sqlLower (MediaTagType.name t).

(** The order of [listMediaForHall]: by sort order, rows without one last,
    then newest first. *)
Definition mediaOrder (a b : Media.t) : Prop :=
  match Media.sortOrder a, Media.sortOrder b with
  | Some x, Some y => (x < y)%Z \/ (x = y /\ Media.createdAt b <= Media.createdAt a)
  | Some _, None => True
  | None, Some _ => False
  | None, None => Media.createdAt b <= Media.createdAt a
  end.

Lemma existsb_unsetIn (existingPrimaryTags l : list MediaTag.t) (a b : uuid) :
  existsb (fun t => (MediaTag.mediaId t =? a) && (MediaTag.tagTypeId t =? b))
    (map (unsetIn existingPrimaryTags) l)
  = existsb (fun t => (MediaTag.mediaId t =? a) && (MediaTag.tagTypeId t =? b)) l.
Proof.
  induction l as [|row l IH]; cbn [map existsb]; auto.
  rewrite IH. f_equal. unfold unsetIn.
  destruct (existsb _ existingPrimaryTags); reflexivity.
Qed.

Section MediaEffects.
Context `{Builtins}.

Lemma findOrCreate_effect (name : jsstring) (now : time) (db : Db) :
  exists tagType db',
    MediaService.findOrCreateTagTypeByName name now db = (Returned tagType, db')
    /\ find (tagTypeMatches name) (mediaTagTypes db') = Some tagType
    /\ media db' = media db
    /\ mediaTags db' = mediaTags db
    /\ halls db' = halls db
    /\ hallUserRoles db' = hallUserRoles db
    /\ pricingTables db' = pricingTables db
    /\ hostApplications db' = hostApplications db
    /\ nextId db <= nextId db'
    /\ ((find (tagTypeMatches name) (mediaTagTypes db) = Some tagType
         /\ mediaTagTypes db' = mediaTagTypes db)
        \/ (find (tagTypeMatches name) (mediaTagTypes db) = None
            /\ MediaTagType.name tagType = trim name
            /\ mediaTagTypes db' = mediaTagTypes db ++ [tagType])).
Proof.
  unfold MediaService.findOrCreateTagTypeByName.
  unfold bind at 1, gets.
  fold (tagTypeMatches name).
  destruct (find (tagTypeMatches name) (mediaTagTypes db)) as [t|] eqn:E.
  - exists t, db. repeat split; auto; try lia.
  - eexists _, _. split; [reflexivity|]. cbn.
    split.
    { apply find_snoc_fresh.
      - apply Forall_forall. intros x Hx. now apply (find_none _ _ E).
      - unfold tagTypeMatches. simpl. apply jseqb_refl. }
    repeat split; try lia. right. repeat split.
Qed.

Lemma unsetExisting_effect (hallId tagTypeId : uuid) (db : Db) :
  exists db',
    MediaService.unsetExistingPrimaryForHallAndTagType hallId tagTypeId db
    = (Returned tt, db')
    /\ media db' = media db
    /\ mediaTagTypes db' = mediaTagTypes db
    /\ nextId db' = nextId db
    /\ halls db' = halls db
    /\ hallUserRoles db' = hallUserRoles db
    /\ pricingTables db' = pricingTables db
    /\ hostApplications db' = hostApplications db
    /\ mediaTags db' =
       map (unsetIn (filter (isPrimaryOf (media db) hallId tagTypeId) (mediaTags db)))
         (mediaTags db).
Proof.
  unfold MediaService.unsetExistingPrimaryForHallAndTagType.
  unfold bind at 1, gets. rewrite primaryTags_filter.
  destruct (filter (isPrimaryOf (media db) hallId tagTypeId) (mediaTags db))
    as [|t l] eqn:E.
  - exists db. rewrite unsetIn_nil. repeat split; reflexivity.
  - eexists. split; [reflexivity|]. repeat split; reflexivity.
Qed.

(** The database when the tag is about to be inserted, and the two ways the
    insertion ends. *)
Lemma tagMediaByName_effect (mediaId : uuid) (tagName : jsstring)
  (isPrimary : option bool) (now : time) (db : Db) (m : Media.t) :
  findMedia mediaId db = Some m ->
  exists tagType db2,
    find (tagTypeMatches tagName) (mediaTagTypes db2) = Some tagType
    /\ ((find (tagTypeMatches tagName) (mediaTagTypes db) = Some tagType
         /\ mediaTagTypes db2 = mediaTagTypes db)
        \/ (find (tagTypeMatches tagName) (mediaTagTypes db) = None
            /\ MediaTagType.name tagType = trim tagName
            /\ mediaTagTypes db2 = mediaTagTypes db ++ [tagType]))
    /\ media db2 = media db
    /\ mediaTags db2 =
       (if primaryFlag isPrimary
        then map (unsetIn (filter (isPrimaryOf (media db) (Media.hallId m)
                                     (MediaTagType.id tagType))
                             (mediaTags db)))
               (mediaTags db)
        else mediaTags db)
    /\ halls db2 = halls db
    /\ hallUserRoles db2 = hallUserRoles db
    /\ pricingTables db2 = pricingTables db
    /\ hostApplications db2 = hostApplications db
    /\ nextId db <= nextId db2
    /\ let tag := newTag (nextId db2) m tagType isPrimary now in
       (existsb (fun t => (MediaTag.mediaId t =? Media.id m)
                          && (MediaTag.tagTypeId t =? MediaTagType.id tagType))
          (mediaTags db) = false
        /\ MediaService.tagMediaByName mediaId tagName isPrimary now db
           = (Returned (MediaService.toMediaTagDTO tag (MediaTagType.name tagType)),
              setMediaTags (mediaTags db2 ++ [tag])
                (setNextId (N.succ (nextId db2)) db2)))
       \/ (existsb (fun t => (MediaTag.mediaId t =? Media.id m)
                             && (MediaTag.tagTypeId t =? MediaTagType.id tagType))
             (mediaTags db) = true
           /\ MediaService.tagMediaByName mediaId tagName isPrimary now db
              = (Thrown (QueryFailedError "uq_media_tag"),
                 setNextId (N.succ (nextId db2)) db2)).
Proof.
  intros Hm. unfold findMedia in Hm.
  destruct (findOrCreate_effect tagName now db)
    as (tagType & db1 & R1 & Hfind1 & Hmed1 & Htags1 & Hh1 & Hr1 & Hp1 & Ha1 & Hn1
        & Hcases).
  assert (Hsteps : exists db2,
             media db2 = media db
             /\ mediaTagTypes db2 = mediaTagTypes db1
             /\ mediaTags db2 =
                (if primaryFlag isPrimary
                 then map (unsetIn (filter (isPrimaryOf (media db) (Media.hallId m)
                                              (MediaTagType.id tagType))
                                      (mediaTags db)))
                        (mediaTags db)
                 else mediaTags db)
             /\ halls db2 = halls db
             /\ hallUserRoles db2 = hallUserRoles db
             /\ pricingTables db2 = pricingTables db
             /\ hostApplications db2 = hostApplications db
             /\ nextId db <= nextId db2
             /\ MediaService.tagMediaByName mediaId tagName isPrimary now db
                = bind (MediaService.insertMediaTag
                          (newTag (nextId db2) m tagType isPrimary now))
                    (fun saved =>
                       ret (MediaService.toMediaTagDTO saved
                              (MediaTagType.name tagType)))
                    (setNextId (N.succ (nextId db2)) db2)).
  { unfold MediaService.tagMediaByName. fold (primaryFlag isPrimary).
    unfold bind at 1, gets. rewrite Hm.
    rewrite (bind_returned _ _ _ _ _ R1).
    destruct (primaryFlag isPrimary) eqn:Ep.
    - destruct (unsetExisting_effect (Media.hallId m) (MediaTagType.id tagType) db1)
        as (db2 & R2 & Hmed2 & Htt2 & Hid2 & Hh2 & Hr2 & Hp2 & Ha2 & Htags2).
      exists db2. rewrite (bind_returned _ _ _ _ _ R2).
      split; [congruence|]. split; [exact Htt2|].
      split; [rewrite Htags2; now rewrite Hmed1, Htags1|].
      split; [congruence|]. split; [congruence|]. split; [congruence|].
      split; [congruence|]. split; [lia|].
      unfold generateId, newTag. unfold bind at 1. now rewrite Ep.
    - exists db1. repeat split; auto.
      unfold ret at 1. unfold bind at 1.
      unfold generateId, newTag. unfold bind at 1. now rewrite Ep. }
  destruct Hsteps as (db2 & Hmed & Htt & Htags & Hh & Hr & Hp & Ha & Hn & E).
  exists tagType, db2.
  split; [now rewrite Htt|]. split; [now rewrite Htt|].
  repeat (split; [assumption|]).
  cbv zeta. rewrite E. clear E.
  unfold bind, MediaService.insertMediaTag. cbn [mediaTags setNextId].
  assert (Hkeys : existsb
                    (fun t => (MediaTag.mediaId t
                               =? MediaTag.mediaId
                                    (newTag (nextId db2) m tagType isPrimary now))
                              && (MediaTag.tagTypeId t
                                  =? MediaTag.tagTypeId
                                       (newTag (nextId db2) m tagType isPrimary now)))
                    (mediaTags db2)
                  = existsb
                      (fun t => (MediaTag.mediaId t =? Media.id m)
                                && (MediaTag.tagTypeId t =? MediaTagType.id tagType))
                      (mediaTags db)).
  { cbn [newTag MediaTag.mediaId MediaTag.tagTypeId].
    rewrite Htags. destruct (primaryFlag isPrimary); auto.
    apply existsb_unsetIn. }
  rewrite Hkeys.
  destruct (existsb _ (mediaTags db)); [right|left]; split; reflexivity.
Qed.

End MediaEffects.

Section MediaTheorems.
Context `{Builtins}.

Lemma tagTypeMatches_lowerName (name : jsstring) (t : MediaTagType.t) :
  tagTypeMatches name t = true <-> lowerName t = sqlLower (trim name).
Proof. unfold tagTypeMatches, lowerName. apply jseqb_eq. Qed.

(** The names of the tag types stay distinct up to case when the type of a
    name is found or created. *)
Lemma lowerNames_after (name : jsstring) (types types' : list MediaTagType.t)
  (tagType : MediaTagType.t) :
  NoDup (map lowerName types) ->
  (find (tagTypeMatches name) types = Some tagType /\ types' = types)
  \/ (find (tagTypeMatches name) types = None
      /\ MediaTagType.name tagType = trim name
      /\ types' = types ++ [tagType]) ->
  NoDup (map lowerName types').
Proof.
  intros Hnd [[_ ->]|(Hnone & Hname & ->)]; auto.
  rewrite map_app. simpl. apply NoDup_snoc; auto.
  intros Hin. apply in_map_iff in Hin. destruct Hin as (t & Et & Ht).
  pose proof (find_none _ _ Hnone t Ht) as Hno.
  assert (Hyes : tagTypeMatches name t = true).
  { apply tagTypeMatches_lowerName. rewrite Et. unfold lowerName. now rewrite Hname. }
  congruence.
Qed.

(** X21. Round trip of the primary tag. In a database with unique media keys
    and tag-type names distinct up to case, once tagMediaByName has tagged a
    media row as primary under a name, getPrimaryMediaForHall returns that
    row for its hall and the name, in any spelling that equals it up to
    case. *)
Theorem tagMediaByName_then_primary (mediaId : uuid) (tagName q : jsstring)
  (now : time) (db db' : Db) (m : Media.t) (dto : MediaTagDTO.t) :
  NoDup (map Media.id (media db)) ->
  NoDup (map lowerName (mediaTagTypes db)) ->
  findMedia mediaId db = Some m ->
  MediaService.tagMediaByName mediaId tagName (Some true) now db = (Returned dto, db') ->
  sqlLower q = sqlLower (MediaTagDTO.tagName dto) ->
  MediaService.getPrimaryMediaForHall (Media.hallId m) q db' = (Returned (Some m), db').
Proof.
  intros Hnd Hnames Hm R Hq.
  pose proof (findMedia_some _ _ _ Hm) as [Hin Hmid].
  destruct (tagMediaByName_effect mediaId tagName (Some true) now db m Hm)
    as (tagType & db2 & Hfind & Hcases & Hmed & Htags & _ & _ & _ & _ & _ & Hout).
  cbv zeta in Hout. destruct Hout as [[_ E]|[_ E]]; rewrite E in R; [|discriminate].
  injection R as <- <-.
  cbn [MediaService.toMediaTagDTO MediaTagDTO.tagName] in Hq.
  set (tag := newTag (nextId db2) m tagType (Some true) now) in *.
  set (db' := setMediaTags (mediaTags db2 ++ [tag])
                (setNextId (N.succ (nextId db2)) db2)).
  assert (Htypes : mediaTagTypes db' = mediaTagTypes db2) by reflexivity.
  assert (Hmedia : media db' = media db) by exact Hmed.
  assert (Hnames' : NoDup (map lowerName (mediaTagTypes db2))).
  { now apply (lowerNames_after tagName (mediaTagTypes db) _ tagType). }
  assert (HinT : In tagType (mediaTagTypes db2)).
  { now apply find_some in Hfind. }
  assert (Hprim : MediaService.primaryTagsForHallAndTagType (Media.hallId m)
                    (MediaTagType.id tagType) db' = [tag]).
  { rewrite primaryTags_filter. unfold db'.
    cbn [media mediaTags setMediaTags setNextId].
    rewrite Hmed, Htags. cbn [primaryFlag].
    rewrite filter_app, unsetIn_clears. simpl.
    assert (Hp : isPrimaryOf (media db) (Media.hallId m) (MediaTagType.id tagType)
                   tag = true).
    { unfold isPrimaryOf, tag. simpl. rewrite N.eqb_refl, !andb_true_r.
      apply existsb_exists. exists m. now rewrite !N.eqb_refl. }
    now rewrite Hp. }
  assert (Hrows :
    filter (fun x => (Media.hallId x =? Media.hallId m)
                     && MediaService.hasTagNamed db' q true x) (media db')
    = [m]).
  { apply filter_singleton.
    - rewrite Hmedia. now apply NoDup_of_map with Media.id.
    - now rewrite Hmedia.
    - rewrite N.eqb_refl. cbn [andb]. unfold MediaService.hasTagNamed.
      apply existsb_exists. exists tag. split.
      + unfold db'. cbn [mediaTags setMediaTags]. apply in_or_app. right. now left.
      + unfold tag at 1 2. cbn [newTag MediaTag.mediaId MediaTag.isPrimary primaryFlag].
        rewrite N.eqb_refl. cbn [andb].
        apply existsb_exists. exists tagType. split; [now rewrite Htypes|].
        unfold tag. cbn [newTag MediaTag.tagTypeId]. rewrite N.eqb_refl. cbn [andb].
        apply jseqb_eq. now symmetry.
    - intros x Hx Hp. rewrite Hmedia in Hx.
      apply andb_true_iff in Hp. destruct Hp as [Hh Hp]. apply N.eqb_eq in Hh.
      unfold MediaService.hasTagNamed in Hp. apply existsb_exists in Hp.
      destruct Hp as (mt & Hmt & Hp).
      apply andb_true_iff in Hp. destruct Hp as [Hp Ht].
      apply andb_true_iff in Hp. destruct Hp as [Hid Hpr]. apply N.eqb_eq in Hid.
      apply existsb_exists in Ht. destruct Ht as (mtt & Hmtt & Ht).
      apply andb_true_iff in Ht. destruct Ht as [Htid Hname].
      apply N.eqb_eq in Htid. apply jseqb_eq in Hname.
      rewrite Htypes in Hmtt.
      assert (mtt = tagType).
      { apply (NoDup_map_inj lowerName (mediaTagTypes db2)); auto.
        unfold lowerName. congruence. }
      subst mtt.
      assert (Hmt' : In mt (MediaService.primaryTagsForHallAndTagType
                              (Media.hallId m) (MediaTagType.id tagType) db')).
      { unfold MediaService.primaryTagsForHallAndTagType. apply filter_In.
        split; auto.
        rewrite Hpr, <- Htid, N.eqb_refl, !andb_true_r.
        unfold MediaService.tagOfHall. apply existsb_exists. exists x.
        rewrite Hmedia. split; auto. rewrite <- Hid, Hh, !N.eqb_refl. reflexivity. }
      rewrite Hprim in Hmt'. destruct Hmt' as [<-|[]].
      apply (NoDup_map_inj Media.id (media db)); auto;
        rewrite <- Hid; reflexivity. }
  unfold MediaService.getPrimaryMediaForHall, gets. rewrite Hrows. reflexivity.
Qed.

(** X22. A media row takes a tag name once. After tagMediaByName has tagged
    a media row under a name, a second call for the same row and name throws
    on the unique constraint, whatever its primary flag: no tag and no tag
    type is added, and when the second call asks for a primary tag the hall
    is left with no primary tag of that type. *)
Theorem tagMediaByName_twice_throws (mediaId : uuid) (tagName : jsstring)
  (p1 p2 : option bool) (t1 t2 : time) (db db1 : Db) (dto : MediaTagDTO.t) :
  MediaService.tagMediaByName mediaId tagName p1 t1 db = (Returned dto, db1) ->
  exists m db2,
    findMedia mediaId db = Some m
    /\ MediaService.tagMediaByName mediaId tagName p2 t2 db1
       = (Thrown (QueryFailedError "uq_media_tag"), db2)
    /\ media db2 = media db1
    /\ mediaTagTypes db2 = mediaTagTypes db1
    /\ List.length (mediaTags db2) = List.length (mediaTags db1)
    /\ (p2 = Some true ->
        MediaService.primaryTagsForHallAndTagType (Media.hallId m)
          (MediaTagDTO.tagTypeId dto) db2 = []).
Proof.
  intros R.
  destruct (findMedia mediaId db) as [m|] eqn:Hm.
  2:{ rewrite tagMediaByName_notFound in R by exact Hm. discriminate. }
  exists m.
  destruct (tagMediaByName_effect mediaId tagName p1 t1 db m Hm)
    as (tagType & dbA & Hfind & _ & Hmed & _ & _ & _ & _ & _ & _ & Hout).
  cbv zeta in Hout. destruct Hout as [[_ E]|[_ E]]; rewrite E in R; [|discriminate].
  injection R as <- <-. clear E.
  set (tag := newTag (nextId dbA) m tagType p1 t1).
  set (db1 := setMediaTags (mediaTags dbA ++ [tag])
                (setNextId (N.succ (nextId dbA)) dbA)).
  assert (Hm1 : findMedia mediaId db1 = Some m).
  { unfold findMedia, db1. cbn [media setMediaTags setNextId]. now rewrite Hmed. }
  destruct (tagMediaByName_effect mediaId tagName p2 t2 db1 m Hm1)
    as (tagType' & dbB & _ & Hcases & HmedB & HtagsB & _ & _ & _ & _ & _ & Hout).
  assert (Hsame : tagType' = tagType /\ mediaTagTypes dbB = mediaTagTypes db1).
  { destruct Hcases as [[Hf Ht]|[Hf _]].
    - unfold db1 in Hf. cbn [mediaTagTypes setMediaTags setNextId] in Hf.
      split; [congruence|exact Ht].
    - unfold db1 in Hf. cbn [mediaTagTypes setMediaTags setNextId] in Hf.
      congruence. }
  destruct Hsame as [-> Htypes].
  cbv zeta in Hout. destruct Hout as [[Hex _]|[_ E]].
  { exfalso. unfold db1 in Hex. cbn [mediaTags setMediaTags] in Hex.
    rewrite existsb_app in Hex. apply orb_false_iff in Hex. destruct Hex as [_ Hex].
    unfold tag in Hex. cbn in Hex. now rewrite !N.eqb_refl in Hex. }
  eexists. split; [reflexivity|]. split; [exact E|].
  cbn [media mediaTagTypes mediaTags setNextId].
  split; [exact HmedB|]. split; [exact Htypes|]. split.
  { rewrite HtagsB. destruct (primaryFlag p2); auto. apply length_map. }
  intros ->. rewrite primaryTags_filter. cbn [media mediaTags setNextId].
  rewrite HmedB, HtagsB. cbn [primaryFlag MediaService.toMediaTagDTO MediaTagDTO.tagTypeId].
  unfold tag. cbn [newTag MediaTag.tagTypeId]. apply unsetIn_clears.
Qed.

Lemma mediaOrder_sound (a b : Media.t) :
  Sql.thenBy (Sql.ascNullsLast Media.sortOrder) (Sql.desc Media.createdAt) a b = true ->
  mediaOrder a b.
Proof.
  unfold Sql.thenBy, Sql.ascNullsLast, Sql.desc, mediaOrder.
  destruct (Media.sortOrder a) as [x|], (Media.sortOrder b) as [y|]; auto;
    try discriminate.
  - destruct (Z.leb_spec x y), (Z.leb_spec y x); try discriminate.
    + intros E. apply N.leb_le in E. right. split; [lia|exact E].
    + intros _. left. lia.
  - now intros E%N.leb_le.
Qed.

(** X23. listMediaForHall reads only and returns media rows of the hall
    only: of the media type asked for, when one is; carrying a tag whose type
    has the name asked for, up to case, when one is; all the rows of the
    hall when there is no filter. The rows come by sort order, those without
    one last, then newest first. *)
Theorem listMediaForHall_filters (hallId : uuid) (tagName : option jsstring)
  (mediaType : option MediaType) (db : Db) :
  exists l,
    MediaService.listMediaForHall hallId tagName mediaType db = (Returned l, db)
    /\ Forall (fun m => In m (media db) /\ Media.hallId m = hallId) l
    /\ (forall t, mediaType = Some t -> Forall (fun m => Media.mediaType m = t) l)
    /\ (forall n, tagName = Some n -> n <> [] ->
          Forall (fun m =>
                    exists tag tagType,
                      In tag (mediaTags db) /\ In tagType (mediaTagTypes db)
                      /\ MediaTag.mediaId tag = Media.id m
                      /\ MediaTag.tagTypeId tag = MediaTagType.id tagType
                      /\ lowerName tagType = sqlLower n) l)
    /\ (tagName = None -> mediaType = None ->
        forall m, In m (media db) -> Media.hallId m = hallId -> In m l)
    /\ StronglySorted mediaOrder l.
Proof.
  eexists. split; [reflexivity|].
  unfold MediaService.toMediaDTO. rewrite map_id.
  match goal with
  | |- Forall _ (Sql.orderBy ?le (filter ?p ?rows)) /\ _ =>
      set (order := le); set (test := p)
  end.
  assert (Hin : forall m, In m (Sql.orderBy order (filter test (media db))) ->
                          In m (media db) /\ test m = true).
  { intros m Hm. apply orderBy_In in Hm. now apply filter_In in Hm. }
  split; [|split; [|split; [|split]]].
  - apply Forall_forall. intros m Hm. apply Hin in Hm. destruct Hm as [Hm Ht].
    split; auto. unfold test in Ht.
    repeat (apply andb_true_iff in Ht; destruct Ht as [Ht _]).
    now apply N.eqb_eq.
  - intros t ->. apply Forall_forall. intros m Hm. apply Hin in Hm.
    destruct Hm as [_ Ht]. unfold test in Ht.
    apply andb_true_iff in Ht. destruct Ht as [Ht _].
    apply andb_true_iff in Ht. destruct Ht as [_ Ht].
    destruct (Media.mediaType m), t; simpl in Ht; congruence.
  - intros n -> Hn. apply Forall_forall. intros m Hm. apply Hin in Hm.
    destruct Hm as [_ Ht]. unfold test in Ht.
    apply andb_true_iff in Ht. destruct Ht as [_ Ht].
    destruct n as [|c n]; [contradiction|]. cbn [truthy] in Ht.
    unfold MediaService.hasTagNamed in Ht. apply existsb_exists in Ht.
    destruct Ht as (tag & Htag & Ht).
    apply andb_true_iff in Ht. destruct Ht as [Ht Htt].
    apply andb_true_iff in Ht. destruct Ht as [Hid _]. apply N.eqb_eq in Hid.
    apply existsb_exists in Htt. destruct Htt as (tagType & Htype & Htt).
    apply andb_true_iff in Htt. destruct Htt as [Htid Hname].
    apply N.eqb_eq in Htid. apply jseqb_eq in Hname.
    exists tag, tagType. repeat split; auto.
  - intros -> -> m Hm Hh. apply orderBy_In. apply filter_In. split; auto.
    unfold test. rewrite Hh, N.eqb_refl. reflexivity.
  - apply StronglySorted_impl with (1 := mediaOrder_sound).
    apply orderBy_sorted.
    + apply thenBy_total; [apply ascNullsLast_total | apply desc_total].
    + apply thenBy_transitive; [apply ascNullsLast_transitive | apply desc_transitive].
Qed.

End MediaTheorems.

(** The second photo of hall 10. *)
Definition secondPhoto : Media.t :=
  {| Media.id := 2; Media.hallId := 10;
     Media.storageProvider := lit "SUPABASE"; Media.fileUrl := lit "b.jpg";
     Media.originalFilename := None; Media.mimeType := None;
     Media.sizeBytes := None; Media.width := None; Media.height := None;
     Media.mediaType := IMAGE; Media.sortOrder := None;
     Media.createdAt := 1001; Media.updatedAt := 1001 |}.

Lemma tagMediaByName_then_primary_witness :
  exists dto db',
    @MediaService.tagMediaByName latin1 2 (lit " Hero ") (Some true) 2000 dbTwoPhotos
    = (Returned dto, db')
    /\ MediaTagDTO.tagName dto = lit "Hero"
    /\ @MediaService.getPrimaryMediaForHall latin1 10 (lit "HERO") db'
       = (Returned (Some secondPhoto), db').
Proof.
  destruct (@MediaService.tagMediaByName latin1 2 (lit " Hero ") (Some true) 2000
              dbTwoPhotos) as [o db'] eqn:R.
  vm_compute in R. injection R as <- <-.
  eexists _, _. split; [reflexivity|]. split; [reflexivity|].
  eapply (@tagMediaByName_then_primary latin1 2 (lit " Hero ") (lit "HERO") 2000
           dbTwoPhotos _ secondPhoto _).
  - vm_compute. repeat constructor; simpl; intuition discriminate.
  - vm_compute. constructor.
  - reflexivity.
  - reflexivity.
  - reflexivity.
Defined.

Lemma tagMediaByName_twice_throws_witness :
  exists dto db1 db2,
    @MediaService.tagMediaByName latin1 1 (lit "HERO") (Some true) 2000 dbTwoPhotos
    = (Returned dto, db1)
    /\ @MediaService.tagMediaByName latin1 1 (lit "HERO") (Some true) 2001 db1
       = (Thrown (QueryFailedError "uq_media_tag"), db2)
    /\ MediaService.primaryTagsForHallAndTagType 10 (MediaTagDTO.tagTypeId dto) db2 = [].
Proof.
  destruct (@MediaService.tagMediaByName latin1 1 (lit "HERO") (Some true) 2000
              dbTwoPhotos) as [o db1] eqn:R.
  vm_compute in R. injection R as <- <-.
  destruct (@tagMediaByName_twice_throws latin1 1 (lit "HERO") (Some true)
              (Some true) 2000 2001 dbTwoPhotos _ _ eq_refl)
    as (m & db2 & Hm & _ & _ & _ & _ & Hp).
  vm_compute in Hm. injection Hm as <-.
  eexists _, _, _. split; [reflexivity|]. split; [reflexivity|].
  vm_compute. reflexivity.
Defined.

(** ** The public list *)

(** A blocked date of the hall that covers the day. *)
Definition blocks (hallId : uuid) (d : date) (b : HallBlockedDate.t) : Prop :=
  HallBlockedDate.hallId b = hallId
  /\ HallBlockedDate.startDate b <= d
  /\ match HallBlockedDate.endDate b with
     | Some e => d <= e
     | None => True
     end.

(** What a card of the public list says of the filters of the search. *)
Definition cardPasses (filters : HallSearchFilters.t) (db : Db)
  (c : PublicHallCardDTO.t) : Prop :=
  (forall city, HallSearchFilters.city filters = Some city -> city <> [] ->
     PublicHallCardDTO.city c = Some city)
  /\ (forall b, HallSearchFilters.isPremium filters = Some b ->
        PublicHallCardDTO.isPremium c = b)
  /\ (forall lo, HallSearchFilters.capacityMin filters = Some lo ->
        exists n, PublicHallCardDTO.capacity c = Some n /\ (lo <= n)%Z)
  /\ (forall hi, HallSearchFilters.capacityMax filters = Some hi ->
        exists n, PublicHallCardDTO.capacity c = Some n /\ (n <= hi)%Z)
  /\ (forall lo, HallSearchFilters.priceMin filters = Some lo ->
        exists p, PublicHallCardDTO.startingFromPrice c = Some p /\ (lo <= p)%Z)
  /\ (forall hi, HallSearchFilters.priceMax filters = Some hi ->
        exists p, PublicHallCardDTO.startingFromPrice c = Some p /\ (p <= hi)%Z)
  /\ (forall d, HallSearchFilters.date filters = Some d ->
        Forall (fun b => ~ blocks (PublicHallCardDTO.id c) d b) (hallBlockedDates db)).

(** The card of an active hall of the table; its price, when it has one, is
    the price of a rate of an active product of the hall. *)
Definition cardOfActiveHall (db : Db) (c : PublicHallCardDTO.t) : Prop :=
  exists h,
    In h (halls db)
    /\ Hall.status h = ACTIVE
    /\ PublicHallCardDTO.id c = Hall.id h
    /\ PublicHallCardDTO.slug c = Hall.slug h
    /\ PublicHallCardDTO.name c = Hall.name h
    /\ (forall p, PublicHallCardDTO.startingFromPrice c = Some p ->
          exists r, In r (activeRates db h) /\ HallProductRate.price r = p)
    /\ (PublicHallCardDTO.startingFromPrice c = None ->
        PublicHallCardDTO.startingFromCurrency c = None).

(** The order of the cards under a sort mode. *)
Definition cardOrder (sortBy : option HallSortBy) (a b : PublicHallCardDTO.t) : Prop :=
  match sortBy with
  | Some price_asc =>
      Sql.ascNullsLast PublicHallCardDTO.startingFromPrice a b = true
  | Some price_desc =>
      Sql.descNullsLast PublicHallCardDTO.startingFromPrice a b = true
  | Some capacity_desc =>
      Sql.descNullsLast PublicHallCardDTO.capacity a b = true
  | Some relevance =>
      (PublicHallCardDTO.isPremium b = true -> PublicHallCardDTO.isPremium a = true)
      /\ (PublicHallCardDTO.isPremium a = PublicHallCardDTO.isPremium b ->
          Sql.ascNullsLast PublicHallCardDTO.startingFromPrice a b = true)
  | Some featured | None =>
      PublicHallCardDTO.isPremium b = true -> PublicHallCardDTO.isPremium a = true
  end.

Lemma descNullsLast_total {A : Type} (key : A -> option Z) :
  totalOrder (Sql.descNullsLast key).
Proof.
  unfold totalOrder, Sql.descNullsLast. intros x y.
  destruct (key x), (key y); auto; try discriminate.
  intros E. apply Z.leb_gt in E. apply Z.leb_le. lia.
Qed.

Lemma descNullsLast_transitive {A : Type} (key : A -> option Z) :
  transitiveOrder (Sql.descNullsLast key).
Proof.
  unfold transitiveOrder, Sql.descNullsLast. intros x y z.
  destruct (key x), (key y), (key z); auto; try discriminate.
  intros E1 E2. apply Z.leb_le in E1, E2. apply Z.leb_le. lia.
Qed.

Section PublicListTheorems.
Context `{Builtins}.

(** A group of the query is the group of a hall of the table, one of whose
    joined rows passes the WHERE clause; it passes the HAVING clause. *)
Lemma groupedRows_sound (filters : HallSearchFilters.t) (db : Db) (g : HallGroup.t) :
  In g (HallQueryService.groupedRows filters db) ->
  exists row rows,
    In (HallGroup.h g) (halls db)
    /\ In row (HallQueryService.joinedRows db (HallGroup.h g))
    /\ HallQueryService.whereRow filters db (HallGroup.h g) row = true
    /\ incl rows (HallQueryService.joinedRows db (HallGroup.h g))
    /\ HallGroup.min_price g
       = Sql.minZ (map HallProductRate.price (Sql.notNull (map snd rows)))
    /\ HallGroup.min_currency g
       = Sql.minString (map HallProductRate.currency (Sql.notNull (map snd rows)))
    /\ HallQueryService.having filters g = true.
Proof.
  unfold HallQueryService.groupedRows. intros Hg.
  apply orderBy_In in Hg. apply filter_In in Hg. destruct Hg as [Hg Hhav].
  apply in_flat_map in Hg. destruct Hg as (h & Hh & Hg).
  unfold HallQueryService.groupOf in Hg.
  destruct (filter (HallQueryService.whereRow filters db h)
              (HallQueryService.joinedRows db h)) as [|row rows] eqn:E;
    [contradiction|].
  destruct Hg as [<-|[]]. cbn [HallGroup.h HallGroup.min_price HallGroup.min_currency].
  assert (Hrow : In row (filter (HallQueryService.whereRow filters db h)
                           (HallQueryService.joinedRows db h))).
  { rewrite E. now left. }
  apply filter_In in Hrow. destruct Hrow as [Hrow Hw].
  exists row, (row :: rows). repeat split; auto.
  intros x Hx. rewrite <- E in Hx. now apply filter_In in Hx.
Qed.

Lemma whereRow_hall (filters : HallSearchFilters.t) (db : Db) (h : Hall.t)
  (row : option HallProduct.t * option HallProductRate.t) :
  HallQueryService.whereRow filters db h row = true ->
  Hall.status h = ACTIVE
  /\ (forall city, HallSearchFilters.city filters = Some city -> city <> [] ->
        Hall.city h = Some city)
  /\ (forall b, HallSearchFilters.isPremium filters = Some b -> Hall.isPremium h = b)
  /\ (forall lo, HallSearchFilters.capacityMin filters = Some lo ->
        exists n, Hall.capacity h = Some n /\ (lo <= n)%Z)
  /\ (forall hi, HallSearchFilters.capacityMax filters = Some hi ->
        exists n, Hall.capacity h = Some n /\ (n <= hi)%Z)
  /\ (forall d, HallSearchFilters.date filters = Some d ->
        Forall (fun b => ~ blocks (Hall.id h) d b) (hallBlockedDates db)).
Proof.
  unfold HallQueryService.whereRow. intros E.
  apply andb_true_iff in E. destruct E as [E Hdate].
  apply andb_true_iff in E. destruct E as [E _].
  apply andb_true_iff in E. destruct E as [E _].
  apply andb_true_iff in E. destruct E as [E Hmax].
  apply andb_true_iff in E. destruct E as [E Hmin].
  apply andb_true_iff in E. destruct E as [E Hprem].
  apply andb_true_iff in E. destruct E as [Hst Hcity].
  split; [now apply HallStatus_eqb_eq|].
  split.
  { intros city Ec Hne. rewrite Ec in Hcity.
    destruct city as [|x city]; [contradiction|]. cbn [truthyOpt truthy] in Hcity.
    destruct (Hall.city h) as [hc|]; [|discriminate]. simpl in Hcity.
    apply jseqb_eq in Hcity. now subst. }
  split.
  { intros b Eb. rewrite Eb in Hprem. now apply eqb_prop in Hprem. }
  split.
  { intros lo El. rewrite El in Hmin.
    destruct (Hall.capacity h) as [n|]; [|discriminate].
    exists n. split; auto. now apply Z.leb_le. }
  split.
  { intros hi Eh. rewrite Eh in Hmax.
    destruct (Hall.capacity h) as [n|]; [|discriminate].
    exists n. split; auto. now apply Z.leb_le. }
  intros d Ed. rewrite Ed in Hdate. apply negb_true_iff in Hdate.
  apply Forall_forall. intros b Hb (Bh & Bs & Be).
  assert (Hex : existsb
                  (fun hbd =>
                     (HallBlockedDate.hallId hbd =? Hall.id h)
                     && (HallBlockedDate.startDate hbd <=? d)
                     && match HallBlockedDate.endDate hbd with
                        | None => true
                        | Some e => d <=? e
                        end) (hallBlockedDates db) = true).
  { apply existsb_exists. exists b. split; auto.
    rewrite Bh, N.eqb_refl. cbn [andb].
    apply N.leb_le in Bs. rewrite Bs. cbn [andb].
    destruct (HallBlockedDate.endDate b); auto. now apply N.leb_le. }
  congruence.
Qed.

(** The cards of a page are the cards of groups of the query. *)
Lemma getPublicHallList_cards (filters : HallSearchFilters.t) (db : Db) :
  exists r,
    HallQueryService.getPublicHallList filters db = (Returned r, db)
    /\ page r = Z.pos (HallSearchFilters.page filters)
    /\ limit r = Z.pos (HallSearchFilters.limit filters)
    /\ data r =
       Sql.slice
         ((Z.pos (HallSearchFilters.page filters) - 1)
          * Z.pos (HallSearchFilters.limit filters))
         (Z.pos (HallSearchFilters.limit filters))
         (map (cardOf db) (HallQueryService.groupedRows filters db))
    /\ Forall (fun c => exists g, In g (HallQueryService.groupedRows filters db)
                                  /\ c = cardOf db g) (data r).
Proof.
  destruct (getPublicHallList_page filters db) as (r & R & Hdata & Hp & Hl & _).
  exists r. repeat split; auto.
  apply Forall_forall. intros c Hc. rewrite Hdata in Hc.
  apply slice_incl in Hc. apply in_map_iff in Hc.
  destruct Hc as (g & <- & Hg). now exists g.
Qed.

(** The card of a group of the query is the card of an active hall. *)
Lemma cardOf_active (filters : HallSearchFilters.t) (db : Db) (g : HallGroup.t) :
  In g (HallQueryService.groupedRows filters db) ->
  cardOfActiveHall db (cardOf db g).
Proof.
  intros Hg.
  destruct (groupedRows_sound filters db g Hg)
    as (row & rows & Hin & Hrow & Hw & Hincl & Hmin & Hcur & _).
  apply whereRow_hall in Hw. destruct Hw as (Hst & _).
  exists (HallGroup.h g). cbn [cardOf PublicHallCardDTO.id PublicHallCardDTO.slug
    PublicHallCardDTO.name PublicHallCardDTO.startingFromPrice
    PublicHallCardDTO.startingFromCurrency].
  repeat split; auto.
  - intros p Ep. rewrite Hmin in Ep. apply minZ_spec in Ep. destruct Ep as [Ep _].
    apply in_map_iff in Ep. destruct Ep as (r0 & Er & Hr).
    exists r0. split; auto. apply joinedRows_rates.
    apply notNull_In in Hr. apply in_map_iff in Hr. destruct Hr as (x & Ex & Hx).
    apply in_map_iff. exists x. split; auto.
  - intros ->. reflexivity.
Qed.

(** The card of a group of the query passes the filters of the search. *)
Lemma cardOf_passes (filters : HallSearchFilters.t) (db : Db) (g : HallGroup.t) :
  In g (HallQueryService.groupedRows filters db) ->
  cardPasses filters db (cardOf db g).
Proof.
  intros Hg.
  destruct (groupedRows_sound filters db g Hg)
    as (row & rows & _ & _ & Hw & _ & _ & _ & Hhav).
  apply whereRow_hall in Hw.
  destruct Hw as (_ & Hcity & Hprem & Hmin & Hmax & Hdate).
  unfold cardPasses. cbn [cardOf PublicHallCardDTO.id PublicHallCardDTO.city
    PublicHallCardDTO.isPremium PublicHallCardDTO.capacity
    PublicHallCardDTO.startingFromPrice].
  unfold HallQueryService.having in Hhav.
  apply andb_true_iff in Hhav. destruct Hhav as [Hlo Hhi].
  repeat split; auto.
  - intros lo El. rewrite El in Hlo.
    destruct (HallGroup.min_price g) as [p|]; [|discriminate].
    exists p. split; auto. now apply Z.leb_le.
  - intros hi Eh. rewrite Eh in Hhi.
    destruct (HallGroup.min_price g) as [p|]; [|discriminate].
    exists p. split; auto. now apply Z.leb_le.
Qed.


(** X25. Every card of the public list passes the filters of the search: the
    city, the premium flag, the bounds on the capacity and on the starting
    price, and the day, on which no blocked date of the hall lies. *)
Theorem getPublicHallList_filters (filters : HallSearchFilters.t) (db : Db) :
  exists r,
    HallQueryService.getPublicHallList filters db = (Returned r, db)
    /\ Forall (cardPasses filters db) (data r).
Proof.
  destruct (getPublicHallList_cards filters db) as (r & R & _ & _ & _ & Hcards).
  exists r. split; [exact R|].
  eapply Forall_impl; [|exact Hcards]. cbv beta.
  intros c (g & Hg & ->). now apply cardOf_passes.
Qed.

(** X26. Blocking a date hides the hall on that date. After
    createHallBlockedDate has recorded a blocked date, no search for a day
    from its start to its end, or from its start when it has no end, lists
    the hall. *)
Theorem blocked_hall_not_listed (payload : CreateHallBlockedDatePayload.t)
  (now : time) (filters : HallSearchFilters.t) (d : date) (db : Db) :
  HallSearchFilters.date filters = Some d ->
  CreateHallBlockedDatePayload.startDate payload <= d ->
  (forall e, CreateHallBlockedDatePayload.endDate payload = Some e -> d <= e) ->
  exists dto db' r,
    PricingService.createHallBlockedDate payload now db = (Returned dto, db')
    /\ HallQueryService.getPublicHallList filters db' = (Returned r, db')
    /\ Forall (fun c => PublicHallCardDTO.id c
                        <> CreateHallBlockedDatePayload.hallId payload) (data r).
Proof.
  intros Ed Hs He.
  eexists _, _. 
  destruct (getPublicHallList_cards filters
              (setHallBlockedDates
                 (hallBlockedDates db ++ [newHallBlockedDate payload now (nextId db)])
                 (setNextId (N.succ (nextId db)) db)))
    as (r & R & _ & _ & _ & Hcards).
  exists r. split; [apply createHallBlockedDate_eq|]. split; [exact R|].
  eapply Forall_impl; [|exact Hcards]. cbv beta.
  intros c (g & Hg & ->) Eid.
  destruct (cardOf_passes _ _ _ Hg) as (_ & _ & _ & _ & _ & _ & Hdate).
  specialize (Hdate d Ed). rewrite Forall_forall in Hdate.
  apply (Hdate (newHallBlockedDate payload now (nextId db))).
  - cbn [hallBlockedDates setHallBlockedDates]. apply in_or_app. right. now left.
  - unfold blocks. cbn [newHallBlockedDate HallBlockedDate.hallId
      HallBlockedDate.startDate HallBlockedDate.endDate].
    repeat split; auto.
    destruct (CreateHallBlockedDatePayload.endDate payload) as [e|]; auto.
Qed.

Lemma sortOrderOf_total (sortBy : HallSortBy) :
  totalOrder (HallQueryService.sortOrderOf sortBy).
Proof.
  destruct sortBy; cbn [HallQueryService.sortOrderOf].
  - apply thenBy_total; [apply boolDesc_total|].
    apply thenBy_total; [apply ascNullsLast_total | apply desc_total].
  - apply ascNullsLast_total.
  - apply descNullsLast_total.
  - apply descNullsLast_total.
  - apply thenBy_total; [apply boolDesc_total | apply desc_total].
Qed.

Lemma sortOrderOf_transitive (sortBy : HallSortBy) :
  transitiveOrder (HallQueryService.sortOrderOf sortBy).
Proof.
  destruct sortBy; cbn [HallQueryService.sortOrderOf].
  - apply thenBy_transitive; [apply boolDesc_transitive|].
    apply thenBy_transitive; [apply ascNullsLast_transitive | apply desc_transitive].
  - apply ascNullsLast_transitive.
  - apply descNullsLast_transitive.
  - apply descNullsLast_transitive.
  - apply thenBy_transitive; [apply boolDesc_transitive | apply desc_transitive].
Qed.

Lemma cardOrder_sound (sortBy : option HallSortBy) (db : Db) (a b : HallGroup.t) :
  HallQueryService.sortOrderOf
    (match sortBy with Some s => s | None => featured end) a b = true ->
  cardOrder sortBy (cardOf db a) (cardOf db b).
Proof.
  assert (Hprem : forall le2,
             Sql.thenBy HallQueryService.premiumFirst le2 a b = true ->
             Hall.isPremium (HallGroup.h b) = true ->
             Hall.isPremium (HallGroup.h a) = true).
  { unfold Sql.thenBy, HallQueryService.premiumFirst, Sql.boolDesc.
    intros le2. destruct (Hall.isPremium (HallGroup.h b)),
      (Hall.isPremium (HallGroup.h a)); simpl; auto; discriminate. }
  destruct sortBy as [[| | | |]|];
    cbn [HallQueryService.sortOrderOf cardOrder cardOf PublicHallCardDTO.isPremium
         PublicHallCardDTO.startingFromPrice PublicHallCardDTO.capacity]; auto.
  - intros E. split; [now apply Hprem with (1 := E)|].
    intros Esame.
    change (Sql.ascNullsLast PublicHallCardDTO.startingFromPrice
              (cardOf db a) (cardOf db b))
      with (Sql.ascNullsLast HallGroup.min_price a b).
    revert E.
    unfold Sql.thenBy at 1. unfold HallQueryService.premiumFirst, Sql.boolDesc.
    rewrite Esame.
    destruct (Hall.isPremium (HallGroup.h b)); simpl; unfold Sql.thenBy;
      destruct (Sql.ascNullsLast HallGroup.min_price a b); auto; discriminate.
  - apply Hprem.
  - apply Hprem.
Qed.

(** X27. The cards of a page come in the order of the sort mode: premium
    halls first under featured, which is the default, and under relevance,
    where halls of the same flag come by ascending price; by ascending or
    descending starting price under price_asc and price_desc, and by
    descending capacity under capacity_desc, the cards without the value
    last. *)
Theorem getPublicHallList_sorted (filters : HallSearchFilters.t) (db : Db) :
  exists r,
    HallQueryService.getPublicHallList filters db = (Returned r, db)
    /\ StronglySorted (cardOrder (HallSearchFilters.sortBy filters)) (data r).
Proof.
  destruct (getPublicHallList_cards filters db) as (r & R & _ & _ & Hdata & _).
  exists r. split; [exact R|]. rewrite Hdata.
  apply StronglySorted_slice. apply StronglySorted_map.
  unfold HallQueryService.groupedRows.
  apply StronglySorted_impl
    with (R := fun a b =>
                 HallQueryService.sortOrderOf
                   (match HallSearchFilters.sortBy filters with
                    | Some s => s
                    | None => featured
                    end) a b = true).
  - intros a b. apply cardOrder_sound.
  - apply orderBy_sorted; [apply sortOrderOf_total | apply sortOrderOf_transitive].
Qed.

End PublicListTheorems.

Lemma blocked_hall_not_listed_witness :
  exists dto db' r,
    PricingService.createHallBlockedDate
      {| CreateHallBlockedDatePayload.hallId := 2;
         CreateHallBlockedDatePayload.startDate := 20000;
         CreateHallBlockedDatePayload.endDate := None;
         CreateHallBlockedDatePayload.reason := None;
         CreateHallBlockedDatePayload.createdByUserId := None |} 5000 dbPriced
    = (Returned dto, db')
    /\ @HallQueryService.getPublicHallList latin1
         {| HallSearchFilters.q := None; HallSearchFilters.city := None;
            HallSearchFilters.eventType := None;
            HallSearchFilters.date := Some 20010;
            HallSearchFilters.capacityMin := None;
            HallSearchFilters.capacityMax := None;
            HallSearchFilters.priceMin := None; HallSearchFilters.priceMax := None;
            HallSearchFilters.isPremium := None; HallSearchFilters.features := None;
            HallSearchFilters.sortBy := None;
            HallSearchFilters.page := 1%positive;
            HallSearchFilters.limit := 20%positive |} db'
       = (Returned r, db')
    /\ Forall (fun c => PublicHallCardDTO.id c <> 2) (data r).
Proof.
  apply (@blocked_hall_not_listed latin1
           {| CreateHallBlockedDatePayload.hallId := 2;
              CreateHallBlockedDatePayload.startDate := 20000;
              CreateHallBlockedDatePayload.endDate := None;
              CreateHallBlockedDatePayload.reason := None;
              CreateHallBlockedDatePayload.createdByUserId := None |} 5000 _ 20010
           dbPriced).
  - reflexivity.
  - simpl. lia.
  - discriminate.
Defined.

(** ** The public detail *)

(** The product of the public detail: the product and its rates, by time of
    creation. *)
Definition publicProductOf (db : Db) (product : HallProduct.t)
  : PublicHallProductDTO.t :=
  {| PublicHallProductDTO.id := HallProduct.id product;
     PublicHallProductDTO.name := HallProduct.name product;
     PublicHallProductDTO.category := HallProduct.category product;
     PublicHallProductDTO.description := HallProduct.description product;
     PublicHallProductDTO.isPrimary := HallProduct.isPrimary product;
     PublicHallProductDTO.rates :=
       map HallQueryService.toPublicRate
         (Sql.orderBy (Sql.asc HallProductRate.createdAt)
            (filter (fun r => HallProductRate.hallProductId r =? HallProduct.id product)
               (hallProductRates db))) |}.

(** The active products of a hall, as the detail lists them. *)
Definition activeProductsOf (db : Db) (hallId : uuid) : list HallProduct.t :=
  Sql.orderBy
    (Sql.thenBy (Sql.boolDesc HallProduct.isPrimary) (Sql.asc HallProduct.createdAt))
    (filter (fun p => (HallProduct.hallId p =? hallId)
                      && Bool.eqb (HallProduct.isActive p) true)
       (hallProducts db)).

Definition activeAddonsOf (db : Db) (hallId : uuid) : list HallAddon.t :=
  Sql.orderBy (Sql.asc HallAddon.createdAt)
    (filter (fun a => (HallAddon.hallId a =? hallId)
                      && Bool.eqb (HallAddon.isActive a) true)
       (hallAddons db)).

Definition galleryOf (db : Db) (hallId : uuid) : list Media.t :=
  Sql.orderBy
    (Sql.thenBy (Sql.ascNullsLast Media.sortOrder) (Sql.desc Media.createdAt))
    (filter (fun m => (Media.hallId m =? hallId)
                      && MediaType_eqb (Media.mediaType m) IMAGE && true)
       (media db)).

(** The public detail of a hall. *)
Definition detailOf `{Builtins} (db : Db) (hall : Hall.t) : PublicHallDetailDTO.t :=
  {| PublicHallDetailDTO.id := Hall.id hall;
     PublicHallDetailDTO.name := Hall.name hall;
     PublicHallDetailDTO.slug := Hall.slug hall;
     PublicHallDetailDTO.address := Hall.address hall;
     PublicHallDetailDTO.city := Hall.city hall;
     PublicHallDetailDTO.capacity := Hall.capacity hall;
     PublicHallDetailDTO.description := Hall.description hall;
     PublicHallDetailDTO.cancellationPolicy := Hall.cancellationPolicy hall;
     PublicHallDetailDTO.isPremium := Hall.isPremium hall;
     PublicHallDetailDTO.heroImageUrl :=
       option_map Media.fileUrl (heroOf db (Hall.id hall));
     PublicHallDetailDTO.gallery := galleryOf db (Hall.id hall);
     PublicHallDetailDTO.products :=
       map (publicProductOf db) (activeProductsOf db (Hall.id hall));
     PublicHallDetailDTO.addons :=
       map HallQueryService.toPublicAddon (activeAddonsOf db (Hall.id hall)) |}.

(** What the public detail shows of the pricing of a hall: active products
    of the hall with their own rates, and active addons of the hall. *)
Definition productShown (db : Db) (hallId : uuid) (p : PublicHallProductDTO.t) : Prop :=
  exists hp,
    In hp (hallProducts db)
    /\ HallProduct.id hp = PublicHallProductDTO.id p
    /\ HallProduct.hallId hp = hallId
    /\ HallProduct.isActive hp = true
    /\ Forall (fun r =>
                 exists hr,
                   In hr (hallProductRates db)
                   /\ HallProductRate.id hr = PublicHallRateDTO.id r
                   /\ HallProductRate.hallProductId hr = HallProduct.id hp
                   /\ HallProductRate.price hr = PublicHallRateDTO.price r)
         (PublicHallProductDTO.rates p).

Definition addonShown (db : Db) (hallId : uuid) (a : PublicHallAddonDTO.t) : Prop :=
  PublicHallAddonDTO.isActive a = true
  /\ exists ha,
       In ha (hallAddons db)
       /\ HallAddon.id ha = PublicHallAddonDTO.id a
       /\ HallAddon.hallId ha = hallId.

Section PublicDetail.
Context `{Builtins}.

Lemma toPublicProduct_reads (db : Db) (p : HallProduct.t) :
  HallQueryService.toPublicProduct p db = (Returned (publicProductOf db p), db).
Proof.
  unfold HallQueryService.toPublicProduct, PricingService.listHallProductRates,
    bind, gets, ret, publicProductOf, PricingService.toHallProductRateDTO.
  now rewrite map_id.
Qed.

Lemma mapM_toPublicProduct (db : Db) (l : list HallProduct.t) :
  mapM HallQueryService.toPublicProduct l db
  = (Returned (map (publicProductOf db) l), db).
Proof.
  induction l as [|p l IH]; simpl; auto.
  unfold bind at 1. rewrite toPublicProduct_reads.
  unfold bind at 1. rewrite IH. reflexivity.
Qed.

Lemma getPublicHallDetail_active (s : jsstring) (db : Db) (h : HallDTO) :
  HallService.getHallBySlug s db = (Returned h, db) ->
  Hall.status h = ACTIVE ->
  HallQueryService.getPublicHallDetail s db = (Returned (detailOf db h), db).
Proof.
  intros E Hs. unfold HallQueryService.getPublicHallDetail.
  rewrite (bind_returned _ _ _ _ _ E). rewrite Hs.
  cbn [HallStatus_eqb negb].
  unfold bind, MediaService.getPrimaryMediaForHall, MediaService.listMediaForHall,
    PricingService.getActiveProductsForHall, PricingService.listHallProducts,
    PricingService.listHallAddons, gets.
  unfold PricingService.toHallProductDTO, PricingService.toHallAddonDTO,
    MediaService.toMediaDTO.
  rewrite !map_id.
  fold (activeProductsOf db (Hall.id h)).
  rewrite mapM_toPublicProduct. cbv beta iota. rewrite !map_id. reflexivity.
Qed.

(** A detail that is returned is the detail of a hall of the table that is
    ACTIVE and has the slugified string as its slug; nothing is written. *)
Lemma getPublicHallDetail_returned (s : jsstring) (db db' : Db)
  (d : PublicHallDetailDTO.t) :
  HallQueryService.getPublicHallDetail s db = (Returned d, db') ->
  db' = db
  /\ exists h, In h (halls db) /\ Hall.slug h = HallService.slugify s
               /\ Hall.status h = ACTIVE /\ d = detailOf db h.
Proof.
  intros R.
  destruct (find (fun h => Js.eqb (Hall.slug h) (HallService.slugify s)) (halls db))
    as [h|] eqn:Ef.
  - assert (Eg : HallService.getHallBySlug s db = (Returned h, db)).
    { unfold HallService.getHallBySlug, bind, gets. rewrite Ef.
      unfold ret. now rewrite toDTO_eq. }
    apply find_some in Ef. destruct Ef as [Hin Es]. apply jseqb_eq in Es.
    destruct (Hall.status h) eqn:Hs.
    + rewrite (getPublicHallDetail_not_active s db h Eg) in R; [discriminate|].
      rewrite Hs. discriminate.
    + rewrite (getPublicHallDetail_active s db h Eg Hs) in R.
      injection R as <- <-. split; auto. exists h. auto.
    + rewrite (getPublicHallDetail_not_active s db h Eg) in R; [discriminate|].
      rewrite Hs. discriminate.
  - unfold HallQueryService.getPublicHallDetail in R.
    assert (Eg : HallService.getHallBySlug s db
                 = (Thrown (NotFoundError "Hall not found"), db)).
    { unfold HallService.getHallBySlug, bind, gets. now rewrite Ef. }
    rewrite (bind_thrown _ _ _ _ _ Eg) in R. discriminate.
Qed.

Lemma activeProductsOf_In (db : Db) (hallId : uuid) (hp : HallProduct.t) :
  In hp (activeProductsOf db hallId) <->
  In hp (hallProducts db) /\ HallProduct.hallId hp = hallId
  /\ HallProduct.isActive hp = true.
Proof.
  unfold activeProductsOf.
  rewrite orderBy_In, filter_In, andb_true_iff, N.eqb_eq, eqb_true_iff.
  reflexivity.
Qed.

Lemma detailOf_shows (db : Db) (h : Hall.t) :
  Forall (fun m => In m (media db) /\ Media.hallId m = Hall.id h
                   /\ Media.mediaType m = IMAGE)
    (PublicHallDetailDTO.gallery (detailOf db h))
  /\ Forall (productShown db (Hall.id h)) (PublicHallDetailDTO.products (detailOf db h))
  /\ Forall (addonShown db (Hall.id h)) (PublicHallDetailDTO.addons (detailOf db h)).
Proof.
  cbn [detailOf PublicHallDetailDTO.gallery PublicHallDetailDTO.products
       PublicHallDetailDTO.addons].
  split; [|split].
  - apply Forall_forall. intros m Hm. unfold galleryOf in Hm.
    apply orderBy_In in Hm. apply filter_In in Hm. destruct Hm as [Hin Ht].
    apply andb_true_iff in Ht. destruct Ht as [Ht _].
    apply andb_true_iff in Ht. destruct Ht as [Eh Et].
    apply N.eqb_eq in Eh. repeat split; auto.
    destruct (Media.mediaType m); simpl in Et; congruence.
  - apply Forall_forall. intros p Hp. apply in_map_iff in Hp.
    destruct Hp as (hp & <- & Hhp). apply activeProductsOf_In in Hhp.
    destruct Hhp as (Hin & Eh & Ea).
    exists hp. cbn [publicProductOf PublicHallProductDTO.id PublicHallProductDTO.rates].
    repeat split; auto.
    apply Forall_forall. intros r Hr. apply in_map_iff in Hr.
    destruct Hr as (hr & <- & Hhr). apply orderBy_In in Hhr.
    apply filter_In in Hhr. destruct Hhr as [Hrin Er]. apply N.eqb_eq in Er.
    exists hr. repeat split; auto.
  - apply Forall_forall. intros a Ha. apply in_map_iff in Ha.
    destruct Ha as (ha & <- & Hha). unfold activeAddonsOf in Hha.
    apply orderBy_In in Hha. apply filter_In in Hha. destruct Hha as [Hin Et].
    apply andb_true_iff in Et. destruct Et as [Eh Ea].
    apply N.eqb_eq in Eh. apply eqb_prop in Ea.
    split; [exact Ea|]. exists ha. repeat split; auto.
Qed.

(** X28. In a well-formed database, the public detail of the slug of an
    ACTIVE hall returns and reads only. It is the detail of that hall; its
    gallery holds IMAGE media of the hall only, its products are active
    products of the hall, each with rates of that product only, its addons
    are active addons of the hall, and no active product of the hall is left
    out. *)
Theorem getPublicHallDetail_of_active (db : Db) (h : Hall.t) :
  hallsWf db ->
  In h (halls db) ->
  Hall.status h = ACTIVE ->
  exists d,
    HallQueryService.getPublicHallDetail (Hall.slug h) db = (Returned d, db)
    /\ PublicHallDetailDTO.id d = Hall.id h
    /\ PublicHallDetailDTO.slug d = Hall.slug h
    /\ PublicHallDetailDTO.name d = Hall.name h
    /\ Forall (fun m => In m (media db) /\ Media.hallId m = Hall.id h
                        /\ Media.mediaType m = IMAGE)
         (PublicHallDetailDTO.gallery d)
    /\ Forall (productShown db (Hall.id h)) (PublicHallDetailDTO.products d)
    /\ Forall (addonShown db (Hall.id h)) (PublicHallDetailDTO.addons d)
    /\ (forall hp, In hp (hallProducts db) -> HallProduct.hallId hp = Hall.id h ->
          HallProduct.isActive hp = true ->
          In (HallProduct.id hp)
            (map PublicHallProductDTO.id (PublicHallDetailDTO.products d))).
Proof.
  intros (_ & _ & Hslug & Hnorm) Hin Hs.
  assert (Eg : HallService.getHallBySlug (Hall.slug h) db = (Returned h, db)).
  { unfold HallService.getHallBySlug, bind, gets.
    rewrite Forall_forall in Hnorm. rewrite (Hnorm h Hin).
    rewrite (find_by_unique_slug _ _ Hin Hslug). unfold ret. now rewrite toDTO_eq. }
  exists (detailOf db h).
  split; [now apply getPublicHallDetail_active|].
  destruct (detailOf_shows db h) as (Hg & Hp & Ha).
  repeat split; auto.
  intros hp Hhp Eh Ea.
  cbn [detailOf PublicHallDetailDTO.products]. rewrite map_map.
  cbn [publicProductOf PublicHallProductDTO.id].
  apply in_map. apply activeProductsOf_In. auto.
Qed.

(** X29. Deactivating a product hides it. After updateHallProduct has set
    isActive to false on a product, the product is not among the active
    products of any hall, no public detail shows it, and no card of the
    public list takes its price from one of its rates. *)
Theorem deactivated_product_hidden (id : uuid) (payload : UpdateHallProductPayload.t)
  (now : time) (db : Db) :
  In id (map HallProduct.id (hallProducts db)) ->
  UpdateHallProductPayload.isActive payload = Some false ->
  exists dto db',
    PricingService.updateHallProduct id payload now db = (Returned dto, db')
    /\ HallProduct.isActive dto = false
    /\ (forall hallId,
          exists l,
            PricingService.getActiveProductsForHall hallId db' = (Returned l, db')
            /\ Forall (fun p => HallProduct.id p <> id) l)
    /\ (forall s d, HallQueryService.getPublicHallDetail s db' = (Returned d, db') ->
          Forall (fun p => PublicHallProductDTO.id p <> id)
            (PublicHallDetailDTO.products d))
    /\ (forall filters,
          exists r,
            HallQueryService.getPublicHallList filters db' = (Returned r, db')
            /\ Forall (fun c =>
                         forall p, PublicHallCardDTO.startingFromPrice c = Some p ->
                           exists rate,
                             In rate (hallProductRates db')
                             /\ HallProductRate.price rate = p
                             /\ HallProductRate.hallProductId rate <> id)
                 (data r)).
Proof.
  intros Hin Hoff.
  destruct (find_some_in HallProduct.id id (hallProducts db) Hin) as [old Hf].
  assert (Hid : HallProduct.id old = id).
  { apply find_some in Hf. destruct Hf as [_ Hf]. now apply N.eqb_eq. }
  assert (R : exists dto db',
             PricingService.updateHallProduct id payload now db = (Returned dto, db')
             /\ HallProduct.isActive dto = false
             /\ HallProduct.id dto = id
             /\ hallProducts db'
                = map (fun p => if HallProduct.id p =? id then dto else p)
                    (hallProducts db)).
  { unfold PricingService.updateHallProduct, PricingService.findHallProduct,
      bind, gets, modify, ret.
    rewrite Hf. eexists _, _. split; [reflexivity|].
    cbn [hallProducts setHallProducts PricingService.toHallProductDTO
         HallProduct.isActive HallProduct.id].
    rewrite Hoff. repeat split. exact Hid. }
  destruct R as (dto & db' & R & Hina & Hdid & Hps).
  assert (Hoffall : forall p, In p (hallProducts db') -> HallProduct.isActive p = true ->
                              HallProduct.id p <> id).
  { intros p Hp Ha. rewrite Hps in Hp.
    apply (in_replaced HallProduct.id) in Hp. destruct Hp as [->|[_ Hne]]; auto.
    congruence. }
  exists dto, db'. split; [exact R|]. split; [exact Hina|].
  split; [|split].
  - intros hallId. eexists. split; [reflexivity|].
    unfold PricingService.toHallProductDTO. rewrite map_id.
    fold (activeProductsOf db' hallId).
    apply Forall_forall. intros p Hp. apply activeProductsOf_In in Hp.
    destruct Hp as (Hp & _ & Ha). auto.
  - intros s d Rd. apply getPublicHallDetail_returned in Rd.
    destruct Rd as (_ & h & _ & _ & _ & ->).
    cbn [detailOf PublicHallDetailDTO.products].
    apply Forall_forall. intros p Hp. apply in_map_iff in Hp.
    destruct Hp as (hp & <- & Hhp). apply activeProductsOf_In in Hhp.
    destruct Hhp as (Hhp & _ & Ha). cbn. auto.
  - intros filters.
    destruct (getPublicHallList_cards filters db')
      as (r & Rl & _ & _ & _ & Hcards).
    exists r. split; [exact Rl|].
    eapply Forall_impl; [|exact Hcards]. cbv beta.
    intros c (g & Hg & ->) p Ep.
    destruct (cardOf_active _ _ _ Hg) as (h & _ & _ & _ & _ & _ & Hprice & _).
    destruct (Hprice p Ep) as (rate & Hrate & Eprice).
    exists rate. unfold activeRates in Hrate. apply filter_In in Hrate.
    destruct Hrate as [Hrin Hex]. split; auto. split; auto.
    apply existsb_exists in Hex. destruct Hex as (hp & Hhp & Hex).
    apply andb_true_iff in Hex. destruct Hex as [Hex Er].
    apply andb_true_iff in Hex. destruct Hex as [_ Ea].
    apply N.eqb_eq in Er. rewrite Er. auto.
Qed.

End PublicDetail.

Lemma NoDup_slugs_dbPriced : NoDup (map Hall.slug (halls dbPriced)).
Proof.
  vm_compute.
  repeat (constructor; [simpl; intuition discriminate|]). constructor.
Qed.

Lemma dbPriced_hallsWf : @hallsWf latin1 dbPriced.
Proof.
  split; [|split; [|split]].
  - vm_compute. repeat (constructor; [simpl; intuition discriminate|]). constructor.
  - repeat constructor.
  - apply NoDup_slugs_dbPriced.
  - repeat constructor.
Qed.

Lemma getPublicHallDetail_of_active_witness :
  exists d,
    @HallQueryService.getPublicHallDetail latin1 (lit "two") dbPriced
    = (Returned d, dbPriced)
    /\ PublicHallDetailDTO.id d = 2
    /\ map PublicHallProductDTO.id (PublicHallDetailDTO.products d) = [12]
    /\ Forall (productShown dbPriced 2) (PublicHallDetailDTO.products d).
Proof.
  destruct (@getPublicHallDetail_of_active latin1 dbPriced
              (hallOf 2 (lit "two") ACTIVE 2000) dbPriced_hallsWf)
    as (d & R & Hid & _ & _ & _ & Hp & _).
  { simpl. auto. }
  { reflexivity. }
  exists d. split; [exact R|]. split; [exact Hid|]. split; [|exact Hp].
  vm_compute in R. injection R as <-. reflexivity.
Defined.

Definition deactivate : UpdateHallProductPayload.t :=
  {| UpdateHallProductPayload.name := None;
     UpdateHallProductPayload.category := None;
     UpdateHallProductPayload.description := None;
     UpdateHallProductPayload.isPrimary := None;
     UpdateHallProductPayload.isActive := Some false |}.

Lemma deactivated_product_hidden_witness :
  exists dto db',
    PricingService.updateHallProduct 12 deactivate 6000 dbPriced = (Returned dto, db')
    /\ HallProduct.isActive dto = false
    /\ idsAndPrices
         (@HallQueryService.getPublicHallList latin1
            (priceRange 0%Z 1000%Z 1%positive 20%positive) db')
       = [(1, Some 250%Z); (4, Some 700%Z)].
Proof.
  destruct (@deactivated_product_hidden latin1 12 deactivate 6000 dbPriced)
    as (dto & db' & R & Hoff & _).
  { vm_compute. auto. }
  { reflexivity. }
  exists dto, db'. split; [exact R|]. split; [exact Hoff|].
  vm_compute in R. injection R as <- <-. vm_compute. reflexivity.
Defined.

(** ** The databases the services reach *)

(** A call of a method of the services that writes a table with no amount
    column, or a change of the users table, which the services read and do
    not write: it is written by the authentication middleware, and may hold
    any keys at any time. *)
Inductive Call :=
| CallHall (op : HallOp)
| CallMedia (op : MediaOp)
| CallCreateHostApplication (payload : CreateHostApplicationPayload.t) (now : time)
| CallCreateHallProduct (payload : CreateHallProductPayload.t) (now : time)
| CallUpdateHallProduct (id : uuid) (payload : UpdateHallProductPayload.t) (now : time)
| CallCreateHallBlockedDate (payload : CreateHallBlockedDatePayload.t) (now : time)
| UsersBecome (userIds : list uuid).

(** The database after a call, whatever its outcome. *)
Definition runCall `{Builtins} (call : Call) (db : Db) : Db :=
  match call with
  | CallHall op => runHallOp op db
  | CallMedia op => runOp op db
  | CallCreateHostApplication payload now =>
      snd (HostApplicationService.createHostApplication payload now db)
  | CallCreateHallProduct payload now =>
      snd (PricingService.createHallProduct payload now db)
  | CallUpdateHallProduct id payload now =>
      snd (PricingService.updateHallProduct id payload now db)
  | CallCreateHallBlockedDate payload now =>
      snd (PricingService.createHallBlockedDate payload now db)
  | UsersBecome userIds => setUsers userIds db
  end.

Definition runCalls `{Builtins} (calls : list Call) (db : Db) : Db :=
  fold_left (fun d call => runCall call d) calls db.












Section Reachable.
Context `{Builtins}.















End Reachable.

Definition ownedBy (gerantId : uuid) : CreateHallPayload.t :=
  {| CreateHallPayload.name := lit "Lakeview";
     CreateHallPayload.slug := None;
     CreateHallPayload.address := None;
     CreateHallPayload.city := Some (lit "Kinshasa");
     CreateHallPayload.capacity := None;
     CreateHallPayload.description := None;
     CreateHallPayload.cancellationPolicy := None;
     CreateHallPayload.isPremium := None;
     CreateHallPayload.status := None;
     CreateHallPayload.gerantId := Some gerantId |}.

(** The users 7, 9 and 5 sign in. A hall is created for user 7 and handed
    over to user 9; a hall is created for 8, who is no user, and has no
    OWNER row; and a third hall is created by the approval of the
    application of user 5. *)
Example owners_after_calls :
  let db :=
    @runCalls latin1
      [UsersBecome [7; 9; 5];
       CallHall (OpCreateHall (ownedBy 7) 1000);
       CallHall (OpUpdateHall 1 (updatePayload None (Some (Some 9))) 2000);
       CallHall (OpCreateHall (ownedBy 8) 2500);
       CallCreateHostApplication becomeHost 3000;
       CallHall (OpUpdateHostApplicationStatus 5 approve 4000)] emptyDb in
  map (fun h => (Hall.id h, Hall.slug h, Hall.gerantId h)) (halls db)
  = [(1, lit "lakeview-kinshasa", Some 9); (4, lit "lakeview-kinshasa-2", Some 8);
     (6, lit "lakeview-kinshasa-3", Some 5)]
  /\ map (fun r => (HallUserRole.hall_id r, HallUserRole.user_id r)) (hallUserRoles db)
     = [(1, 9); (6, 5)].
Proof. vm_compute. split; reflexivity. Qed.



